(** * YMODEM file transfer: sender and receiver state machines

    A shallow embedding of [ymodem_common.c], [ymodem_send.c] and
    [ymodem_receive.c].  Bytes and machine integers are values of [Z]
    with the truncations of the C types written out.  The transport and
    file callbacks are functions over an abstract environment [World];
    every call through a callback is appended to a trace, so that what
    happens on the wire and on the file can be stated. *)

From Stdlib Require Import ZArith List Lia Bool.
Import ListNotations.
Local Open Scope Z_scope.

(** ** Protocol constants ([ymodem_common.h]) *)

Definition YMODEM_CODE_NONE : Z := 0x00.
Definition YMODEM_CODE_SOH  : Z := 0x01.
Definition YMODEM_CODE_STX  : Z := 0x02.
Definition YMODEM_CODE_EOT  : Z := 0x04.
Definition YMODEM_CODE_ACK  : Z := 0x06.
Definition YMODEM_CODE_NAK  : Z := 0x15.
Definition YMODEM_CODE_CAN  : Z := 0x18.
Definition YMODEM_CODE_C    : Z := 0x43.

Definition YMODEM_ERR_NONE : Z := 0.
Definition YMODEM_ERR_TMO  : Z := -1.
Definition YMODEM_ERR_CODE : Z := -2.
Definition YMODEM_ERR_SEQ  : Z := -3.
Definition YMODEM_ERR_CRC  : Z := -4.
Definition YMODEM_ERR_DSZ  : Z := -5.
Definition YMODEM_ERR_CAN  : Z := -6.
Definition YMODEM_ERR_ACK  : Z := -7.
Definition YMODEM_ERR_FILE : Z := -8.
Definition YMODEM_ERR_MEM  : Z := -9.

Inductive ymodem_stage : Type :=
| YMODEM_STAGE_NONE
| YMODEM_STAGE_ESTABLISHING
| YMODEM_STAGE_ESTABLISHED
| YMODEM_STAGE_TRANSMITTING
| YMODEM_STAGE_FINISHING
| YMODEM_STAGE_FINISHED.

Definition stage_eqb (a b : ymodem_stage) : bool :=
  match a, b with
  | YMODEM_STAGE_NONE, YMODEM_STAGE_NONE
  | YMODEM_STAGE_ESTABLISHING, YMODEM_STAGE_ESTABLISHING
  | YMODEM_STAGE_ESTABLISHED, YMODEM_STAGE_ESTABLISHED
  | YMODEM_STAGE_TRANSMITTING, YMODEM_STAGE_TRANSMITTING
  | YMODEM_STAGE_FINISHING, YMODEM_STAGE_FINISHING
  | YMODEM_STAGE_FINISHED, YMODEM_STAGE_FINISHED => true
  | _, _ => false
  end.

Definition YMODEM_WAIT_CHAR_TIMEOUT_MS   : Z := 3000.
Definition YMODEM_WAIT_PACKET_TIMEOUT_MS : Z := 3000.
Definition YMODEM_HANDSHAKE_INTERVAL_MS  : Z := 1000.
Definition YMODEM_MAX_ERRORS             : Z := 5.
Definition YMODEM_CAN_SEND_COUNT         : Z := 7.

Definition YMODEM_SOH_DATA_SIZE : Z := 128.
Definition YMODEM_STX_DATA_SIZE : Z := 1024.
Definition YMODEM_SOH_PACKET_SIZE : Z := 1 + 2 + YMODEM_SOH_DATA_SIZE + 2.
Definition YMODEM_STX_PACKET_SIZE : Z := 1 + 2 + YMODEM_STX_DATA_SIZE + 2.
Definition YMODEM_MAX_PACKET_SIZE : Z := YMODEM_STX_PACKET_SIZE.
Definition YMODEM_MAX_FILENAME_LENGTH : Z := 256.

Definition NULL : Z := 0.

(** ** Machine integers *)

(** Conversion to [uint8_t], [uint16_t], [size_t] (64 bits) and [int]
    (32 bits, two's complement). *)
Definition u8 (x : Z) : Z := x mod 256.
Definition u16 (x : Z) : Z := x mod 65536.
Definition usize (x : Z) : Z := x mod 2 ^ 64.
Definition sint (x : Z) : Z := (x + 2 ^ 31) mod 2 ^ 32 - 2 ^ 31.

(** ** Byte buffers *)

Definition len (buf : list Z) : Z := Z.of_nat (length buf).

(** [buf[i]] *)
Definition load (buf : list Z) (i : Z) : Z := nth (Z.to_nat i) buf 0.

(** [memcpy(buf + off, src, |src|)].  A copy that stays inside [buf]
    keeps its length; one that runs past the end makes the list longer,
    so an overrun shows as a change of length. *)
Definition memcpy (buf : list Z) (off : Z) (src : list Z) : list Z :=
  firstn (Z.to_nat off) buf ++ src
    ++ skipn (Z.to_nat off + length src) buf.

(** [buf[i] = v] *)
Definition store (buf : list Z) (i : Z) (v : Z) : list Z :=
  memcpy buf i [v].

(** [memset(buf + off, v, n)] *)
Definition memset (buf : list Z) (off : Z) (v : Z) (n : Z) : list Z :=
  memcpy buf off (repeat v (Z.to_nat n)).

(** The [n] bytes at [buf + off]. *)
Definition slice (buf : list Z) (off n : Z) : list Z :=
  firstn (Z.to_nat n) (skipn (Z.to_nat off) buf).

(** ** CRC-16/CCITT ([ymodem_common.c]) *)

Definition crc16_ccitt_table : list Z :=
  [
   0x0000; 0x1021; 0x2042; 0x3063; 0x4084; 0x50A5; 0x60C6; 0x70E7;
   0x8108; 0x9129; 0xA14A; 0xB16B; 0xC18C; 0xD1AD; 0xE1CE; 0xF1EF;
   0x1231; 0x0210; 0x3273; 0x2252; 0x52B5; 0x4294; 0x72F7; 0x62D6;
   0x9339; 0x8318; 0xB37B; 0xA35A; 0xD3BD; 0xC39C; 0xF3FF; 0xE3DE;
   0x2462; 0x3443; 0x0420; 0x1401; 0x64E6; 0x74C7; 0x44A4; 0x5485;
   0xA56A; 0xB54B; 0x8528; 0x9509; 0xE5EE; 0xF5CF; 0xC5AC; 0xD58D;
   0x3653; 0x2672; 0x1611; 0x0630; 0x76D7; 0x66F6; 0x5695; 0x46B4;
   0xB75B; 0xA77A; 0x9719; 0x8738; 0xF7DF; 0xE7FE; 0xD79D; 0xC7BC;
   0x48C4; 0x58E5; 0x6886; 0x78A7; 0x0840; 0x1861; 0x2802; 0x3823;
   0xC9CC; 0xD9ED; 0xE98E; 0xF9AF; 0x8948; 0x9969; 0xA90A; 0xB92B;
   0x5AF5; 0x4AD4; 0x7AB7; 0x6A96; 0x1A71; 0x0A50; 0x3A33; 0x2A12;
   0xDBFD; 0xCBDC; 0xFBBF; 0xEB9E; 0x9B79; 0x8B58; 0xBB3B; 0xAB1A;
   0x6CA6; 0x7C87; 0x4CE4; 0x5CC5; 0x2C22; 0x3C03; 0x0C60; 0x1C41;
   0xEDAE; 0xFD8F; 0xCDEC; 0xDDCD; 0xAD2A; 0xBD0B; 0x8D68; 0x9D49;
   0x7E97; 0x6EB6; 0x5ED5; 0x4EF4; 0x3E13; 0x2E32; 0x1E51; 0x0E70;
   0xFF9F; 0xEFBE; 0xDFDD; 0xCFFC; 0xBF1B; 0xAF3A; 0x9F59; 0x8F78;
   0x9188; 0x81A9; 0xB1CA; 0xA1EB; 0xD10C; 0xC12D; 0xF14E; 0xE16F;
   0x1080; 0x00A1; 0x30C2; 0x20E3; 0x5004; 0x4025; 0x7046; 0x6067;
   0x83B9; 0x9398; 0xA3FB; 0xB3DA; 0xC33D; 0xD31C; 0xE37F; 0xF35E;
   0x02B1; 0x1290; 0x22F3; 0x32D2; 0x4235; 0x5214; 0x6277; 0x7256;
   0xB5EA; 0xA5CB; 0x95A8; 0x8589; 0xF56E; 0xE54F; 0xD52C; 0xC50D;
   0x34E2; 0x24C3; 0x14A0; 0x0481; 0x7466; 0x6447; 0x5424; 0x4405;
   0xA7DB; 0xB7FA; 0x8799; 0x97B8; 0xE75F; 0xF77E; 0xC71D; 0xD73C;
   0x26D3; 0x36F2; 0x0691; 0x16B0; 0x6657; 0x7676; 0x4615; 0x5634;
   0xD94C; 0xC96D; 0xF90E; 0xE92F; 0x99C8; 0x89E9; 0xB98A; 0xA9AB;
   0x5844; 0x4865; 0x7806; 0x6827; 0x18C0; 0x08E1; 0x3882; 0x28A3;
   0xCB7D; 0xDB5C; 0xEB3F; 0xFB1E; 0x8BF9; 0x9BD8; 0xABBB; 0xBB9A;
   0x4A75; 0x5A54; 0x6A37; 0x7A16; 0x0AF1; 0x1AD0; 0x2AB3; 0x3A92;
   0xFD2E; 0xED0F; 0xDD6C; 0xCD4D; 0xBDAA; 0xAD8B; 0x9DE8; 0x8DC9;
   0x7C26; 0x6C07; 0x5C64; 0x4C45; 0x3CA2; 0x2C83; 0x1CE0; 0x0CC1;
   0xEF1F; 0xFF3E; 0xCF5D; 0xDF7C; 0xAF9B; 0xBFBA; 0x8FD9; 0x9FF8;
   0x6E17; 0x7E36; 0x4E55; 0x5E74; 0x2E93; 0x3EB2; 0x0ED1; 0x1EF0
  ].

(** One round of the loop of [ymodem_calc_crc16]:
    [crc = (crc << 8) ^ crc16_ccitt_table[((crc >> 8) ^ byte) & 0xFF]],
    the result stored in a [uint16_t]. *)
Definition crc16_update (crc byte : Z) : Z :=
  u16 (Z.lxor (Z.shiftl crc 8)
         (load crc16_ccitt_table
            (Z.land (Z.lxor (Z.shiftr crc 8) byte) 0xFF))).

Definition ymodem_calc_crc16 (buffer : list Z) : Z :=
  fold_left crc16_update buffer 0.

(** The same checksum bit by bit: polynomial 0x1021, initial value 0,
    most significant bit first, no final xor. *)
Definition crc16_shift (crc : Z) : Z :=
  if Z.testbit crc 15
  then u16 (Z.lxor (Z.shiftl crc 1) 0x1021)
  else u16 (Z.shiftl crc 1).

Definition crc16_bitwise_update (crc byte : Z) : Z :=
  Nat.iter 8 crc16_shift (Z.lxor crc (Z.shiftl byte 8)).

Definition crc16_bitwise (buffer : list Z) : Z :=
  fold_left crc16_bitwise_update buffer 0.

(** ** C strings *)

(** The characters of a NUL-terminated string stored in [s]. *)
Fixpoint cstring (s : list Z) : list Z :=
  match s with
  | [] => []
  | c :: r => if c =? 0 then [] else c :: cstring r
  end.

Definition strlen (s : list Z) : Z := len (cstring s).

(** [strrchr(s, c) + 1]: what follows the last [c] of [s], if any. *)
Fixpoint after_last (c : Z) (s : list Z) : option (list Z) :=
  match s with
  | [] => None
  | x :: r =>
      match after_last c r with
      | Some t => Some t
      | None => if x =? c then Some r else None
      end
  end.

Definition ymodem_get_path_basename (path : list Z) : list Z :=
  match after_last 47 path with
  | Some b => b
  | None =>
      match after_last 92 path with
      | Some b => b
      | None => path
      end
  end.

(** [strncpy(dst, src, n)]: at most [n] characters, the rest of the
    [n] bytes filled with NUL. *)
Definition strncpy (dst src : list Z) (n : Z) : list Z :=
  let s := firstn (Z.to_nat n) src in
  memcpy dst 0 (s ++ repeat 0 (Z.to_nat n - length s)).

(** The digits that [snprintf(.., "%d", n)] prints for an [int]. *)
Fixpoint decimal_digits (fuel : nat) (n : Z) (acc : list Z) : list Z :=
  match fuel with
  | O => acc
  | S f =>
      let acc' := (48 + n mod 10) :: acc in
      if n / 10 =? 0 then acc' else decimal_digits f (n / 10) acc'
  end.

Definition snprintf_d (size : Z) (n : Z) : list Z :=
  let s := if n <? 0 then 45 :: decimal_digits 10 (- n) []
           else decimal_digits 10 n [] in
  firstn (Z.to_nat (size - 1)) s.

(** ** Callbacks, context and environment *)

Section Ymodem.

(** The state of everything outside the library: the serial line, the
    peer, the file system. *)
Context {World : Type}.

(** [ymodem_callbacks_t], the transport callbacks with the block
    signatures that [ymodem_common.c] calls them with and [demo.c]
    implements.  A callback that fills a buffer returns the bytes it
    delivered, their number being its return value; [void*] file
    handles are integers, [NULL] being 0. *)
Record ymodem_callbacks_t : Type := mk_callbacks {
  cb_file_open  : list Z -> bool -> World -> Z * World;
  cb_file_read  : Z -> Z -> World -> list Z * World;
  cb_file_write : Z -> list Z -> World -> Z * World;
  cb_file_close : Z -> World -> World;
  cb_file_size  : Z -> World -> Z * World;
  cb_comm_send    : list Z -> World -> Z * World;
  cb_comm_receive : Z -> Z -> World -> list Z * World
}.

Record ymodem_file_info_t : Type := mk_file_info {
  fi_filename : list Z;
  fi_filesize : Z
}.

(** [ymodem_context_t], with the second buffer that [ymodem_send.c]
    builds its frames in ([ctx->send_buffer], [ctx->send_buffer_size]);
    [buffer_size] and [send_buffer_size] are the lengths of the two
    buffers. *)
Record ymodem_context_t : Type := mk_ctx {
  callbacks   : ymodem_callbacks_t;
  stage       : ymodem_stage;
  buffer      : list Z;
  send_buffer : list Z;
  file_handle : Z;
  file_size   : Z;
  filename    : list Z;
  packet_seq  : Z;
  error_count : Z
}.

Definition buffer_size (c : ymodem_context_t) : Z := len (buffer c).
Definition send_buffer_size (c : ymodem_context_t) : Z := len (send_buffer c).

Definition set_stage (v : ymodem_stage) (c : ymodem_context_t) :=
  mk_ctx (callbacks c) v (buffer c) (send_buffer c) (file_handle c)
         (file_size c) (filename c) (packet_seq c) (error_count c).
Definition set_buffer (v : list Z) (c : ymodem_context_t) :=
  mk_ctx (callbacks c) (stage c) v (send_buffer c) (file_handle c)
         (file_size c) (filename c) (packet_seq c) (error_count c).
Definition set_send_buffer (v : list Z) (c : ymodem_context_t) :=
  mk_ctx (callbacks c) (stage c) (buffer c) v (file_handle c)
         (file_size c) (filename c) (packet_seq c) (error_count c).
Definition set_file_handle (v : Z) (c : ymodem_context_t) :=
  mk_ctx (callbacks c) (stage c) (buffer c) (send_buffer c) v
         (file_size c) (filename c) (packet_seq c) (error_count c).
Definition set_file_size (v : Z) (c : ymodem_context_t) :=
  mk_ctx (callbacks c) (stage c) (buffer c) (send_buffer c) (file_handle c)
         v (filename c) (packet_seq c) (error_count c).
Definition set_filename (v : list Z) (c : ymodem_context_t) :=
  mk_ctx (callbacks c) (stage c) (buffer c) (send_buffer c) (file_handle c)
         (file_size c) v (packet_seq c) (error_count c).
Definition set_packet_seq (v : Z) (c : ymodem_context_t) :=
  mk_ctx (callbacks c) (stage c) (buffer c) (send_buffer c) (file_handle c)
         (file_size c) (filename c) v (error_count c).
Definition set_error_count (v : Z) (c : ymodem_context_t) :=
  mk_ctx (callbacks c) (stage c) (buffer c) (send_buffer c) (file_handle c)
         (file_size c) (filename c) (packet_seq c) v.

(** One call through a callback, with what it returned. *)
Inductive event : Type :=
| EvSend  (data : list Z) (sent : Z)
| EvRecv  (max_length timeout_ms : Z) (data : list Z)
| EvOpen  (name : list Z) (writing : bool) (handle : Z)
| EvRead  (handle size : Z) (data : list Z)
| EvWrite (handle : Z) (data : list Z) (written : Z)
| EvClose (handle : Z)
| EvSize  (handle : Z) (size : Z).

(** What a transfer works on: the context, the caller's file-info
    struct, the environment, and the calls made so far. *)
Record machine : Type := mk_machine {
  m_ctx   : ymodem_context_t;
  m_info  : ymodem_file_info_t;
  m_world : World;
  m_trace : list event
}.

Definition M (A : Type) : Type := machine -> A * machine.

Definition ret {A : Type} (a : A) : M A := fun m => (a, m).

Definition bind {A B : Type} (x : M A) (k : A -> M B) : M B :=
  fun m => let (a, m') := x m in k a m'.

Notation "x <- e ;; k" := (bind e (fun x => k))
  (at level 61, e at next level, right associativity).
Notation "e ;; k" := (bind e (fun _ => k))
  (at level 61, right associativity).

Definition get_ctx : M ymodem_context_t := fun m => (m_ctx m, m).

Definition modify_ctx (f : ymodem_context_t -> ymodem_context_t) : M unit :=
  fun m => (tt, mk_machine (f (m_ctx m)) (m_info m) (m_world m) (m_trace m)).

(** A call through a callback: run it on the environment, log it. *)
Definition callback {A : Type}
  (f : ymodem_callbacks_t -> World -> A * World) (ev : A -> event) : M A :=
  fun m =>
    let (a, w) := f (callbacks (m_ctx m)) (m_world m) in
    (a, mk_machine (m_ctx m) (m_info m) w (m_trace m ++ [ev a])).

(** ** Transport adapter ([ymodem_common.c]) *)

(** [ymodem_send_bytes]: the number of bytes the transport accepted.
    The context is an initialised one, whose callbacks
    [ymodem_send_init] and [ymodem_receive_init] have checked. *)
Definition ymodem_send_bytes (data : list Z) : M Z :=
  callback (fun cb w => let (sent, w') := cb_comm_send cb data w in
                        (usize sent, w'))
           (EvSend data).

Definition ymodem_send_byte (data : Z) : M bool :=
  sent <- ymodem_send_bytes [u8 data] ;;
  ret (sent =? 1).

(** [ymodem_receive_bytes]: the bytes the transport stored at [data];
    the return value of the C function is their number. *)
Definition ymodem_receive_bytes (length timeout_ms : Z) : M (list Z) :=
  callback (fun cb w => let (data, w') := cb_comm_receive cb length timeout_ms w in
                        (map u8 data, w'))
           (EvRecv length timeout_ms).

Definition ymodem_receive_byte (timeout_ms : Z) : M Z :=
  data <- ymodem_receive_bytes 1 timeout_ms ;;
  if len data =? 0 then ret YMODEM_ERR_TMO else ret (load data 0).

(** ** Sender ([ymodem_send.c]) *)

Definition ymodem_send_init (ctx : ymodem_context_t)
    (cbs : ymodem_callbacks_t) (buf sbuf : list Z) : Z * ymodem_context_t :=
  if (len buf <? YMODEM_MAX_PACKET_SIZE) || (len sbuf <? YMODEM_MAX_PACKET_SIZE)
  then (YMODEM_ERR_DSZ, ctx)
  else (YMODEM_ERR_NONE,
        mk_ctx cbs YMODEM_STAGE_NONE buf sbuf NULL 0
               (store (filename ctx) 0 0) 0 0).

Definition _ymodem_send_packet (code : Z) (seq : Z) (data : list Z) : M Z :=
  let data_size := len data in
  if (code =? YMODEM_CODE_SOH) && negb (data_size =? YMODEM_SOH_DATA_SIZE)
  then ret YMODEM_ERR_DSZ
  else if (code =? YMODEM_CODE_STX) && negb (data_size =? YMODEM_STX_DATA_SIZE)
  then ret YMODEM_ERR_DSZ
  else
    let packet_size := 1 + 1 + 1 + data_size + 2 in
    ctx <- get_ctx ;;
    if send_buffer_size ctx <? packet_size
    then ret YMODEM_ERR_DSZ
    else
      let sb := store (send_buffer ctx) 0 (u8 code) in
      let sb := store sb 1 (u8 seq) in
      let sb := store sb 2 (u8 (Z.lnot (u8 seq))) in
      let sb := memcpy sb 3 data in
      let crc := ymodem_calc_crc16 (slice sb 3 data_size) in
      let sb := store sb (3 + data_size) (u8 (Z.land (Z.shiftr crc 8) 0xFF)) in
      let sb := store sb (3 + data_size + 1) (u8 (Z.land crc 0xFF)) in
      modify_ctx (set_send_buffer sb) ;;
      sent <- ymodem_send_bytes (slice sb 0 packet_size) ;;
      if sent =? 0 then ret YMODEM_ERR_CODE else ret YMODEM_ERR_NONE.

Definition _ymodem_prepare_file_info_packet (fname : list Z) : M Z :=
  ctx <- get_ctx ;;
  let buf := memset (buffer ctx) 3 0 YMODEM_SOH_DATA_SIZE in
  modify_ctx (set_buffer buf) ;;
  let name_len := strlen fname in
  if name_len >=? YMODEM_SOH_DATA_SIZE
  then ret YMODEM_ERR_DSZ
  else
    let buf := memcpy buf 3 (cstring fname) in
    let buf := store buf (3 + name_len) 0 in
    modify_ctx (set_buffer buf) ;;
    let file_size_str := snprintf_d 20 (file_size ctx) in
    let size_len := len file_size_str in
    if name_len + 1 + size_len >=? YMODEM_SOH_DATA_SIZE
    then ret YMODEM_ERR_DSZ
    else
      modify_ctx (set_buffer (memcpy buf (3 + name_len + 1) file_size_str)) ;;
      ret YMODEM_ERR_NONE.

(** The first loop of [_ymodem_do_send_handshake]:
    [for (i = 0; i < timeout_s; i++)], left by [break] when a 'C'
    arrives.  The result is the value of [i] after the loop; [n]
    bounds the number of rounds left. *)
Fixpoint send_wait_c (n : nat) (i timeout_s : Z) : M Z :=
  match n with
  | O => ret i
  | S n' =>
      if i <? timeout_s then
        r <- ymodem_receive_byte YMODEM_HANDSHAKE_INTERVAL_MS ;;
        if r =? YMODEM_CODE_C then ret i
        else send_wait_c n' (i + 1) timeout_s
      else ret i
  end.

(** The second loop of [_ymodem_do_send_handshake]:
    [for (i = 0; i < 5; i++)], with [n] rounds left; the result is
    [(got_ack, got_c)] after the loop. *)
Fixpoint send_wait_ack_c (n : nat) (got_ack got_c : bool) : M (bool * bool) :=
  match n with
  | O => ret (got_ack, got_c)
  | S n' =>
      r <- ymodem_receive_byte YMODEM_WAIT_PACKET_TIMEOUT_MS ;;
      let got_ack := if r =? YMODEM_CODE_ACK then true else got_ack in
      let got_c := if r =? YMODEM_CODE_ACK then got_c
                   else if r =? YMODEM_CODE_C then true else got_c in
      if got_ack && got_c then ret (got_ack, got_c)
      else if got_ack && negb got_c then send_wait_ack_c n' got_ack got_c
      else if negb got_ack && got_c then ret (true, got_c)
      else send_wait_ack_c n' got_ack got_c
  end.

(** What [_ymodem_do_send_handshake] does once packet 0 is sent. *)
Definition send_handshake_reply : M Z :=
  g <- send_wait_ack_c 5 false false ;;
  let (got_ack, got_c) := g : bool * bool in
  if negb got_ack || negb got_c then ret YMODEM_ERR_ACK
  else
    modify_ctx (set_stage YMODEM_STAGE_ESTABLISHED) ;;
    modify_ctx (set_packet_seq 1) ;;
    ret YMODEM_ERR_NONE.

Definition _ymodem_do_send_handshake (timeout_s : Z) : M Z :=
  modify_ctx (set_stage YMODEM_STAGE_ESTABLISHING) ;;
  i <- send_wait_c (Z.to_nat timeout_s) 0 timeout_s ;;
  if i =? timeout_s then ret YMODEM_ERR_TMO
  else
    ctx <- get_ctx ;;
    r <- _ymodem_prepare_file_info_packet (filename ctx) ;;
    if negb (r =? YMODEM_ERR_NONE) then ret r
    else
      ctx <- get_ctx ;;
      r <- _ymodem_send_packet YMODEM_CODE_SOH 0
             (slice (buffer ctx) 3 YMODEM_SOH_DATA_SIZE) ;;
      if negb (r =? YMODEM_ERR_NONE) then ret r
      else send_handshake_reply.

(** The loop [for (retry_read = 0; retry_read < 10; retry_read++)] of
    [_ymodem_do_send_trans], with [n] rounds left; the result is
    [actual_read]. *)
Fixpoint send_read_block (n : nat) (actual_read read_size : Z) : M Z :=
  match n with
  | O => ret actual_read
  | S n' =>
      ctx <- get_ctx ;;
      data <- callback
                (fun cb w =>
                   let (d, w') := cb_file_read cb (file_handle ctx)
                                    (usize (read_size - actual_read)) w in
                   (map u8 d, w'))
                (EvRead (file_handle ctx) (usize (read_size - actual_read))) ;;
      modify_ctx (set_buffer (memcpy (buffer ctx) (3 + actual_read) data)) ;;
      let actual_read := usize (actual_read + len data) in
      if actual_read =? read_size then ret actual_read
      else send_read_block n' actual_read read_size
  end.

(** The loop [while (retries < YMODEM_MAX_ERRORS)] that sends one data
    packet.  [inl retries] is the value of [retries] when the loop is
    left, [inr e] a [return e] from inside it; [n] bounds the number of
    rounds left. *)
Fixpoint send_data_packet (n : nat) (retries : Z)
    (packet_type read_size : Z) : M (Z + Z) :=
  match n with
  | O => ret (inl retries)
  | S n' =>
      if retries <? YMODEM_MAX_ERRORS then
        ctx <- get_ctx ;;
        r <- _ymodem_send_packet packet_type (packet_seq ctx)
               (slice (buffer ctx) 3 read_size) ;;
        if negb (r =? YMODEM_ERR_NONE)
        then send_data_packet n' (retries + 1) packet_type read_size
        else
          r <- ymodem_receive_byte YMODEM_WAIT_PACKET_TIMEOUT_MS ;;
          if r =? YMODEM_CODE_ACK then ret (inl retries)
          else if r =? YMODEM_CODE_NAK
          then send_data_packet n' (retries + 1) packet_type read_size
          else if r =? YMODEM_CODE_C then ret (inl retries)
          else if r =? YMODEM_CODE_CAN then ret (inr YMODEM_ERR_CAN)
          else send_data_packet n' (retries + 1) packet_type read_size
      else ret (inl retries)
  end.

(** The start of a round of the [while (1)] of [_ymodem_do_send_trans]:
    read a block, pad it, choose the header.  The result is
    [(actual_read, packet_type, read_size)]. *)
Definition send_trans_prepare : M (Z * Z * Z) :=
  let read_size := YMODEM_STX_DATA_SIZE in
  actual_read <- send_read_block 10 0 read_size ;;
  if actual_read =? 0 then ret (actual_read, YMODEM_CODE_STX, read_size)
  else
    (if actual_read <? read_size
     then
       ctx <- get_ctx ;;
       modify_ctx (set_buffer (memset (buffer ctx) (3 + actual_read) 0x1A
                                      (read_size - actual_read))) ;;
       modify_ctx (set_stage YMODEM_STAGE_FINISHING)
     else ret tt) ;;
    if actual_read <=? 128
    then ret (actual_read, YMODEM_CODE_SOH, YMODEM_SOH_DATA_SIZE)
    else ret (actual_read, YMODEM_CODE_STX, read_size).

(** One round of the [while (1)]: [Some r] when the function returns
    [r] in this round, [None] when the next round follows. *)
Definition send_trans_round : M (option Z) :=
  p <- send_trans_prepare ;;
  let '(actual_read, packet_type, read_size) := p : Z * Z * Z in
  if actual_read =? 0 then ret (Some YMODEM_ERR_NONE)
  else
    r <- send_data_packet (Z.to_nat YMODEM_MAX_ERRORS) 0 packet_type read_size ;;
    match r with
    | inr e => ret (Some e)
    | inl retries =>
        if retries >=? YMODEM_MAX_ERRORS then ret (Some YMODEM_ERR_ACK)
        else
          ctx <- get_ctx ;;
          modify_ctx (set_packet_seq (Z.land (packet_seq ctx + 1) 0xFF)) ;;
          if stage_eqb (stage ctx) YMODEM_STAGE_FINISHING
          then ret (Some YMODEM_ERR_NONE)
          else ret None
    end.

(** The [while (1)] itself; the result is [None] when [fuel] rounds
    were not enough for it to end. *)
Fixpoint send_trans_loop (fuel : nat) : M (option Z) :=
  match fuel with
  | O => ret None
  | S fuel' =>
      s <- send_trans_round ;;
      match s with
      | Some r => ret (Some r)
      | None => send_trans_loop fuel'
      end
  end.

Definition _ymodem_do_send_trans (fuel : nat) : M (option Z) :=
  modify_ctx (set_stage YMODEM_STAGE_TRANSMITTING) ;;
  modify_ctx (set_error_count 0) ;;
  send_trans_loop fuel.

(** The first loop of [_ymodem_do_send_fin]: send EOT until a NAK
    answers it. *)
Fixpoint send_fin_first_eot (n : nat) (retries : Z) : M (Z + Z) :=
  match n with
  | O => ret (inl retries)
  | S n' =>
      if retries <? YMODEM_MAX_ERRORS then
        ok <- ymodem_send_byte YMODEM_CODE_EOT ;;
        if negb ok then ret (inr YMODEM_ERR_CODE)
        else
          r <- ymodem_receive_byte YMODEM_WAIT_PACKET_TIMEOUT_MS ;;
          if r =? YMODEM_CODE_NAK then ret (inl retries)
          else send_fin_first_eot n' (retries + 1)
      else ret (inl retries)
  end.

(** The second loop: send EOT until an ACK, or a NAK, answers it. *)
Fixpoint send_fin_second_eot (n : nat) (retries : Z) : M (Z + Z) :=
  match n with
  | O => ret (inl retries)
  | S n' =>
      if retries <? YMODEM_MAX_ERRORS then
        ok <- ymodem_send_byte YMODEM_CODE_EOT ;;
        if negb ok then ret (inr YMODEM_ERR_CODE)
        else
          r <- ymodem_receive_byte YMODEM_WAIT_PACKET_TIMEOUT_MS ;;
          if r =? YMODEM_CODE_ACK then ret (inl retries)
          else if r =? YMODEM_CODE_NAK then ret (inl retries)
          else send_fin_second_eot n' (retries + 1)
      else ret (inl retries)
  end.

(** The third loop: wait for 'C'.  An ACK does not count as a retry,
    so the loop is bounded by [fuel]; the result is [got_c]. *)
Fixpoint send_fin_wait_c (fuel : nat) (retries : Z) : M (option bool) :=
  match fuel with
  | O => ret None
  | S fuel' =>
      if retries <? YMODEM_MAX_ERRORS then
        r <- ymodem_receive_byte YMODEM_WAIT_PACKET_TIMEOUT_MS ;;
        if r =? YMODEM_CODE_C then ret (Some true)
        else if r =? YMODEM_CODE_ACK then send_fin_wait_c fuel' retries
        else send_fin_wait_c fuel' (retries + 1)
      else ret (Some false)
  end.

(** The end of [_ymodem_do_send_fin]: the packet with the empty file
    name, then the wait for the last ACK. *)
Definition send_fin_null_packet : M Z :=
  ctx <- get_ctx ;;
  modify_ctx (set_buffer (memset (buffer ctx) 3 0 YMODEM_SOH_DATA_SIZE)) ;;
  ctx <- get_ctx ;;
  r <- _ymodem_send_packet YMODEM_CODE_SOH 0
         (slice (buffer ctx) 3 YMODEM_SOH_DATA_SIZE) ;;
  if negb (r =? YMODEM_ERR_NONE) then ret r
  else
    _ <- ymodem_receive_byte YMODEM_WAIT_PACKET_TIMEOUT_MS ;;
    modify_ctx (set_stage YMODEM_STAGE_FINISHED) ;;
    ret YMODEM_ERR_NONE.

Definition _ymodem_do_send_fin (fuel : nat) : M (option Z) :=
  modify_ctx (set_stage YMODEM_STAGE_FINISHING) ;;
  r <- send_fin_first_eot (Z.to_nat YMODEM_MAX_ERRORS) 0 ;;
  match r with
  | inr e => ret (Some e)
  | inl retries =>
      if retries >=? YMODEM_MAX_ERRORS then ret (Some YMODEM_ERR_ACK)
      else
        r <- send_fin_second_eot (Z.to_nat YMODEM_MAX_ERRORS) 0 ;;
        match r with
        | inr e => ret (Some e)
        | inl retries =>
            if retries >=? YMODEM_MAX_ERRORS then ret (Some YMODEM_ERR_ACK)
            else
              g <- send_fin_wait_c fuel 0 ;;
              match g with
              | None => ret None
              | Some _ =>
                  r <- send_fin_null_packet ;;
                  ret (Some r)
              end
        end
  end.

(** [ctx->callbacks.file_close(ctx->file_handle); ctx->file_handle = NULL] *)
Definition close_file : M unit :=
  ctx <- get_ctx ;;
  callback (fun cb w => (tt, cb_file_close cb (file_handle ctx) w))
           (fun _ => EvClose (file_handle ctx)) ;;
  modify_ctx (set_file_handle NULL).

(** [ymodem_send_file]; a [NULL] file name is [None]. *)
Definition ymodem_send_file (fuel : nat) (fname : option (list Z))
    (handshake_timeout_s : Z) : M (option Z) :=
  match fname with
  | None => ret (Some YMODEM_ERR_CODE)
  | Some fname =>
      h <- callback (fun cb w => cb_file_open cb fname false w)
                    (EvOpen fname false) ;;
      modify_ctx (set_file_handle h) ;;
      if h =? NULL then ret (Some YMODEM_ERR_FILE)
      else
        sz <- callback (fun cb w => let (s, w') := cb_file_size cb h w in
                                    (sint s, w'))
                       (EvSize h) ;;
        modify_ctx (set_file_size sz) ;;
        if sz <? 0 then close_file ;; ret (Some YMODEM_ERR_FILE)
        else
          let basename := ymodem_get_path_basename fname in
          ctx <- get_ctx ;;
          let fn := strncpy (filename ctx) basename (YMODEM_MAX_FILENAME_LENGTH - 1) in
          modify_ctx (set_filename (store fn (YMODEM_MAX_FILENAME_LENGTH - 1) 0)) ;;
          r <- _ymodem_do_send_handshake handshake_timeout_s ;;
          if negb (r =? YMODEM_ERR_NONE) then close_file ;; ret (Some r)
          else
            r <- _ymodem_do_send_trans fuel ;;
            match r with
            | None => ret None
            | Some r =>
                if negb (r =? YMODEM_ERR_NONE) then close_file ;; ret (Some r)
                else
                  r <- _ymodem_do_send_fin fuel ;;
                  match r with
                  | None => ret None
                  | Some r => close_file ;; ret (Some r)
                  end
            end
  end.

(** ** Receiver ([ymodem_receive.c]) *)

Definition ymodem_receive_init (ctx : ymodem_context_t)
    (cbs : ymodem_callbacks_t) (buf : list Z) : Z * ymodem_context_t :=
  if len buf <? YMODEM_MAX_PACKET_SIZE
  then (YMODEM_ERR_DSZ, ctx)
  else (YMODEM_ERR_NONE,
        mk_ctx cbs YMODEM_STAGE_NONE buf (send_buffer ctx) NULL 0
               (store (filename ctx) 0 0) 0 0).

(** [_ymodem_receive_packet]: the result is the return value with
    [*seq] and [*data_size]; an output the function has not assigned
    is shown as 0. *)
Definition _ymodem_receive_packet : M (Z * Z * Z) :=
  ctx <- get_ctx ;;
  let buf := buffer ctx in
  let rest (packet_size data_size : Z) : M (Z * Z * Z) :=
    data <- ymodem_receive_bytes (packet_size - 1) YMODEM_WAIT_PACKET_TIMEOUT_MS ;;
    let buf := memcpy buf 1 data in
    modify_ctx (set_buffer buf) ;;
    if negb (len data =? packet_size - 1)
    then ret (YMODEM_ERR_TMO, 0, data_size)
    else
      let seq := load buf 1 in
      if negb (load buf 2 =? u8 (Z.lnot seq))
      then ret (YMODEM_ERR_SEQ, seq, data_size)
      else
        let received_crc :=
          u16 (Z.lor (u16 (Z.shiftl (load buf (packet_size - 2)) 8))
                     (load buf (packet_size - 1))) in
        let calculated_crc := ymodem_calc_crc16 (slice buf 3 data_size) in
        if negb (received_crc =? calculated_crc)
        then ret (YMODEM_ERR_CRC, seq, data_size)
        else ret (YMODEM_ERR_NONE, seq, data_size) in
  if load buf 0 =? YMODEM_CODE_SOH
  then rest YMODEM_SOH_PACKET_SIZE YMODEM_SOH_DATA_SIZE
  else if load buf 0 =? YMODEM_CODE_STX
  then rest YMODEM_STX_PACKET_SIZE YMODEM_STX_DATA_SIZE
  else ret (YMODEM_ERR_CODE, 0, 0).

(** The loop of [_ymodem_do_handshake]: send 'C' and wait for a packet
    header, [timeout_s] times.  [inl i] is the value of [i] after the
    loop, [inr e] a [return e] from inside it. *)
Fixpoint recv_wait_header (n : nat) (i timeout_s : Z) : M (Z + Z) :=
  match n with
  | O => ret (inl i)
  | S n' =>
      if i <? timeout_s then
        ok <- ymodem_send_byte YMODEM_CODE_C ;;
        if negb ok then ret (inr YMODEM_ERR_CODE)
        else
          r <- ymodem_receive_byte YMODEM_HANDSHAKE_INTERVAL_MS ;;
          if (r >=? 0) && ((r =? YMODEM_CODE_SOH) || (r =? YMODEM_CODE_STX))
          then
            ctx <- get_ctx ;;
            modify_ctx (set_buffer (store (buffer ctx) 0 (u8 r))) ;;
            ret (inl i)
          else recv_wait_header n' (i + 1) timeout_s
      else ret (inl i)
  end.

Definition _ymodem_do_handshake (timeout_s : Z) : M Z :=
  modify_ctx (set_stage YMODEM_STAGE_ESTABLISHING) ;;
  l <- recv_wait_header (Z.to_nat timeout_s) 0 timeout_s ;;
  match l with
  | inr e => ret e
  | inl i =>
      if i =? timeout_s then ret YMODEM_ERR_TMO
      else
        p <- _ymodem_receive_packet ;;
        let '(r, seq, _) := p : Z * Z * Z in
        if negb (r =? YMODEM_ERR_NONE) then ret r
        else if negb (seq =? 0) then ret YMODEM_ERR_SEQ
        else
          modify_ctx (set_stage YMODEM_STAGE_ESTABLISHED) ;;
          ok <- ymodem_send_byte YMODEM_CODE_ACK ;;
          if negb ok then ret YMODEM_ERR_CODE
          else
            ok <- ymodem_send_byte YMODEM_CODE_C ;;
            if negb ok then ret YMODEM_ERR_CODE
            else ret YMODEM_ERR_NONE
  end.

(** The loop of [_ymodem_parse_file_info] that finds the end of the
    file name; it makes at most [YMODEM_MAX_FILENAME_LENGTH - 1]
    rounds, [n] of them left. *)
Fixpoint parse_name_len (n : nat) (fname : list Z) (name_len : Z) : Z :=
  match n with
  | O => name_len
  | S n' =>
      if negb (load fname name_len =? 0)
         && (name_len <? YMODEM_MAX_FILENAME_LENGTH - 1)
      then parse_name_len n' fname (name_len + 1)
      else name_len
  end.

(** The loop that reads the decimal file size, in [int] arithmetic. *)
Fixpoint parse_file_size (s : list Z) (acc : Z) : Z :=
  match s with
  | [] => acc
  | c :: r =>
      if (48 <=? c) && (c <=? 57)
      then parse_file_size r (sint (acc * 10 + (c - 48)))
      else acc
  end.

Definition _ymodem_parse_file_info : M Z :=
  ctx <- get_ctx ;;
  let fname := skipn 3 (buffer ctx) in
  if load fname 0 =? 0 then ret YMODEM_ERR_FILE
  else
    let name_len :=
      parse_name_len (Z.to_nat (YMODEM_MAX_FILENAME_LENGTH - 1)) fname 0 in
    if name_len =? 0 then ret YMODEM_ERR_FILE
    else
      let name_len :=
        if name_len >=? YMODEM_MAX_FILENAME_LENGTH
        then YMODEM_MAX_FILENAME_LENGTH - 1 else name_len in
      let copy (dst : list Z) :=
        store (memcpy dst 0 (slice fname 0 name_len)) name_len 0 in
      modify_ctx (set_filename (copy (filename ctx))) ;;
      fun m =>
        let file_size_str := skipn (Z.to_nat (name_len + 1)) fname in
        let size :=
          if negb (load file_size_str 0 =? 0)
          then parse_file_size file_size_str 0 else 0 in
        (YMODEM_ERR_NONE,
         mk_machine (set_file_size size (m_ctx m))
                    (mk_file_info (copy (fi_filename (m_info m))) (usize size))
                    (m_world m) (m_trace m)).

(** What one round of the [while (1)] of [_ymodem_do_trans] comes to:
    a [return], or the next round with new values of [expected_seq]
    and [total_received]. *)
Inductive loop_step : Type :=
| Return (r : Z)
| Continue (expected_seq total_received : Z).

(** The block that [_ymodem_do_trans] runs for a bad header, a bad
    packet and a packet out of sequence: count the error, give up with
    [err] or ask for the packet again. *)
Definition recv_trans_error (err : Z) (expected_seq total_received : Z)
  : M loop_step :=
  ctx <- get_ctx ;;
  let n := u8 (error_count ctx + 1) in
  modify_ctx (set_error_count n) ;;
  if n >? YMODEM_MAX_ERRORS then ret (Return err)
  else
    ok <- ymodem_send_byte YMODEM_CODE_NAK ;;
    if negb ok then ret (Return YMODEM_ERR_CODE)
    else ret (Continue expected_seq total_received).

(** The number of bytes of a packet that go to the file. *)
Definition bytes_to_write (fsize total_received data_size : Z) : Z :=
  if (fsize >? 0) && (usize (total_received + data_size) >=? usize fsize)
  then usize (fsize - total_received)
  else data_size.

Definition recv_trans_round (expected_seq total_received : Z) : M loop_step :=
  r <- ymodem_receive_byte YMODEM_WAIT_PACKET_TIMEOUT_MS ;;
  if r <? 0 then ret (Return YMODEM_ERR_TMO)
  else
    let code := r in
    ctx <- get_ctx ;;
    modify_ctx (set_buffer (store (buffer ctx) 0 (u8 code))) ;;
    if code =? YMODEM_CODE_EOT then ret (Return YMODEM_ERR_NONE)
    else if negb (code =? YMODEM_CODE_SOH) && negb (code =? YMODEM_CODE_STX)
    then recv_trans_error YMODEM_ERR_CODE expected_seq total_received
    else
      p <- _ymodem_receive_packet ;;
      let '(r, seq, data_size) := p : Z * Z * Z in
      if negb (r =? YMODEM_ERR_NONE)
      then recv_trans_error r expected_seq total_received
      else if negb (seq =? expected_seq)
      then recv_trans_error YMODEM_ERR_SEQ expected_seq total_received
      else
        modify_ctx (set_error_count 0) ;;
        ctx <- get_ctx ;;
        let ack (total_received : Z) : M loop_step :=
          ok <- ymodem_send_byte YMODEM_CODE_ACK ;;
          if negb ok then ret (Return YMODEM_ERR_CODE)
          else ret (Continue (Z.land (expected_seq + 1) 0xFF) total_received) in
        if negb (file_handle ctx =? NULL) then
          let n := bytes_to_write (file_size ctx) total_received data_size in
          written <- callback
                       (fun cb w =>
                          let (k, w') := cb_file_write cb (file_handle ctx)
                                           (slice (buffer ctx) 3 n) w in
                          (usize k, w'))
                       (EvWrite (file_handle ctx) (slice (buffer ctx) 3 n)) ;;
          if negb (written =? n) then ret (Return YMODEM_ERR_FILE)
          else ack (usize (total_received + written))
        else ack total_received.

Fixpoint recv_trans_loop (fuel : nat) (expected_seq total_received : Z)
  : M (option Z) :=
  match fuel with
  | O => ret None
  | S fuel' =>
      s <- recv_trans_round expected_seq total_received ;;
      match s with
      | Return r => ret (Some r)
      | Continue expected_seq' total_received' =>
          recv_trans_loop fuel' expected_seq' total_received'
      end
  end.

Definition _ymodem_do_trans (fuel : nat) : M (option Z) :=
  modify_ctx (set_stage YMODEM_STAGE_TRANSMITTING) ;;
  modify_ctx (set_error_count 0) ;;
  recv_trans_loop fuel 1 0.

(** The [while (retries < YMODEM_MAX_ERRORS)] of [_ymodem_do_fin].  A
    valid packet 0 that names another file does not count as a retry,
    so the loop is bounded by [fuel].  [Some (inr e)] is a [return e]
    from inside the loop, [Some (inl tt)] its normal end. *)
Fixpoint recv_fin_loop (fuel : nat) (retries : Z) : M (option (unit + Z)) :=
  match fuel with
  | O => ret None
  | S fuel' =>
      if retries <? YMODEM_MAX_ERRORS then
        r <- ymodem_receive_byte YMODEM_WAIT_PACKET_TIMEOUT_MS ;;
        if r <? 0 then recv_fin_loop fuel' (retries + 1)
        else
          ctx <- get_ctx ;;
          modify_ctx (set_buffer (store (buffer ctx) 0 (u8 r))) ;;
          if (u8 r =? YMODEM_CODE_SOH) || (u8 r =? YMODEM_CODE_STX) then
            p <- _ymodem_receive_packet ;;
            let '(r, seq, _) := p : Z * Z * Z in
            if negb (r =? YMODEM_ERR_NONE) then recv_fin_loop fuel' (retries + 1)
            else if negb (seq =? 0) then recv_fin_loop fuel' (retries + 1)
            else
              ctx <- get_ctx ;;
              if load (buffer ctx) 3 =? 0 then
                modify_ctx (set_stage YMODEM_STAGE_FINISHED) ;;
                ok <- ymodem_send_byte YMODEM_CODE_ACK ;;
                if negb ok then ret (Some (inr YMODEM_ERR_CODE))
                else ret (Some (inr YMODEM_ERR_NONE))
              else recv_fin_loop fuel' retries
          else if u8 r =? YMODEM_CODE_EOT then
            ok <- ymodem_send_byte YMODEM_CODE_ACK ;;
            if negb ok then ret (Some (inr YMODEM_ERR_CODE))
            else recv_fin_loop fuel' (retries + 1)
          else recv_fin_loop fuel' (retries + 1)
      else ret (Some (inl tt))
  end.

Definition _ymodem_do_fin (fuel : nat) : M (option Z) :=
  modify_ctx (set_stage YMODEM_STAGE_FINISHING) ;;
  ok <- ymodem_send_byte YMODEM_CODE_NAK ;;
  if negb ok then ret (Some YMODEM_ERR_CODE)
  else
    let rest : M (option Z) :=
      ok <- ymodem_send_byte YMODEM_CODE_ACK ;;
      if negb ok then ret (Some YMODEM_ERR_CODE)
      else
        ok <- ymodem_send_byte YMODEM_CODE_C ;;
        if negb ok then ret (Some YMODEM_ERR_CODE)
        else
          l <- recv_fin_loop fuel 0 ;;
          match l with
          | None => ret None
          | Some (inr e) => ret (Some e)
          | Some (inl _) =>
              ctx <- get_ctx ;;
              if negb (file_handle ctx =? NULL) then
                modify_ctx (set_stage YMODEM_STAGE_FINISHED) ;;
                ret (Some YMODEM_ERR_NONE)
              else ret (Some YMODEM_ERR_CODE)
          end in
    r <- ymodem_receive_byte YMODEM_WAIT_PACKET_TIMEOUT_MS ;;
    if negb (r =? YMODEM_CODE_EOT) then
      ok <- ymodem_send_byte YMODEM_CODE_NAK ;;
      if negb ok then ret (Some YMODEM_ERR_CODE)
      else
        r <- ymodem_receive_byte YMODEM_WAIT_PACKET_TIMEOUT_MS ;;
        if negb (r =? YMODEM_CODE_EOT) then ret (Some YMODEM_ERR_CODE)
        else rest
    else rest.

Definition ymodem_receive_file (fuel : nat) (handshake_timeout_s : Z)
  : M (option Z) :=
  r <- _ymodem_do_handshake handshake_timeout_s ;;
  if negb (r =? YMODEM_ERR_NONE) then ret (Some r)
  else
    r <- _ymodem_parse_file_info ;;
    if negb (r =? YMODEM_ERR_NONE) then ret (Some r)
    else
      fun m =>
        (let fname := cstring (fi_filename (m_info m)) in
         h <- callback (fun cb w => cb_file_open cb fname true w)
                       (EvOpen fname true) ;;
         modify_ctx (set_file_handle h) ;;
         if h =? NULL then ret (Some YMODEM_ERR_FILE)
         else
           r <- _ymodem_do_trans fuel ;;
           match r with
           | None => ret None
           | Some r =>
               if negb (r =? YMODEM_ERR_NONE) then close_file ;; ret (Some r)
               else
                 r <- _ymodem_do_fin fuel ;;
                 match r with
                 | None => ret None
                 | Some r => close_file ;; ret (Some r)
                 end
           end) m.

(** [ymodem_send_cleanup] and [ymodem_receive_cleanup] *)
Definition ymodem_cleanup : M unit :=
  ctx <- get_ctx ;;
  (if negb (file_handle ctx =? NULL) then close_file else ret tt) ;;
  modify_ctx (set_stage YMODEM_STAGE_NONE).

End Ymodem.

Arguments ymodem_callbacks_t : clear implicits.
Arguments ymodem_context_t : clear implicits.
Arguments machine : clear implicits.
Arguments M : clear implicits.

(** ** A scripted environment

    A peer and a file system that follow a script, for running the
    transfer on concrete inputs. *)

Record sim : Type := mk_sim {
  (** what each call of [comm_receive] delivers; nothing when used up *)
  sim_rx : list (list Z);
  (** what each call of [comm_send] returns; everything is accepted
      when used up *)
  sim_tx : list Z;
  (** the handle [file_open] returns, and the size [file_size] reports *)
  sim_handle : Z;
  sim_size : Z;
  (** what each call of [file_read] delivers; nothing when used up *)
  sim_reads : list (list Z);
  (** what each call of [file_write] returns; everything is written
      when used up *)
  sim_writes : list Z
}.

Definition sim_callbacks : ymodem_callbacks_t sim :=
  mk_callbacks
    (fun _ _ w => (sim_handle w, w))
    (fun _ _ w =>
       (hd [] (sim_reads w),
        mk_sim (sim_rx w) (sim_tx w) (sim_handle w) (sim_size w)
               (tl (sim_reads w)) (sim_writes w)))
    (fun _ data w =>
       (hd (len data) (sim_writes w),
        mk_sim (sim_rx w) (sim_tx w) (sim_handle w) (sim_size w)
               (sim_reads w) (tl (sim_writes w))))
    (fun _ w => w)
    (fun _ w => (sim_size w, w))
    (fun data w =>
       (hd (len data) (sim_tx w),
        mk_sim (sim_rx w) (tl (sim_tx w)) (sim_handle w) (sim_size w)
               (sim_reads w) (sim_writes w)))
    (fun _ _ w =>
       (hd [] (sim_rx w),
        mk_sim (tl (sim_rx w)) (sim_tx w) (sim_handle w) (sim_size w)
               (sim_reads w) (sim_writes w))).

(** A peer that sends [rx], one item per receive call, on a line that
    accepts every byte. *)
Definition sim_peer (rx : list (list Z)) : sim :=
  mk_sim rx [] 1 0 [] [].

(** A context as [ymodem_send_init] leaves it, with two buffers of
    [YMODEM_MAX_PACKET_SIZE] zero bytes. *)
Definition sim_ctx : ymodem_context_t sim :=
  mk_ctx sim_callbacks YMODEM_STAGE_NONE
         (repeat 0 (Z.to_nat YMODEM_MAX_PACKET_SIZE))
         (repeat 0 (Z.to_nat YMODEM_MAX_PACKET_SIZE))
         NULL 0 (repeat 0 (Z.to_nat YMODEM_MAX_FILENAME_LENGTH)) 0 0.

Definition sim_info : ymodem_file_info_t :=
  mk_file_info (repeat 0 (Z.to_nat YMODEM_MAX_FILENAME_LENGTH)) 0.

Definition sim_machine (c : ymodem_context_t sim) (w : sim) : machine sim :=
  mk_machine c sim_info w [].

(** ** Notions used in the statements *)

(** The frame [_ymodem_send_packet] puts together for a header, a
    sequence number and a payload. *)
Definition packet_of (code seq : Z) (data : list Z) : list Z :=
  let crc := ymodem_calc_crc16 data in
  [u8 code; u8 seq; u8 (Z.lnot (u8 seq))] ++ data
    ++ [u8 (Z.land (Z.shiftr crc 8) 0xFF); u8 (Z.land crc 0xFF)].

(** What [ymodem_receive_byte] returns when the transport delivered
    [data]. *)
Definition reply_of (data : list Z) : Z :=
  if len data =? 0 then YMODEM_ERR_TMO else load data 0.

(** A reply of the transport that is not a 'C'. *)
Definition not_c (d : list Z) : Prop := reply_of d <> YMODEM_CODE_C.

(** The number of bytes that the calls of [file_write] in a trace were
    asked to write. *)
Fixpoint written_bytes (t : list event) : Z :=
  match t with
  | [] => 0
  | EvWrite _ data _ :: r => len data + written_bytes r
  | _ :: r => written_bytes r
  end.

(** A machine after calls through callbacks that left the environment
    [w] and added [evs] to the trace. *)
Definition emit {World : Type} (m : machine World) (w : World)
    (evs : list event) : machine World :=
  mk_machine (m_ctx m) (m_info m) w (m_trace m ++ evs).

(** A machine with another context. *)
Definition with_ctx {World : Type} (m : machine World)
    (c : ymodem_context_t World) : machine World :=
  mk_machine c (m_info m) (m_world m) (m_trace m).

(** ** Sample inputs *)

(** A payload of 128 bytes: 1, 2, .., 128. *)
Definition sample_payload : list Z := map Z.of_nat (seq 1 128).

(** An initialised sender on a line with a silent peer. *)
Definition sample_machine : machine sim := sim_machine sim_ctx (sim_peer []).

(** A line that accepts only 5 bytes of the first frame given to it. *)
Definition short_line : sim := mk_sim [] [5] 1 0 [] [].

(** ** Relations between the machine before and after a computation *)

(** [c] takes every machine to one related to it by [R]. *)
Definition keeps {World A : Type}
    (R : machine World -> machine World -> Prop) (c : M World A) : Prop :=
  forall m, R m (snd (c m)).



(** The file of the transfer is as it was: same handle, same announced
    size, no further write. *)
Definition same_file {World : Type} (m m' : machine World) : Prop :=
  file_handle (m_ctx m') = file_handle (m_ctx m) /\
  file_size (m_ctx m') = file_size (m_ctx m) /\
  written_bytes (m_trace m') = written_bytes (m_trace m).

(** The sequence number, the stage and the packet buffer are as they
    were. *)
Definition same_packet {World : Type} (m m' : machine World) : Prop :=
  packet_seq (m_ctx m') = packet_seq (m_ctx m) /\
  stage (m_ctx m') = stage (m_ctx m) /\
  buffer (m_ctx m') = buffer (m_ctx m).


(** A sender about to send packet 2, a peer that answers it with 'C',
    and a file that delivers a full block of 1024 bytes. *)
Definition second_packet_machine : machine sim :=
  sim_machine (set_packet_seq 2 sim_ctx)
              (mk_sim [[YMODEM_CODE_C]] [] 1 2048 [repeat 65 1024] []).

(** The number of frames handed to the transport in a trace. *)
Fixpoint sends (t : list event) : nat :=
  match t with
  | [] => O
  | EvSend _ _ :: r => S (sends r)
  | _ :: r => sends r
  end.



(** Only the packet buffer, the environment and the trace changed, and
    nothing was written to the file. *)
Definition same_but_buffer {World : Type} (m m' : machine World) : Prop :=
  exists buf w evs,
    m' = emit (with_ctx m (set_buffer buf (m_ctx m))) w evs /\
    written_bytes evs = 0.

(** A call of the transport, as opposed to one of the file system. *)
Definition is_comm (ev : event) : Prop :=
  match ev with
  | EvSend _ _ | EvRecv _ _ _ => True
  | _ => False
  end.

(** The file handle is as it was, and the trace grew by calls of the
    transport only. *)
Definition line_only {World : Type} (m m' : machine World) : Prop :=
  file_handle (m_ctx m') = file_handle (m_ctx m) /\
  exists evs, m_trace m' = m_trace m ++ evs /\ Forall is_comm evs.

(** The packets of a transfer of the file "a.b", three bytes long:
    packet 0, one data packet padded with SUB, and the packet with the
    empty name that ends the batch. *)
Definition sample_packet0 : list Z :=
  packet_of YMODEM_CODE_SOH 0 ([97; 46; 98; 0; 51; 0] ++ repeat 0 122).
Definition sample_packet1 : list Z :=
  packet_of YMODEM_CODE_SOH 1 ([65; 66; 67] ++ repeat 0x1A 125).
Definition sample_packet_end : list Z :=
  packet_of YMODEM_CODE_SOH 0 (repeat 0 128).

(** A sender of that file, as the receiver sees it: each packet comes
    as its header byte and then the rest. *)
Definition sending_peer : sim :=
  sim_peer [[YMODEM_CODE_SOH]; tl sample_packet0;
            [YMODEM_CODE_SOH]; tl sample_packet1;
            [YMODEM_CODE_EOT]; [YMODEM_CODE_EOT];
            [YMODEM_CODE_SOH]; tl sample_packet_end].

(** A receiver of that file, as the sender sees it. *)
Definition receiving_peer : sim :=
  mk_sim [[YMODEM_CODE_C]; [YMODEM_CODE_ACK]; [YMODEM_CODE_C];
          [YMODEM_CODE_ACK];
          [YMODEM_CODE_NAK]; [YMODEM_CODE_ACK]; [YMODEM_CODE_C];
          [YMODEM_CODE_ACK]]
         [] 1 3 [[65; 66; 67]] [].

(** The receiver when its data-transfer loop starts: the file is open
    and packet 0 announced three bytes; the peer sends the data packet
    and EOT. *)
Definition data_machine : machine sim :=
  sim_machine (set_file_handle 1 (set_file_size 3 sim_ctx))
              (sim_peer [[YMODEM_CODE_SOH]; tl sample_packet1;
                         [YMODEM_CODE_EOT]]).

(** The receiver in its data-transfer loop with [n] errors counted,
    and a peer that sends stray bytes. *)
Definition stray_machine (n : Z) : machine sim :=
  sim_machine (set_error_count n sim_ctx) (sim_peer (repeat [0x55] 6)).

(** The receiver with packet 0 of the sample transfer in its buffer,
    and with a packet 0 whose payload starts with NUL. *)
Definition packet0_machine : machine sim :=
  sim_machine (set_buffer (memcpy (buffer sim_ctx) 0 sample_packet0) sim_ctx)
              (sim_peer []).
Definition empty_packet0_machine : machine sim :=
  sim_machine (set_buffer (memcpy (buffer sim_ctx) 0 sample_packet_end) sim_ctx)
              (sim_peer []).

(** ** Traces that grow by calls of one kind *)

(** The trace grew, by calls that all satisfy [P]. *)
Definition grows_by {World : Type} (P : event -> Prop)
    (m m' : machine World) : Prop :=
  exists evs, m_trace m' = m_trace m ++ evs /\ Forall P evs.

(** Any call. *)
Definition any_call (ev : event) : Prop := True.

(** A call that is not a receive that delivered a 'C'. *)
Definition not_c_reply (ev : event) : Prop :=
  match ev with
  | EvRecv _ _ d => reply_of d <> YMODEM_CODE_C
  | _ => True
  end.

(** The sequence number is as it was. *)
Definition same_seq {World : Type} (m m' : machine World) : Prop :=
  packet_seq (m_ctx m') = packet_seq (m_ctx m).

(** What follows a 'C' in the trace of the sender's data loop that
    returned [r]: nothing, and then the loop ended well or is still
    going on, or else a [file_read]. *)
Definition next_block (r : option Z) (suf : list event) : Prop :=
  match suf with
  | [] => r = None \/ r = Some YMODEM_ERR_NONE
  | ev :: _ => exists h n b, ev = EvRead h n b
  end.

(** A sender about to send packet 2, with a peer that answers it with
    NAK and then with 'C', and a file that delivers a full block of
    1024 bytes and then nothing. *)
Definition nak_then_c_machine : machine sim :=
  sim_machine (set_packet_seq 2 sim_ctx)
              (mk_sim [[YMODEM_CODE_NAK]; [YMODEM_CODE_C]] [] 1 2048
                      [repeat 65 1024] []).

(** ** The size that packet 0 announces, and the rounds of the data loop *)

Definition is_digit (c : Z) : bool := (48 <=? c) && (c <=? 57).

(** The number that a string of decimal digits stands for. *)
Definition decimal_value (ds : list Z) : Z :=
  fold_left (fun a c => a * 10 + (c - 48)) ds 0.

(** Packet 0, in the buffer [buf], announces the file size [S]: its
    payload, from offset 3 on, is a file name of 1 to 255 characters, a
    NUL, and the decimal digits of [S], followed by a byte that is not
    a digit or by nothing. *)
Definition announces (buf : list Z) (S : Z) : Prop :=
  exists name ds rest : list Z,
    skipn 3 buf = name ++ 0 :: ds ++ rest /\
    1 <= len name <= 255 /\
    Forall (fun c => c <> 0) name /\
    forallb is_digit ds = true /\
    is_digit (hd 0 rest) = false /\
    decimal_value ds = S.

(** The rounds of a run of [_ymodem_do_trans] entered with the machine
    [m]: [trans_round m es tr mk] when a round starts with the machine
    [mk], [expected_seq = es] and [total_received = tr].  The first
    round follows the two assignments that open the function; a round
    that ends in [Continue] is followed by another. *)
Inductive trans_round {World : Type} (m : machine World)
  : Z -> Z -> machine World -> Prop :=
| trans_round_first :
    trans_round m 1 0
      (with_ctx m (set_error_count 0
                     (set_stage YMODEM_STAGE_TRANSMITTING (m_ctx m))))
| trans_round_next (es tr : Z) (mk : machine World)
                   (es' tr' : Z) (mk' : machine World) :
    trans_round m es tr mk ->
    recv_trans_round es tr mk = (Continue es' tr', mk') ->
    trans_round m es' tr' mk'.

(** A call that is not a [file_write]. *)
Definition not_write (ev : event) : Prop :=
  match ev with
  | EvWrite _ _ _ => False
  | _ => True
  end.

(** Packet 0 for the file "a.b" with the size field 4294967297, which
    is 2^32 + 1, and a sender of that packet, of one data packet with
    the sample payload, and of the end of the transfer. *)
Definition wide_packet0 : list Z :=
  packet_of YMODEM_CODE_SOH 0
    ([97; 46; 98; 0; 52; 50; 57; 52; 57; 54; 55; 50; 57; 55] ++ repeat 0 114).
Definition wide_peer : sim :=
  sim_peer [[YMODEM_CODE_SOH]; tl wide_packet0;
            [YMODEM_CODE_SOH]; tl (packet_of YMODEM_CODE_SOH 1 sample_payload);
            [YMODEM_CODE_EOT]; [YMODEM_CODE_EOT];
            [YMODEM_CODE_SOH]; tl sample_packet_end].

(** A reply of the transport that is not the header of a packet. *)
Definition not_header (d : list Z) : Prop :=
  reply_of d <> YMODEM_CODE_SOH /\ reply_of d <> YMODEM_CODE_STX.

(** The calls of a receiver that sends 'C', accepted by the transport,
    and waits for a reply, once for each of [replies]. *)
Definition c_rounds (replies : list (list Z)) : list event :=
  flat_map (fun d => [EvSend [YMODEM_CODE_C] 1;
                      EvRecv 1 YMODEM_HANDSHAKE_INTERVAL_MS d]) replies.

(** The number of calls of [file_read] in a trace. *)
Fixpoint reads (t : list event) : nat :=
  match t with
  | [] => O
  | EvRead _ _ _ :: r => S (reads r)
  | _ :: r => reads r
  end.

(** The trace grew, by at most [s] calls of [comm_send] and at most
    [r] calls of [file_read]. *)
Definition grows_with {World : Type} (s r : nat) (m m' : machine World) : Prop :=
  exists evs,
    m_trace m' = m_trace m ++ evs /\
    (sends evs <= s)%nat /\ (reads evs <= r)%nat.

(** A computation keeps an invariant of the machine; and it keeps it
    and returns a value for which [Q] holds. *)
Definition preserves {World A : Type} (I : machine World -> Prop)
    (c : M World A) : Prop :=
  forall m, I m -> I (snd (c m)).

Definition yields {World A : Type} (I : machine World -> Prop)
    (c : M World A) (Q : A -> Prop) : Prop :=
  forall m, I m -> I (snd (c m)) /\ Q (fst (c m)).

(** An invariant of the context, as one of the machine. *)
Definition on_ctx {World : Type} (G : ymodem_context_t World -> Prop)
    (m : machine World) : Prop :=
  G (m_ctx m).

(** The contract of [comm_receive]: at most [max_length] bytes are
    stored. *)
Definition transport_ok {World : Type} (cbs : ymodem_callbacks_t World) : Prop :=
  forall (n t : Z) (w : World),
    0 <= n -> len (fst (cb_comm_receive cbs n t w)) <= n.

(** A receiver whose transport keeps its contract and whose packet
    buffer has [L] bytes. *)
Definition recv_safe {World : Type} (L : Z) (c : ymodem_context_t World)
  : Prop :=
  transport_ok (callbacks c) /\ buffer_size c = L.

(** The contract of [file_read]: at most [size] bytes are stored. *)
Definition file_ok {World : Type} (cbs : ymodem_callbacks_t World) : Prop :=
  forall (h n : Z) (w : World),
    0 <= n -> len (fst (cb_file_read cbs h n w)) <= n.

(** A sender whose file system keeps its contract, with a packet
    buffer of [Lb] bytes, a send buffer of [Ls] bytes and a file name
    field of [Lf] bytes. *)
Definition send_safe {World : Type} (Lb Ls Lf : Z) (c : ymodem_context_t World)
  : Prop :=
  file_ok (callbacks c) /\ buffer_size c = Lb /\ send_buffer_size c = Ls /\
  len (filename c) = Lf.

(** The bytes that the calls of [file_read] in a trace delivered. *)
Fixpoint read_data (t : list event) : list Z :=
  match t with
  | [] => []
  | EvRead _ _ d :: r => d ++ read_data r
  | _ :: r => read_data r
  end.

(** A trace of calls of [file_read] only. *)
Definition reads_only (evs : list event) : Prop :=
  Forall (fun ev => match ev with EvRead _ _ _ => True | _ => False end) evs.

(** A trace in which every call is a receive, or a send of [frame]. *)
Definition sends_only (frame : list Z) (evs : list event) : Prop :=
  Forall (fun ev => match ev with
                    | EvSend f _ => f = frame
                    | EvRecv _ _ _ => True
                    | _ => False
                    end) evs.

(** The header and the payload size that [_ymodem_do_send_trans]
    chooses for a block of [a] bytes. *)
Definition block_header (a : Z) : Z :=
  if a <=? 128 then YMODEM_CODE_SOH else YMODEM_CODE_STX.
Definition block_size (a : Z) : Z :=
  if a <=? 128 then YMODEM_SOH_DATA_SIZE else YMODEM_STX_DATA_SIZE.

(** ** Sample inputs for the further properties *)

(** Callbacks like the scripted ones, whose [file_read] and
    [comm_receive] never deliver more bytes than they are asked for. *)
Definition strict_callbacks : ymodem_callbacks_t sim :=
  mk_callbacks
    (cb_file_open sim_callbacks)
    (fun h n w => let (d, w') := cb_file_read sim_callbacks h n w in
                  (firstn (Z.to_nat n) d, w'))
    (cb_file_write sim_callbacks)
    (cb_file_close sim_callbacks)
    (cb_file_size sim_callbacks)
    (cb_comm_send sim_callbacks)
    (fun n t w => let (d, w') := cb_comm_receive sim_callbacks n t w in
                  (firstn (Z.to_nat n) d, w')).

Definition strict_ctx : ymodem_context_t sim :=
  mk_ctx strict_callbacks YMODEM_STAGE_NONE (buffer sim_ctx)
         (send_buffer sim_ctx) NULL 0 (filename sim_ctx) 0 0.

(** A sender of a file of three bytes, before its handshake. *)
Definition sender_machine : machine sim :=
  sim_machine (set_file_size 3 sim_ctx) (sim_peer []).

(** That sender once packet 0 is prepared for the name "a.b", and a
    receiver with the same bytes in its buffer. *)
Definition sender_prepared : machine sim :=
  snd (_ymodem_prepare_file_info_packet [97; 46; 98] sender_machine).
Definition receiver_prepared : machine sim :=
  sim_machine (set_buffer (buffer (m_ctx sender_prepared)) sim_ctx)
              (sim_peer []).

(** A receiver that has read the header SOH, and a transport that
    delivers the rest of [frame]. *)
Definition receiver_of (frame : list Z) : machine sim :=
  sim_machine (set_buffer (store (buffer sim_ctx) 0 YMODEM_CODE_SOH) sim_ctx)
              (sim_peer [tl frame]).

(** The frame of the first data packet with the sample payload, and
    that frame with its first payload byte changed. *)
Definition sample_frame : list Z := packet_of YMODEM_CODE_SOH 1 sample_payload.
Definition bad_frame : list Z := store sample_frame 3 9.

(** The receiver in its data loop, with the file open and no size
    announced; the peer sends the data packet of the sample transfer. *)
Definition unsized_machine : machine sim :=
  sim_machine (set_file_handle 1 sim_ctx)
              (sim_peer [[YMODEM_CODE_SOH]; tl sample_packet1;
                         [YMODEM_CODE_EOT]]).

(** A sender whose file cannot be opened. *)
Definition no_file_machine : machine sim :=
  sim_machine sim_ctx (mk_sim [] [] NULL 0 [] []).

(** A sender whose file reports a negative size. *)
Definition bad_size_machine : machine sim :=
  sim_machine sim_ctx (mk_sim [] [] 1 (-1) [] []).

(** A sender in its data loop, about to send packet 1 of a file of three
    bytes, with a peer that acknowledges it. *)
Definition block_machine : machine sim :=
  sim_machine (set_packet_seq 1 (set_file_handle 1 strict_ctx))
              (mk_sim [[YMODEM_CODE_ACK]] [] 1 3 [[65; 66; 67]] []).

(** * Properties *)

(** ** Machine integers and buffers *)

Lemma len_nonneg (l : list Z) : 0 <= len l.
Proof. unfold len. lia. Qed.

Lemma len_app (a b : list Z) : len (a ++ b) = len a + len b.
Proof. unfold len. rewrite length_app. lia. Qed.

Lemma land_255 (x : Z) : Z.land x 0xFF = x mod 256.
Proof. change 0xFF with (Z.ones 8). now rewrite Z.land_ones by lia. Qed.

Lemma u8_small (x : Z) : 0 <= x < 256 -> u8 x = x.
Proof. intros H. unfold u8. now apply Z.mod_small. Qed.

Lemma u8_range (x : Z) : 0 <= u8 x < 256.
Proof. unfold u8. apply Z.mod_pos_bound. lia. Qed.

(** A property checked on every byte value holds of every byte. *)
Lemma forall_bytes (P : Z -> bool) :
  forallb P (map Z.of_nat (seq 0 256)) = true ->
  forall x, 0 <= x < 256 -> P x = true.
Proof.
  intros H x Hx. rewrite forallb_forall in H. apply H.
  rewrite <- (Z2Nat.id x) by lia. apply in_map. apply in_seq. lia.
Qed.

(** [~seq], stored in a byte, is [seq XOR 0xFF]. *)
Lemma u8_lnot (x : Z) : 0 <= x < 256 -> u8 (Z.lnot x) = Z.lxor x 0xFF.
Proof.
  intros Hx. apply Z.eqb_eq.
  apply (forall_bytes (fun s => u8 (Z.lnot s) =? Z.lxor s 0xFF)); auto.
Qed.

Lemma memcpy_app (pre old post src : list Z) :
  length old = length src ->
  memcpy (pre ++ old ++ post) (len pre) src = pre ++ src ++ post.
Proof.
  intros H. unfold memcpy, len. rewrite Nat2Z.id.
  rewrite firstn_app, Nat.sub_diag, firstn_all. simpl. rewrite app_nil_r.
  f_equal. f_equal.
  rewrite skipn_app, skipn_all2 by lia. simpl.
  replace (length pre + length src - length pre)%nat with (length old) by lia.
  rewrite skipn_app, skipn_all, Nat.sub_diag. reflexivity.
Qed.

Lemma memcpy_length (buf src : list Z) (off : Z) :
  0 <= off -> off + len src <= len buf ->
  length (memcpy buf off src) = length buf.
Proof.
  unfold memcpy, len. intros H0 H.
  rewrite !length_app, length_firstn, length_skipn. lia.
Qed.

(** A list with at least [n] elements is [n] elements and a rest. *)
Lemma split_list (l : list Z) (n : nat) :
  (n <= length l)%nat ->
  exists a b, l = a ++ b /\ length a = n.
Proof.
  intros H. exists (firstn n l), (skipn n l). split.
  - now rewrite firstn_skipn.
  - rewrite length_firstn. lia.
Qed.

Lemma slice_app (a b : list Z) (n : Z) :
  n = len a -> slice (a ++ b) 0 n = a.
Proof.
  intros ->. unfold slice, len. simpl. rewrite Nat2Z.id.
  rewrite firstn_app, Nat.sub_diag, firstn_all. simpl. apply app_nil_r.
Qed.

Lemma slice_mid (a b c : list Z) (off n : Z) :
  off = len a -> n = len b -> slice (a ++ b ++ c) off n = b.
Proof.
  intros -> ->. unfold slice, len. rewrite !Nat2Z.id.
  rewrite skipn_app, skipn_all, Nat.sub_diag. simpl.
  rewrite firstn_app, Nat.sub_diag, firstn_all. simpl. apply app_nil_r.
Qed.

Lemma load_app_r (a b : list Z) (i : Z) :
  i = len a -> load (a ++ b) i = hd 0 b.
Proof.
  intros ->. unfold load, len. rewrite Nat2Z.id.
  rewrite app_nth2, Nat.sub_diag by lia. now destruct b.
Qed.

(** ** The checksum *)

Lemma crc16_update_range (crc byte : Z) : 0 <= crc16_update crc byte < 65536.
Proof. unfold crc16_update, u16. apply Z.mod_pos_bound. lia. Qed.

Lemma fold_crc16_range (buffer : list Z) (crc : Z) :
  0 <= crc < 65536 -> 0 <= fold_left crc16_update buffer crc < 65536.
Proof.
  revert crc. induction buffer as [|b r IH]; intros crc H; simpl; auto.
  apply IH. apply crc16_update_range.
Qed.

Lemma ymodem_calc_crc16_range (buffer : list Z) :
  0 <= ymodem_calc_crc16 buffer < 65536.
Proof. apply fold_crc16_range. lia. Qed.

(** The two bytes that carry a checksum, high byte first. *)
Lemma crc_bytes (crc : Z) :
  0 <= crc < 65536 ->
  let hi := u8 (Z.land (Z.shiftr crc 8) 0xFF) in
  let lo := u8 (Z.land crc 0xFF) in
  0 <= hi < 256 /\ 0 <= lo < 256 /\ crc = 256 * hi + lo.
Proof.
  intros H hi lo. subst hi lo. rewrite !land_255, Z.shiftr_div_pow2 by lia.
  unfold u8. rewrite !Z.mod_mod by lia. change (2 ^ 8) with 256.
  assert (0 <= crc / 256 < 256) by (split; [apply Z.div_pos; lia | apply Z.div_lt_upper_bound; lia]).
  rewrite (Z.mod_small (crc / 256)) by lia.
  pose proof (Z.mod_pos_bound crc 256 ltac:(lia)).
  pose proof (Z.div_mod crc 256 ltac:(lia)). lia.
Qed.

Lemma memcpy_slice (buf src : list Z) (off : Z) :
  0 <= off -> off + len src <= len buf ->
  slice (memcpy buf off src) off (len src) = src.
Proof.
  intros H0 H. unfold memcpy. apply slice_mid; [| reflexivity].
  unfold len in *. rewrite length_firstn. lia.
Qed.

Lemma len_repeat (v : Z) (n : Z) : 0 <= n -> len (repeat v (Z.to_nat n)) = n.
Proof. intros H. unfold len. rewrite repeat_length. lia. Qed.

Lemma memset_slice (buf : list Z) (off v n : Z) :
  0 <= off -> 0 <= n -> off + n <= len buf ->
  slice (memset buf off v n) off n = repeat v (Z.to_nat n).
Proof.
  intros H0 Hn H. unfold memset.
  rewrite <- (len_repeat v n Hn) at 2.
  apply memcpy_slice; [assumption |]. now rewrite len_repeat.
Qed.

(** ** The packet builder *)

Lemma packet_of_len (code seq : Z) (data : list Z) :
  len (packet_of code seq data) = 1 + 1 + 1 + len data + 2.
Proof. unfold packet_of. rewrite !len_app. unfold len. cbn [length]. lia. Qed.

(** The assignments of [_ymodem_send_packet] to the send buffer leave
    the frame at its start and keep its size. *)
Lemma send_buffer_frame (sbuf : list Z) (code seq : Z) (data : list Z) :
  1 + 1 + 1 + len data + 2 <= len sbuf ->
  let data_size := len data in
  let sb := store sbuf 0 (u8 code) in
  let sb := store sb 1 (u8 seq) in
  let sb := store sb 2 (u8 (Z.lnot (u8 seq))) in
  let sb := memcpy sb 3 data in
  let crc := ymodem_calc_crc16 (slice sb 3 data_size) in
  let sb := store sb (3 + data_size) (u8 (Z.land (Z.shiftr crc 8) 0xFF)) in
  let sb := store sb (3 + data_size + 1) (u8 (Z.land crc 0xFF)) in
  exists rest, sb = packet_of code seq data ++ rest /\ len sb = len sbuf.
Proof.
  intros Hlen.
  assert (Hn : (length data + 5 <= length sbuf)%nat) by (unfold len in Hlen; lia).
  clear Hlen.
  destruct sbuf as [|b0 [|b1 [|b2 tl]]]; try (simpl in Hn; lia).
  destruct (split_list tl (length data)) as (d & tl2 & -> & Hd).
  { simpl in Hn. lia. }
  simpl in Hn. rewrite length_app in Hn.
  destruct tl2 as [|c1 [|c2 rest]]; try (simpl in Hn; lia).
  cbv zeta.
  change (store (b0 :: b1 :: b2 :: d ++ c1 :: c2 :: rest) 0 (u8 code))
    with (u8 code :: b1 :: b2 :: d ++ c1 :: c2 :: rest).
  change (store (u8 code :: b1 :: b2 :: d ++ c1 :: c2 :: rest) 1 (u8 seq))
    with (u8 code :: u8 seq :: b2 :: d ++ c1 :: c2 :: rest).
  change (store (u8 code :: u8 seq :: b2 :: d ++ c1 :: c2 :: rest) 2
                (u8 (Z.lnot (u8 seq))))
    with (u8 code :: u8 seq :: u8 (Z.lnot (u8 seq)) :: d ++ c1 :: c2 :: rest).
  set (h := [u8 code; u8 seq; u8 (Z.lnot (u8 seq))]).
  assert (E1 : memcpy (u8 code :: u8 seq :: u8 (Z.lnot (u8 seq)) :: d ++ c1 :: c2 :: rest) 3 data
               = h ++ data ++ c1 :: c2 :: rest).
  { apply (memcpy_app h d (c1 :: c2 :: rest) data). exact Hd. }
  rewrite E1.
  assert (E2 : slice (h ++ data ++ c1 :: c2 :: rest) 3 (len data) = data).
  { apply slice_mid; reflexivity. }
  rewrite E2.
  set (hi := u8 (Z.land (Z.shiftr (ymodem_calc_crc16 data) 8) 0xFF)).
  set (lo := u8 (Z.land (ymodem_calc_crc16 data) 0xFF)).
  assert (E3 : store (h ++ data ++ c1 :: c2 :: rest) (3 + len data) hi
               = (h ++ data) ++ [hi] ++ c2 :: rest).
  { unfold store. replace (3 + len data) with (len (h ++ data))
      by (rewrite len_app; reflexivity).
    rewrite app_assoc. apply (memcpy_app (h ++ data) [c1] (c2 :: rest) [hi]).
    reflexivity. }
  rewrite E3.
  assert (E4 : store ((h ++ data) ++ [hi] ++ c2 :: rest) (3 + len data + 1) lo
               = ((h ++ data) ++ [hi]) ++ [lo] ++ rest).
  { unfold store. replace (3 + len data + 1) with (len ((h ++ data) ++ [hi]))
      by (rewrite !len_app; reflexivity).
    rewrite app_assoc. apply (memcpy_app ((h ++ data) ++ [hi]) [c2] rest [lo]).
    reflexivity. }
  rewrite E4.
  exists rest. split.
  - unfold packet_of. fold h hi lo. rewrite <- !app_assoc. reflexivity.
  - unfold len. f_equal. subst h. rewrite !length_app. cbn [length].
    rewrite !length_app. cbn [length]. lia.
Qed.

(** ** The table-driven checksum is CRC-16/CCITT *)

Lemma land_lxor_distr (a b c : Z) :
  Z.land (Z.lxor a b) c = Z.lxor (Z.land a c) (Z.land b c).
Proof.
  apply Z.bits_inj'. intros n Hn.
  rewrite Z.land_spec, !Z.lxor_spec, !Z.land_spec.
  destruct (Z.testbit a n), (Z.testbit b n), (Z.testbit c n); reflexivity.
Qed.

Lemma mod_lxor (a b n : Z) :
  0 <= n -> (Z.lxor a b) mod 2 ^ n = Z.lxor (a mod 2 ^ n) (b mod 2 ^ n).
Proof.
  intros Hn. rewrite <- !Z.land_ones by assumption. apply land_lxor_distr.
Qed.

(** Eight shifts of the bitwise checksum are one look-up in the
    table; checked for every high byte and every low byte. *)
Lemma crc16_shift8_table (x : Z) :
  0 <= x < 65536 ->
  Nat.iter 8 crc16_shift x
  = Z.lxor (Z.shiftl (x mod 256) 8) (load crc16_ccitt_table (Z.shiftr x 8)).
Proof.
  intros Hx.
  pose (check := fun hi lo =>
          let x := 256 * hi + lo in
          Nat.iter 8 crc16_shift x
          =? Z.lxor (Z.shiftl (x mod 256) 8)
                    (load crc16_ccitt_table (Z.shiftr x 8))).
  assert (F : forallb (fun hi => forallb (check hi) (map Z.of_nat (seq 0 256)))
                      (map Z.of_nat (seq 0 256)) = true).
  { vm_compute. reflexivity. }
  assert (Hhi : 0 <= x / 256 < 256)
    by (split; [apply Z.div_pos; lia | apply Z.div_lt_upper_bound; lia]).
  pose proof (Z.mod_pos_bound x 256 ltac:(lia)) as Hlo.
  pose proof (forall_bytes _ F (x / 256) Hhi) as F1. cbv beta in F1.
  pose proof (forall_bytes _ F1 (x mod 256) Hlo) as F2.
  unfold check in F2. cbv zeta in F2.
  rewrite <- (Z.div_mod x 256) in F2 by lia.
  now apply Z.eqb_eq.
Qed.

Lemma crc16_table_range (i : Z) : 0 <= load crc16_ccitt_table i < 65536.
Proof.
  unfold load. destruct (Nat.lt_ge_cases (Z.to_nat i) 256) as [H | H].
  - assert (forallb (fun k => (0 <=? nth k crc16_ccitt_table 0)
                              && (nth k crc16_ccitt_table 0 <? 65536))
                    (seq 0 256) = true) as F by (vm_compute; reflexivity).
    rewrite forallb_forall in F. specialize (F (Z.to_nat i)).
    rewrite andb_true_iff in F. destruct F as [A B].
    { apply in_seq. lia. }
    apply Z.leb_le in A. apply Z.ltb_lt in B. lia.
  - rewrite nth_overflow; [lia | exact H].
Qed.

Lemma crc16_update_bitwise (crc byte : Z) :
  0 <= crc < 65536 -> 0 <= byte < 256 ->
  crc16_update crc byte = crc16_bitwise_update crc byte.
Proof.
  intros Hc Hb. unfold crc16_update, crc16_bitwise_update.
  set (x := Z.lxor crc (Z.shiftl byte 8)).
  assert (Hsh : 0 <= Z.shiftl byte 8 < 65536).
  { rewrite Z.shiftl_mul_pow2 by lia. change (2 ^ 8) with 256. lia. }
  assert (Hx : 0 <= x < 65536).
  { split; [apply Z.lxor_nonneg; lia |].
    assert (E : x mod 2 ^ 16 = x).
    { unfold x. rewrite mod_lxor by lia. change (2 ^ 16) with 65536.
      now rewrite !Z.mod_small by lia. }
    rewrite <- E. apply Z.mod_pos_bound. lia. }
  rewrite (crc16_shift8_table x Hx).
  assert (Ehi : Z.shiftr x 8 = Z.lxor (Z.shiftr crc 8) byte).
  { unfold x. rewrite Z.shiftr_lxor. f_equal.
    rewrite Z.shiftr_shiftl_l by lia. apply Z.shiftl_0_r. }
  assert (Hhi : 0 <= Z.shiftr x 8 < 256).
  { rewrite Z.shiftr_div_pow2 by lia. change (2 ^ 8) with 256.
    split; [apply Z.div_pos; lia | apply Z.div_lt_upper_bound; lia]. }
  assert (Eidx : Z.land (Z.lxor (Z.shiftr crc 8) byte) 0xFF = Z.shiftr x 8).
  { rewrite <- Ehi, land_255. apply Z.mod_small. exact Hhi. }
  rewrite Eidx.
  assert (Elo : x mod 256 = crc mod 256).
  { unfold x. change 256 with (2 ^ 8). rewrite mod_lxor by lia.
    rewrite (Z.shiftl_mul_pow2 byte 8) by lia.
    rewrite Z.mod_mul by lia. apply Z.lxor_0_r. }
  rewrite Elo. unfold u16. change 65536 with (2 ^ 16). rewrite mod_lxor by lia.
  f_equal.
  - rewrite !Z.shiftl_mul_pow2 by lia. change (2 ^ 16) with (256 * 2 ^ 8).
    rewrite Z.mul_mod_distr_r by lia. reflexivity.
  - apply Z.mod_small. apply crc16_table_range.
Qed.

Lemma crc16_bitwise_update_range (crc byte : Z) :
  0 <= crc < 65536 -> 0 <= byte < 256 ->
  0 <= crc16_bitwise_update crc byte < 65536.
Proof.
  intros Hc Hb. rewrite <- crc16_update_bitwise by assumption.
  apply crc16_update_range.
Qed.

Lemma fold_crc16_bitwise (buffer : list Z) (crc : Z) :
  Forall (fun b => 0 <= b < 256) buffer -> 0 <= crc < 65536 ->
  fold_left crc16_update buffer crc = fold_left crc16_bitwise_update buffer crc.
Proof.
  intros H. revert crc.
  induction H as [|b r Hb _ IH]; intros crc Hc; cbn [fold_left]; [reflexivity |].
  rewrite <- crc16_update_bitwise by assumption.
  apply IH. apply crc16_update_range.
Qed.

(** On bytes, [ymodem_calc_crc16] is the CRC-16 with polynomial
    0x1021 and initial value 0, fed most significant bit first. *)
Lemma ymodem_calc_crc16_bitwise (buffer : list Z) :
  Forall (fun b => 0 <= b < 256) buffer ->
  ymodem_calc_crc16 buffer = crc16_bitwise buffer.
Proof. intros H. apply fold_crc16_bitwise; [exact H | lia]. Qed.

Section Properties.

Context {World : Type}.
Implicit Types (m : machine World) (ctx : ymodem_context_t World).

Notation "x <- e ;; k" := (bind e (fun x => k))
  (at level 61, e at next level, right associativity).
Notation "e ;; k" := (bind e (fun _ => k))
  (at level 61, right associativity).

(** What [_ymodem_send_packet] does when the size of the payload fits
    the header and the send buffer: the frame is put at the start of
    the send buffer and handed to [comm_send] in one call. *)
Lemma send_packet_run m (code seq : Z) (data : list Z) :
  (code =? YMODEM_CODE_SOH) && negb (len data =? YMODEM_SOH_DATA_SIZE) = false ->
  (code =? YMODEM_CODE_STX) && negb (len data =? YMODEM_STX_DATA_SIZE) = false ->
  1 + 1 + 1 + len data + 2 <= send_buffer_size (m_ctx m) ->
  exists rest,
    len (packet_of code seq data ++ rest) = send_buffer_size (m_ctx m) /\
    _ymodem_send_packet code seq data m =
      (let frame := packet_of code seq data in
       let (sent, w) := cb_comm_send (callbacks (m_ctx m)) frame (m_world m) in
       (if usize sent =? 0 then YMODEM_ERR_CODE else YMODEM_ERR_NONE,
        mk_machine (set_send_buffer (frame ++ rest) (m_ctx m)) (m_info m) w
                   (m_trace m ++ [EvSend frame (usize sent)]))).
Proof.
  intros H1 H2 H3.
  destruct (send_buffer_frame (send_buffer (m_ctx m)) code seq data H3)
    as (rest & E & L).
  exists rest. split.
  { rewrite <- E. exact L. }
  unfold _ymodem_send_packet. rewrite H1, H2.
  unfold bind at 1. unfold get_ctx at 1.
  apply Z.ltb_ge in H3. rewrite H3.
  cbv zeta in E. rewrite E.
  replace (slice (packet_of code seq data ++ rest) 0 (1 + 1 + 1 + len data + 2))
    with (packet_of code seq data)
    by (symmetry; apply slice_app; now rewrite packet_of_len).
  unfold bind, modify_ctx, ymodem_send_bytes, callback, ret.
  cbn [m_ctx m_info m_world m_trace callbacks set_send_buffer].
  destruct (cb_comm_send (callbacks (m_ctx m)) (packet_of code seq data) (m_world m))
    as [sent w].
  destruct (usize sent =? 0); reflexivity.
Qed.

(** When the size of the payload does not fit the header, nothing is
    done. *)
Lemma send_packet_wrong_size m (code seq : Z) (data : list Z) :
  code = YMODEM_CODE_SOH /\ len data <> YMODEM_SOH_DATA_SIZE \/
  code = YMODEM_CODE_STX /\ len data <> YMODEM_STX_DATA_SIZE ->
  _ymodem_send_packet code seq data m = (YMODEM_ERR_DSZ, m).
Proof.
  intros [[-> H] | [-> H]]; unfold _ymodem_send_packet.
  - apply Z.eqb_neq in H. rewrite H. reflexivity.
  - apply Z.eqb_neq in H. rewrite H. reflexivity.
Qed.

(** C1: for a payload of exactly 128 bytes under SOH, or exactly 1024
    bytes under STX, [_ymodem_send_packet] hands to the transport, in
    one call, a frame of 3+N+2 bytes that is also at the start of the
    send buffer: byte 0 is the header, byte 1 the sequence number, byte
    2 the sequence number XOR 0xFF, bytes 3..3+N-1 the payload, and the
    last two bytes the checksum [ymodem_calc_crc16] of the payload,
    high byte first, which for a payload of bytes is its CRC-16/CCITT
    (polynomial 0x1021, initial value 0, bit by bit).  For a
    payload of another length it returns YMODEM_ERR_DSZ and leaves
    context, environment and trace as they were: nothing is sent. *)
Theorem send_packet_frame m (code seq : Z) (data : list Z) :
  0 <= seq < 256 ->
  YMODEM_MAX_PACKET_SIZE <= send_buffer_size (m_ctx m) ->
  (code = YMODEM_CODE_SOH /\ len data = YMODEM_SOH_DATA_SIZE \/
   code = YMODEM_CODE_STX /\ len data = YMODEM_STX_DATA_SIZE ->
   exists frame sent m',
     _ymodem_send_packet code seq data m =
       (if sent =? 0 then YMODEM_ERR_CODE else YMODEM_ERR_NONE, m') /\
     m_trace m' = m_trace m ++ [EvSend frame sent] /\
     slice (send_buffer (m_ctx m')) 0 (3 + len data + 2) = frame /\
     len frame = 3 + len data + 2 /\
     load frame 0 = code /\
     load frame 1 = seq /\
     load frame 2 = Z.lxor seq 0xFF /\
     slice frame 3 (len data) = data /\
     0 <= load frame (3 + len data) < 256 /\
     0 <= load frame (3 + len data + 1) < 256 /\
     ymodem_calc_crc16 data
       = 256 * load frame (3 + len data) + load frame (3 + len data + 1) /\
     (Forall (fun b => 0 <= b < 256) data ->
      ymodem_calc_crc16 data = crc16_bitwise data))
  /\
  (code = YMODEM_CODE_SOH /\ len data <> YMODEM_SOH_DATA_SIZE \/
   code = YMODEM_CODE_STX /\ len data <> YMODEM_STX_DATA_SIZE ->
   _ymodem_send_packet code seq data m = (YMODEM_ERR_DSZ, m)).
Proof.
  intros Hseq Hbuf. split; [| apply send_packet_wrong_size].
  intros Hsize.
  assert (Hcode : 0 <= code < 256)
    by (destruct Hsize as [[-> _] | [-> _]]; unfold YMODEM_CODE_SOH, YMODEM_CODE_STX; lia).
  destruct (send_packet_run m code seq data) as (rest & L & E).
  - destruct Hsize as [[-> ->] | [-> ->]]; reflexivity.
  - destruct Hsize as [[-> ->] | [-> ->]]; reflexivity.
  - destruct Hsize as [[_ ->] | [_ ->]];
      unfold YMODEM_MAX_PACKET_SIZE, YMODEM_STX_PACKET_SIZE, YMODEM_STX_DATA_SIZE,
             YMODEM_SOH_DATA_SIZE in *; lia.
  - cbv zeta in E.
    destruct (cb_comm_send (callbacks (m_ctx m)) (packet_of code seq data) (m_world m))
      as [sent w].
    exists (packet_of code seq data), (usize sent).
    eexists. split; [exact E |].
    cbn [m_trace m_ctx send_buffer set_send_buffer].
    pose proof (crc_bytes _ (ymodem_calc_crc16_range data)) as (Hhi & Hlo & Hcrc).
    cbv zeta in Hhi, Hlo, Hcrc.
    assert (Ehi : load (packet_of code seq data) (3 + len data)
                  = u8 (Z.land (Z.shiftr (ymodem_calc_crc16 data) 8) 0xFF)).
    { unfold packet_of. cbv zeta. rewrite app_assoc. apply load_app_r.
      rewrite len_app. reflexivity. }
    assert (Elo : load (packet_of code seq data) (3 + len data + 1)
                  = u8 (Z.land (ymodem_calc_crc16 data) 0xFF)).
    { unfold packet_of. cbv zeta.
      change [u8 (Z.land (Z.shiftr (ymodem_calc_crc16 data) 8) 0xFF);
              u8 (Z.land (ymodem_calc_crc16 data) 0xFF)]
        with ([u8 (Z.land (Z.shiftr (ymodem_calc_crc16 data) 8) 0xFF)]
                ++ [u8 (Z.land (ymodem_calc_crc16 data) 0xFF)]).
      rewrite !app_assoc. apply load_app_r. rewrite !len_app. reflexivity. }
    rewrite Ehi, Elo.
    repeat split; try tauto.
    + apply slice_app. rewrite packet_of_len. lia.
    + rewrite packet_of_len. lia.
    + unfold packet_of, load. cbn [app nth Z.to_nat]. now apply u8_small.
    + unfold packet_of. change (load _ 1) with (u8 seq). now apply u8_small.
    + unfold packet_of. change (load _ 2) with (u8 (Z.lnot (u8 seq))).
      rewrite (u8_small seq) by assumption. now apply u8_lnot.
    + unfold packet_of. cbv zeta.
      apply (slice_mid [u8 code; u8 seq; u8 (Z.lnot (u8 seq))] data); reflexivity.
    + apply ymodem_calc_crc16_bitwise.
Qed.

(** ** The transport adapter *)

Lemma emit_nil m : emit m (m_world m) [] = m.
Proof. destruct m. unfold emit. cbn. now rewrite app_nil_r. Qed.

Lemma emit_emit m (w1 w2 : World) (e1 e2 : list event) :
  emit (emit m w1 e1) w2 e2 = emit m w2 (e1 ++ e2).
Proof. unfold emit. cbn. now rewrite app_assoc. Qed.

Lemma emit_with_ctx m ctx (w : World) (e : list event) :
  emit (with_ctx m ctx) w e = with_ctx (emit m w e) ctx.
Proof. reflexivity. Qed.

Lemma with_ctx_id m : with_ctx m (m_ctx m) = m.
Proof. now destruct m. Qed.

(** A receive of one byte is one call of [comm_receive], for at most
    one byte and with the given timeout. *)
Lemma receive_byte_run m (t : Z) :
  exists d w,
    ymodem_receive_byte t m = (reply_of d, emit m w [EvRecv 1 t d]).
Proof.
  unfold ymodem_receive_byte, ymodem_receive_bytes, callback, bind, ret.
  destruct (cb_comm_receive (callbacks (m_ctx m)) 1 t (m_world m)) as [d w].
  exists (map u8 d), w. unfold reply_of.
  destruct (len (map u8 d) =? 0); reflexivity.
Qed.

(** A send of one byte is one call of [comm_send]; it succeeds when
    exactly one byte was accepted. *)
Lemma send_byte_run m (b : Z) :
  exists sent w,
    ymodem_send_byte b m = (sent =? 1, emit m w [EvSend [u8 b] sent]).
Proof.
  unfold ymodem_send_byte, ymodem_send_bytes, callback, bind, ret.
  destruct (cb_comm_send (callbacks (m_ctx m)) [u8 b] (m_world m)) as [s w].
  exists (usize s), w. reflexivity.
Qed.

(** ** Sender: the reply to packet 0 *)

(** The loop that waits for ACK and 'C', entered with [got_c] false:
    it ends at the first 'C', and then both flags are set; without a
    'C' it makes all its [n] rounds. *)
Lemma send_wait_ack_c_run (n : nat) (got_ack : bool) m :
  exists (replies : list (list Z)) (w : World) (ga gc : bool),
    send_wait_ack_c n got_ack false m
      = ((ga, gc),
         emit m w (map (EvRecv 1 YMODEM_WAIT_PACKET_TIMEOUT_MS) replies)) /\
    (length replies <= n)%nat /\
    ((gc = true /\ ga = true /\
      exists pre d, replies = pre ++ [d] /\ reply_of d = YMODEM_CODE_C /\
                    Forall not_c pre) \/
     (gc = false /\ length replies = n /\ Forall not_c replies)).
Proof.
  revert got_ack m. induction n as [|n IH]; intros got_ack m.
  - exists [], (m_world m), got_ack, false. cbn [send_wait_ack_c map].
    rewrite emit_nil. unfold ret.
    split; [reflexivity |]. split; [cbn [length]; lia |].
    right. repeat split. constructor.
  - cbn [send_wait_ack_c]. unfold bind at 1.
    destruct (receive_byte_run m YMODEM_WAIT_PACKET_TIMEOUT_MS) as (d & w & E).
    rewrite E. clear E.
    destruct (reply_of d =? YMODEM_CODE_ACK) eqn:Eack.
    + (* an ACK: wait for 'C' *)
      assert (Hd : not_c d).
      { unfold not_c. apply Z.eqb_eq in Eack. rewrite Eack. discriminate. }
      cbn [andb negb].
      destruct (IH true (emit m w [EvRecv 1 YMODEM_WAIT_PACKET_TIMEOUT_MS d]))
        as (rs & w' & ga & gc & E & L & H).
      exists (d :: rs), w', ga, gc. rewrite E, emit_emit.
      split; [reflexivity |]. split; [cbn [length]; lia |].
      destruct H as [(-> & -> & pre & d' & -> & Hc & Hp) | (-> & Hl & Hp)].
      * left. split; [reflexivity |]. split; [reflexivity |].
        exists (d :: pre), d'. auto.
      * right. cbn [length]. auto.
    + destruct (reply_of d =? YMODEM_CODE_C) eqn:Ec.
      * (* a 'C': the loop ends, with or without an earlier ACK *)
        apply Z.eqb_eq in Ec.
        exists [d], w, true, true.
        split.
        { destruct got_ack; reflexivity. }
        split; [cbn [length]; lia |].
        left. split; [reflexivity |]. split; [reflexivity |].
        exists [], d. auto.
      * (* anything else: next round *)
        assert (Hd : not_c d) by (unfold not_c; now apply Z.eqb_neq).
        destruct (IH got_ack (emit m w [EvRecv 1 YMODEM_WAIT_PACKET_TIMEOUT_MS d]))
          as (rs & w' & ga & gc & E & L & H).
        exists (d :: rs), w', ga, gc.
        split.
        { destruct got_ack; cbn [andb negb orb]; rewrite E, emit_emit; reflexivity. }
        split; [cbn [length]; lia |].
        destruct H as [(-> & -> & pre & d' & -> & Hc & Hp) | (-> & Hl & Hp)].
        -- left. split; [reflexivity |]. split; [reflexivity |].
           exists (d :: pre), d'. auto.
        -- right. cbn [length]. auto.
Qed.

(** C3: once packet 0 is sent, the sender makes at most 5 receive
    attempts, each for one byte with the 3000 ms packet timeout.  The
    first 'C' among them ends the wait with success: stage ESTABLISHED,
    sequence number 1, whether an ACK came before it or not (a 'C'
    before any ACK counts as ACK and 'C'; what follows it is not read).
    When none of the 5 replies is a 'C' the result is YMODEM_ERR_ACK. *)
Theorem send_handshake_reply_spec m :
  exists (replies : list (list Z)) (w : World),
    (length replies <= 5)%nat /\
    ((exists pre d,
        replies = pre ++ [d] /\ Forall not_c pre /\
        reply_of d = YMODEM_CODE_C /\
        send_handshake_reply m
          = (YMODEM_ERR_NONE,
             emit (with_ctx m (set_packet_seq 1
                                 (set_stage YMODEM_STAGE_ESTABLISHED (m_ctx m))))
                  w (map (EvRecv 1 YMODEM_WAIT_PACKET_TIMEOUT_MS) replies))) \/
     (length replies = 5%nat /\ Forall not_c replies /\
      send_handshake_reply m
        = (YMODEM_ERR_ACK,
           emit m w (map (EvRecv 1 YMODEM_WAIT_PACKET_TIMEOUT_MS) replies)))).
Proof.
  destruct (send_wait_ack_c_run 5 false m) as (rs & w & ga & gc & E & L & H).
  exists rs, w. split; [exact L |].
  assert (R : send_handshake_reply m
              = (if negb ga || negb gc then ret YMODEM_ERR_ACK
                 else
                   modify_ctx (set_stage YMODEM_STAGE_ESTABLISHED) ;;
                   modify_ctx (set_packet_seq 1) ;;
                   ret YMODEM_ERR_NONE)
                  (emit m w (map (EvRecv 1 YMODEM_WAIT_PACKET_TIMEOUT_MS) rs))).
  { unfold send_handshake_reply, bind at 1. now rewrite E. }
  rewrite R. clear R E.
  destruct H as [(-> & -> & pre & d & -> & Hc & Hp) | (-> & Hl & Hp)].
  - left. exists pre, d. repeat split; auto.
  - right. cbn [negb]. rewrite orb_true_r. repeat split; auto.
Qed.

(** The code that waits for the reply is what
    [_ymodem_do_send_handshake] runs once the first 'C' has arrived
    and packet 0 has been prepared and sent. *)
Lemma do_send_handshake_reply (timeout_s i : Z) m m1 m2 m3 :
  send_wait_c (Z.to_nat timeout_s) 0 timeout_s
      (with_ctx m (set_stage YMODEM_STAGE_ESTABLISHING (m_ctx m))) = (i, m1) ->
  i <> timeout_s ->
  _ymodem_prepare_file_info_packet (filename (m_ctx m1)) m1
    = (YMODEM_ERR_NONE, m2) ->
  _ymodem_send_packet YMODEM_CODE_SOH 0
      (slice (buffer (m_ctx m2)) 3 YMODEM_SOH_DATA_SIZE) m2
    = (YMODEM_ERR_NONE, m3) ->
  _ymodem_do_send_handshake timeout_s m = send_handshake_reply m3.
Proof.
  intros E1 Hi E2 E3. unfold _ymodem_do_send_handshake.
  unfold bind at 1. unfold modify_ctx at 1.
  fold (with_ctx m (set_stage YMODEM_STAGE_ESTABLISHING (m_ctx m))).
  unfold bind at 1. rewrite E1.
  apply Z.eqb_neq in Hi. rewrite Hi.
  unfold bind at 1. unfold get_ctx at 1.
  unfold bind at 1. rewrite E2.
  change (negb (YMODEM_ERR_NONE =? YMODEM_ERR_NONE)) with false. cbv iota.
  unfold bind at 1. unfold get_ctx at 1.
  unfold bind at 1. rewrite E3. reflexivity.
Qed.

(** ** Sender: the end of the finish sequence *)

(** C7: the last packet of the finish sequence is the SOH packet with
    sequence number 0 and 128 zero bytes.  Once [_ymodem_send_packet]
    has sent it, one more byte is awaited with the packet timeout, and
    whatever that receive gives (an ACK, another byte, or nothing) the
    stage becomes FINISHED and the result is YMODEM_ERR_NONE. *)
Theorem send_fin_null_packet_spec m m1 :
  YMODEM_MAX_PACKET_SIZE <= buffer_size (m_ctx m) ->
  let m0 := with_ctx m (set_buffer (memset (buffer (m_ctx m)) 3 0
                                           YMODEM_SOH_DATA_SIZE) (m_ctx m)) in
  _ymodem_send_packet YMODEM_CODE_SOH 0 (repeat 0 128) m0
    = (YMODEM_ERR_NONE, m1) ->
  exists d w,
    ymodem_receive_byte YMODEM_WAIT_PACKET_TIMEOUT_MS m1
      = (reply_of d, emit m1 w [EvRecv 1 YMODEM_WAIT_PACKET_TIMEOUT_MS d]) /\
    send_fin_null_packet m
      = (YMODEM_ERR_NONE,
         with_ctx (emit m1 w [EvRecv 1 YMODEM_WAIT_PACKET_TIMEOUT_MS d])
                  (set_stage YMODEM_STAGE_FINISHED (m_ctx m1))).
Proof.
  intros Hbuf m0 Hsend.
  destruct (receive_byte_run m1 YMODEM_WAIT_PACKET_TIMEOUT_MS) as (d & w & E).
  exists d, w. split; [exact E |].
  unfold send_fin_null_packet.
  unfold bind at 1. unfold get_ctx at 1.
  unfold bind at 1. unfold modify_ctx at 1.
  unfold bind at 1. unfold get_ctx at 1.
  cbn [m_ctx m_info m_world m_trace buffer set_buffer].
  replace (slice (memset (buffer (m_ctx m)) 3 0 YMODEM_SOH_DATA_SIZE) 3
                 YMODEM_SOH_DATA_SIZE)
    with (repeat 0 128).
  2:{ symmetry. apply (memset_slice (buffer (m_ctx m)) 3 0 128); try lia.
      unfold buffer_size, YMODEM_MAX_PACKET_SIZE, YMODEM_STX_PACKET_SIZE,
             YMODEM_STX_DATA_SIZE in Hbuf. lia. }
  unfold bind at 1. fold (with_ctx m (set_buffer (memset (buffer (m_ctx m)) 3 0
                                           YMODEM_SOH_DATA_SIZE) (m_ctx m))).
  fold m0. rewrite Hsend.
  change (negb (YMODEM_ERR_NONE =? YMODEM_ERR_NONE)) with false. cbv iota.
  unfold bind at 1. rewrite E.
  reflexivity.
Qed.

(** That code is what [_ymodem_do_send_fin] ends with, once the two
    EOTs have been answered and the wait for 'C' is over. *)
Lemma do_send_fin_null_packet (fuel : nat) (k1 k2 : Z) (g : bool) m m1 m2 m3 :
  send_fin_first_eot (Z.to_nat YMODEM_MAX_ERRORS) 0
      (with_ctx m (set_stage YMODEM_STAGE_FINISHING (m_ctx m))) = (inl k1, m1) ->
  k1 < YMODEM_MAX_ERRORS ->
  send_fin_second_eot (Z.to_nat YMODEM_MAX_ERRORS) 0 m1 = (inl k2, m2) ->
  k2 < YMODEM_MAX_ERRORS ->
  send_fin_wait_c fuel 0 m2 = (Some g, m3) ->
  _ymodem_do_send_fin fuel m
    = (Some (fst (send_fin_null_packet m3)), snd (send_fin_null_packet m3)).
Proof.
  intros E1 H1 E2 H2 E3. unfold _ymodem_do_send_fin.
  unfold bind at 1. unfold modify_ctx at 1.
  fold (with_ctx m (set_stage YMODEM_STAGE_FINISHING (m_ctx m))).
  unfold bind at 1. rewrite E1.
  assert (G1 : (k1 >=? YMODEM_MAX_ERRORS) = false)
    by (rewrite Z.geb_leb; apply Z.leb_gt; exact H1).
  rewrite G1. unfold bind at 1. rewrite E2.
  assert (G2 : (k2 >=? YMODEM_MAX_ERRORS) = false)
    by (rewrite Z.geb_leb; apply Z.leb_gt; exact H2).
  rewrite G2. unfold bind at 1. rewrite E3.
  unfold bind at 1. destruct (send_fin_null_packet m3). reflexivity.
Qed.

(** ** Relations kept by the parts of a transfer *)

Section Keeps.

Variable R : machine World -> machine World -> Prop.
Hypothesis R_refl : forall m, R m m.
Hypothesis R_trans : forall m1 m2 m3, R m1 m2 -> R m2 m3 -> R m1 m3.

Lemma keeps_ret {A : Type} (a : A) : keeps R (ret a).
Proof. intros m. apply R_refl. Qed.

Lemma keeps_get_ctx : keeps R get_ctx.
Proof. intros m. apply R_refl. Qed.

Lemma keeps_bind {A B : Type} (c : M World A) (k : A -> M World B) :
  keeps R c -> (forall a, keeps R (k a)) -> keeps R (bind c k).
Proof.
  intros Hc Hk m. unfold bind. specialize (Hc m).
  destruct (c m) as [a m1]. cbn [snd] in Hc.
  eapply R_trans; [exact Hc | apply Hk].
Qed.

End Keeps.

Lemma keeps_run {A : Type} (R : machine World -> machine World -> Prop)
    (c : M World A) m (a : A) m' :
  keeps R c -> c m = (a, m') -> R m m'.
Proof. intros H E. specialize (H m). now rewrite E in H. Qed.

(** *** Calls that deliver no CAN *)

















(** In a list that ends with [y], an element followed by others is
    before [y]. *)
Lemma in_before_last {A : Type} (a suf pre : list A) (x y : A) :
  a ++ x :: suf = pre ++ [y] -> suf = [] \/ In x pre.
Proof.
  intros E. destruct (exists_last (l := x :: suf)) as (l' & z & El).
  { discriminate. }
  destruct suf as [|s suf]; [now left |]. right.
  rewrite El, app_assoc in E. apply app_inj_tail in E. destruct E as [<- _].
  destruct l' as [|x' l']; [discriminate |].
  injection El as -> _. apply in_or_app. right. now left.
Qed.


(** *** Sequence number and stage *)

Lemma same_packet_refl m : same_packet m m.
Proof. now repeat split. Qed.

Lemma same_packet_trans m1 m2 m3 :
  same_packet m1 m2 -> same_packet m2 m3 -> same_packet m1 m3.
Proof. intros (A & B & C) (D & E & F). repeat split; congruence. Qed.

Lemma same_packet_callback {A : Type}
    (f : ymodem_callbacks_t World -> World -> A * World) (ev : A -> event) :
  keeps same_packet (callback f ev).
Proof.
  intros m. unfold callback.
  destruct (f (callbacks (m_ctx m)) (m_world m)) as [a w]. now repeat split.
Qed.

Lemma send_packet_same_packet (code seq : Z) (data : list Z) :
  keeps same_packet (_ymodem_send_packet (World := World) code seq data).
Proof.
  unfold _ymodem_send_packet.
  repeat lazymatch goal with
    | |- keeps _ (ret _) => apply (keeps_ret same_packet same_packet_refl)
    | |- keeps _ get_ctx => apply (keeps_get_ctx same_packet same_packet_refl)
    | |- keeps _ (modify_ctx _) => intros m; now repeat split
    | |- keeps _ (ymodem_send_bytes _) => apply same_packet_callback
    | |- keeps _ (bind _ _) =>
        apply (keeps_bind same_packet same_packet_trans); [| intro]
    | |- keeps _ (if ?b then _ else _) => destruct b
    | |- keeps _ (let _ := _ in _) => cbv zeta
    end.
Qed.

Lemma receive_byte_same_packet (t : Z) :
  keeps same_packet (ymodem_receive_byte (World := World) t).
Proof.
  intros m. destruct (receive_byte_run m t) as (d & w & E). rewrite E.
  now repeat split.
Qed.

(** ** Receiver: what the transport adapter leaves alone *)

Lemma written_bytes_app (a b : list event) :
  written_bytes (a ++ b) = written_bytes a + written_bytes b.
Proof.
  induction a as [|e a IH]; cbn [app written_bytes]; [reflexivity |].
  destruct e; rewrite IH; lia.
Qed.

Lemma written_bytes_nonneg (t : list event) : 0 <= written_bytes t.
Proof.
  induction t as [|e t IH]; cbn [written_bytes]; [lia |].
  destruct e; try assumption. pose proof (len_nonneg data). lia.
Qed.

Lemma set_buffer_id ctx : set_buffer (buffer ctx) ctx = ctx.
Proof. now destruct ctx. Qed.

Lemma same_but_buffer_refl m : same_but_buffer m m.
Proof.
  exists (buffer (m_ctx m)), (m_world m), []. split; [| reflexivity].
  rewrite set_buffer_id, with_ctx_id, emit_nil. reflexivity.
Qed.

Lemma same_but_buffer_trans m1 m2 m3 :
  same_but_buffer m1 m2 -> same_but_buffer m2 m3 -> same_but_buffer m1 m3.
Proof.
  intros (b1 & w1 & e1 & -> & H1) (b2 & w2 & e2 & -> & H2).
  exists b2, w2, (e1 ++ e2). split.
  - unfold emit, with_ctx. cbn. now rewrite app_assoc.
  - rewrite written_bytes_app. lia.
Qed.

Lemma same_but_buffer_file m m' : same_but_buffer m m' -> same_file m m'.
Proof.
  intros (b & w & e & -> & H). repeat split. cbn.
  rewrite written_bytes_app. lia.
Qed.

Lemma same_but_buffer_error_count m m' :
  same_but_buffer m m' -> error_count (m_ctx m') = error_count (m_ctx m).
Proof. now intros (b & w & e & -> & H). Qed.

Lemma same_but_buffer_written m m' :
  same_but_buffer m m' ->
  written_bytes (m_trace m') = written_bytes (m_trace m).
Proof. intros H. apply same_but_buffer_file in H. apply H. Qed.

Lemma same_but_buffer_set_buffer (buf : list Z) m :
  same_but_buffer m (with_ctx m (set_buffer buf (m_ctx m))).
Proof.
  exists buf, (m_world m), []. split; [| reflexivity].
  unfold emit, with_ctx. cbn. now rewrite app_nil_r.
Qed.

Lemma same_but_buffer_emit m (w : World) (evs : list event) :
  written_bytes evs = 0 -> same_but_buffer m (emit m w evs).
Proof.
  intros H. exists (buffer (m_ctx m)), w, evs. split; [| exact H].
  now rewrite set_buffer_id, with_ctx_id.
Qed.

Lemma receive_byte_same_but_buffer (t : Z) :
  keeps same_but_buffer (ymodem_receive_byte (World := World) t).
Proof.
  intros m. destruct (receive_byte_run m t) as (d & w & E). rewrite E.
  now apply same_but_buffer_emit.
Qed.

Lemma send_byte_same_but_buffer (b : Z) :
  keeps same_but_buffer (ymodem_send_byte (World := World) b).
Proof.
  intros m. destruct (send_byte_run m b) as (s & w & E). rewrite E.
  now apply same_but_buffer_emit.
Qed.

Lemma receive_bytes_same_but_buffer (n t : Z) :
  keeps same_but_buffer (ymodem_receive_bytes (World := World) n t).
Proof.
  intros m. unfold ymodem_receive_bytes, callback.
  destruct (cb_comm_receive (callbacks (m_ctx m)) n t (m_world m)) as [d w].
  now apply same_but_buffer_emit.
Qed.

Ltac same_but_buffer_tac :=
  repeat lazymatch goal with
    | |- keeps _ (ret _) => apply (keeps_ret same_but_buffer same_but_buffer_refl)
    | |- keeps _ get_ctx => apply (keeps_get_ctx same_but_buffer same_but_buffer_refl)
    | |- keeps _ (modify_ctx (set_buffer _)) =>
        intros ?; apply same_but_buffer_set_buffer
    | |- keeps _ (ymodem_receive_byte _) => apply receive_byte_same_but_buffer
    | |- keeps _ (ymodem_receive_bytes _ _) => apply receive_bytes_same_but_buffer
    | |- keeps _ (ymodem_send_byte _) => apply send_byte_same_but_buffer
    | |- keeps _ (bind _ _) =>
        apply (keeps_bind same_but_buffer same_but_buffer_trans); [| intro]
    | |- keeps _ (if ?b then _ else _) => destruct b
    | |- keeps _ (match ?x with _ => _ end) => destruct x
    | |- keeps _ (let _ := _ in _) => cbv zeta
    end.

Lemma receive_packet_same_but_buffer :
  keeps same_but_buffer (_ymodem_receive_packet (World := World)).
Proof. unfold _ymodem_receive_packet. same_but_buffer_tac. Qed.

(** What [_ymodem_receive_packet] can return: a packet accepted with
    128 or 1024 bytes of data, or one of four errors. *)
Lemma receive_packet_result m (r seq n : Z) m' :
  _ymodem_receive_packet m = ((r, seq, n), m') ->
  (r = YMODEM_ERR_NONE /\
   (n = YMODEM_SOH_DATA_SIZE \/ n = YMODEM_STX_DATA_SIZE) /\
   (len (buffer (m_ctx m)) >= 1 -> 3 + n + 2 <= len (buffer (m_ctx m')))) \/
  r = YMODEM_ERR_CODE \/ r = YMODEM_ERR_TMO \/
  r = YMODEM_ERR_SEQ \/ r = YMODEM_ERR_CRC.
Proof.
  unfold _ymodem_receive_packet. unfold bind at 1. unfold get_ctx at 1.
  cbv zeta.
  assert (rest : forall ps ds,
    (ds = YMODEM_SOH_DATA_SIZE \/ ds = YMODEM_STX_DATA_SIZE) ->
    ps = 3 + ds + 2 ->
    (data <- ymodem_receive_bytes (ps - 1) YMODEM_WAIT_PACKET_TIMEOUT_MS ;;
     modify_ctx (set_buffer (memcpy (buffer (m_ctx m)) 1 data)) ;;
     (if negb (len data =? ps - 1)
      then ret (YMODEM_ERR_TMO, 0, ds)
      else
        if negb (load (memcpy (buffer (m_ctx m)) 1 data) 2
                 =? u8 (Z.lnot (load (memcpy (buffer (m_ctx m)) 1 data) 1)))
        then ret (YMODEM_ERR_SEQ, load (memcpy (buffer (m_ctx m)) 1 data) 1, ds)
        else
          if negb (u16 (Z.lor (u16 (Z.shiftl (load (memcpy (buffer (m_ctx m)) 1 data) (ps - 2)) 8))
                              (load (memcpy (buffer (m_ctx m)) 1 data) (ps - 1)))
                   =? ymodem_calc_crc16 (slice (memcpy (buffer (m_ctx m)) 1 data) 3 ds))
          then ret (YMODEM_ERR_CRC, load (memcpy (buffer (m_ctx m)) 1 data) 1, ds)
          else ret (YMODEM_ERR_NONE, load (memcpy (buffer (m_ctx m)) 1 data) 1, ds))) m
    = ((r, seq, n), m') ->
    (r = YMODEM_ERR_NONE /\
     (n = YMODEM_SOH_DATA_SIZE \/ n = YMODEM_STX_DATA_SIZE) /\
     (len (buffer (m_ctx m)) >= 1 -> 3 + n + 2 <= len (buffer (m_ctx m')))) \/
    r = YMODEM_ERR_CODE \/ r = YMODEM_ERR_TMO \/
    r = YMODEM_ERR_SEQ \/ r = YMODEM_ERR_CRC).
  { intros ps ds Hds Hps. unfold bind at 1.
    destruct (ymodem_receive_bytes (ps - 1) YMODEM_WAIT_PACKET_TIMEOUT_MS m)
      as [data m1].
    unfold bind at 1. unfold modify_ctx at 1.
    destruct (len data =? ps - 1) eqn:El; cbn [negb].
    2:{ intros [= <- _ _ _]. auto. }
    destruct (negb _).
    { intros [= <- _ _ _]. auto. }
    destruct (negb _).
    { intros [= <- _ _ _]. auto. }
    intros [= <- _ <- <-]. left. split; [reflexivity |]. split; [exact Hds |].
    cbn [m_ctx buffer set_buffer]. intros Hb. apply Z.eqb_eq in El.
    unfold memcpy, len in *. rewrite !length_app, length_firstn.
    change (Z.to_nat 1) with 1%nat. lia. }
  destruct (load (buffer (m_ctx m)) 0 =? YMODEM_CODE_SOH).
  { apply rest; [now left | reflexivity]. }
  destruct (load (buffer (m_ctx m)) 0 =? YMODEM_CODE_STX).
  { apply rest; [now right | reflexivity]. }
  intros [= <- _ _ _]. auto.
Qed.

(** ** Receiver: packets that fail validation *)

(** The block that counts an error, entered with at most
    YMODEM_MAX_ERRORS errors counted. *)
Lemma recv_trans_error_run m (err es tr : Z) :
  0 <= error_count (m_ctx m) <= YMODEM_MAX_ERRORS ->
  let k := error_count (m_ctx m) + 1 in
  let mk := with_ctx m (set_error_count k (m_ctx m)) in
  (k > YMODEM_MAX_ERRORS ->
   recv_trans_error err es tr m = (Return err, mk)) /\
  (k <= YMODEM_MAX_ERRORS ->
   exists sent w,
     recv_trans_error err es tr m
       = (if sent =? 1 then Continue es tr else Return YMODEM_ERR_CODE,
          emit mk w [EvSend [YMODEM_CODE_NAK] sent])).
Proof.
  intros Hc k mk.
  assert (Ek : u8 (error_count (m_ctx m) + 1) = k).
  { apply u8_small. unfold YMODEM_MAX_ERRORS in Hc. lia. }
  assert (R : recv_trans_error err es tr m
              = (if k >? YMODEM_MAX_ERRORS then ret (Return err)
                 else
                   ok <- ymodem_send_byte YMODEM_CODE_NAK ;;
                   if negb ok then ret (Return YMODEM_ERR_CODE)
                   else ret (Continue es tr)) mk).
  { unfold recv_trans_error. unfold bind at 1. unfold get_ctx at 1. cbv zeta.
    unfold bind at 1. unfold modify_ctx at 1. now rewrite Ek. }
  rewrite R. clearbody mk. clearbody k.
  split; intros Hk.
  - apply Z.gtb_gt in Hk. now rewrite Hk.
  - assert (Hk' : (k >? YMODEM_MAX_ERRORS) = false).
    { rewrite Z.gtb_ltb. apply Z.ltb_ge. exact Hk. }
    rewrite Hk'. unfold bind at 1.
    destruct (send_byte_run mk YMODEM_CODE_NAK) as (sent & w & E).
    rewrite E. exists sent, w.
    change (u8 YMODEM_CODE_NAK) with YMODEM_CODE_NAK.
    destruct (sent =? 1); reflexivity.
Qed.

(** The loop keeps the error count between 0 and YMODEM_MAX_ERRORS:
    [_ymodem_do_trans] starts it at 0, and a round that is followed by
    another leaves it at most YMODEM_MAX_ERRORS. *)
Lemma recv_trans_round_error_count m (es tr es' tr' : Z) m' :
  0 <= error_count (m_ctx m) <= YMODEM_MAX_ERRORS ->
  recv_trans_round es tr m = (Continue es' tr', m') ->
  0 <= error_count (m_ctx m') <= YMODEM_MAX_ERRORS.
Proof.
  intros Hc. unfold recv_trans_round. unfold bind at 1.
  destruct (ymodem_receive_byte YMODEM_WAIT_PACKET_TIMEOUT_MS m) as [h m1] eqn:E1.
  pose proof (keeps_run _ _ _ _ _ (receive_byte_same_but_buffer _) E1) as F1.
  apply same_but_buffer_error_count in F1.
  destruct (h <? 0); [discriminate |].
  cbv zeta. unfold bind at 1. unfold get_ctx at 1.
  unfold bind at 1. unfold modify_ctx at 1.
  set (m1' := mk_machine _ _ _ _).
  assert (F1' : error_count (m_ctx m1') = error_count (m_ctx m))
    by (subst m1'; cbn; exact F1).
  clearbody m1'. clear E1 F1 m1.
  destruct (h =? YMODEM_CODE_EOT); [discriminate |].
  assert (Herr : forall err m2,
            error_count (m_ctx m2) = error_count (m_ctx m) ->
            recv_trans_error err es tr m2 = (Continue es' tr', m') ->
            0 <= error_count (m_ctx m') <= YMODEM_MAX_ERRORS).
  { intros err m2 F2 E.
    destruct (recv_trans_error_run m2 err es tr) as (A & B);
      [rewrite F2; exact Hc |].
    destruct (Z_gt_le_dec (error_count (m_ctx m2) + 1) YMODEM_MAX_ERRORS) as [G | G].
    - rewrite (A G) in E. discriminate.
    - destruct (B G) as (sent & w & E'). rewrite E' in E.
      apply (f_equal (fun p => error_count (m_ctx (snd p)))) in E.
      cbn in E. rewrite <- E. lia. }
  destruct (negb (h =? YMODEM_CODE_SOH) && negb (h =? YMODEM_CODE_STX)).
  { now apply Herr. }
  unfold bind at 1.
  destruct (_ymodem_receive_packet m1') as [[[r seq] n] m2] eqn:E2.
  pose proof (keeps_run _ _ _ _ _ receive_packet_same_but_buffer E2) as F2.
  apply same_but_buffer_error_count in F2.
  destruct (negb (r =? YMODEM_ERR_NONE)).
  { apply Herr. congruence. }
  destruct (negb (seq =? es)).
  { apply Herr. congruence. }
  clear E2.
  unfold bind at 1. unfold modify_ctx at 1.
  unfold bind at 1. unfold get_ctx at 1.
  cbn [m_ctx m_info m_world m_trace file_handle file_size buffer set_error_count].
  cbv zeta.
  assert (Hack : forall t m3,
            error_count (m_ctx m3) = 0 ->
            (ok <- ymodem_send_byte YMODEM_CODE_ACK ;;
             if negb ok then ret (Return YMODEM_ERR_CODE)
             else ret (Continue (Z.land (es + 1) 0xFF) t)) m3
              = (Continue es' tr', m') ->
            0 <= error_count (m_ctx m') <= YMODEM_MAX_ERRORS).
  { intros t m3 F3. unfold bind at 1.
    destruct (send_byte_run m3 YMODEM_CODE_ACK) as (sent & w & E). rewrite E.
    destruct (sent =? 1); cbn [negb]; [| discriminate].
    intros E'. apply (f_equal (fun p => error_count (m_ctx (snd p)))) in E'.
    cbn in E'. rewrite <- E', F3. unfold YMODEM_MAX_ERRORS. lia. }
  destruct (negb (file_handle (m_ctx m2) =? NULL)).
  2:{ apply Hack. reflexivity. }
  unfold bind at 1. unfold callback at 1.
  cbn [m_ctx m_info m_world m_trace callbacks set_error_count].
  destruct (cb_file_write _ _ _ _) as [wr w]. cbv beta iota.
  destruct (negb (usize wr =? _)); [discriminate |].
  apply Hack. reflexivity.
Qed.


(** ** Receiver: what goes to the file *)

Lemma same_file_refl m : same_file m m.
Proof. now repeat split. Qed.

Lemma same_file_trans m1 m2 m3 :
  same_file m1 m2 -> same_file m2 m3 -> same_file m1 m3.
Proof. intros (A & B & C) (D & E & F). repeat split; congruence. Qed.

Lemma slice_len_le (buf : list Z) (off n : Z) : 0 <= n -> len (slice buf off n) <= n.
Proof. intros H. unfold slice, len. rewrite length_firstn. lia. Qed.

Lemma slice_len (buf : list Z) (off n : Z) :
  0 <= off -> 0 <= n -> off + n <= len buf -> len (slice buf off n) = n.
Proof.
  intros H0 H1 H. unfold slice, len in *.
  rewrite length_firstn, length_skipn. lia.
Qed.

(** The number of bytes written for a packet, when the announced size
    is positive and the bytes received so far do not exceed it. *)
Lemma bytes_to_write_spec (S tr n : Z) :
  0 < S < 2 ^ 31 -> 0 <= tr <= S -> 0 <= n <= 1024 ->
  bytes_to_write S tr n = (if tr + n >=? S then S - tr else n) /\
  0 <= bytes_to_write S tr n <= n /\
  tr + bytes_to_write S tr n <= S.
Proof.
  intros HS Htr Hn. unfold bytes_to_write, usize.
  assert (HS' : (S >? 0) = true) by (apply Z.gtb_gt; lia).
  rewrite HS'. cbn [andb].
  rewrite (Z.mod_small (tr + n)), (Z.mod_small S), (Z.mod_small (S - tr)) by lia.
  destruct (tr + n >=? S) eqn:E.
  - apply Z.geb_ge in E. lia.
  - rewrite Z.geb_leb in E. apply Z.leb_gt in E. lia.
Qed.

(** The error block writes nothing and keeps the state of the loop. *)
Lemma recv_trans_error_inv m (err es tr : Z) (s : loop_step) m' :
  recv_trans_error err es tr m = (s, m') ->
  same_file m m' /\ (s = Continue es tr \/ exists e, s = Return e).
Proof.
  unfold recv_trans_error. unfold bind at 1. unfold get_ctx at 1. cbv zeta.
  unfold bind at 1. unfold modify_ctx at 1.
  destruct (_ >? _).
  { intros [= <- <-]. split; [now repeat split | eauto]. }
  unfold bind at 1.
  match goal with |- context [ymodem_send_byte ?b ?x] =>
    destruct (send_byte_run x b) as (sent & w & E); rewrite E end.
  destruct (sent =? 1); cbn [negb]; intros [= <- <-];
    (split; [repeat split; cbn; rewrite written_bytes_app; cbn; lia | eauto]).
Qed.

(** One round of the data loop keeps the announced size, and the bytes
    it asks the file to take stay within it. *)
Lemma recv_trans_round_inv m (es tr : Z) (s : loop_step) m' (S W : Z) :
  0 < S < 2 ^ 31 ->
  file_size (m_ctx m) = S ->
  0 <= tr <= S ->
  written_bytes (m_trace m) <= W + tr ->
  recv_trans_round es tr m = (s, m') ->
  file_size (m_ctx m') = S /\
  match s with
  | Continue _ tr' => 0 <= tr' <= S /\ written_bytes (m_trace m') <= W + tr'
  | Return _ => written_bytes (m_trace m') <= W + S
  end.
Proof.
  intros HS Hfs Htr HW.
  unfold recv_trans_round. unfold bind at 1.
  destruct (ymodem_receive_byte YMODEM_WAIT_PACKET_TIMEOUT_MS m) as [h m1] eqn:E1.
  pose proof (keeps_run _ _ _ _ _ (receive_byte_same_but_buffer _) E1) as F1.
  apply same_but_buffer_file in F1. destruct F1 as (_ & F1 & G1).
  destruct (h <? 0).
  { intros [= <- <-]. split; [congruence | lia]. }
  cbv zeta. unfold bind at 1. unfold get_ctx at 1.
  unfold bind at 1. unfold modify_ctx at 1.
  set (m1' := mk_machine _ _ _ _).
  assert (F1' : file_size (m_ctx m1') = S) by (subst m1'; cbn; congruence).
  assert (G1' : written_bytes (m_trace m1') <= W + tr) by (subst m1'; cbn; lia).
  clearbody m1'. clear E1 F1 G1 m1 Hfs HW m.
  destruct (h =? YMODEM_CODE_EOT).
  { intros [= <- <-]. split; [congruence | lia]. }
  assert (Herr : forall err m2,
            file_size (m_ctx m2) = S ->
            written_bytes (m_trace m2) <= W + tr ->
            recv_trans_error err es tr m2 = (s, m') ->
            file_size (m_ctx m') = S /\
            match s with
            | Continue _ tr' => 0 <= tr' <= S /\ written_bytes (m_trace m') <= W + tr'
            | Return _ => written_bytes (m_trace m') <= W + S
            end).
  { intros err m2 F2 G2 E. apply recv_trans_error_inv in E.
    destruct E as ((_ & F & G) & [-> | (e & ->)]); split; try congruence; lia. }
  destruct (negb (h =? YMODEM_CODE_SOH) && negb (h =? YMODEM_CODE_STX)).
  { now apply Herr. }
  unfold bind at 1.
  destruct (_ymodem_receive_packet m1') as [[[r seq] n] m2] eqn:E2.
  pose proof (keeps_run _ _ _ _ _ receive_packet_same_but_buffer E2) as F2.
  apply same_but_buffer_file in F2. destruct F2 as (_ & F2 & G2).
  apply receive_packet_result in E2.
  destruct (r =? YMODEM_ERR_NONE) eqn:Er; cbn [negb].
  2:{ apply Herr; [congruence | lia]. }
  destruct (negb (seq =? es)).
  { apply Herr; [congruence | lia]. }
  assert (Hn : 0 <= n <= 1024).
  { apply Z.eqb_eq in Er.
    destruct E2 as [(_ & [-> | ->] & _) | [-> | [-> | [-> | ->]]]];
      try discriminate; unfold YMODEM_SOH_DATA_SIZE, YMODEM_STX_DATA_SIZE; lia. }
  clear E2 Er.
  unfold bind at 1. unfold modify_ctx at 1.
  unfold bind at 1. unfold get_ctx at 1.
  cbn [m_ctx m_info m_world m_trace file_handle file_size buffer set_error_count].
  cbv zeta.
  assert (Hack : forall tr' m3,
            file_size (m_ctx m3) = S -> 0 <= tr' <= S ->
            written_bytes (m_trace m3) <= W + tr' ->
            (ok <- ymodem_send_byte YMODEM_CODE_ACK ;;
             if negb ok then ret (Return YMODEM_ERR_CODE)
             else ret (Continue (Z.land (es + 1) 0xFF) tr')) m3 = (s, m') ->
            file_size (m_ctx m') = S /\
            match s with
            | Continue _ tr' => 0 <= tr' <= S /\ written_bytes (m_trace m') <= W + tr'
            | Return _ => written_bytes (m_trace m') <= W + S
            end).
  { intros tr' m3 F3 Htr' G3. unfold bind at 1.
    destruct (send_byte_run m3 YMODEM_CODE_ACK) as (sent & w & E). rewrite E.
    destruct (sent =? 1); cbn [negb]; intros [= <- <-];
      (split; [exact F3 |]); cbn; rewrite written_bytes_app; cbn; lia. }
  destruct (negb (file_handle (m_ctx m2) =? NULL)).
  2:{ apply Hack; cbn; try congruence; lia. }
  rewrite F2, F1'.
  destruct (bytes_to_write_spec S tr n HS Htr Hn) as (_ & Hk & Hk').
  set (k := bytes_to_write S tr n) in *.
  unfold bind at 1. unfold callback at 1.
  cbn [m_ctx m_info m_world m_trace callbacks set_error_count].
  destruct (cb_file_write (callbacks (m_ctx m2)) (file_handle (m_ctx m2))
              (slice (buffer (m_ctx m2)) 3 k) (m_world m2)) as [wr w].
  cbv beta iota.
  pose proof (slice_len_le (buffer (m_ctx m2)) 3 k (proj1 Hk)) as Hs.
  destruct (usize wr =? k) eqn:Ew; cbn [negb].
  2:{ intros [= <- <-]. cbn. split; [congruence |].
      rewrite written_bytes_app. cbn [written_bytes]. lia. }
  apply Z.eqb_eq in Ew. rewrite Ew.
  assert (Eu : usize (tr + k) = tr + k) by (apply Z.mod_small; lia).
  rewrite Eu.
  apply Hack; cbn; try congruence; try lia.
  rewrite written_bytes_app. cbn [written_bytes]. lia.
Qed.

Lemma recv_trans_loop_inv (fuel : nat) m (es tr : Z) (r : option Z) m' (S W : Z) :
  0 < S < 2 ^ 31 ->
  file_size (m_ctx m) = S ->
  0 <= tr <= S ->
  written_bytes (m_trace m) <= W + tr ->
  recv_trans_loop fuel es tr m = (r, m') ->
  written_bytes (m_trace m') <= W + S.
Proof.
  intros HS. revert m es tr.
  induction fuel as [|fuel IH]; intros m es tr Hfs Htr HW; cbn [recv_trans_loop].
  - intros [= <- <-]. lia.
  - unfold bind at 1.
    destruct (recv_trans_round es tr m) as [s m1] eqn:E1.
    apply (recv_trans_round_inv _ _ _ _ _ S W HS Hfs Htr HW) in E1.
    destruct E1 as (F1 & H1). destruct s as [e | es' tr'].
    + now intros [= <- <-].
    + destruct H1 as (Htr' & HW'). now apply IH.
Qed.

Lemma store_len_pos (buf : list Z) (i v : Z) : len (store buf i v) >= 1.
Proof.
  unfold store, memcpy, len. rewrite !length_app. cbn [length]. lia.
Qed.

(** ** Receiver: the handshake uses the line only *)

Lemma line_only_refl m : line_only m m.
Proof. split; [reflexivity |]. exists []. now rewrite app_nil_r. Qed.

Lemma line_only_trans m1 m2 m3 :
  line_only m1 m2 -> line_only m2 m3 -> line_only m1 m3.
Proof.
  intros (A & e1 & E1 & H1) (B & e2 & E2 & H2). split; [congruence |].
  exists (e1 ++ e2). split.
  - now rewrite E2, E1, app_assoc.
  - apply Forall_app. now split.
Qed.

Lemma same_but_buffer_comm_line_only m (buf : list Z) (w : World) (ev : event) :
  is_comm ev ->
  line_only m (emit (with_ctx m (set_buffer buf (m_ctx m))) w [ev]).
Proof. intros H. split; [reflexivity |]. exists [ev]. split; [reflexivity | auto]. Qed.

Lemma receive_byte_line_only (t : Z) :
  keeps line_only (ymodem_receive_byte (World := World) t).
Proof.
  intros m. destruct (receive_byte_run m t) as (d & w & E). rewrite E.
  split; [reflexivity |]. exists [EvRecv 1 t d].
  split; [reflexivity |]. repeat constructor.
Qed.

Lemma send_byte_line_only (b : Z) :
  keeps line_only (ymodem_send_byte (World := World) b).
Proof.
  intros m. destruct (send_byte_run m b) as (s & w & E). rewrite E.
  split; [reflexivity |]. exists [EvSend [u8 b] s].
  split; [reflexivity |]. repeat constructor.
Qed.

Lemma receive_bytes_line_only (n t : Z) :
  keeps line_only (ymodem_receive_bytes (World := World) n t).
Proof.
  intros m. unfold ymodem_receive_bytes, callback.
  destruct (cb_comm_receive (callbacks (m_ctx m)) n t (m_world m)) as [d w].
  split; [reflexivity |]. exists [EvRecv n t (map u8 d)].
  split; [reflexivity |]. repeat constructor.
Qed.

Lemma modify_line_only (f : ymodem_context_t World -> ymodem_context_t World) :
  (forall c, file_handle (f c) = file_handle c) ->
  keeps line_only (modify_ctx f).
Proof.
  intros H m. split; [apply H |]. exists []. cbn. now rewrite app_nil_r.
Qed.

Ltac line_only_tac :=
  repeat lazymatch goal with
    | |- keeps _ (ret _) => apply (keeps_ret line_only line_only_refl)
    | |- keeps _ get_ctx => apply (keeps_get_ctx line_only line_only_refl)
    | |- keeps _ (modify_ctx _) => apply modify_line_only; reflexivity
    | |- keeps _ (ymodem_receive_byte _) => apply receive_byte_line_only
    | |- keeps _ (ymodem_receive_bytes _ _) => apply receive_bytes_line_only
    | |- keeps _ (ymodem_send_byte _) => apply send_byte_line_only
    | |- keeps _ (bind _ _) =>
        apply (keeps_bind line_only line_only_trans); [| intro]
    | |- keeps _ (if ?b then _ else _) => destruct b
    | |- keeps _ (match ?x with _ => _ end) => destruct x
    | |- keeps _ (let _ := _ in _) => cbv zeta
    end.

Lemma receive_packet_line_only :
  keeps line_only (_ymodem_receive_packet (World := World)).
Proof. unfold _ymodem_receive_packet. line_only_tac. Qed.

Lemma recv_wait_header_line_only (n : nat) (i timeout_s : Z) :
  keeps line_only (recv_wait_header (World := World) n i timeout_s).
Proof.
  revert i. induction n as [|n IH]; intros i; cbn [recv_wait_header].
  - line_only_tac.
  - line_only_tac. apply IH.
Qed.

Lemma do_handshake_line_only (timeout_s : Z) :
  keeps line_only (_ymodem_do_handshake (World := World) timeout_s).
Proof.
  unfold _ymodem_do_handshake. line_only_tac.
  - apply recv_wait_header_line_only.
  - apply receive_packet_line_only.
Qed.

(** ** Receiver: the file name of packet 0 *)

(** The loop that measures the file name stops at the first NUL, and
    at 255 characters at the latest. *)
Lemma parse_name_len_spec (n : nat) (fname : list Z) (k : Z) :
  0 <= k ->
  let l := parse_name_len n fname k in
  k <= l <= k + Z.of_nat n /\
  (k <= 255 -> l <= 255) /\
  (forall i, k <= i < l -> load fname i <> 0) /\
  (l < k + Z.of_nat n -> l < 255 -> load fname l = 0).
Proof.
  revert k. induction n as [|n IH]; intros k Hk; cbn [parse_name_len].
  - cbv zeta. repeat split; try lia.
  - destruct (load fname k =? 0) eqn:E0; cbn [negb andb].
    + apply Z.eqb_eq in E0. cbv zeta. repeat split; try lia; auto.
    + destruct (k <? YMODEM_MAX_FILENAME_LENGTH - 1) eqn:Ek.
      * apply Z.ltb_lt in Ek. apply Z.eqb_neq in E0.
        unfold YMODEM_MAX_FILENAME_LENGTH in Ek.
        destruct (IH (k + 1) ltac:(lia)) as (A & B & C & D).
        cbv zeta. split; [lia |]. split; [lia |]. split.
        -- intros i Hi. destruct (Z.eq_dec i k) as [-> | Hne]; [exact E0 |].
           apply C. lia.
        -- intros H1 H2. apply D; lia.
      * apply Z.ltb_ge in Ek. unfold YMODEM_MAX_FILENAME_LENGTH in Ek.
        cbv zeta. repeat split; try lia.
Qed.

Lemma cstring_app_nul (name rest : list Z) :
  Forall (fun c => c <> 0) name -> cstring (name ++ 0 :: rest) = name.
Proof.
  induction 1 as [|c name Hc _ IH]; cbn [app cstring]; [reflexivity |].
  apply Z.eqb_neq in Hc. rewrite Hc. now f_equal.
Qed.

Lemma load_slice (buf : list Z) (n i : Z) :
  0 <= i < n -> load (slice buf 0 n) i = load buf i.
Proof.
  intros H. unfold load, slice. cbn [Z.to_nat skipn].
  revert buf n H. generalize dependent i.
  intros i buf n H.
  assert (Hi : (Z.to_nat i < Z.to_nat n)%nat) by lia.
  revert Hi. generalize (Z.to_nat n) (Z.to_nat i). clear.
  intros a b. revert a buf. induction b as [|b IH]; intros [|a] [|x buf] H;
    cbn [firstn nth]; try lia; try reflexivity.
  apply IH. lia.
Qed.

(** Copying a name of [l] characters and its NUL into a field. *)
Lemma copy_name (dst name : list Z) (l : Z) :
  len name = l -> l + 1 <= len dst ->
  Forall (fun c => c <> 0) name ->
  let dst' := store (memcpy dst 0 name) l 0 in
  len dst' = len dst /\ cstring dst' = name /\ load dst' l = 0.
Proof.
  intros Hl Hd Hn. cbv zeta.
  pose proof (len_nonneg name) as Hl0.
  destruct (split_list dst (length name)) as (a & b & -> & Ha).
  { unfold len in *. lia. }
  destruct b as [|b0 b].
  { unfold len in *. rewrite length_app in Hd. cbn [length] in Hd. lia. }
  assert (E1 : memcpy (a ++ b0 :: b) 0 name = name ++ b0 :: b).
  { apply (memcpy_app [] a (b0 :: b) name). exact Ha. }
  rewrite E1.
  assert (E2 : store (name ++ b0 :: b) l 0 = name ++ 0 :: b).
  { unfold store. rewrite <- Hl.
    apply (memcpy_app name [b0] b [0]). reflexivity. }
  rewrite E2. split; [| split].
  - unfold len. rewrite !length_app. cbn [length]. lia.
  - now apply cstring_app_nul.
  - rewrite (load_app_r name (0 :: b) l); [reflexivity | now symmetry].
Qed.

Lemma slice_nonzero (buf : list Z) (l : Z) :
  (forall i, 0 <= i < l -> load buf i <> 0) ->
  Forall (fun c => c <> 0) (slice buf 0 l).
Proof.
  intros H. apply Forall_forall. intros x Hx.
  destruct (In_nth _ _ 0 Hx) as (i & Hi & <-).
  assert (Hl : (i < Z.to_nat l)%nat).
  { unfold slice in Hi. rewrite length_firstn in Hi. lia. }
  pose proof (load_slice buf l (Z.of_nat i) ltac:(lia)) as E.
  unfold load in E at 1. rewrite Nat2Z.id in E. rewrite E. apply H. lia.
Qed.

Lemma len_skipn (buf : list Z) (n : nat) :
  len (skipn n buf) = len buf - Z.of_nat (Nat.min n (length buf)).
Proof. unfold len. rewrite length_skipn. lia. Qed.

(** C10: with a packet 0 in a buffer of at least
    YMODEM_MAX_PACKET_SIZE bytes, whatever its payload (the bytes from
    offset 3 on), [_ymodem_parse_file_info] stores in the context and
    in the caller's file-info struct the same NUL-terminated name: the
    bytes from the start of the payload up to its first NUL, cut at 255
    bytes when no NUL comes before.  The two 256-byte fields keep their
    size: nothing is written past their end.  When the first byte of
    the payload is NUL the parser returns YMODEM_ERR_FILE and changes
    nothing, and [ymodem_receive_file] returns YMODEM_ERR_FILE in the
    state the handshake left, having called only the transport: no
    file is opened. *)
Theorem parse_file_info_name m :
  YMODEM_MAX_PACKET_SIZE <= buffer_size (m_ctx m) ->
  len (filename (m_ctx m)) = YMODEM_MAX_FILENAME_LENGTH ->
  len (fi_filename (m_info m)) = YMODEM_MAX_FILENAME_LENGTH ->
  let payload := skipn 3 (buffer (m_ctx m)) in
  (load payload 0 <> 0 ->
   exists (l : Z) m',
     _ymodem_parse_file_info m = (YMODEM_ERR_NONE, m') /\
     1 <= l <= 255 /\
     (forall i, 0 <= i < l -> load payload i <> 0) /\
     (l < 255 -> load payload l = 0) /\
     len (filename (m_ctx m')) = YMODEM_MAX_FILENAME_LENGTH /\
     len (fi_filename (m_info m')) = YMODEM_MAX_FILENAME_LENGTH /\
     cstring (filename (m_ctx m')) = slice payload 0 l /\
     cstring (fi_filename (m_info m')) = slice payload 0 l /\
     len (slice payload 0 l) = l /\
     load (filename (m_ctx m')) l = 0 /\
     load (fi_filename (m_info m')) l = 0 /\
     m_trace m' = m_trace m)
  /\
  (load payload 0 = 0 ->
   _ymodem_parse_file_info m = (YMODEM_ERR_FILE, m) /\
   forall (fuel : nat) (t : Z) m0,
     _ymodem_do_handshake t m0 = (YMODEM_ERR_NONE, m) ->
     ymodem_receive_file fuel t m0 = (Some YMODEM_ERR_FILE, m) /\
     exists evs, m_trace m = m_trace m0 ++ evs /\ Forall is_comm evs).
Proof.
  intros Hbuf Hfn Hfi payload. split.
  - intros H0.
    pose proof (parse_name_len_spec
                  (Z.to_nat (YMODEM_MAX_FILENAME_LENGTH - 1)) payload 0 ltac:(lia))
      as Hspec.
    cbv zeta in Hspec.
    set (l := parse_name_len (Z.to_nat (YMODEM_MAX_FILENAME_LENGTH - 1)) payload 0)
      in *.
    change (Z.of_nat (Z.to_nat (YMODEM_MAX_FILENAME_LENGTH - 1))) with 255 in Hspec.
    destruct Hspec as (A & B & C & D).
    specialize (B ltac:(lia)).
    assert (Hl1 : 1 <= l).
    { destruct (Z.eq_dec l 0) as [E | E]; [| lia].
      exfalso. apply H0. specialize (D ltac:(lia) ltac:(lia)).
      now rewrite E in D. }
    assert (Hpl : 1026 <= len payload).
    { unfold payload. rewrite len_skipn.
      unfold buffer_size, YMODEM_MAX_PACKET_SIZE, YMODEM_STX_PACKET_SIZE,
             YMODEM_STX_DATA_SIZE, len in *. lia. }
    assert (Hname : len (slice payload 0 l) = l) by (apply slice_len; lia).
    assert (Hnz : Forall (fun c => c <> 0) (slice payload 0 l))
      by (apply slice_nonzero; intros i Hi; apply C; lia).
    destruct (copy_name (filename (m_ctx m)) (slice payload 0 l) l Hname
                ltac:(unfold YMODEM_MAX_FILENAME_LENGTH in Hfn; lia) Hnz)
      as (L1 & S1 & N1).
    destruct (copy_name (fi_filename (m_info m)) (slice payload 0 l) l Hname
                ltac:(unfold YMODEM_MAX_FILENAME_LENGTH in Hfi; lia) Hnz)
      as (L2 & S2 & N2).
    exists l. eexists. split.
    { unfold _ymodem_parse_file_info. unfold bind at 1. unfold get_ctx at 1.
      cbv zeta. fold payload.
      apply Z.eqb_neq in H0. rewrite H0. fold l.
      assert (E0 : (l =? 0) = false) by (apply Z.eqb_neq; lia).
      rewrite E0.
      assert (E1 : (l >=? YMODEM_MAX_FILENAME_LENGTH) = false).
      { rewrite Z.geb_leb. apply Z.leb_gt. unfold YMODEM_MAX_FILENAME_LENGTH. lia. }
      rewrite E1.
      unfold bind at 1. unfold modify_ctx at 1. reflexivity. }
    cbn [m_ctx m_info m_trace filename fi_filename set_file_size set_filename].
    split; [lia |]. split; [exact C |]. split; [intros; apply D; lia |].
    split; [congruence |]. split; [congruence |].
    split; [exact S1 |]. split; [exact S2 |]. split; [exact Hname |].
    split; [exact N1 |]. split; [exact N2 | reflexivity].
  - intros H0.
    assert (P : _ymodem_parse_file_info m = (YMODEM_ERR_FILE, m)).
    { unfold _ymodem_parse_file_info. unfold bind at 1. unfold get_ctx at 1.
      cbv zeta. fold payload. now rewrite H0. }
    split; [exact P |].
    intros fuel t m0 E. split.
    + unfold ymodem_receive_file. unfold bind at 1. rewrite E.
      change (negb (YMODEM_ERR_NONE =? YMODEM_ERR_NONE)) with false. cbv iota.
      unfold bind at 1. rewrite P. reflexivity.
    + apply (keeps_run _ _ _ _ _ (do_handshake_line_only t) E).
Qed.

(** ** The file handle at the end of a transfer *)

Lemma close_file_then {A : Type} (a : A) m (r : A) m' :
  (close_file ;; ret a) m = (r, m') ->
  r = a /\ file_handle (m_ctx m') = NULL.
Proof.
  unfold close_file, bind, get_ctx, callback, modify_ctx, ret.
  cbn [m_ctx m_info m_world m_trace].
  intros [= <- <-]. split; reflexivity.
Qed.

Lemma parse_file_info_handle m (r : Z) m' :
  _ymodem_parse_file_info m = (r, m') ->
  file_handle (m_ctx m') = file_handle (m_ctx m).
Proof.
  unfold _ymodem_parse_file_info. unfold bind at 1. unfold get_ctx at 1.
  cbv zeta.
  destruct (_ =? 0); [now intros [= _ <-] |].
  destruct (_ =? 0); [now intros [= _ <-] |].
  unfold bind at 1. unfold modify_ctx at 1.
  intros E. apply (f_equal (fun p => file_handle (m_ctx (snd p)))) in E.
  symmetry. exact E.
Qed.

(** C9: a call of [ymodem_send_file] or of [ymodem_receive_file] that
    is entered with no file open and that returns, with success or
    with any error, leaves the file handle of the context NULL. *)
Theorem file_handle_null_on_return (fuel : nat) (fname : option (list Z))
    (timeout_s : Z) m (r : Z) m' :
  file_handle (m_ctx m) = NULL ->
  (ymodem_send_file fuel fname timeout_s m = (Some r, m') ->
   file_handle (m_ctx m') = NULL)
  /\
  (ymodem_receive_file fuel timeout_s m = (Some r, m') ->
   file_handle (m_ctx m') = NULL).
Proof.
  intros H0. split.
  - unfold ymodem_send_file. destruct fname as [fname |].
    2:{ now intros [= _ <-]. }
    unfold bind at 1.
    destruct (callback _ _ m) as [h m1].
    unfold bind at 1. unfold modify_ctx at 1.
    destruct (h =? NULL) eqn:Eh.
    { apply Z.eqb_eq in Eh. now intros [= _ <-]. }
    unfold bind at 1.
    destruct (callback _ _ _) as [sz m2].
    unfold bind at 1. unfold modify_ctx at 1.
    destruct (sz <? 0).
    { intros E. now apply close_file_then in E. }
    cbv zeta. unfold bind at 1. unfold get_ctx at 1.
    unfold bind at 1. unfold modify_ctx at 1.
    unfold bind at 1.
    destruct (_ymodem_do_send_handshake timeout_s _) as [r1 m3].
    destruct (negb (r1 =? YMODEM_ERR_NONE)).
    { intros E. now apply close_file_then in E. }
    unfold bind at 1.
    destruct (_ymodem_do_send_trans fuel m3) as [[r2 |] m4]; [| discriminate].
    destruct (negb (r2 =? YMODEM_ERR_NONE)).
    { intros E. now apply close_file_then in E. }
    unfold bind at 1.
    destruct (_ymodem_do_send_fin fuel m4) as [[r3 |] m5]; [| discriminate].
    intros E. now apply close_file_then in E.
  - unfold ymodem_receive_file. unfold bind at 1.
    destruct (_ymodem_do_handshake timeout_s m) as [r1 m1] eqn:E1.
    pose proof (keeps_run _ _ _ _ _ (do_handshake_line_only timeout_s) E1)
      as (H1 & _).
    destruct (negb (r1 =? YMODEM_ERR_NONE)).
    { intros [= _ <-]. congruence. }
    unfold bind at 1.
    destruct (_ymodem_parse_file_info m1) as [r2 m2] eqn:E2.
    apply parse_file_info_handle in E2.
    destruct (negb (r2 =? YMODEM_ERR_NONE)).
    { intros [= _ <-]. congruence. }
    unfold bind at 1.
    destruct (callback _ _ m2) as [h m3].
    unfold bind at 1. unfold modify_ctx at 1.
    destruct (h =? NULL) eqn:Eh.
    { apply Z.eqb_eq in Eh. now intros [= _ <-]. }
    unfold bind at 1.
    destruct (_ymodem_do_trans fuel _) as [[r3 |] m4]; [| discriminate].
    destruct (negb (r3 =? YMODEM_ERR_NONE)).
    { intros E. now apply close_file_then in E. }
    unfold bind at 1.
    destruct (_ymodem_do_fin fuel m4) as [[r4 |] m5]; [| discriminate].
    intros E. now apply close_file_then in E.
Qed.

(** ** Traces that grow by calls of one kind *)

Lemma grows_by_refl (P : event -> Prop) m : grows_by P m m.
Proof. exists []. split; [now rewrite app_nil_r | constructor]. Qed.

Lemma grows_by_trans (P : event -> Prop) m1 m2 m3 :
  grows_by P m1 m2 -> grows_by P m2 m3 -> grows_by P m1 m3.
Proof.
  intros (e1 & E1 & H1) (e2 & E2 & H2). exists (e1 ++ e2). split.
  - now rewrite E2, E1, app_assoc.
  - apply Forall_app. now split.
Qed.

Lemma grows_by_modify (P : event -> Prop)
    (f : ymodem_context_t World -> ymodem_context_t World) :
  keeps (grows_by P) (modify_ctx f).
Proof. intros m. exists []. cbn. split; [now rewrite app_nil_r | constructor]. Qed.

Lemma grows_by_callback (P : event -> Prop) {A : Type}
    (f : ymodem_callbacks_t World -> World -> A * World) (ev : A -> event) :
  (forall a, P (ev a)) -> keeps (grows_by P) (callback f ev).
Proof.
  intros H m. unfold callback.
  destruct (f (callbacks (m_ctx m)) (m_world m)) as [a w]. cbn.
  exists [ev a]. split; [reflexivity |]. constructor; [apply H | constructor].
Qed.

(** The parts of a computation one by one; [tac] shows that the call
    of a callback is of the kind wanted. *)
Ltac grows_by_tac tac :=
  repeat lazymatch goal with
    | |- keeps (grows_by ?P) (ret _) => apply (keeps_ret _ (grows_by_refl P))
    | |- keeps (grows_by ?P) get_ctx => apply (keeps_get_ctx _ (grows_by_refl P))
    | |- keeps (grows_by _) (modify_ctx _) => apply grows_by_modify
    | |- keeps (grows_by _) (callback _ _) =>
        apply grows_by_callback; intro; tac
    | |- keeps (grows_by ?P) (bind _ _) =>
        apply (keeps_bind _ (grows_by_trans P)); [| intro]
    | |- keeps _ (if ?b then _ else _) => destruct b
    | |- keeps _ (match ?x with _ => _ end) => destruct x
    | |- keeps _ (let _ := _ in _) => cbv zeta
    end.


(** ** Sender: a 'C' in reply to a data packet *)

Lemma same_seq_refl m : same_seq m m.
Proof. reflexivity. Qed.

Lemma same_seq_trans m1 m2 m3 : same_seq m1 m2 -> same_seq m2 m3 -> same_seq m1 m3.
Proof. unfold same_seq. congruence. Qed.

Lemma same_seq_callback {A : Type}
    (f : ymodem_callbacks_t World -> World -> A * World) (ev : A -> event) :
  keeps same_seq (callback f ev).
Proof.
  intros m. unfold callback.
  destruct (f (callbacks (m_ctx m)) (m_world m)) as [a w]. reflexivity.
Qed.

Ltac same_seq_tac :=
  repeat lazymatch goal with
    | |- keeps _ (ret _) => apply (keeps_ret _ same_seq_refl)
    | |- keeps _ get_ctx => apply (keeps_get_ctx _ same_seq_refl)
    | |- keeps _ (modify_ctx _) => intros ?; reflexivity
    | |- keeps _ (callback _ _) => apply same_seq_callback
    | |- keeps _ (bind _ _) =>
        apply (keeps_bind _ same_seq_trans); [| intro]
    | |- keeps _ (if ?b then _ else _) => destruct b
    | |- keeps _ (let _ := _ in _) => cbv zeta
    end.

Lemma send_read_block_same_seq (n : nat) (actual_read read_size : Z) :
  keeps same_seq (send_read_block (World := World) n actual_read read_size).
Proof.
  revert actual_read. induction n as [|n IH]; intros a; cbn [send_read_block].
  - same_seq_tac.
  - same_seq_tac. apply IH.
Qed.

Lemma send_trans_prepare_same_seq :
  keeps same_seq (send_trans_prepare (World := World)).
Proof.
  unfold send_trans_prepare. same_seq_tac; apply send_read_block_same_seq.
Qed.

Lemma send_read_block_grows_by (P : event -> Prop) (n : nat) (a rs : Z) :
  (forall h k d, P (EvRead h k d)) ->
  keeps (grows_by P) (send_read_block (World := World) n a rs).
Proof.
  intros HP. revert a. induction n as [|n IH]; intros a; cbn [send_read_block].
  - grows_by_tac idtac.
  - grows_by_tac ltac:(apply HP). apply IH.
Qed.

Lemma send_trans_prepare_grows_by (P : event -> Prop) :
  (forall h k d, P (EvRead h k d)) ->
  keeps (grows_by P) (send_trans_prepare (World := World)).
Proof.
  intros HP. unfold send_trans_prepare.
  grows_by_tac idtac; now apply send_read_block_grows_by.
Qed.

Lemma send_packet_grows_by (P : event -> Prop) (code seq : Z) (data : list Z) :
  (forall d k, P (EvSend d k)) ->
  keeps (grows_by P) (_ymodem_send_packet (World := World) code seq data).
Proof.
  intros HP. unfold _ymodem_send_packet, ymodem_send_bytes.
  grows_by_tac ltac:(apply HP).
Qed.

(** A receive that does not deliver a 'C'. *)
Lemma receive_byte_no_c m (t r : Z) m' :
  ymodem_receive_byte t m = (r, m') -> r <> YMODEM_CODE_C ->
  grows_by not_c_reply m m'.
Proof.
  destruct (receive_byte_run m t) as (d & w & E). rewrite E.
  intros [= <- <-] H. exists [EvRecv 1 t d]. split; [reflexivity |].
  constructor; [exact H | constructor].
Qed.

(** The loop that sends one data packet keeps the sequence number, the
    stage and the packet buffer.  It meets no 'C', or it is left right
    after the receive that delivered one, at any attempt, and then
    [retries] is less than YMODEM_MAX_ERRORS. *)
Lemma send_data_packet_c (n : nat) (retries pt rs : Z) m res m' :
  send_data_packet n retries pt rs m = (res, m') ->
  same_packet m m' /\
  (grows_by not_c_reply m m' \/
   exists k m1 l t d w,
     res = inl k /\ k < YMODEM_MAX_ERRORS /\
     grows_by not_c_reply m m1 /\ reply_of d = YMODEM_CODE_C /\
     m' = emit m1 w [EvRecv l t d]).
Proof.
  revert retries m. induction n as [|n IH]; intros retries m; cbn [send_data_packet].
  - intros [= <- <-]. split; [apply same_packet_refl | left; apply grows_by_refl].
  - destruct (retries <? YMODEM_MAX_ERRORS) eqn:Hr.
    2:{ intros [= <- <-]. split; [apply same_packet_refl | left; apply grows_by_refl]. }
    apply Z.ltb_lt in Hr.
    unfold bind at 1. unfold get_ctx at 1. unfold bind at 1.
    destruct (_ymodem_send_packet pt (packet_seq (m_ctx m))
                (slice (buffer (m_ctx m)) 3 rs) m) as [r1 m1] eqn:E1.
    assert (G1 : grows_by not_c_reply m m1).
    { eapply keeps_run; [apply send_packet_grows_by | exact E1]. intros; exact I. }
    pose proof (keeps_run _ _ _ _ _ (send_packet_same_packet _ _ _) E1) as S1.
    assert (next : forall k m2,
               same_packet m m2 -> grows_by not_c_reply m m2 ->
               send_data_packet n k pt rs m2 = (res, m') ->
               same_packet m m' /\
               (grows_by not_c_reply m m' \/
                exists k m1 l t d w,
                  res = inl k /\ k < YMODEM_MAX_ERRORS /\
                  grows_by not_c_reply m m1 /\ reply_of d = YMODEM_CODE_C /\
                  m' = emit m1 w [EvRecv l t d])).
    { intros k m2 S2 G2 Hk. apply IH in Hk. destruct Hk as (S3 & Hk).
      split; [eapply same_packet_trans; eauto |].
      destruct Hk as [G | (k' & m3 & l & t & d & w & -> & Hk' & G & Hd & ->)].
      - left. eapply grows_by_trans; eauto.
      - right. exists k', m3, l, t, d, w.
        repeat split; auto. eapply grows_by_trans; eauto. }
    destruct (negb (r1 =? YMODEM_ERR_NONE)); [now apply next |].
    unfold bind at 1.
    destruct (ymodem_receive_byte YMODEM_WAIT_PACKET_TIMEOUT_MS m1)
      as [r2 m2] eqn:E2.
    pose proof (keeps_run _ _ _ _ _ (receive_byte_same_packet _) E2) as S2.
    assert (S12 : same_packet m m2) by (eapply same_packet_trans; eauto).
    assert (G2 : r2 <> YMODEM_CODE_C -> grows_by not_c_reply m m2).
    { intros H. eapply grows_by_trans; [exact G1 |].
      eapply receive_byte_no_c; eauto. }
    destruct (r2 =? YMODEM_CODE_ACK) eqn:Ea.
    { apply Z.eqb_eq in Ea. intros [= <- <-]. split; [exact S12 |].
      left. apply G2. rewrite Ea. discriminate. }
    destruct (r2 =? YMODEM_CODE_NAK) eqn:En.
    { apply Z.eqb_eq in En. apply next; [exact S12 |].
      apply G2. rewrite En. discriminate. }
    destruct (r2 =? YMODEM_CODE_C) eqn:Ec.
    { apply Z.eqb_eq in Ec. intros [= <- <-]. split; [exact S12 |]. right.
      destruct (receive_byte_run m1 YMODEM_WAIT_PACKET_TIMEOUT_MS) as (d & w & E).
      rewrite E in E2. injection E2 as Hd Hm.
      exists retries, m1, 1, YMODEM_WAIT_PACKET_TIMEOUT_MS, d, w.
      repeat split; auto. congruence. }
    apply Z.eqb_neq in Ec.
    destruct (r2 =? YMODEM_CODE_CAN).
    { intros [= <- <-]. split; [exact S12 | left; auto]. }
    apply next; auto.
Qed.

(** A trace without a 'C' holds no receive that delivered one. *)
Lemma no_c_reply_in (evs pre suf : list event) (l t : Z) (d : list Z) :
  Forall not_c_reply evs -> evs = pre ++ EvRecv l t d :: suf ->
  reply_of d <> YMODEM_CODE_C.
Proof.
  intros H ->. apply Forall_app in H. destruct H as [_ H].
  inversion H; subst. assumption.
Qed.

(** One round of the data loop in which a 'C' arrives. *)
Lemma send_trans_round_c m (s : option Z) m'
    (pre suf : list event) (l t : Z) (d : list Z) :
  reply_of d = YMODEM_CODE_C ->
  send_trans_round m = (s, m') ->
  m_trace m' = m_trace m ++ pre ++ EvRecv l t d :: suf ->
  suf = [] /\
  packet_seq (m_ctx m') = (packet_seq (m_ctx m) + 1) mod 256 /\
  s = (if stage_eqb (stage (m_ctx m')) YMODEM_STAGE_FINISHING
       then Some YMODEM_ERR_NONE else None).
Proof.
  intros Hd E T.
  assert (No : forall mx, grows_by not_c_reply m mx -> m_trace mx = m_trace m' -> False).
  { intros mx (evs & Ex & Hx) Em. rewrite Ex, T in Em.
    apply app_inv_head in Em.
    exact (no_c_reply_in _ _ _ _ _ _ Hx Em Hd). }
  revert E. unfold send_trans_round. unfold bind at 1.
  destruct (send_trans_prepare m) as [[[a pt] rs] m1] eqn:E1.
  assert (G1 : grows_by not_c_reply m m1).
  { eapply keeps_run; [apply send_trans_prepare_grows_by | exact E1]. intros; exact I. }
  pose proof (keeps_run _ _ _ _ _ send_trans_prepare_same_seq E1) as Q1.
  destruct (a =? 0).
  { intros [= <- <-]. now destruct (No m1 G1). }
  unfold bind at 1.
  destruct (send_data_packet (Z.to_nat YMODEM_MAX_ERRORS) 0 pt rs m1)
    as [res m2] eqn:E2.
  apply send_data_packet_c in E2. destruct E2 as ((Q2 & St2 & _) & E2).
  destruct E2 as [G2 | (k & m3 & l1 & t1 & d1 & w & -> & Hk & G3 & Hd1 & ->)].
  { assert (G : grows_by not_c_reply m m2) by (eapply grows_by_trans; eauto).
    destruct res as [k | e].
    - destruct (k >=? YMODEM_MAX_ERRORS).
      + intros [= <- <-]. now destruct (No m2 G).
      + unfold bind, get_ctx, modify_ctx, ret.
        destruct (stage_eqb _ _); intros [= <- <-]; now destruct (No m2 G).
    - intros [= <- <-]. now destruct (No m2 G). }
  assert (Hk' : (k >=? YMODEM_MAX_ERRORS) = false).
  { rewrite Z.geb_leb. apply Z.leb_gt. exact Hk. }
  rewrite Hk'. unfold bind, get_ctx, modify_ctx, ret.
  cbn [m_ctx m_info m_world m_trace emit] in *.
  intros E.
  assert (Et : m_trace m' = m_trace m3 ++ [EvRecv l1 t1 d1])
    by (destruct (stage_eqb _ _); injection E as _ <-; reflexivity).
  assert (Es : packet_seq (m_ctx m') = Z.land (packet_seq (m_ctx m3) + 1) 0xFF)
    by (destruct (stage_eqb _ _); injection E as _ <-; reflexivity).
  assert (Eg : stage (m_ctx m') = stage (m_ctx m3))
    by (destruct (stage_eqb _ _); injection E as _ <-; reflexivity).
  split; [| split].
  - assert (G : grows_by not_c_reply m m3) by (eapply grows_by_trans; eauto).
    destruct G as (evs & Ex & Hx).
    rewrite Et, Ex, <- app_assoc in T. apply app_inv_head in T. symmetry in T.
    apply in_before_last in T. destruct T as [-> | Hin]; [reflexivity |].
    rewrite Forall_forall in Hx. apply Hx in Hin. now destruct Hin.
  - rewrite Es, land_255. unfold same_seq in Q1. congruence.
  - rewrite Eg. destruct (stage_eqb _ _); now injection E as <- _.
Qed.

(** *** What follows the 'C' *)

Lemma any_call_all (evs : list event) : Forall any_call evs.
Proof. apply Forall_forall. intros; exact I. Qed.

Lemma send_data_packet_grows_any (n : nat) (retries pt rs : Z) :
  keeps (grows_by any_call) (send_data_packet (World := World) n retries pt rs).
Proof.
  intros m. destruct (send_data_packet n retries pt rs m) as [res m'] eqn:E.
  apply send_data_packet_c in E. cbn [snd].
  destruct E as (_ & [(evs & E & _) | (k & m1 & l & t & d & w & _ & _ & (evs & E & _) & _ & ->)]).
  - exists evs. split; [exact E | apply any_call_all].
  - exists (evs ++ [EvRecv l t d]). cbn [emit m_trace].
    rewrite E, <- app_assoc. split; [reflexivity | apply any_call_all].
Qed.

(** The loop that reads a block makes at least one call of
    [file_read], its first call. *)
Lemma send_read_block_reads (n : nat) (a rs : Z) m (r : Z) m' :
  send_read_block (S n) a rs m = (r, m') ->
  exists h k b evs, m_trace m' = m_trace m ++ EvRead h k b :: evs.
Proof.
  cbn [send_read_block]. unfold bind at 1. unfold get_ctx at 1.
  unfold bind at 1. unfold callback at 1.
  destruct (cb_file_read _ _ _ _) as [b w]. cbv beta iota.
  intros E.
  apply (keeps_run (grows_by any_call)) in E.
  - destruct E as (evs & E & _). cbn [m_trace] in E.
    rewrite <- app_assoc in E. cbn [app] in E. eauto.
  - grows_by_tac idtac. apply send_read_block_grows_by. intros; exact I.
Qed.

(** A round of the data loop starts with a [file_read]. *)
Lemma send_trans_round_reads m (s : option Z) m' :
  send_trans_round m = (s, m') ->
  exists h n b evs, m_trace m' = m_trace m ++ EvRead h n b :: evs.
Proof.
  unfold send_trans_round, send_trans_prepare.
  change (send_read_block 10 0 YMODEM_STX_DATA_SIZE)
    with (send_read_block (World := World) (S 9) 0 YMODEM_STX_DATA_SIZE).
  unfold bind at 1. unfold bind at 1.
  destruct (send_read_block (S 9) 0 YMODEM_STX_DATA_SIZE m) as [a m1] eqn:E1.
  apply send_read_block_reads in E1. destruct E1 as (h & k & b & evs & E1).
  intros E.
  match type of E with
  | (let (_, _) := ?c m1 in _) = _ =>
      destruct (c m1) as [q m2] eqn:E2
  end.
  apply (keeps_run (grows_by any_call)) in E2.
  2:{ grows_by_tac idtac. }
  apply (keeps_run (grows_by any_call)) in E.
  2:{ destruct q as [[a' pt] rs]. grows_by_tac idtac.
      apply send_data_packet_grows_any. }
  destruct E2 as (e2 & E2 & _). destruct E as (e3 & E & _).
  exists h, k, b, (evs ++ e2 ++ e3).
  rewrite E, E2, E1, <- !app_assoc. reflexivity.
Qed.

(** The data loop makes no call at all, when it has no fuel, or starts
    with a [file_read]. *)
Lemma send_trans_loop_reads (fuel : nat) m (r : option Z) m' :
  send_trans_loop fuel m = (r, m') ->
  (r = None /\ m_trace m' = m_trace m) \/
  exists h n b evs, m_trace m' = m_trace m ++ EvRead h n b :: evs.
Proof.
  destruct fuel as [|fuel]; cbn [send_trans_loop].
  - intros [= <- <-]. now left.
  - right. revert H. unfold bind at 1.
    destruct (send_trans_round m) as [s m1] eqn:E1.
    apply send_trans_round_reads in E1. destruct E1 as (h & k & b & evs & E1).
    destruct s as [e |].
    + intros [= _ <-]. eauto.
    + intros E.
      assert (G : grows_by any_call m1 m').
      { clear E1. revert m1 E. induction fuel as [|fuel IH]; intros m1;
          cbn [send_trans_loop].
        - intros [= _ <-]. apply grows_by_refl.
        - unfold bind at 1.
          destruct (send_trans_round m1) as [s m2] eqn:E2.
          apply send_trans_round_reads in E2.
          destruct E2 as (h2 & k2 & b2 & e2 & E2).
          assert (G2 : grows_by any_call m1 m2)
            by (eexists; split; [exact E2 | apply any_call_all]).
          destruct s as [e |].
          + now intros [= _ <-].
          + intros E. eapply grows_by_trans; [exact G2 | now apply IH]. }
      destruct G as (e3 & E3 & _). exists h, k, b, (evs ++ e3).
      rewrite E3, E1, <- app_assoc. reflexivity.
Qed.

Lemma send_trans_loop_c (fuel : nat) m (r : option Z) m'
    (pre suf : list event) (l t : Z) (d : list Z) :
  reply_of d = YMODEM_CODE_C ->
  send_trans_loop fuel m = (r, m') ->
  m_trace m' = m_trace m ++ pre ++ EvRecv l t d :: suf ->
  next_block r suf.
Proof.
  intros Hd. revert m pre.
  induction fuel as [|fuel IH]; intros m pre; cbn [send_trans_loop].
  - intros [= <- <-] T. rewrite <- (app_nil_r (m_trace m)) in T at 1.
    apply app_inv_head in T. now destruct pre.
  - unfold bind at 1. destruct (send_trans_round m) as [s m1] eqn:E1.
    destruct s as [e |].
    + intros [= <- <-] T.
      destruct (send_trans_round_c _ _ _ _ _ _ _ _ Hd E1 T) as (-> & _ & Es).
      cbn. right. destruct (stage_eqb _ _); [exact Es | discriminate Es].
    + intros E T.
      destruct (send_trans_round_reads _ _ _ E1) as (h1 & k1 & b1 & e1 & T1).
      destruct (send_trans_loop_reads _ _ _ _ E) as [(-> & T2) | (h2 & k2 & b2 & e2 & T2)].
      * rewrite T2 in T.
        destruct (send_trans_round_c _ _ _ _ _ _ _ _ Hd E1 T) as (-> & _).
        cbn. now left.
      * rewrite T2, T1, <- app_assoc in T. apply app_inv_head in T.
        apply app_eq_app in T.
        destruct T as (x & [(Ea & Eb) | (Ea & Eb)]).
        -- (* the 'C' is met in this round *)
           destruct x as [|x0 x]; [discriminate Eb |].
           cbn [app] in Eb. injection Eb as <- Eb.
           assert (T1' : m_trace m1 = m_trace m ++ pre ++ EvRecv l t d :: x)
             by (rewrite T1; f_equal; exact Ea).
           destruct (send_trans_round_c _ _ _ _ _ _ _ _ Hd E1 T1') as (-> & _).
           cbn [app] in Eb. subst suf. cbn. eauto.
        -- (* the 'C' is met in a later round *)
           apply (IH m1 x E). rewrite T2. f_equal. exact Eb.
Qed.

(** C5 (amended): in the sender's data loop, a 'C' received in reply
    to a data packet, at the first attempt or after retransmissions,
    and whatever the sequence number of the packet, counts as its
    acknowledgement.  In the round in which it arrives nothing is
    called after it, the sequence number becomes (SEQ + 1) mod 256,
    and the round goes on to the next block, or ends the loop with
    YMODEM_ERR_NONE after the last one.  In a run of
    [_ymodem_do_send_trans], the call that follows a 'C', if there is
    one, is the [file_read] of the next block, not a retransmission. *)
Theorem send_trans_c_is_ack (pre suf : list event) (l t : Z) (d : list Z) :
  reply_of d = YMODEM_CODE_C ->
  (forall m (s : option Z) m',
     send_trans_round m = (s, m') ->
     m_trace m' = m_trace m ++ pre ++ EvRecv l t d :: suf ->
     suf = [] /\
     packet_seq (m_ctx m') = (packet_seq (m_ctx m) + 1) mod 256 /\
     s = (if stage_eqb (stage (m_ctx m')) YMODEM_STAGE_FINISHING
          then Some YMODEM_ERR_NONE else None))
  /\
  (forall (fuel : nat) m (r : option Z) m',
     _ymodem_do_send_trans fuel m = (r, m') ->
     m_trace m' = m_trace m ++ pre ++ EvRecv l t d :: suf ->
     next_block r suf).
Proof.
  intros Hd. split.
  - intros m s m'. now apply send_trans_round_c.
  - intros fuel m r m'. unfold _ymodem_do_send_trans.
    unfold bind at 1. unfold modify_ctx at 1.
    unfold bind at 1. unfold modify_ctx at 1.
    intros E T. exact (send_trans_loop_c _ _ _ _ pre suf l t d Hd E T).
Qed.

(** ** Receiver: the size that packet 0 announces *)

Lemma decimal_le (ds : list Z) (a : Z) :
  forallb is_digit ds = true -> 0 <= a ->
  a <= fold_left (fun a c => a * 10 + (c - 48)) ds a.
Proof.
  revert a. induction ds as [|c ds IH]; intros a Hd Ha; cbn [fold_left]; [lia |].
  cbn [forallb] in Hd. apply andb_true_iff in Hd. destruct Hd as [Hc Hd].
  unfold is_digit in Hc. apply andb_true_iff in Hc. destruct Hc as [H1 H2].
  apply Z.leb_le in H1, H2.
  specialize (IH (a * 10 + (c - 48)) Hd ltac:(lia)). lia.
Qed.

(** The loop that reads the file size reads the digits as the number
    they stand for, when that number fits an [int]. *)
Lemma parse_file_size_decimal (ds rest : list Z) (a : Z) :
  forallb is_digit ds = true -> is_digit (hd 0 rest) = false ->
  0 <= a ->
  fold_left (fun a c => a * 10 + (c - 48)) ds a < 2 ^ 31 ->
  parse_file_size (ds ++ rest) a
  = fold_left (fun a c => a * 10 + (c - 48)) ds a.
Proof.
  intros Hd Hr. revert a Hd.
  induction ds as [|c ds IH]; intros a Hd Ha Hlt; cbn [app fold_left].
  - destruct rest as [|c r]; [reflexivity |]. cbn [hd] in Hr.
    cbn [parse_file_size]. unfold is_digit in Hr. now rewrite Hr.
  - cbn [forallb] in Hd. apply andb_true_iff in Hd. destruct Hd as [Hc Hd].
    cbn [parse_file_size]. cbn [fold_left] in Hlt.
    pose proof Hc as Hc'. unfold is_digit in Hc'. rewrite Hc'.
    apply andb_true_iff in Hc'. destruct Hc' as [H1 H2].
    apply Z.leb_le in H1, H2.
    pose proof (decimal_le ds (a * 10 + (c - 48)) Hd ltac:(lia)) as Hle.
    assert (Es : sint (a * 10 + (c - 48)) = a * 10 + (c - 48)).
    { unfold sint. rewrite Z.mod_small; lia. }
    rewrite Es. apply IH; [exact Hd | lia | exact Hlt].
Qed.

(** What [_ymodem_parse_file_info] makes of a packet 0 that announces
    a size that fits an [int]: only the name fields and the size
    change, and the size is the one announced. *)
Lemma parse_file_info_announced m (S : Z) :
  0 < S < 2 ^ 31 ->
  announces (buffer (m_ctx m)) S ->
  exists m0,
    _ymodem_parse_file_info m = (YMODEM_ERR_NONE, m0) /\
    file_size (m_ctx m0) = S /\
    file_handle (m_ctx m0) = file_handle (m_ctx m) /\
    m_trace m0 = m_trace m.
Proof.
  intros HS (name & ds & rest & Ep & Hl & Hn & Hd & Hr & Es).
  set (fname := skipn 3 (buffer (m_ctx m))) in *.
  assert (Hz : load fname (len name) = 0)
    by (rewrite Ep; now rewrite (load_app_r name _ (len name))).
  assert (Hnz : forall i, 0 <= i < len name -> load fname i <> 0).
  { intros i Hi. rewrite Ep. unfold load, len in *.
    rewrite app_nth1 by lia. rewrite Forall_forall in Hn. apply Hn.
    apply nth_In. lia. }
  assert (Hlen : parse_name_len 255 fname 0 = len name).
  { destruct (parse_name_len_spec 255 fname 0 ltac:(lia)) as (A & B & C & D).
    cbv zeta in A, B, C, D.
    set (l := parse_name_len 255 fname 0) in *.
    destruct (Z.lt_trichotomy l (len name)) as [H | [H | H]]; [| exact H |].
    - exfalso. apply (Hnz l); [lia |]. apply D; lia.
    - exfalso. apply (C (len name)); [lia | exact Hz]. }
  assert (Hsk : skipn (Z.to_nat (len name + 1)) fname = ds ++ rest).
  { rewrite Ep. unfold len. replace (Z.to_nat (Z.of_nat (length name) + 1))
      with (length name + 1)%nat by lia.
    rewrite skipn_app, skipn_all2 by lia.
    replace (length name + 1 - length name)%nat with 1%nat by lia.
    reflexivity. }
  destruct ds as [|c ds]; [cbn in Es; lia |].
  assert (Hc : load ((c :: ds) ++ rest) 0 <> 0).
  { cbn [forallb] in Hd. apply andb_true_iff in Hd. destruct Hd as [Hc _].
    unfold is_digit in Hc. apply andb_true_iff in Hc. destruct Hc as [H1 _].
    apply Z.leb_le in H1. cbn. lia. }
  assert (Hp : parse_file_size ((c :: ds) ++ rest) 0 = S).
  { assert (Hlt : decimal_value (c :: ds) < 2 ^ 31) by lia.
    rewrite parse_file_size_decimal; [exact Es | | | lia | exact Hlt];
      assumption. }
  eexists. split.
  { unfold _ymodem_parse_file_info. unfold bind at 1. unfold get_ctx at 1.
    cbv zeta. fold fname.
    assert (H0 : (load fname 0 =? 0) = false)
      by (apply Z.eqb_neq, Hnz; lia).
    rewrite H0.
    change (Z.to_nat (YMODEM_MAX_FILENAME_LENGTH - 1)) with 255%nat.
    rewrite Hlen.
    assert (E0 : (len name =? 0) = false) by (apply Z.eqb_neq; lia).
    rewrite E0.
    assert (E1 : (len name >=? YMODEM_MAX_FILENAME_LENGTH) = false).
    { rewrite Z.geb_leb. apply Z.leb_gt. unfold YMODEM_MAX_FILENAME_LENGTH. lia. }
    rewrite E1, Hsk.
    apply Z.eqb_neq in Hc. rewrite Hc. cbn [negb]. rewrite Hp.
    unfold bind at 1. unfold modify_ctx at 1. reflexivity. }
  cbn [m_ctx m_info m_trace file_size file_handle set_file_size set_filename].
  repeat split.
Qed.

(** ** Receiver: the rounds of the data loop *)

(** One round of the data loop with the file open keeps the handle and
    the announced size; when another round follows, the byte count
    has grown by the number of bytes that [file_write] was asked to
    take, and stays within the announced size. *)
Lemma recv_trans_round_exact m (es tr : Z) (s : loop_step) m' (S : Z) :
  0 < S < 2 ^ 31 ->
  file_size (m_ctx m) = S ->
  file_handle (m_ctx m) <> NULL ->
  0 <= tr <= S ->
  recv_trans_round es tr m = (s, m') ->
  file_size (m_ctx m') = S /\
  file_handle (m_ctx m') = file_handle (m_ctx m) /\
  forall es' tr', s = Continue es' tr' ->
    0 <= tr' <= S /\
    written_bytes (m_trace m') = written_bytes (m_trace m) + (tr' - tr).
Proof.
  intros HS Hfs Hfh Htr.
  unfold recv_trans_round. unfold bind at 1.
  destruct (ymodem_receive_byte YMODEM_WAIT_PACKET_TIMEOUT_MS m) as [h m1] eqn:E1.
  pose proof (keeps_run _ _ _ _ _ (receive_byte_same_but_buffer _) E1) as F1.
  apply same_but_buffer_file in F1. destruct F1 as (H1 & F1 & G1).
  destruct (h <? 0).
  { intros [= <- <-]. split; [congruence |]. split; [exact H1 |]. discriminate. }
  cbv zeta. unfold bind at 1. unfold get_ctx at 1.
  unfold bind at 1. unfold modify_ctx at 1.
  set (m1' := mk_machine _ _ _ _).
  assert (F1' : file_size (m_ctx m1') = S) by (subst m1'; cbn; congruence).
  assert (H1' : file_handle (m_ctx m1') = file_handle (m_ctx m))
    by (subst m1'; cbn; congruence).
  assert (G1' : written_bytes (m_trace m1') = written_bytes (m_trace m))
    by (subst m1'; cbn; lia).
  assert (L1' : len (buffer (m_ctx m1')) >= 1)
    by (subst m1'; cbn [m_ctx buffer set_buffer]; apply store_len_pos).
  clearbody m1'. clear E1 F1 G1 H1 m1.
  destruct (h =? YMODEM_CODE_EOT).
  { intros [= <- <-]. split; [congruence |]. split; [exact H1' |]. discriminate. }
  assert (Herr : forall err m2,
            file_size (m_ctx m2) = S ->
            file_handle (m_ctx m2) = file_handle (m_ctx m) ->
            written_bytes (m_trace m2) = written_bytes (m_trace m) ->
            recv_trans_error err es tr m2 = (s, m') ->
            file_size (m_ctx m') = S /\
            file_handle (m_ctx m') = file_handle (m_ctx m) /\
            forall es' tr', s = Continue es' tr' ->
              0 <= tr' <= S /\
              written_bytes (m_trace m') = written_bytes (m_trace m) + (tr' - tr)).
  { intros err m2 F2 H2 G2 E. apply recv_trans_error_inv in E.
    destruct E as ((H & F & G) & Hs). split; [congruence |].
    split; [congruence |]. intros es' tr' Es.
    destruct Hs as [-> | (e & ->)]; [| discriminate].
    injection Es as _ <-. split; [exact Htr | lia]. }
  destruct (negb (h =? YMODEM_CODE_SOH) && negb (h =? YMODEM_CODE_STX)).
  { now apply Herr. }
  unfold bind at 1.
  destruct (_ymodem_receive_packet m1') as [[[r seq] n] m2] eqn:E2.
  pose proof (keeps_run _ _ _ _ _ receive_packet_same_but_buffer E2) as F2.
  apply same_but_buffer_file in F2. destruct F2 as (H2 & F2 & G2).
  apply receive_packet_result in E2.
  destruct (r =? YMODEM_ERR_NONE) eqn:Er; cbn [negb].
  2:{ apply Herr; congruence. }
  destruct (negb (seq =? es)).
  { apply Herr; congruence. }
  apply Z.eqb_eq in Er.
  destruct E2 as [(_ & Hn0 & Hlen) | E2];
    [| destruct E2 as [E2 | [E2 | [E2 | E2]]]; rewrite E2 in Er; discriminate Er].
  specialize (Hlen L1').
  assert (Hn : 0 <= n <= 1024)
    by (destruct Hn0 as [-> | ->];
        unfold YMODEM_SOH_DATA_SIZE, YMODEM_STX_DATA_SIZE; lia).
  unfold bind at 1. unfold modify_ctx at 1.
  unfold bind at 1. unfold get_ctx at 1.
  cbn [m_ctx m_info m_world m_trace file_handle file_size buffer set_error_count].
  cbv zeta.
  assert (Hh : (file_handle (m_ctx m2) =? NULL) = false)
    by (apply Z.eqb_neq; congruence).
  rewrite Hh. cbn [negb]. rewrite F2, F1'.
  destruct (bytes_to_write_spec S tr n HS Htr Hn) as (_ & Hk & Hk').
  set (k := bytes_to_write S tr n) in *.
  unfold bind at 1. unfold callback at 1.
  cbn [m_ctx m_info m_world m_trace callbacks set_error_count].
  destruct (cb_file_write (callbacks (m_ctx m2)) (file_handle (m_ctx m2))
              (slice (buffer (m_ctx m2)) 3 k) (m_world m2)) as [wr w].
  cbv beta iota.
  assert (Hs : len (slice (buffer (m_ctx m2)) 3 k) = k)
    by (apply slice_len; lia).
  destruct (usize wr =? k) eqn:Ew; cbn [negb].
  2:{ intros [= <- <-]. cbn. split; [congruence |]. split; [congruence |].
      discriminate. }
  apply Z.eqb_eq in Ew. rewrite Ew.
  assert (Eu : usize (tr + k) = tr + k) by (apply Z.mod_small; lia).
  rewrite Eu. unfold bind at 1.
  match goal with |- context [ymodem_send_byte ?b ?x] =>
    destruct (send_byte_run x b) as (sent & w' & E); rewrite E end.
  destruct (sent =? 1); cbn [negb]; intros [= <- <-]; cbn;
    (split; [congruence |]); (split; [congruence |]).
  - intros es' tr' [= _ <-]. split; [lia |].
    rewrite !written_bytes_app. cbn [written_bytes]. lia.
  - discriminate.
Qed.

(** What holds when a round of the data loop starts: the announced
    size and the handle are those of the start of the loop, and the
    byte count is the number of bytes that [file_write] was asked to
    take since then. *)
Lemma trans_round_inv (S : Z) m (es tr : Z) mk :
  0 < S < 2 ^ 31 ->
  file_size (m_ctx m) = S ->
  file_handle (m_ctx m) <> NULL ->
  trans_round m es tr mk ->
  file_size (m_ctx mk) = S /\
  file_handle (m_ctx mk) = file_handle (m_ctx m) /\
  0 <= tr <= S /\
  written_bytes (m_trace mk) = written_bytes (m_trace m) + tr.
Proof.
  intros HS Hfs Hfh. induction 1 as [| es tr mk es' tr' mk' _ IH E].
  - cbn. repeat split; try assumption; lia.
  - destruct IH as (F & H & Htr & W).
    destruct (recv_trans_round_exact _ _ _ _ _ S HS F ltac:(congruence) Htr E)
      as (F' & H' & C).
    destruct (C es' tr' eq_refl) as (Htr' & W').
    repeat split; try congruence; try lia.
Qed.

(** A run of the loop is a chain of rounds: it returns what its last
    round returns, or it runs out of fuel before a round. *)
Lemma recv_trans_loop_rounds (fuel : nat) m0 (es tr : Z) m (r : option Z) m' :
  trans_round m0 es tr m ->
  recv_trans_loop fuel es tr m = (r, m') ->
  exists es1 tr1 m1,
    trans_round m0 es1 tr1 m1 /\
    match r with
    | Some e => recv_trans_round es1 tr1 m1 = (Return e, m')
    | None => m1 = m'
    end.
Proof.
  revert es tr m. induction fuel as [|fuel IH]; intros es tr m R;
    cbn [recv_trans_loop].
  - intros [= <- <-]. now exists es, tr, m.
  - unfold bind at 1. destruct (recv_trans_round es tr m) as [s m1] eqn:E1.
    destruct s as [e | es' tr'].
    + intros [= <- <-]. now exists es, tr, m.
    + apply IH. econstructor; eauto.
Qed.

(** What a round does with a valid packet in sequence. *)
Lemma recv_trans_round_writes (S : Z) m (es tr h n : Z) m1 m2 :
  0 < S < 2 ^ 31 ->
  file_size (m_ctx m) = S ->
  file_handle (m_ctx m) <> NULL ->
  0 <= tr <= S ->
  ymodem_receive_byte YMODEM_WAIT_PACKET_TIMEOUT_MS m = (h, m1) ->
  h = YMODEM_CODE_SOH \/ h = YMODEM_CODE_STX ->
  _ymodem_receive_packet
      (with_ctx m1 (set_buffer (store (buffer (m_ctx m1)) 0 (u8 h)) (m_ctx m1)))
    = ((YMODEM_ERR_NONE, es, n), m2) ->
  let k := if tr + n >=? S then S - tr else n in
  let data := slice (buffer (m_ctx m2)) 3 k in
  len data = k /\
  exists (s : loop_step) m' (written : Z) (evs : list event),
    recv_trans_round es tr m = (s, m') /\
    m_trace m'
      = m_trace m2 ++ EvWrite (file_handle (m_ctx m)) data written :: evs /\
    written_bytes evs = 0 /\
    (written <> k -> s = Return YMODEM_ERR_FILE) /\
    (forall es' tr', s = Continue es' tr' -> tr' = tr + k).
Proof.
  intros HS Hfs Hfh Htr E1 Hh E2 k data.
  set (m1' := with_ctx m1 _) in E2.
  pose proof (keeps_run _ _ _ _ _ (receive_byte_same_but_buffer _) E1) as F1.
  apply same_but_buffer_file in F1. destruct F1 as (H1 & F1 & _).
  pose proof (keeps_run _ _ _ _ _ receive_packet_same_but_buffer E2) as F2.
  apply same_but_buffer_file in F2. destruct F2 as (H2 & F2 & _).
  assert (F : file_size (m_ctx m2) = S) by (rewrite F2; subst m1'; cbn; congruence).
  assert (H : file_handle (m_ctx m2) = file_handle (m_ctx m))
    by (rewrite H2; subst m1'; cbn; congruence).
  pose proof (receive_packet_result _ _ _ _ _ E2) as R.
  destruct R as [(_ & Hn & Hlen) | R];
    [| destruct R as [R | [R | [R | R]]]; discriminate R].
  specialize (Hlen (store_len_pos _ _ _)).
  assert (Hn' : 0 <= n <= 1024)
    by (destruct Hn as [-> | ->];
        unfold YMODEM_SOH_DATA_SIZE, YMODEM_STX_DATA_SIZE; lia).
  destruct (bytes_to_write_spec S tr n HS Htr Hn') as (Ek & Hk & Hk').
  fold k in Ek. rewrite Ek in Hk, Hk'.
  assert (Hdata : len data = k) by (apply slice_len; lia).
  split; [exact Hdata |].
  (* the round, up to the write *)
  assert (Hround : recv_trans_round es tr m
    = (written <- callback
          (fun cb w =>
             let (j, w') := cb_file_write cb (file_handle (m_ctx m)) data w in
             (usize j, w'))
          (EvWrite (file_handle (m_ctx m)) data) ;;
       if negb (written =? k) then ret (Return YMODEM_ERR_FILE)
       else
         ok <- ymodem_send_byte YMODEM_CODE_ACK ;;
         if negb ok then ret (Return YMODEM_ERR_CODE)
         else ret (Continue (Z.land (es + 1) 0xFF) (usize (tr + written))))
        (with_ctx m2 (set_error_count 0 (m_ctx m2)))).
  { unfold recv_trans_round. unfold bind at 1. rewrite E1.
    assert (Hneg : (h <? 0) = false)
      by (destruct Hh as [-> | ->]; reflexivity).
    rewrite Hneg. cbv zeta.
    unfold bind at 1. unfold get_ctx at 1.
    unfold bind at 1. unfold modify_ctx at 1.
    fold (with_ctx m1 (set_buffer (store (buffer (m_ctx m1)) 0 (u8 h)) (m_ctx m1))).
    fold m1'.
    assert (Hhdr : (h =? YMODEM_CODE_EOT) = false
                   /\ negb (h =? YMODEM_CODE_SOH) && negb (h =? YMODEM_CODE_STX) = false)
      by (destruct Hh as [-> | ->]; split; reflexivity).
    destruct Hhdr as [-> ->].
    unfold bind at 1. rewrite E2.
    change (negb (YMODEM_ERR_NONE =? YMODEM_ERR_NONE)) with false. cbv iota.
    rewrite Z.eqb_refl. cbn [negb].
    unfold bind at 1. unfold modify_ctx at 1.
    unfold bind at 1. unfold get_ctx at 1.
    cbn [m_ctx m_info m_world m_trace file_handle file_size buffer set_error_count].
    apply Z.eqb_neq in Hfh. rewrite H, Hfh. cbn [negb].
    rewrite F, Ek. reflexivity. }
  rewrite Hround. clear Hround.
  unfold bind at 1. unfold callback at 1.
  cbn [m_ctx m_info m_world m_trace callbacks set_error_count with_ctx].
  destruct (cb_file_write (callbacks (m_ctx m2)) (file_handle (m_ctx m)) data
              (m_world m2)) as [j w].
  destruct (usize j =? k) eqn:Ew; cbn [negb].
  + apply Z.eqb_eq in Ew.
    unfold bind at 1.
    match goal with |- context [ymodem_send_byte ?b ?x] =>
      destruct (send_byte_run x b) as (sent & w' & E); rewrite E end.
    assert (Eu : usize (tr + usize j) = tr + k)
      by (rewrite Ew; apply Z.mod_small; lia).
    destruct (sent =? 1); cbn [negb];
      do 2 eexists; exists (usize j); eexists;
      (split; [reflexivity |]);
      (split; [cbn; rewrite <- app_assoc; reflexivity |]);
      (split; [reflexivity |]);
      (split; [intros; congruence |]).
    * intros es' tr' [= _ <-]. exact Eu.
    * intros es' tr' [=].
  + apply Z.eqb_neq in Ew.
    do 2 eexists. exists (usize j), [].
    split; [reflexivity |]. split; [reflexivity |]. split; [reflexivity |].
    split; [reflexivity |]. intros es' tr' [=].
Qed.

(** ** Receiver: what the rest of the transfer writes *)

Lemma not_write_written (evs : list event) :
  Forall not_write evs -> written_bytes evs = 0.
Proof.
  induction 1 as [|ev evs H _ IH]; [reflexivity |].
  destruct ev; cbn [written_bytes not_write] in *; (exact IH || contradiction).
Qed.

Lemma grows_by_not_write m m' :
  grows_by not_write m m' ->
  written_bytes (m_trace m') = written_bytes (m_trace m).
Proof.
  intros (evs & E & H). rewrite E, written_bytes_app, (not_write_written evs H). lia.
Qed.

Lemma is_comm_not_write (evs : list event) :
  Forall is_comm evs -> Forall not_write evs.
Proof.
  apply Forall_impl. intros [] H; (exact I || contradiction).
Qed.

Lemma close_file_not_write : keeps (grows_by not_write) (close_file (World := World)).
Proof. unfold close_file. grows_by_tac ltac:(exact I). Qed.

Lemma receive_packet_not_write :
  keeps (grows_by not_write) (_ymodem_receive_packet (World := World)).
Proof.
  unfold _ymodem_receive_packet, ymodem_receive_bytes.
  grows_by_tac ltac:(exact I).
Qed.

Lemma recv_fin_loop_not_write (fuel : nat) (retries : Z) :
  keeps (grows_by not_write) (recv_fin_loop (World := World) fuel retries).
Proof.
  revert retries. induction fuel as [|fuel IH]; intros retries;
    cbn [recv_fin_loop].
  - grows_by_tac idtac.
  - unfold ymodem_send_byte, ymodem_send_bytes, ymodem_receive_byte,
      ymodem_receive_bytes.
    repeat first
      [ apply IH
      | apply receive_packet_not_write
      | progress grows_by_tac ltac:(exact I) ].
Qed.

Lemma do_fin_not_write (fuel : nat) :
  keeps (grows_by not_write) (_ymodem_do_fin (World := World) fuel).
Proof.
  unfold _ymodem_do_fin, ymodem_send_byte, ymodem_send_bytes,
    ymodem_receive_byte, ymodem_receive_bytes.
  repeat first
    [ apply recv_fin_loop_not_write
    | progress grows_by_tac ltac:(exact I) ].
Qed.

(** The bytes that a run of the loop asks [file_write] to take stay
    within the announced size. *)
Lemma do_trans_written (S : Z) (fuel : nat) m (r : option Z) m' :
  0 < S < 2 ^ 31 ->
  file_size (m_ctx m) = S ->
  _ymodem_do_trans fuel m = (r, m') ->
  written_bytes (m_trace m') <= written_bytes (m_trace m) + S.
Proof.
  intros HS Hfs. unfold _ymodem_do_trans.
  unfold bind at 1. unfold modify_ctx at 1.
  unfold bind at 1. unfold modify_ctx at 1.
  intros E.
  apply (recv_trans_loop_inv _ _ _ _ _ _ S (written_bytes (m_trace m)) HS) in E;
    cbn; try lia; try exact Hfs.
Qed.

(** [ymodem_receive_file] after the handshake: when the file cannot be
    opened nothing is written; otherwise the data loop is entered once,
    with the announced size and the file open, and what follows it
    writes nothing. *)
Lemma receive_file_data_loop (S : Z) (fuel : nat) (timeout_s : Z)
    (mi mp m0 : machine World) :
  _ymodem_do_handshake timeout_s mi = (YMODEM_ERR_NONE, mp) ->
  _ymodem_parse_file_info mp = (YMODEM_ERR_NONE, m0) ->
  m_trace m0 = m_trace mp ->
  let m' := snd (ymodem_receive_file fuel timeout_s mi) in
  written_bytes (m_trace m') = written_bytes (m_trace mi) \/
  exists (mt : machine World) (evs : list event),
    file_size (m_ctx mt) = file_size (m_ctx m0) /\
    file_handle (m_ctx mt) <> NULL /\
    written_bytes (m_trace mt) = written_bytes (m_trace mi) /\
    m_trace m' = m_trace (snd (_ymodem_do_trans fuel mt)) ++ evs /\
    written_bytes evs = 0.
Proof.
  intros Eh Ep T0. cbv zeta.
  pose proof (keeps_run _ _ _ _ _ (do_handshake_line_only _) Eh) as (_ & evs & Et & Hc).
  apply is_comm_not_write in Hc. apply not_write_written in Hc.
  assert (W0 : written_bytes (m_trace mp) = written_bytes (m_trace mi))
    by (rewrite Et, written_bytes_app; lia).
  destruct (ymodem_receive_file fuel timeout_s mi) as [rr mm] eqn:EX. cbn [snd].
  revert EX.
  unfold ymodem_receive_file. unfold bind at 1. rewrite Eh.
  change (negb (YMODEM_ERR_NONE =? YMODEM_ERR_NONE)) with false. cbv iota.
  unfold bind at 1. rewrite Ep.
  change (negb (YMODEM_ERR_NONE =? YMODEM_ERR_NONE)) with false. cbv iota beta zeta.
  unfold bind at 1. unfold callback at 1.
  destruct (cb_file_open _ _ _ _) as [h w].
  unfold bind at 1. unfold modify_ctx at 1.
  cbn [m_ctx m_info m_world m_trace].
  set (mt := mk_machine _ _ _ _).
  assert (Ft : file_size (m_ctx mt) = file_size (m_ctx m0)) by reflexivity.
  assert (Ht : file_handle (m_ctx mt) = h) by reflexivity.
  assert (Wt : written_bytes (m_trace mt) = written_bytes (m_trace mi))
    by (subst mt; cbn; rewrite written_bytes_app, T0; cbn; lia).
  clearbody mt.
  destruct (h =? NULL) eqn:Enull.
  { intros [= _ <-]. left. exact Wt. }
  apply Z.eqb_neq in Enull.
  unfold bind at 1.
  destruct (_ymodem_do_trans fuel mt) as [r m3] eqn:E3.
  assert (Hk : forall (c : M World (option Z)),
            keeps (grows_by not_write) c ->
            c m3 = (rr, mm) ->
            written_bytes (m_trace mm) = written_bytes (m_trace mi) \/
            exists (mt : machine World) (evs : list event),
              file_size (m_ctx mt) = file_size (m_ctx m0) /\
              file_handle (m_ctx mt) <> NULL /\
              written_bytes (m_trace mt) = written_bytes (m_trace mi) /\
              m_trace mm = m_trace (snd (_ymodem_do_trans fuel mt)) ++ evs /\
              written_bytes evs = 0).
  { intros c Hc' Ec. apply (keeps_run _ _ _ _ _ Hc') in Ec.
    destruct Ec as (evs0 & E0 & H0). right. exists mt, evs0.
    rewrite E3. cbn [snd].
    repeat split; try assumption; try congruence.
    now apply not_write_written. }
  destruct r as [r |].
  2:{ apply (Hk (ret None)). grows_by_tac idtac. }
  destruct (negb (r =? YMODEM_ERR_NONE)).
  - apply (Hk (close_file ;; ret (Some r))).
    grows_by_tac idtac. apply close_file_not_write.
  - apply (Hk (r0 <- _ymodem_do_fin fuel ;;
               match r0 with
               | None => ret None
               | Some r1 => close_file ;; ret (Some r1)
               end)).
    repeat first
      [ apply do_fin_not_write
      | apply close_file_not_write
      | progress grows_by_tac idtac ].
Qed.

(** C2 (amended): when packet 0 announces a file size S with
    0 < S < 2^31, the size as an [int] holds it as it is, and
    [ymodem_receive_file] asks [file_write] for at most S bytes in
    all, however the transfer goes.  The writes are those of its data
    loop: the loop is entered with the announced size and the file
    open, and a run of it is a chain of rounds, at the start of each of
    which [total_received] is the number T of bytes written so far.
    In every round that receives a valid packet in sequence, with N
    bytes of data, the loop asks [file_write] for the first S - T bytes
    of the data when T + N reaches S, and for all N bytes otherwise;
    T then grows by that number. *)
Theorem recv_trans_write_bounded (S : Z) (timeout_s : Z)
    (mi mp : machine World) :
  0 < S < 2 ^ 31 ->
  _ymodem_do_handshake timeout_s mi = (YMODEM_ERR_NONE, mp) ->
  announces (buffer (m_ctx mp)) S ->
  exists m0,
    _ymodem_parse_file_info mp = (YMODEM_ERR_NONE, m0) /\
    file_size (m_ctx m0) = S /\
    (* the whole transfer *)
    (forall fuel : nat,
       let m' := snd (ymodem_receive_file fuel timeout_s mi) in
       written_bytes (m_trace m') <= written_bytes (m_trace mi) + S /\
       (written_bytes (m_trace m') = written_bytes (m_trace mi) \/
        exists (mt : machine World) (evs : list event),
          file_size (m_ctx mt) = file_size (m_ctx m0) /\
          file_handle (m_ctx mt) <> NULL /\
          written_bytes (m_trace mt) = written_bytes (m_trace mi) /\
          m_trace m' = m_trace (snd (_ymodem_do_trans fuel mt)) ++ evs /\
          written_bytes evs = 0)) /\
    (* the data loop *)
    forall m,
      file_size (m_ctx m) = file_size (m_ctx m0) ->
      file_handle (m_ctx m) <> NULL ->
      (forall (fuel : nat) (r : option Z) m',
         _ymodem_do_trans fuel m = (r, m') ->
         written_bytes (m_trace m') <= written_bytes (m_trace m) + S /\
         exists (es tr : Z) (mk : machine World),
           trans_round m es tr mk /\
           match r with
           | Some e => recv_trans_round es tr mk = (Return e, m')
           | None => mk = m'
           end) /\
      (forall (es tr : Z) (mk : machine World),
         trans_round m es tr mk ->
         tr = written_bytes (m_trace mk) - written_bytes (m_trace m) /\
         forall (h n : Z) m1 m2,
           ymodem_receive_byte YMODEM_WAIT_PACKET_TIMEOUT_MS mk = (h, m1) ->
           h = YMODEM_CODE_SOH \/ h = YMODEM_CODE_STX ->
           _ymodem_receive_packet
               (with_ctx m1 (set_buffer (store (buffer (m_ctx m1)) 0 (u8 h))
                                        (m_ctx m1)))
             = ((YMODEM_ERR_NONE, es, n), m2) ->
           let k := if tr + n >=? S then S - tr else n in
           let data := slice (buffer (m_ctx m2)) 3 k in
           len data = k /\
           exists (s : loop_step) (mk' : machine World) (written : Z)
                  (evs : list event),
             recv_trans_round es tr mk = (s, mk') /\
             m_trace mk'
               = m_trace m2
                   ++ EvWrite (file_handle (m_ctx m)) data written :: evs /\
             written_bytes evs = 0 /\
             (written <> k -> s = Return YMODEM_ERR_FILE) /\
             (forall es' tr', s = Continue es' tr' -> tr' = tr + k)).
Proof.
  intros HS Eh Ha.
  destruct (parse_file_info_announced mp S HS Ha) as (m0 & Ep & F0 & _ & T0).
  exists m0. split; [exact Ep |]. split; [exact F0 |]. split.
  - intros fuel. cbv zeta.
    pose proof (receive_file_data_loop S fuel timeout_s mi mp m0 Eh Ep T0) as L.
    cbv zeta in L. split; [| exact L].
    destruct L as [L | (mt & evs & Ft & _ & Wt & Et & Hw)]; [lia |].
    rewrite Et, written_bytes_app, Hw, <- Wt, Z.add_0_r.
    eapply do_trans_written; [exact HS | congruence | apply surjective_pairing].
  - intros m Hfs Hfh. rewrite F0 in Hfs. split.
    + intros fuel r m' E. split; [now apply (do_trans_written S fuel m r) |].
      revert E. unfold _ymodem_do_trans.
      unfold bind at 1. unfold modify_ctx at 1.
      unfold bind at 1. unfold modify_ctx at 1.
      apply (recv_trans_loop_rounds fuel m). exact (trans_round_first m).
    + intros es tr mk R.
      destruct (trans_round_inv S m es tr mk HS Hfs Hfh R) as (F & H & Htr & W).
      split; [lia |].
      intros h n m1 m2 E1 Hh E2. rewrite <- H.
      apply (recv_trans_round_writes S mk es tr h n m1 m2); try assumption.
      congruence.
Qed.
End Properties.

(** * Runs on the scripted environment *)

Lemma send_packet_frame_witness :
  0 <= 7 < 256 /\
  YMODEM_MAX_PACKET_SIZE <= send_buffer_size (m_ctx sample_machine) /\
  len sample_payload = YMODEM_SOH_DATA_SIZE /\
  len [1; 2; 3] <> YMODEM_SOH_DATA_SIZE /\
  (exists frame sent m',
     _ymodem_send_packet YMODEM_CODE_SOH 7 sample_payload sample_machine
       = (if sent =? 0 then YMODEM_ERR_CODE else YMODEM_ERR_NONE, m') /\
     m_trace m' = [EvSend frame sent] /\
     len frame = 133 /\
     load frame 2 = Z.lxor 7 0xFF /\
     ymodem_calc_crc16 sample_payload = 256 * load frame 131 + load frame 132) /\
  _ymodem_send_packet YMODEM_CODE_SOH 7 [1; 2; 3] sample_machine
    = (YMODEM_ERR_DSZ, sample_machine).
Proof.
  assert (H1 : 0 <= 7 < 256) by lia.
  assert (H2 : YMODEM_MAX_PACKET_SIZE <= send_buffer_size (m_ctx sample_machine))
    by (vm_compute; discriminate).
  assert (H3 : len sample_payload = YMODEM_SOH_DATA_SIZE) by reflexivity.
  assert (H4 : len [1; 2; 3] <> YMODEM_SOH_DATA_SIZE) by (vm_compute; discriminate).
  split; [exact H1 |]. split; [exact H2 |]. split; [exact H3 |].
  split; [exact H4 |]. split.
  - destruct (proj1 (send_packet_frame sample_machine YMODEM_CODE_SOH 7
                       sample_payload H1 H2) (or_introl (conj eq_refl H3)))
      as (frame & sent & m' & E & T & _ & L & _ & _ & B2 & _ & _ & _ & C & _).
    exists frame, sent, m'. rewrite H3 in L, C.
    split; [exact E |]. split; [exact T |]. split; [exact L |].
    split; [exact B2 | exact C].
  - apply (proj2 (send_packet_frame sample_machine YMODEM_CODE_SOH 7
                    [1; 2; 3] H1 H2)).
    left. split; [reflexivity | exact H4].
Defined.

(** C8 (the code at the failing input): the transport accepts 5 of the
    133 bytes of a frame, and [_ymodem_send_packet] returns
    YMODEM_ERR_NONE. *)
Theorem send_packet_short_send :
  exists frame m',
    _ymodem_send_packet YMODEM_CODE_SOH 1 sample_payload
        (sim_machine sim_ctx short_line)
      = (YMODEM_ERR_NONE, m') /\
    m_trace m' = [EvSend frame 5] /\
    len frame = 133.
Proof.
  eexists. eexists. split; [vm_compute; reflexivity |].
  split; reflexivity.
Qed.

(** The reply to packet 0: ACK then 'C', 'C' alone, 'C' after two
    timeouts and a stray byte, ACKs only, nothing at all. *)
Example send_handshake_reply_ack_c :
  fst (send_handshake_reply
         (sim_machine sim_ctx (sim_peer [[YMODEM_CODE_ACK]; [YMODEM_CODE_C]])))
  = YMODEM_ERR_NONE.
Proof. reflexivity. Qed.

Example send_handshake_reply_c_alone :
  fst (send_handshake_reply
         (sim_machine sim_ctx (sim_peer [[YMODEM_CODE_C]; [YMODEM_CODE_ACK]])))
  = YMODEM_ERR_NONE.
Proof. reflexivity. Qed.

Example send_handshake_reply_late_c :
  fst (send_handshake_reply
         (sim_machine sim_ctx
            (sim_peer [[]; [YMODEM_CODE_ACK]; []; [0x55]; [YMODEM_CODE_C]])))
  = YMODEM_ERR_NONE.
Proof. reflexivity. Qed.

Example send_handshake_reply_only_acks :
  fst (send_handshake_reply
         (sim_machine sim_ctx
            (sim_peer (repeat [YMODEM_CODE_ACK] 6 ++ [[YMODEM_CODE_C]]))))
  = YMODEM_ERR_ACK.
Proof. reflexivity. Qed.

Example send_handshake_reply_silence :
  fst (send_handshake_reply sample_machine) = YMODEM_ERR_ACK.
Proof. reflexivity. Qed.

(** C5 (the claim as stated fails): the sender is at packet 2 and the
    reply to it is a 'C'; the packet counts as acknowledged, it is sent
    once and the sequence number becomes 3, though the packet is not
    the first data packet. *)
Lemma send_c_for_second_packet_is_ack :
  packet_seq (m_ctx second_packet_machine) = 2 /\
  2 <> 1 /\
  (let (s, m') := send_trans_round second_packet_machine in
   s = None /\
   packet_seq (m_ctx m') = 3 /\
   sends (m_trace m') = 1%nat /\
   last (m_trace m') (EvClose 0)
     = EvRecv 1 YMODEM_WAIT_PACKET_TIMEOUT_MS [YMODEM_CODE_C]).
Proof.
  split; [reflexivity |]. split; [discriminate |].
  vm_compute. repeat split.
Qed.

Lemma send_trans_c_is_ack_witness :
  let m := nak_then_c_machine in
  let m' := snd (send_trans_round m) in
  sends (m_trace m') = 2%nat /\
  last (m_trace m') (EvClose 0)
    = EvRecv 1 YMODEM_WAIT_PACKET_TIMEOUT_MS [YMODEM_CODE_C] /\
  packet_seq (m_ctx m') = (2 + 1) mod 256 /\
  fst (send_trans_round m) = None /\
  next_block (fst (_ymodem_do_send_trans 2 m))
             (skipn (length (m_trace m')) (m_trace (snd (_ymodem_do_send_trans 2 m)))).
Proof.
  cbv zeta.
  set (m := nak_then_c_machine).
  pose (ev := EvRecv 1 YMODEM_WAIT_PACKET_TIMEOUT_MS [YMODEM_CODE_C]).
  assert (Hd : reply_of [YMODEM_CODE_C] = YMODEM_CODE_C) by reflexivity.
  split; [vm_compute; reflexivity |]. split; [vm_compute; reflexivity |].
  pose (pre := removelast (m_trace (snd (send_trans_round m)))).
  assert (T : m_trace (snd (send_trans_round m)) = m_trace m ++ pre ++ ev :: [])
    by (vm_compute; reflexivity).
  destruct (send_trans_c_is_ack (World := sim) pre [] 1 YMODEM_WAIT_PACKET_TIMEOUT_MS
              [YMODEM_CODE_C] Hd) as [A _].
  destruct (A m _ _ (surjective_pairing (send_trans_round m)) T) as (_ & Hseq & Hs).
  split; [exact Hseq |]. split; [rewrite Hs; vm_compute; reflexivity |].
  pose (suf := skipn (length (m_trace (snd (send_trans_round m))))
                     (m_trace (snd (_ymodem_do_send_trans 2 m)))).
  assert (T2 : m_trace (snd (_ymodem_do_send_trans 2 m)) = m_trace m ++ pre ++ ev :: suf)
    by (vm_compute; reflexivity).
  destruct (send_trans_c_is_ack (World := sim) pre suf 1 YMODEM_WAIT_PACKET_TIMEOUT_MS
              [YMODEM_CODE_C] Hd) as [_ B].
  exact (B 2%nat m _ _ (surjective_pairing (_ymodem_do_send_trans 2 m)) T2).
Defined.



Lemma send_fin_null_packet_witness :
  YMODEM_MAX_PACKET_SIZE <= buffer_size (m_ctx sample_machine) /\
  send_fin_null_packet sample_machine
    = (YMODEM_ERR_NONE, snd (send_fin_null_packet sample_machine)) /\
  stage (m_ctx (snd (send_fin_null_packet sample_machine)))
    = YMODEM_STAGE_FINISHED.
Proof.
  assert (Hbuf : YMODEM_MAX_PACKET_SIZE <= buffer_size (m_ctx sample_machine))
    by (vm_compute; discriminate).
  pose (m0 := with_ctx sample_machine
                (set_buffer (memset (buffer (m_ctx sample_machine)) 3 0
                                    YMODEM_SOH_DATA_SIZE)
                            (m_ctx sample_machine))).
  pose (m1 := snd (_ymodem_send_packet YMODEM_CODE_SOH 0 (repeat 0 128) m0)).
  assert (Hsend : _ymodem_send_packet YMODEM_CODE_SOH 0 (repeat 0 128) m0
                  = (YMODEM_ERR_NONE, m1))
    by (vm_compute; reflexivity).
  destruct (send_fin_null_packet_spec sample_machine m1 Hbuf Hsend)
    as (d & w & _ & E).
  split; [exact Hbuf |]. rewrite E. split; reflexivity.
Defined.

(** The scripted contexts are initialised ones. *)
Example sim_ctx_initialised :
  ymodem_send_init sim_ctx sim_callbacks (buffer sim_ctx) (send_buffer sim_ctx)
    = (YMODEM_ERR_NONE, sim_ctx) /\
  ymodem_receive_init sim_ctx sim_callbacks (buffer sim_ctx)
    = (YMODEM_ERR_NONE, sim_ctx).
Proof. split; reflexivity. Qed.

(** The sample transfer, on both sides. *)
Example receive_sample_file :
  let (r, m') := ymodem_receive_file 20 60 (sim_machine sim_ctx sending_peer) in
  r = Some YMODEM_ERR_NONE /\
  stage (m_ctx m') = YMODEM_STAGE_FINISHED /\
  cstring (fi_filename (m_info m')) = [97; 46; 98] /\
  fi_filesize (m_info m') = 3 /\
  In (EvWrite 1 [65; 66; 67] 3) (m_trace m') /\
  written_bytes (m_trace m') = 3.
Proof. vm_compute. repeat split; tauto. Qed.

Example send_sample_file :
  let (r, m') := ymodem_send_file 20 (Some [47; 97; 46; 98]) 10
                   (sim_machine sim_ctx receiving_peer) in
  r = Some YMODEM_ERR_NONE /\
  stage (m_ctx m') = YMODEM_STAGE_FINISHED /\
  In (EvSend sample_packet0 133) (m_trace m') /\
  In (EvSend sample_packet1 133) (m_trace m') /\
  In (EvSend sample_packet_end 133) (m_trace m').
Proof. vm_compute. repeat split; tauto. Qed.

Lemma recv_trans_write_bounded_witness :
  let mi := sim_machine sim_ctx sending_peer in
  let mp := snd (_ymodem_do_handshake 5 mi) in
  let ms := with_ctx data_machine
              (set_error_count 0
                 (set_stage YMODEM_STAGE_TRANSMITTING (m_ctx data_machine))) in
  announces (buffer (m_ctx mp)) 3 /\
  written_bytes (m_trace (snd (ymodem_receive_file 20 5 mi))) <= 3 /\
  In (EvWrite 1 [65; 66; 67] 3) (m_trace (snd (ymodem_receive_file 20 5 mi))) /\
  (exists (es tr : Z) (mk : machine sim),
     trans_round data_machine es tr mk /\
     recv_trans_round es tr mk
     = (Return YMODEM_ERR_NONE, snd (_ymodem_do_trans 20 data_machine))) /\
  exists (s : loop_step) (m' : machine sim) (data : list Z) (written : Z),
    recv_trans_round 1 0 ms = (s, m') /\
    len data = 3 /\
    In (EvWrite 1 data written) (m_trace m').
Proof.
  cbv zeta.
  set (mi := sim_machine sim_ctx sending_peer).
  set (mp := snd (_ymodem_do_handshake 5 mi)).
  set (ms := with_ctx data_machine _).
  assert (HS : 0 < 3 < 2 ^ 31) by (split; [lia | reflexivity]).
  assert (Eh : _ymodem_do_handshake 5 mi = (YMODEM_ERR_NONE, mp))
    by (vm_compute; reflexivity).
  assert (Ha : announces (buffer (m_ctx mp)) 3).
  { exists [97; 46; 98], [51], (skipn 8 (buffer (m_ctx mp))).
    split; [vm_compute; reflexivity |].
    split; [vm_compute; split; discriminate |].
    split; [repeat constructor; discriminate |].
    repeat split; vm_compute; reflexivity. }
  split; [exact Ha |].
  destruct (recv_trans_write_bounded 3 5 mi mp HS Eh Ha) as (m0 & Ep & F0 & A & B).
  split; [exact (proj1 (A 20%nat)) |].
  assert (Hfs : file_size (m_ctx data_machine) = file_size (m_ctx m0))
    by (rewrite F0; reflexivity).
  assert (Hfh : file_handle (m_ctx data_machine) <> NULL) by discriminate.
  split; [vm_compute; tauto |].
  destruct (B data_machine Hfs Hfh) as [L C].
  split.
  { assert (Er : _ymodem_do_trans 20 data_machine
                 = (Some YMODEM_ERR_NONE, snd (_ymodem_do_trans 20 data_machine)))
      by (vm_compute; reflexivity).
    exact (proj2 (L 20%nat _ _ Er)). }
  destruct (C 1 0 ms (trans_round_first data_machine)) as [_ D].
  pose (m1 := snd (ymodem_receive_byte YMODEM_WAIT_PACKET_TIMEOUT_MS ms)).
  pose (m1' := with_ctx m1 (set_buffer (store (buffer (m_ctx m1)) 0
                                              (u8 YMODEM_CODE_SOH)) (m_ctx m1))).
  pose (m2 := snd (_ymodem_receive_packet m1')).
  assert (E1 : ymodem_receive_byte YMODEM_WAIT_PACKET_TIMEOUT_MS ms
               = (YMODEM_CODE_SOH, m1)) by (vm_compute; reflexivity).
  assert (E2 : _ymodem_receive_packet m1' = ((YMODEM_ERR_NONE, 1, 128), m2))
    by (vm_compute; reflexivity).
  destruct (D YMODEM_CODE_SOH 128 m1 m2 E1 (or_introl eq_refl) E2)
    as (Hlen & s & m' & written & evs & E & T & _).
  exists s, m', (slice (buffer (m_ctx m2)) 3 3), written.
  split; [exact E |]. split; [exact Hlen |].
  rewrite T. apply in_or_app. right. left. reflexivity.
Defined.

(** C2 (the claim as stated fails): packet 0 announces 4294967297
    bytes, which is 2^32 + 1; the size as an [int] is 1.  The first
    data packet, valid and in sequence, has 128 bytes of data, far
    fewer than the announced size, and the receiver writes 1 byte of
    it, not the full payload. *)
Lemma recv_announced_size_wraps :
  let mi := sim_machine sim_ctx wide_peer in
  let mp := snd (_ymodem_do_handshake 5 mi) in
  let m' := snd (ymodem_receive_file 20 5 mi) in
  fst (_ymodem_do_handshake 5 mi) = YMODEM_ERR_NONE /\
  announces (buffer (m_ctx mp)) 4294967297 /\
  _ymodem_parse_file_info mp
    = (YMODEM_ERR_NONE, snd (_ymodem_parse_file_info mp)) /\
  file_size (m_ctx (snd (_ymodem_parse_file_info mp))) = 1 /\
  fst (ymodem_receive_file 20 5 mi) = Some YMODEM_ERR_NONE /\
  In (EvRecv 132 YMODEM_WAIT_PACKET_TIMEOUT_MS
             (tl (packet_of YMODEM_CODE_SOH 1 sample_payload)))
     (m_trace m') /\
  0 + len sample_payload < 4294967297 /\
  In (EvWrite 1 [1] 1) (m_trace m') /\
  ~ In (EvWrite 1 sample_payload 128) (m_trace m') /\
  written_bytes (m_trace m') = 1.
Proof.
  cbv zeta.
  split; [vm_compute; reflexivity |].
  split.
  { exists [97; 46; 98], [52; 50; 57; 52; 57; 54; 55; 50; 57; 55],
      (skipn 17 (buffer (m_ctx (snd (_ymodem_do_handshake 5
                                       (sim_machine sim_ctx wide_peer)))))).
    split; [vm_compute; reflexivity |].
    split; [vm_compute; split; discriminate |].
    split; [repeat constructor; discriminate |].
    repeat split; vm_compute; reflexivity. }
  split; [vm_compute; reflexivity |].
  split; [vm_compute; reflexivity |].
  split; [vm_compute; reflexivity |].
  split; [vm_compute; tauto |].
  split; [vm_compute; reflexivity |].
  split; [vm_compute; tauto |].
  split; [| vm_compute; reflexivity].
  vm_compute. intros H.
  repeat (destruct H as [H | H]; [discriminate H |]). exact H.
Qed.


(** Five stray bytes and then silence: the loop ends with a timeout,
    not with YMODEM_ERR_CODE; a sixth stray byte makes it fail, after
    five NAKs. *)
Example recv_five_stray_bytes :
  let (r, m') := _ymodem_do_trans 20
                   (sim_machine sim_ctx (sim_peer (repeat [0x55] 5))) in
  r = Some YMODEM_ERR_TMO /\ error_count (m_ctx m') = 5 /\
  sends (m_trace m') = 5%nat.
Proof. vm_compute. repeat split. Qed.

Example recv_six_stray_bytes :
  let (r, m') := _ymodem_do_trans 20 (stray_machine 0) in
  r = Some YMODEM_ERR_CODE /\ error_count (m_ctx m') = 6 /\
  sends (m_trace m') = 5%nat.
Proof. vm_compute. repeat split. Qed.


Lemma file_handle_null_on_return_witness :
  file_handle (m_ctx (sim_machine sim_ctx receiving_peer)) = NULL /\
  fst (ymodem_send_file 20 (Some [47; 97; 46; 98]) 10
         (sim_machine sim_ctx receiving_peer)) = Some YMODEM_ERR_NONE /\
  file_handle (m_ctx (snd (ymodem_send_file 20 (Some [47; 97; 46; 98]) 10
                             (sim_machine sim_ctx receiving_peer)))) = NULL /\
  fst (ymodem_receive_file 20 60 (sim_machine sim_ctx sending_peer))
    = Some YMODEM_ERR_NONE /\
  file_handle (m_ctx (snd (ymodem_receive_file 20 60
                             (sim_machine sim_ctx sending_peer)))) = NULL.
Proof.
  assert (H0 : forall w, file_handle (m_ctx (sim_machine sim_ctx w)) = NULL)
    by reflexivity.
  assert (Es : ymodem_send_file 20 (Some [47; 97; 46; 98]) 10
                 (sim_machine sim_ctx receiving_peer)
               = (Some YMODEM_ERR_NONE,
                  snd (ymodem_send_file 20 (Some [47; 97; 46; 98]) 10
                         (sim_machine sim_ctx receiving_peer))))
    by (vm_compute; reflexivity).
  assert (Er : ymodem_receive_file 20 60 (sim_machine sim_ctx sending_peer)
               = (Some YMODEM_ERR_NONE,
                  snd (ymodem_receive_file 20 60
                         (sim_machine sim_ctx sending_peer))))
    by (vm_compute; reflexivity).
  split; [apply H0 |]. split; [now rewrite Es |]. split.
  - exact (proj1 (file_handle_null_on_return 20 (Some [47; 97; 46; 98]) 10
                    _ _ _ (H0 receiving_peer)) Es).
  - split; [now rewrite Er |].
    exact (proj2 (file_handle_null_on_return 20 None 60
                    _ _ _ (H0 sending_peer)) Er).
Defined.

Lemma parse_file_info_name_witness :
  YMODEM_MAX_PACKET_SIZE <= buffer_size (m_ctx packet0_machine) /\
  load (skipn 3 (buffer (m_ctx packet0_machine))) 0 <> 0 /\
  load (skipn 3 (buffer (m_ctx empty_packet0_machine))) 0 = 0 /\
  (exists (l : Z) (m' : machine sim),
     _ymodem_parse_file_info packet0_machine = (YMODEM_ERR_NONE, m') /\
     1 <= l <= 255 /\
     len (filename (m_ctx m')) = YMODEM_MAX_FILENAME_LENGTH /\
     cstring (filename (m_ctx m'))
       = slice (skipn 3 (buffer (m_ctx packet0_machine))) 0 l /\
     cstring (fi_filename (m_info m')) = cstring (filename (m_ctx m'))) /\
  _ymodem_parse_file_info empty_packet0_machine
    = (YMODEM_ERR_FILE, empty_packet0_machine).
Proof.
  assert (Hb : forall m : machine sim,
             len (buffer (m_ctx m)) = 1029 ->
             YMODEM_MAX_PACKET_SIZE <= buffer_size (m_ctx m)).
  { intros m H. unfold buffer_size. rewrite H. vm_compute. discriminate. }
  assert (H1 : load (skipn 3 (buffer (m_ctx packet0_machine))) 0 <> 0)
    by (vm_compute; discriminate).
  assert (H2 : load (skipn 3 (buffer (m_ctx empty_packet0_machine))) 0 = 0)
    by reflexivity.
  split; [apply Hb; reflexivity |]. split; [exact H1 |]. split; [exact H2 |].
  split.
  - destruct (proj1 (parse_file_info_name packet0_machine
                       (Hb packet0_machine eq_refl) eq_refl eq_refl) H1)
      as (l & m' & E & Hl & _ & _ & L1 & _ & S1 & S2 & _).
    exists l, m'. split; [exact E |]. split; [exact Hl |].
    split; [exact L1 |]. split; [exact S1 | congruence].
  - exact (proj1 (proj2 (parse_file_info_name empty_packet0_machine
                           (Hb empty_packet0_machine eq_refl) eq_refl eq_refl) H2)).
Defined.

(** * Further properties *)

(** ** The checksum as an error-detecting code *)

Lemma lxor_byte (a b : Z) : 0 <= a < 256 -> 0 <= b < 256 -> 0 <= Z.lxor a b < 256.
Proof.
  intros Ha Hb.
  assert (E : (Z.lxor a b) mod 2 ^ 8 = Z.lxor a b).
  { rewrite mod_lxor by lia. change (2 ^ 8) with 256.
    now rewrite !Z.mod_small by lia. }
  rewrite <- E. change (2 ^ 8) with 256. apply Z.mod_pos_bound. lia.
Qed.

Lemma lxor_cancel_l (a b c : Z) : Z.lxor a b = Z.lxor a c -> b = c.
Proof.
  intros E. apply (f_equal (Z.lxor a)) in E.
  now rewrite <- !Z.lxor_assoc, Z.lxor_nilpotent, !Z.lxor_0_l in E.
Qed.

Lemma lxor_cancel_r (a b c : Z) : Z.lxor b a = Z.lxor c a -> b = c.
Proof.
  rewrite (Z.lxor_comm b), (Z.lxor_comm c). apply lxor_cancel_l.
Qed.

(** One round of the checksum on a state split into its two bytes: the
    low byte moves up, and the table entry chosen by the high byte and
    the data byte is added. *)
Lemma crc16_update_split (h l b : Z) :
  0 <= h < 256 -> 0 <= l < 256 -> 0 <= b < 256 ->
  crc16_update (256 * h + l) b
  = Z.lxor (256 * l) (load crc16_ccitt_table (Z.lxor h b)).
Proof.
  intros Hh Hl Hb. unfold crc16_update.
  assert (E1 : Z.shiftr (256 * h + l) 8 = h).
  { rewrite Z.shiftr_div_pow2 by lia. change (2 ^ 8) with 256.
    symmetry. apply (Z.div_unique _ 256 h l); lia. }
  rewrite E1, land_255, (Z.mod_small (Z.lxor h b)) by (apply lxor_byte; lia).
  unfold u16. change 65536 with (2 ^ 16). rewrite mod_lxor by lia.
  change (2 ^ 16) with 65536.
  rewrite (Z.mod_small (load _ _)) by apply crc16_table_range.
  f_equal. rewrite Z.shiftl_mul_pow2 by lia. change (2 ^ 8) with 256.
  replace ((256 * h + l) * 256) with (256 * l + h * 65536) by lia.
  rewrite Z.mod_add by lia. apply Z.mod_small. lia.
Qed.

(** A state of the checksum as two bytes. *)
Lemma crc_split (crc : Z) :
  0 <= crc < 65536 ->
  exists h l, 0 <= h < 256 /\ 0 <= l < 256 /\ crc = 256 * h + l /\
              h = Z.land (Z.shiftr crc 8) 0xFF /\ l = Z.land crc 0xFF.
Proof.
  intros H. exists (Z.land (Z.shiftr crc 8) 0xFF), (Z.land crc 0xFF).
  rewrite !land_255, Z.shiftr_div_pow2 by lia. change (2 ^ 8) with 256.
  assert (0 <= crc / 256 < 256)
    by (split; [apply Z.div_pos; lia | apply Z.div_lt_upper_bound; lia]).
  rewrite (Z.mod_small (crc / 256)) by lia.
  pose proof (Z.mod_pos_bound crc 256 ltac:(lia)).
  pose proof (Z.div_mod crc 256 ltac:(lia)). repeat split; lia.
Qed.

Lemma fold_crc16_app (a b : list Z) (crc : Z) :
  fold_left crc16_update (a ++ b) crc
  = fold_left crc16_update b (fold_left crc16_update a crc).
Proof. apply fold_left_app. Qed.

(** X1: the checksum of a payload followed by the two bytes of its own
    checksum, high byte first, as [_ymodem_send_packet] appends them,
    is 0. *)
Theorem crc16_residue (data : list Z) :
  let crc := ymodem_calc_crc16 data in
  ymodem_calc_crc16
    (data ++ [Z.land (Z.shiftr crc 8) 0xFF; Z.land crc 0xFF]) = 0.
Proof.
  intros crc. unfold ymodem_calc_crc16 at 1. rewrite fold_crc16_app.
  fold (ymodem_calc_crc16 data). fold crc.
  destruct (crc_split crc (ymodem_calc_crc16_range data))
    as (h & l & Hh & Hl & E & <- & <-).
  cbn [fold_left]. rewrite E at 1.
  rewrite crc16_update_split, Z.lxor_nilpotent by lia.
  change (load crc16_ccitt_table 0) with 0. rewrite Z.lxor_0_r.
  replace (256 * l) with (256 * l + 0) by lia.
  rewrite crc16_update_split, Z.lxor_nilpotent by lia.
  reflexivity.
Qed.

(** Two entries of the table with the same low byte are the same
    entry. *)
Lemma crc16_table_low_inj (i j : Z) :
  0 <= i < 256 -> 0 <= j < 256 ->
  (load crc16_ccitt_table i) mod 256 = (load crc16_ccitt_table j) mod 256 ->
  i = j.
Proof.
  intros Hi Hj E.
  pose (P := fun i => forallb (fun j =>
                 implb ((load crc16_ccitt_table i) mod 256
                          =? (load crc16_ccitt_table j) mod 256) (i =? j))
                 (map Z.of_nat (seq 0 256))).
  assert (F : P i = true)
    by (apply forall_bytes; [vm_compute; reflexivity | exact Hi]).
  unfold P in F. clear P.
  rewrite forallb_forall in F.
  specialize (F j). rewrite E, Z.eqb_refl in F. cbn [implb] in F.
  apply Z.eqb_eq. apply F.
  apply in_map_iff. exists (Z.to_nat j). split; [lia | apply in_seq; lia].
Qed.

(** One round of the checksum is one-to-one in the state and in the
    data byte. *)
Lemma crc16_update_inj_state (c c' b : Z) :
  0 <= c < 65536 -> 0 <= c' < 65536 -> 0 <= b < 256 ->
  crc16_update c b = crc16_update c' b -> c = c'.
Proof.
  intros Hc Hc' Hb.
  destruct (crc_split c Hc) as (h & l & Hh & Hl & -> & _).
  destruct (crc_split c' Hc') as (h' & l' & Hh' & Hl' & -> & _).
  rewrite !crc16_update_split by lia. intros E.
  assert (Ei : Z.lxor h b = Z.lxor h' b).
  { apply crc16_table_low_inj; try (apply lxor_byte; lia).
    apply (f_equal (fun x => x mod 2 ^ 8)) in E.
    rewrite !mod_lxor in E by lia. change (2 ^ 8) with 256 in E.
    rewrite !(Z.mul_comm 256), !Z.mod_mul, !Z.lxor_0_l in E by lia.
    exact E. }
  rewrite Ei in E. apply lxor_cancel_r in E, Ei. lia.
Qed.

Lemma crc16_update_inj_byte (c b b' : Z) :
  0 <= c < 65536 -> 0 <= b < 256 -> 0 <= b' < 256 ->
  crc16_update c b = crc16_update c b' -> b = b'.
Proof.
  intros Hc Hb Hb'.
  destruct (crc_split c Hc) as (h & l & Hh & Hl & -> & _).
  rewrite !crc16_update_split by lia. intros E.
  apply lxor_cancel_l in E.
  apply (lxor_cancel_l h). apply crc16_table_low_inj; try (apply lxor_byte; lia).
  now rewrite E.
Qed.

Lemma fold_crc16_inj (data : list Z) (c c' : Z) :
  Forall (fun b => 0 <= b < 256) data ->
  0 <= c < 65536 -> 0 <= c' < 65536 ->
  fold_left crc16_update data c = fold_left crc16_update data c' -> c = c'.
Proof.
  intros H. revert c c'.
  induction H as [|b r Hb _ IH]; intros c c' Hc Hc'; cbn [fold_left];
    [trivial |].
  intros E. apply IH in E; try apply crc16_update_range.
  now apply crc16_update_inj_state in E.
Qed.

(** A payload and the same payload with one byte replaced have
    different checksums. *)
Lemma crc16_one_byte (pre suf : list Z) (b b' : Z) :
  Forall (fun x => 0 <= x < 256) suf ->
  0 <= b < 256 -> 0 <= b' < 256 ->
  ymodem_calc_crc16 (pre ++ b :: suf) = ymodem_calc_crc16 (pre ++ b' :: suf) ->
  b = b'.
Proof.
  intros Hsuf Hb Hb'. unfold ymodem_calc_crc16.
  rewrite !fold_crc16_app. cbn [fold_left]. intros E.
  apply fold_crc16_inj in E; try assumption; try apply crc16_update_range.
  apply crc16_update_inj_byte in E; try assumption.
  apply fold_crc16_range. lia.
Qed.

(** X2: [ymodem_calc_crc16] detects every corruption of a single byte:
    two payloads that differ in one byte and are equal elsewhere never
    have the same checksum. *)
Theorem crc16_detects_one_byte (pre suf : list Z) (b b' : Z) :
  Forall (fun x => 0 <= x < 256) suf ->
  0 <= b < 256 -> 0 <= b' < 256 -> b <> b' ->
  ymodem_calc_crc16 (pre ++ b :: suf) <> ymodem_calc_crc16 (pre ++ b' :: suf).
Proof.
  intros Hsuf Hb Hb' Hne E. apply Hne.
  exact (crc16_one_byte pre suf b b' Hsuf Hb Hb' E).
Qed.

(** ** The base name of a path *)

Lemma after_last_some (c : Z) (s t : list Z) :
  after_last c s = Some t ->
  exists pre, s = pre ++ c :: t /\ ~ In c t.
Proof.
  revert t. induction s as [|x r IH]; intros t; cbn [after_last]; [discriminate |].
  destruct (after_last c r) as [u|] eqn:E.
  - intros [= <-]. destruct (IH u eq_refl) as (pre & -> & Hn).
    exists (x :: pre). split; [reflexivity | exact Hn].
  - destruct (x =? c) eqn:Ex; [| discriminate].
    intros [= <-]. apply Z.eqb_eq in Ex. subst x.
    exists []. split; [reflexivity |].
    clear IH. induction r as [|y r IH]; [intros [] |].
    cbn [after_last] in E. destruct (after_last c r); [discriminate |].
    destruct (y =? c) eqn:Ey; [discriminate |]. apply Z.eqb_neq in Ey.
    intros [H | H]; [congruence | now apply IH].
Qed.

Lemma after_last_none (c : Z) (s : list Z) :
  after_last c s = None <-> ~ In c s.
Proof.
  split.
  - induction s as [|x r IH]; cbn [after_last]; [intros _ [] |].
    destruct (after_last c r); [discriminate |].
    destruct (x =? c) eqn:Ex; [discriminate |]. apply Z.eqb_neq in Ex.
    intros _ [H | H]; [congruence | now apply IH].
  - intros H. destruct (after_last c s) as [t|] eqn:E; [| reflexivity].
    destruct (after_last_some _ _ _ E) as (pre & -> & _).
    exfalso. apply H. apply in_or_app. right. now left.
Qed.

(** X3: [ymodem_get_path_basename] returns the part of the path after
    its last '/', or, when the path has no '/', after its last
    backslash; a path with neither is returned as it is.  So the result
    is always an end of the path without any '/', and it has no
    backslash either unless the path has a '/'. *)
Theorem basename_spec (path : list Z) :
  let b := ymodem_get_path_basename path in
  (In 47 path -> exists pre, path = pre ++ 47 :: b) /\
  (~ In 47 path -> In 92 path -> exists pre, path = pre ++ 92 :: b) /\
  (~ In 47 path -> ~ In 92 path -> b = path) /\
  (exists pre, path = pre ++ b) /\
  ~ In 47 b /\
  (~ In 47 path -> ~ In 92 b).
Proof.
  unfold ymodem_get_path_basename.
  destruct (after_last 47 path) as [t|] eqn:E1.
  - destruct (after_last_some _ _ _ E1) as (pre & -> & Hn).
    assert (Hin : In 47 (pre ++ 47 :: t)) by (apply in_or_app; right; now left).
    repeat split.
    + intros _. now exists pre.
    + intros H. now destruct H.
    + intros H. now destruct H.
    + exists (pre ++ [47]). now rewrite <- app_assoc.
    + exact Hn.
    + intros H. now destruct H.
  - apply after_last_none in E1.
    destruct (after_last 92 path) as [t|] eqn:E2.
    + destruct (after_last_some _ _ _ E2) as (pre & -> & Hn).
      assert (Hin : In 92 (pre ++ 92 :: t)) by (apply in_or_app; right; now left).
      repeat split.
      * intros H. now destruct E1.
      * intros _ _. now exists pre.
      * intros _ H. now destruct H.
      * exists (pre ++ [92]). now rewrite <- app_assoc.
      * intros H. apply E1. apply in_or_app. right. now right.
      * intros _. exact Hn.
    + apply after_last_none in E2.
      repeat split.
      * intros H. now destruct E1.
      * intros _ H. now destruct E2.
      * exists []. reflexivity.
      * exact E1.
      * intros _. exact E2.
Qed.

(** ** The file size in packet 0: printing and reading back *)

Lemma sint_small (n : Z) : 0 <= n < 2 ^ 31 -> sint n = n.
Proof. intros H. unfold sint. rewrite Z.mod_small; lia. Qed.

Lemma decimal_digits_app (f : nat) (n : Z) (acc : list Z) :
  decimal_digits f n acc = decimal_digits f n [] ++ acc.
Proof.
  revert n acc. induction f as [|f IH]; intros n acc; cbn [decimal_digits];
    [reflexivity |].
  destruct (n / 10 =? 0); [reflexivity |].
  rewrite IH, (IH _ [_]), <- app_assoc. reflexivity.
Qed.

Lemma decimal_digits_length (f : nat) (n : Z) :
  (length (decimal_digits (S f) n []) <= S f)%nat /\
  (1 <= length (decimal_digits (S f) n []))%nat.
Proof.
  revert n. induction f as [|f IH]; intros n.
  - cbn [decimal_digits]. destruct (n / 10 =? 0); cbn [length]; lia.
  - change (decimal_digits (S (S f)) n [])
      with (if n / 10 =? 0 then [48 + n mod 10]
            else decimal_digits (S f) (n / 10) [48 + n mod 10]).
    destruct (n / 10 =? 0); [cbn [length]; lia |].
    rewrite decimal_digits_app, length_app. cbn [length].
    specialize (IH (n / 10)). lia.
Qed.

Lemma decimal_digits_digit (f : nat) (n : Z) :
  Forall (fun c => 48 <= c <= 57) (decimal_digits f n []).
Proof.
  revert n. induction f as [|f IH]; intros n; cbn [decimal_digits];
    [constructor |].
  assert (H : 48 <= 48 + n mod 10 <= 57)
    by (pose proof (Z.mod_pos_bound n 10 ltac:(lia)); lia).
  destruct (n / 10 =? 0); [repeat constructor; lia |].
  rewrite decimal_digits_app. apply Forall_app. split; [apply IH |].
  repeat constructor; lia.
Qed.

(** Reading the digits of [n] back gives [n], and goes on with what
    follows them. *)
Lemma parse_decimal (f : nat) (n : Z) (tail : list Z) :
  0 <= n < 2 ^ 31 -> n < 10 ^ Z.of_nat f ->
  parse_file_size (decimal_digits f n [] ++ tail) 0 = parse_file_size tail n.
Proof.
  revert n tail. induction f as [|f IH]; intros n tail Hn Hf.
  - change (10 ^ Z.of_nat 0) with 1 in Hf. assert (n = 0) by lia. subst n.
    reflexivity.
  - cbn [decimal_digits].
    pose proof (Z.mod_pos_bound n 10 ltac:(lia)) as Hm.
    pose proof (Z.div_mod n 10 ltac:(lia)) as Hd.
    assert (Hdig : (48 <=? 48 + n mod 10) && (48 + n mod 10 <=? 57) = true).
    { apply andb_true_iff. split; apply Z.leb_le; lia. }
    destruct (n / 10 =? 0) eqn:E.
    + apply Z.eqb_eq in E. cbn [app parse_file_size]. rewrite Hdig.
      f_equal. rewrite sint_small by lia. lia.
    + rewrite decimal_digits_app, <- app_assoc. cbn [app].
      assert (Hq : 0 <= n / 10 < 2 ^ 31).
      { split; [apply Z.div_pos; lia | apply Z.div_lt_upper_bound; lia]. }
      rewrite IH.
      * cbn [parse_file_size]. rewrite Hdig. f_equal.
        rewrite sint_small by lia. lia.
      * exact Hq.
      * apply Z.div_lt_upper_bound; [lia |].
        rewrite Nat2Z.inj_succ, Z.pow_succ_r in Hf by lia. exact Hf.
Qed.

(** What [snprintf] prints for a file size: between 1 and 10 decimal
    digits, which [parse_file_size] reads back. *)
Lemma snprintf_d_size (n : Z) :
  0 <= n < 2 ^ 31 ->
  let s := snprintf_d 20 n in
  1 <= len s <= 10 /\
  Forall (fun c => 48 <= c <= 57) s /\
  forall rest, parse_file_size (s ++ 0 :: rest) 0 = n.
Proof.
  intros Hn. unfold snprintf_d.
  assert (E : (n <? 0) = false) by (apply Z.ltb_ge; lia). rewrite E.
  destruct (decimal_digits_length 9 n) as [L1 L2].
  rewrite firstn_all2 by (change (Z.to_nat (20 - 1)) with 19%nat; lia).
  cbv zeta. split; [unfold len; lia |].
  split; [apply decimal_digits_digit |].
  intros rest. rewrite parse_decimal; [reflexivity | exact Hn |].
  change (10 ^ Z.of_nat 10) with 10000000000. lia.
Qed.

(** ** Packet 0: the file name and the file size *)

Lemma memcpy_at (pre old post src : list Z) (off : Z) :
  off = len pre -> length old = length src ->
  memcpy (pre ++ old ++ post) off src = pre ++ src ++ post.
Proof. intros -> H. now apply memcpy_app. Qed.

Lemma memcpy_len (buf src : list Z) (off : Z) :
  0 <= off -> off + len src <= len buf ->
  len (memcpy buf off src) = len buf.
Proof. intros H1 H2. unfold len. f_equal. now apply memcpy_length. Qed.

(** A buffer of at least [a + b] bytes as [a] bytes, [b] bytes and a
    rest. *)
Lemma split_buffer (buf : list Z) (a b : nat) :
  (a + b <= length buf)%nat ->
  exists x y z, buf = x ++ y ++ z /\ length x = a /\ length y = b.
Proof.
  intros H. destruct (split_list buf a ltac:(lia)) as (x & r & -> & Hx).
  rewrite length_app in H.
  destruct (split_list r b ltac:(lia)) as (y & z & -> & Hy).
  now exists x, y, z.
Qed.

(** The payload that [_ymodem_prepare_file_info_packet] builds at
    offset 3 of the packet buffer. *)
Lemma file_info_payload (buf name digits : list Z) :
  3 + 128 <= len buf ->
  len name + 1 + len digits < 128 ->
  let buf0 := memset buf 3 0 128 in
  let buf1 := memcpy buf0 3 name in
  let buf2 := store buf1 (3 + len name) 0 in
  let buf3 := memcpy buf2 (3 + len name + 1) digits in
  len buf3 = len buf /\
  slice buf3 3 128
  = name ++ 0 :: digits
    ++ repeat 0 (Z.to_nat (128 - len name - 1 - len digits)).
Proof.
  intros Hb Hn. unfold len in Hb, Hn.
  destruct (split_buffer buf 3 128 ltac:(lia)) as (hdr & old & rest & -> & Hh & Ho).
  set (k := (128 - length name - 1 - length digits)%nat).
  assert (Ez : repeat 0 (Z.to_nat 128)
               = repeat 0 (length name) ++ [0] ++ repeat 0 (length digits)
                   ++ repeat 0 k).
  { change [0] with (repeat 0 1). rewrite <- !repeat_app. f_equal. lia. }
  cbv zeta. unfold memset, store.
  rewrite (memcpy_at hdr old rest)
    by (unfold len; rewrite ?repeat_length; lia).
  rewrite Ez, <- !app_assoc.
  rewrite (memcpy_at hdr (repeat 0 (length name)))
    by (unfold len; rewrite ?repeat_length; lia).
  rewrite (app_assoc hdr name).
  rewrite (memcpy_at (hdr ++ name) [0])
    by (unfold len; rewrite ?length_app; cbn [length]; lia).
  rewrite (app_assoc (hdr ++ name) [0]).
  rewrite (memcpy_at ((hdr ++ name) ++ [0]) (repeat 0 (length digits)))
    by (unfold len; rewrite ?length_app, ?repeat_length; cbn [length]; lia).
  split.
  - unfold len. rewrite !length_app, !repeat_length. cbn [length]. lia.
  - rewrite <- !app_assoc.
    replace (Z.to_nat (128 - len name - 1 - len digits)) with k
      by (unfold len, k; lia).
    rewrite (app_assoc digits), (app_assoc [0]), (app_assoc name).
    apply slice_mid.
    + unfold len. lia.
    + unfold len. rewrite !length_app. cbn [length].
      rewrite length_app, repeat_length. unfold k. lia.
Qed.

Section Transfer.

Context {World : Type}.
Implicit Types (m : machine World) (ctx : ymodem_context_t World).

Notation "x <- e ;; k" := (bind e (fun x => k))
  (at level 61, e at next level, right associativity).
Notation "e ;; k" := (bind e (fun _ => k))
  (at level 61, right associativity).

(** What [_ymodem_prepare_file_info_packet] does: only the packet
    buffer changes, and keeps its size; the result is YMODEM_ERR_NONE
    when the name, a NUL and the digits of the size take less than 128
    bytes. *)
Lemma prepare_file_info_packet_run m (fname : list Z) :
  3 + 128 <= buffer_size (m_ctx m) ->
  let name := cstring fname in
  let digits := snprintf_d 20 (file_size (m_ctx m)) in
  exists buf,
    len buf = buffer_size (m_ctx m) /\
    _ymodem_prepare_file_info_packet fname m
      = (if len name + 1 + len digits <? 128
         then YMODEM_ERR_NONE else YMODEM_ERR_DSZ,
         with_ctx m (set_buffer buf (m_ctx m))) /\
    (len name + 1 + len digits < 128 ->
     slice buf 3 128
     = name ++ 0 :: digits
       ++ repeat 0 (Z.to_nat (128 - len name - 1 - len digits))).
Proof.
  intros Hb name digits. unfold buffer_size in *.
  unfold _ymodem_prepare_file_info_packet.
  unfold bind at 1. unfold get_ctx at 1.
  unfold bind at 1. unfold modify_ctx at 1. cbv zeta.
  unfold strlen. fold name.
  assert (L0 : len (memset (buffer (m_ctx m)) 3 0 YMODEM_SOH_DATA_SIZE)
               = len (buffer (m_ctx m))).
  { unfold memset, len. f_equal. apply memcpy_length; [lia |].
    rewrite len_repeat; unfold YMODEM_SOH_DATA_SIZE; lia. }
  pose proof (len_nonneg name) as Hn0. pose proof (len_nonneg digits) as Hd0.
  unfold YMODEM_SOH_DATA_SIZE in *.
  destruct (len name >=? 128) eqn:E1.
  - apply Z.geb_le in E1.
    assert (E : (len name + 1 + len digits <? 128) = false)
      by (apply Z.ltb_ge; lia).
    rewrite E. eexists. split; [| split; [reflexivity | lia]].
    exact L0.
  - assert (H1 : len name < 128)
      by (rewrite Z.geb_leb in E1; apply Z.leb_gt in E1; lia).
    unfold bind at 1. unfold modify_ctx at 1.
    cbn [m_ctx m_info m_world m_trace file_size buffer set_buffer].
    fold digits.
    destruct (len name + 1 + len digits >=? 128) eqn:E2.
    + apply Z.geb_le in E2.
      assert (E : (len name + 1 + len digits <? 128) = false)
        by (apply Z.ltb_ge; lia).
      rewrite E. eexists. split; [| split; [reflexivity | lia]].
      unfold store. rewrite !memcpy_len; rewrite ?memcpy_len, ?L0;
        change (len [0]) with 1; lia.
    + assert (H2 : len name + 1 + len digits < 128)
        by (rewrite Z.geb_leb in E2; apply Z.leb_gt in E2; lia).
      assert (E : (len name + 1 + len digits <? 128) = true)
        by (apply Z.ltb_lt; lia).
      rewrite E.
      destruct (file_info_payload (buffer (m_ctx m)) name digits Hb H2)
        as (L & P).
      unfold bind at 1. unfold modify_ctx at 1.
      cbn [m_ctx m_info m_world m_trace file_size buffer set_buffer].
      eexists. split; [| split; [reflexivity | intros _; exact P]].
      exact L.
Qed.

(** X4: [_ymodem_prepare_file_info_packet] changes nothing but the
    packet buffer, which keeps its size.  It succeeds exactly when the
    file name, a NUL and the decimal digits of the file size take less
    than 128 bytes, and then the payload at offset 3 is the name, a
    NUL, the digits, and zeros up to 128 bytes; otherwise the result is
    YMODEM_ERR_DSZ, as it is for every name of 127 characters or
    more. *)
Theorem prepare_file_info_packet_spec m (fname : list Z) :
  YMODEM_MAX_PACKET_SIZE <= buffer_size (m_ctx m) ->
  let name := cstring fname in
  let digits := snprintf_d 20 (file_size (m_ctx m)) in
  exists buf,
    len buf = buffer_size (m_ctx m) /\
    _ymodem_prepare_file_info_packet fname m
      = (if len name + 1 + len digits <? 128
         then YMODEM_ERR_NONE else YMODEM_ERR_DSZ,
         with_ctx m (set_buffer buf (m_ctx m))) /\
    (len name + 1 + len digits < 128 ->
     slice buf 3 128
     = name ++ 0 :: digits
       ++ repeat 0 (Z.to_nat (128 - len name - 1 - len digits))) /\
    (127 <= strlen fname ->
     _ymodem_prepare_file_info_packet fname m
       = (YMODEM_ERR_DSZ, with_ctx m (set_buffer buf (m_ctx m)))).
Proof.
  intros Hb name digits.
  destruct (prepare_file_info_packet_run m fname) as (buf & L & E & P).
  { unfold YMODEM_MAX_PACKET_SIZE, YMODEM_STX_PACKET_SIZE,
      YMODEM_STX_DATA_SIZE in Hb. lia. }
  exists buf. split; [exact L |]. split; [exact E |]. split; [exact P |].
  intros H. unfold strlen in H. fold name in H. rewrite E.
  pose proof (len_nonneg digits).
  subst name digits.
  destruct (Z.ltb_spec (len (cstring fname) + 1
                        + len (snprintf_d 20 (file_size (m_ctx m)))) 128)
    as [F | F]; [exfalso; lia | reflexivity].
Qed.

Lemma cstring_nonzero (s : list Z) : Forall (fun c => c <> 0) (cstring s).
Proof.
  induction s as [|c r IH]; cbn [cstring]; [constructor |].
  destruct (c =? 0) eqn:E; [constructor |].
  apply Z.eqb_neq in E. now constructor.
Qed.

Lemma load_app_l (a b : list Z) (i : Z) :
  0 <= i < len a -> load (a ++ b) i = load a i.
Proof.
  intros H. unfold load, len in *. apply app_nth1. lia.
Qed.

Lemma load_nonzero (a : list Z) (i : Z) :
  Forall (fun c => c <> 0) a -> 0 <= i < len a -> load a i <> 0.
Proof.
  intros H Hi. rewrite Forall_forall in H. apply H.
  unfold load, len in *. apply nth_In. lia.
Qed.

(** The receiver's view of a payload that holds a name, a NUL, digits
    and a NUL: where the name ends, and what follows it. *)
Lemma payload_name (name digits rest : list Z) :
  1 <= len name <= 254 ->
  Forall (fun c => c <> 0) name ->
  let fname := name ++ 0 :: digits ++ 0 :: rest in
  load fname 0 <> 0 /\
  parse_name_len 255 fname 0 = len name /\
  slice fname 0 (len name) = name /\
  skipn (Z.to_nat (len name + 1)) fname = digits ++ 0 :: rest.
Proof.
  intros Hl Hn fname.
  assert (Hz : load fname (len name) = 0)
    by (unfold fname; now rewrite (load_app_r name _ (len name))).
  assert (Hnz : forall i, 0 <= i < len name -> load fname i <> 0).
  { intros i Hi. unfold fname. rewrite load_app_l by exact Hi.
    now apply load_nonzero. }
  split; [apply Hnz; lia |]. split; [| split].
  - destruct (parse_name_len_spec 255 fname 0 ltac:(lia)) as (A & B & C & D).
    cbv zeta in A, B, C, D.
    set (l := parse_name_len 255 fname 0) in *.
    destruct (Z.lt_trichotomy l (len name)) as [H | [H | H]]; [| exact H |].
    + exfalso. apply (Hnz l); [lia |]. apply D; lia.
    + exfalso. apply (C (len name)); [lia | exact Hz].
  - unfold fname. now apply slice_app.
  - unfold fname, len. replace (Z.to_nat (Z.of_nat (length name) + 1))
      with (length name + 1)%nat by lia.
    rewrite skipn_app, skipn_all2 by lia.
    replace (length name + 1 - length name)%nat with 1%nat by lia.
    reflexivity.
Qed.

(** X5: the receiver reads back what the sender put in packet 0.  When
    [_ymodem_prepare_file_info_packet] succeeds for a name that is not
    empty and a file size that is not negative, and the 128 bytes of
    its payload are at offset 3 of the receiver's buffer,
    [_ymodem_parse_file_info] succeeds and stores that name, in the
    context and in the caller's struct, and that size. *)
Theorem file_info_round_trip (ms ms' mr : machine World) (fname : list Z) :
  YMODEM_MAX_PACKET_SIZE <= buffer_size (m_ctx ms) ->
  0 <= file_size (m_ctx ms) < 2 ^ 31 ->
  1 <= strlen fname ->
  _ymodem_prepare_file_info_packet fname ms = (YMODEM_ERR_NONE, ms') ->
  YMODEM_MAX_PACKET_SIZE <= buffer_size (m_ctx mr) ->
  len (filename (m_ctx mr)) = YMODEM_MAX_FILENAME_LENGTH ->
  len (fi_filename (m_info mr)) = YMODEM_MAX_FILENAME_LENGTH ->
  slice (buffer (m_ctx mr)) 3 128 = slice (buffer (m_ctx ms')) 3 128 ->
  exists mr',
    _ymodem_parse_file_info mr = (YMODEM_ERR_NONE, mr') /\
    cstring (filename (m_ctx mr')) = cstring fname /\
    cstring (fi_filename (m_info mr')) = cstring fname /\
    file_size (m_ctx mr') = file_size (m_ctx ms) /\
    fi_filesize (m_info mr') = file_size (m_ctx ms).
Proof.
  intros Hbs Hsz Hname Eprep Hbr Hfn Hfi Eslice.
  unfold strlen in Hname.
  assert (Hbs' : 3 + 128 <= buffer_size (m_ctx ms)).
  { unfold YMODEM_MAX_PACKET_SIZE, YMODEM_STX_PACKET_SIZE,
      YMODEM_STX_DATA_SIZE in Hbs. lia. }
  destruct (prepare_file_info_packet_run ms fname Hbs') as (buf & L & E & P).
  set (name := cstring fname) in *.
  set (digits := snprintf_d 20 (file_size (m_ctx ms))) in *.
  rewrite Eprep in E.
  destruct (Z.ltb_spec (len name + 1 + len digits) 128) as [Hlt | Hge];
    [| inversion E].
  specialize (P Hlt).
  assert (Ebuf : buffer (m_ctx ms') = buf) by (inversion E; reflexivity).
  rewrite Ebuf, P in Eslice. clear E Ebuf P Eprep.
  destruct (snprintf_d_size (file_size (m_ctx ms)) Hsz) as (Hd & Hdig & Hparse).
  fold digits in Hd, Hdig, Hparse.
  (* the payload ends with at least one zero *)
  destruct (Z.to_nat (128 - len name - 1 - len digits)) as [|k] eqn:Ek;
    [lia |].
  cbn [repeat] in Eslice.
  (* the receiver's buffer from offset 3 on *)
  set (payload := skipn 3 (buffer (m_ctx mr))).
  assert (Epl : payload = name ++ 0 :: digits ++ 0 :: (repeat 0 k ++ skipn 128 payload)).
  { rewrite <- (firstn_skipn 128 payload) at 1.
    unfold payload at 1. change (firstn 128 (skipn 3 (buffer (m_ctx mr))))
      with (slice (buffer (m_ctx mr)) 3 128).
    rewrite Eslice, <- !app_assoc. cbn [app]. rewrite <- !app_assoc.
    reflexivity. }
  destruct (payload_name name digits (repeat 0 k ++ skipn 128 payload))
    as (H0 & Hlen & Hsl & Hsk); [lia | apply cstring_nonzero |].
  rewrite <- Epl in H0, Hlen, Hsl, Hsk.
  destruct (copy_name (filename (m_ctx mr)) name (len name) eq_refl
              ltac:(unfold YMODEM_MAX_FILENAME_LENGTH in Hfn; lia)
              (cstring_nonzero fname)) as (_ & S1 & _).
  destruct (copy_name (fi_filename (m_info mr)) name (len name) eq_refl
              ltac:(unfold YMODEM_MAX_FILENAME_LENGTH in Hfi; lia)
              (cstring_nonzero fname)) as (_ & S2 & _).
  assert (Hd0 : load (digits ++ 0 :: repeat 0 k ++ skipn 128 payload) 0 <> 0).
  { rewrite load_app_l by lia.
    assert (48 <= load digits 0 <= 57); [| lia].
    rewrite Forall_forall in Hdig. apply Hdig.
    unfold load, len in *. apply nth_In. lia. }
  eexists. split.
  { unfold _ymodem_parse_file_info. unfold bind at 1. unfold get_ctx at 1.
    cbv zeta. fold payload.
    apply Z.eqb_neq in H0. rewrite H0.
    change (Z.to_nat (YMODEM_MAX_FILENAME_LENGTH - 1)) with 255%nat.
    rewrite Hlen.
    assert (E0 : (len name =? 0) = false) by (apply Z.eqb_neq; lia).
    rewrite E0.
    assert (E1 : (len name >=? YMODEM_MAX_FILENAME_LENGTH) = false).
    { rewrite Z.geb_leb. apply Z.leb_gt. unfold YMODEM_MAX_FILENAME_LENGTH. lia. }
    rewrite E1, Hsl, Hsk.
    apply Z.eqb_neq in Hd0. rewrite Hd0. cbn [negb].
    rewrite Hparse.
    unfold bind at 1. unfold modify_ctx at 1. reflexivity. }
  cbn [m_ctx m_info filename fi_filename fi_filesize file_size
       set_file_size set_filename].
  split; [exact S1 |]. split; [exact S2 |]. split; [reflexivity |].
  unfold usize. apply Z.mod_small. lia.
Qed.

(** ** Packets: what the sender frames, the receiver accepts *)

(** The two bytes of a checksum, joined as [_ymodem_receive_packet]
    joins them. *)
Lemma lor_bytes (hi lo : Z) :
  0 <= hi < 256 -> 0 <= lo < 256 ->
  u16 (Z.lor (u16 (Z.shiftl hi 8)) lo) = 256 * hi + lo.
Proof.
  intros Hh Hl.
  pose (P := fun hi => forallb (fun lo =>
                 u16 (Z.lor (u16 (Z.shiftl hi 8)) lo) =? 256 * hi + lo)
                 (map Z.of_nat (seq 0 256))).
  assert (F : P hi = true)
    by (apply forall_bytes; [vm_compute; reflexivity | exact Hh]).
  unfold P in F. clear P. rewrite forallb_forall in F.
  apply Z.eqb_eq. apply F.
  apply in_map_iff. exists (Z.to_nat lo). split; [lia | apply in_seq; lia].
Qed.

Lemma map_u8_bytes (d : list Z) :
  Forall (fun b => 0 <= b < 256) d -> map u8 d = d.
Proof.
  induction 1 as [|b r Hb _ IH]; cbn [map]; [reflexivity |].
  now rewrite IH, u8_small.
Qed.

Lemma bytes_map_u8 (d : list Z) : Forall (fun b => 0 <= b < 256) (map u8 d).
Proof.
  induction d as [|b r IH]; cbn [map]; constructor; [apply u8_range | exact IH].
Qed.

(** [_ymodem_receive_packet] with a header SOH or STX in the buffer:
    one call of the transport for the rest of the packet, stored after
    the header, and then the checks. *)
Lemma receive_packet_run m (ps ds : Z) (d : list Z) (w : World) :
  load (buffer (m_ctx m)) 0 = YMODEM_CODE_SOH /\ ps = 133 /\ ds = 128 \/
  load (buffer (m_ctx m)) 0 = YMODEM_CODE_STX /\ ps = 1029 /\ ds = 1024 ->
  cb_comm_receive (callbacks (m_ctx m)) (ps - 1) YMODEM_WAIT_PACKET_TIMEOUT_MS
    (m_world m) = (d, w) ->
  let data := map u8 d in
  let buf := memcpy (buffer (m_ctx m)) 1 data in
  _ymodem_receive_packet m
  = (if negb (len data =? ps - 1) then (YMODEM_ERR_TMO, 0, ds)
     else if negb (load buf 2 =? u8 (Z.lnot (load buf 1)))
     then (YMODEM_ERR_SEQ, load buf 1, ds)
     else if negb (u16 (Z.lor (u16 (Z.shiftl (load buf (ps - 2)) 8))
                              (load buf (ps - 1)))
                   =? ymodem_calc_crc16 (slice buf 3 ds))
     then (YMODEM_ERR_CRC, load buf 1, ds)
     else (YMODEM_ERR_NONE, load buf 1, ds),
     emit (with_ctx m (set_buffer buf (m_ctx m))) w
          [EvRecv (ps - 1) YMODEM_WAIT_PACKET_TIMEOUT_MS data]).
Proof.
  intros H E data buf.
  unfold _ymodem_receive_packet. unfold bind at 1. unfold get_ctx at 1.
  cbv zeta.
  assert (R :
    (data <- ymodem_receive_bytes (ps - 1) YMODEM_WAIT_PACKET_TIMEOUT_MS ;;
     modify_ctx (set_buffer (memcpy (buffer (m_ctx m)) 1 data)) ;;
     (if negb (len data =? ps - 1)
      then ret (YMODEM_ERR_TMO, 0, ds)
      else
        if negb (load (memcpy (buffer (m_ctx m)) 1 data) 2
                 =? u8 (Z.lnot (load (memcpy (buffer (m_ctx m)) 1 data) 1)))
        then ret (YMODEM_ERR_SEQ, load (memcpy (buffer (m_ctx m)) 1 data) 1, ds)
        else
          if negb (u16 (Z.lor (u16 (Z.shiftl (load (memcpy (buffer (m_ctx m)) 1 data) (ps - 2)) 8))
                              (load (memcpy (buffer (m_ctx m)) 1 data) (ps - 1)))
                   =? ymodem_calc_crc16 (slice (memcpy (buffer (m_ctx m)) 1 data) 3 ds))
          then ret (YMODEM_ERR_CRC, load (memcpy (buffer (m_ctx m)) 1 data) 1, ds)
          else ret (YMODEM_ERR_NONE, load (memcpy (buffer (m_ctx m)) 1 data) 1, ds))) m
    = (if negb (len data =? ps - 1) then (YMODEM_ERR_TMO, 0, ds)
       else if negb (load buf 2 =? u8 (Z.lnot (load buf 1)))
       then (YMODEM_ERR_SEQ, load buf 1, ds)
       else if negb (u16 (Z.lor (u16 (Z.shiftl (load buf (ps - 2)) 8))
                                (load buf (ps - 1)))
                     =? ymodem_calc_crc16 (slice buf 3 ds))
       then (YMODEM_ERR_CRC, load buf 1, ds)
       else (YMODEM_ERR_NONE, load buf 1, ds),
       emit (with_ctx m (set_buffer buf (m_ctx m))) w
            [EvRecv (ps - 1) YMODEM_WAIT_PACKET_TIMEOUT_MS data])).
  { unfold bind at 1. unfold ymodem_receive_bytes, callback. rewrite E.
    fold data. fold buf.
    unfold bind at 1. unfold modify_ctx at 1.
    cbn [m_ctx m_info m_world m_trace].
    unfold emit, with_ctx. cbn [m_ctx m_info m_world m_trace].
    destruct (negb (len data =? ps - 1)); [reflexivity |].
    destruct (negb (load buf 2 =? _)); [reflexivity |].
    destruct (negb (_ =? ymodem_calc_crc16 _)); reflexivity. }
  destruct H as [(Hh & -> & ->) | (Hh & -> & ->)]; rewrite Hh.
  - change (YMODEM_CODE_SOH =? YMODEM_CODE_SOH) with true. cbv iota.
    exact R.
  - change (YMODEM_CODE_STX =? YMODEM_CODE_SOH) with false.
    change (YMODEM_CODE_STX =? YMODEM_CODE_STX) with true. cbv iota.
    exact R.
Qed.

(** The rest of a frame stored after its header. *)
Lemma memcpy_frame (buf frame : list Z) :
  1 <= len frame -> 1 <= len buf -> load buf 0 = hd 0 frame ->
  memcpy buf 1 (tl frame) = frame ++ skipn (length frame) buf.
Proof.
  intros Hf Hb Hh. destruct frame as [|f0 ft]; [cbn in Hf; lia |].
  destruct buf as [|b0 bt]; [cbn in Hb; lia |].
  cbn in Hh. subst b0. unfold memcpy. cbn [tl length].
  change (Z.to_nat 1) with 1%nat. reflexivity.
Qed.

(** What the receiver makes of a frame with a matching header, a
    sequence number and its complement, a payload of the size of the
    header, and two checksum bytes [hi], [lo]. *)
Lemma receive_frame m (code seq hi lo : Z) (data : list Z) (w : World) :
  code = YMODEM_CODE_SOH /\ len data = YMODEM_SOH_DATA_SIZE \/
  code = YMODEM_CODE_STX /\ len data = YMODEM_STX_DATA_SIZE ->
  0 <= seq < 256 -> 0 <= hi < 256 -> 0 <= lo < 256 ->
  Forall (fun b => 0 <= b < 256) data ->
  YMODEM_MAX_PACKET_SIZE <= buffer_size (m_ctx m) ->
  load (buffer (m_ctx m)) 0 = code ->
  let frame := [code; seq; u8 (Z.lnot seq)] ++ data ++ [hi; lo] in
  cb_comm_receive (callbacks (m_ctx m)) (len frame - 1)
    YMODEM_WAIT_PACKET_TIMEOUT_MS (m_world m) = (tl frame, w) ->
  exists rest,
    len (frame ++ rest) = buffer_size (m_ctx m) /\
    _ymodem_receive_packet m
    = ((if 256 * hi + lo =? ymodem_calc_crc16 data
        then YMODEM_ERR_NONE else YMODEM_ERR_CRC, seq, len data),
       emit (with_ctx m (set_buffer (frame ++ rest) (m_ctx m))) w
            [EvRecv (len frame - 1) YMODEM_WAIT_PACKET_TIMEOUT_MS (tl frame)]).
Proof.
  intros Hc Hs Hh Hl Hd Hb H0 frame E.
  assert (Lf : len frame = 3 + len data + 2).
  { unfold frame, len. rewrite !length_app. cbn [length]. lia. }
  assert (Hbytes : Forall (fun b => 0 <= b < 256) (tl frame)).
  { unfold frame. cbn [app tl]. repeat constructor; try lia; try apply u8_range.
    apply Forall_app. split; [exact Hd | repeat constructor; lia]. }
  unfold buffer_size, YMODEM_MAX_PACKET_SIZE, YMODEM_STX_PACKET_SIZE,
    YMODEM_STX_DATA_SIZE, YMODEM_SOH_DATA_SIZE in *.
  assert (Hps : load (buffer (m_ctx m)) 0 = YMODEM_CODE_SOH
                  /\ len frame = 133 /\ len data = 128 \/
                load (buffer (m_ctx m)) 0 = YMODEM_CODE_STX
                  /\ len frame = 1029 /\ len data = 1024).
  { destruct Hc as [[-> Hn] | [-> Hn]]; [left | right]; repeat split; lia. }
  exists (skipn (length frame) (buffer (m_ctx m))). split.
  { unfold len in *. rewrite length_app, length_skipn. lia. }
  rewrite (receive_packet_run m (len frame) (len data) (tl frame) w Hps E).
  cbv zeta. rewrite (map_u8_bytes _ Hbytes).
  rewrite memcpy_frame; [| lia | lia | rewrite H0; reflexivity].
  set (rest := skipn (length frame) (buffer (m_ctx m))).
  assert (Lt : len (tl frame) = len frame - 1).
  { unfold frame, len. cbn [app tl length]. lia. }
  rewrite Lt, Z.eqb_refl. cbn [negb].
  assert (E1 : load (frame ++ rest) 1 = seq) by reflexivity.
  assert (E2 : load (frame ++ rest) 2 = u8 (Z.lnot seq)) by reflexivity.
  rewrite E1, E2, Z.eqb_refl. cbn [negb].
  assert (E3 : slice (frame ++ rest) 3 (len data) = data).
  { unfold frame. rewrite <- !app_assoc.
    apply (slice_mid [code; seq; u8 (Z.lnot seq)] data); reflexivity. }
  assert (E4 : load (frame ++ rest) (len frame - 2) = hi).
  { assert (Eq : frame ++ rest
                 = ([code; seq; u8 (Z.lnot seq)] ++ data) ++ hi :: lo :: rest)
      by (unfold frame; now rewrite <- !app_assoc).
    rewrite Eq, load_app_r; [reflexivity |].
    rewrite len_app. change (len [code; seq; u8 (Z.lnot seq)]) with 3. lia. }
  assert (E5 : load (frame ++ rest) (len frame - 1) = lo).
  { assert (Eq : frame ++ rest
                 = ([code; seq; u8 (Z.lnot seq)] ++ data ++ [hi]) ++ lo :: rest)
      by (unfold frame; now rewrite <- !app_assoc).
    rewrite Eq, load_app_r; [reflexivity |].
    rewrite !len_app. change (len [code; seq; u8 (Z.lnot seq)]) with 3.
    change (len [hi]) with 1. lia. }
  rewrite E3, E4, E5, lor_bytes by lia.
  destruct (256 * hi + lo =? ymodem_calc_crc16 data); reflexivity.
Qed.

(** The frame that a successful [_ymodem_send_packet] handed to the
    transport. *)
Lemma sent_frame (ms ms' : machine World) (code seq : Z) (data frame : list Z)
    (sent : Z) :
  code = YMODEM_CODE_SOH /\ len data = YMODEM_SOH_DATA_SIZE \/
  code = YMODEM_CODE_STX /\ len data = YMODEM_STX_DATA_SIZE ->
  0 <= seq < 256 ->
  YMODEM_MAX_PACKET_SIZE <= send_buffer_size (m_ctx ms) ->
  _ymodem_send_packet code seq data ms = (YMODEM_ERR_NONE, ms') ->
  m_trace ms' = m_trace ms ++ [EvSend frame sent] ->
  exists hi lo,
    0 <= hi < 256 /\ 0 <= lo < 256 /\
    ymodem_calc_crc16 data = 256 * hi + lo /\
    frame = [code; seq; u8 (Z.lnot seq)] ++ data ++ [hi; lo].
Proof.
  intros Hc Hs Hb E T.
  unfold YMODEM_MAX_PACKET_SIZE, YMODEM_STX_PACKET_SIZE, YMODEM_STX_DATA_SIZE,
    YMODEM_SOH_DATA_SIZE in *.
  destruct (send_packet_run ms code seq data) as (rest & _ & R).
  { destruct Hc as [[-> Hn] | [-> Hn]]; rewrite Hn; reflexivity. }
  { destruct Hc as [[-> Hn] | [-> Hn]]; rewrite Hn; reflexivity. }
  { destruct Hc as [[-> Hn] | [-> Hn]]; lia. }
  rewrite E in R. cbv zeta in R.
  destruct (cb_comm_send _ _ _) as [s w] in R.
  apply (f_equal (fun p => m_trace (snd p))) in R. cbn [snd m_trace] in R.
  rewrite T in R. apply app_inv_head in R. injection R as -> _.
  destruct (crc_bytes (ymodem_calc_crc16 data) (ymodem_calc_crc16_range data))
    as (Hh & Hl & Ecrc).
  do 2 eexists. split; [exact Hh |]. split; [exact Hl |].
  split; [exact Ecrc |].
  unfold packet_of. rewrite (u8_small seq) by lia.
  destruct Hc as [[-> _] | [-> _]]; reflexivity.
Qed.

(** X6: a frame built by [_ymodem_send_packet] is accepted by
    [_ymodem_receive_packet].  When the receiver has the header byte of
    the frame in its buffer and the transport delivers the rest of the
    frame, the result is YMODEM_ERR_NONE with the sender's sequence
    number and payload size, and the payload is at offset 3 of the
    receiver's buffer. *)
Theorem packet_round_trip (ms ms' mr : machine World) (code seq : Z)
    (data frame : list Z) (sent : Z) (w : World) :
  code = YMODEM_CODE_SOH /\ len data = YMODEM_SOH_DATA_SIZE \/
  code = YMODEM_CODE_STX /\ len data = YMODEM_STX_DATA_SIZE ->
  0 <= seq < 256 ->
  Forall (fun b => 0 <= b < 256) data ->
  YMODEM_MAX_PACKET_SIZE <= send_buffer_size (m_ctx ms) ->
  _ymodem_send_packet code seq data ms = (YMODEM_ERR_NONE, ms') ->
  m_trace ms' = m_trace ms ++ [EvSend frame sent] ->
  YMODEM_MAX_PACKET_SIZE <= buffer_size (m_ctx mr) ->
  load (buffer (m_ctx mr)) 0 = hd 0 frame ->
  cb_comm_receive (callbacks (m_ctx mr)) (len frame - 1)
    YMODEM_WAIT_PACKET_TIMEOUT_MS (m_world mr) = (tl frame, w) ->
  exists mr',
    _ymodem_receive_packet mr = ((YMODEM_ERR_NONE, seq, len data), mr') /\
    slice (buffer (m_ctx mr')) 3 (len data) = data /\
    buffer_size (m_ctx mr') = buffer_size (m_ctx mr) /\
    m_trace mr'
    = m_trace mr ++ [EvRecv (len frame - 1) YMODEM_WAIT_PACKET_TIMEOUT_MS
                            (tl frame)].
Proof.
  intros Hc Hs Hd Hsb E T Hrb H0 R.
  destruct (sent_frame ms ms' code seq data frame sent Hc Hs Hsb E T)
    as (hi & lo & Hh & Hl & Ecrc & ->).
  destruct (receive_frame mr code seq hi lo data w Hc Hs Hh Hl Hd Hrb H0 R)
    as (rest & L & F).
  rewrite <- Ecrc, Z.eqb_refl in F.
  eexists. split; [exact F |].
  cbn [m_ctx m_trace emit with_ctx buffer set_buffer].
  split; [| split; [exact L | reflexivity]].
  rewrite <- !app_assoc.
  apply (slice_mid [code; seq; u8 (Z.lnot seq)] data); reflexivity.
Qed.

(** X8: a frame of [_ymodem_send_packet] in which one byte of the
    payload was changed on the way is rejected by
    [_ymodem_receive_packet] with YMODEM_ERR_CRC. *)
Theorem receive_packet_detects_corruption (ms ms' mr : machine World)
    (code seq : Z) (pre suf frame : list Z) (b b' sent : Z) (w : World) :
  let data := pre ++ b :: suf in
  let bad := store frame (3 + len pre) b' in
  code = YMODEM_CODE_SOH /\ len data = YMODEM_SOH_DATA_SIZE \/
  code = YMODEM_CODE_STX /\ len data = YMODEM_STX_DATA_SIZE ->
  0 <= seq < 256 ->
  Forall (fun b => 0 <= b < 256) data ->
  0 <= b' < 256 -> b' <> b ->
  YMODEM_MAX_PACKET_SIZE <= send_buffer_size (m_ctx ms) ->
  _ymodem_send_packet code seq data ms = (YMODEM_ERR_NONE, ms') ->
  m_trace ms' = m_trace ms ++ [EvSend frame sent] ->
  YMODEM_MAX_PACKET_SIZE <= buffer_size (m_ctx mr) ->
  load (buffer (m_ctx mr)) 0 = hd 0 frame ->
  cb_comm_receive (callbacks (m_ctx mr)) (len bad - 1)
    YMODEM_WAIT_PACKET_TIMEOUT_MS (m_world mr) = (tl bad, w) ->
  exists mr',
    _ymodem_receive_packet mr = ((YMODEM_ERR_CRC, seq, len data), mr').
Proof.
  intros data bad Hc Hs Hd Hb' Hne Hsb E T Hrb H0 R.
  destruct (sent_frame ms ms' code seq data frame sent Hc Hs Hsb E T)
    as (hi & lo & Hh & Hl & Ecrc & ->).
  set (data' := pre ++ b' :: suf).
  assert (Ebad : bad = [code; seq; u8 (Z.lnot seq)] ++ data' ++ [hi; lo]).
  { unfold bad, store, data, data'.
    replace ([code; seq; u8 (Z.lnot seq)] ++ (pre ++ b :: suf) ++ [hi; lo])
      with (([code; seq; u8 (Z.lnot seq)] ++ pre) ++ [b] ++ (suf ++ [hi; lo]))
      by (rewrite <- !app_assoc; reflexivity).
    rewrite memcpy_at; [| | reflexivity].
    - rewrite <- !app_assoc. reflexivity.
    - rewrite len_app. reflexivity. }
  assert (Ll : len data' = len data).
  { unfold data, data', len. rewrite !length_app. reflexivity. }
  apply Forall_app in Hd as Hd'. destruct Hd' as [Hpre Hsuf].
  apply Forall_cons_iff in Hsuf. destruct Hsuf as [Hb Hsuf].
  assert (Hd' : Forall (fun b => 0 <= b < 256) data').
  { apply Forall_app. split; [exact Hpre | now constructor]. }
  rewrite Ebad in R. cbn [hd app] in H0.
  destruct (receive_frame mr code seq hi lo data' w) as (rest & _ & F);
    try assumption.
  { rewrite Ll. exact Hc. }
  rewrite Ll in F. rewrite F. eexists.
  destruct (256 * hi + lo =? ymodem_calc_crc16 data') eqn:Eq; [| reflexivity].
  exfalso. apply Z.eqb_eq in Eq. rewrite <- Ecrc in Eq. apply Hne.
  symmetry. exact (crc16_one_byte pre suf b b' Hsuf Hb Hb' Eq).
Qed.

Lemma memcpy_body (b0 : Z) (bt data : list Z) :
  memcpy (b0 :: bt) 1 data = b0 :: data ++ skipn (length data) bt.
Proof. reflexivity. Qed.

Lemma load_body (b0 : Z) (data rest : list Z) (i : Z) :
  1 <= i <= len data -> load (b0 :: data ++ rest) i = load data (i - 1).
Proof.
  intros H. unfold load, len in *.
  replace (Z.to_nat i) with (S (Z.to_nat (i - 1))) by lia.
  cbn [nth]. apply app_nth1. lia.
Qed.

Lemma load_byte (data : list Z) (i : Z) :
  Forall (fun b => 0 <= b < 256) data -> 0 <= i < len data ->
  0 <= load data i < 256.
Proof.
  intros H Hi. rewrite Forall_forall in H. apply H.
  unfold load, len in *. apply nth_In. lia.
Qed.

(** X7: [_ymodem_receive_packet] accepts only well-formed packets.
    When it returns YMODEM_ERR_NONE, the buffer holds a header SOH or
    STX with the payload size that goes with it, the sequence number
    returned and its complement, and after the payload the two bytes,
    high byte first, of the checksum of the payload; all of it but the
    header came from one call of the transport. *)
Theorem receive_packet_sound m (seq n : Z) m' :
  1 <= buffer_size (m_ctx m) ->
  _ymodem_receive_packet m = ((YMODEM_ERR_NONE, seq, n), m') ->
  let buf := buffer (m_ctx m') in
  (load buf 0 = YMODEM_CODE_SOH /\ n = YMODEM_SOH_DATA_SIZE \/
   load buf 0 = YMODEM_CODE_STX /\ n = YMODEM_STX_DATA_SIZE) /\
  load buf 0 = load (buffer (m_ctx m)) 0 /\
  0 <= seq < 256 /\
  load buf 1 = seq /\
  load buf 2 = Z.lxor seq 0xFF /\
  0 <= load buf (3 + n) < 256 /\
  0 <= load buf (3 + n + 1) < 256 /\
  ymodem_calc_crc16 (slice buf 3 n)
    = 256 * load buf (3 + n) + load buf (3 + n + 1) /\
  3 + n + 2 <= len buf /\
  exists (w : World) (body : list Z),
    len body = 3 + n + 2 - 1 /\
    m' = emit (with_ctx m (set_buffer buf (m_ctx m))) w
              [EvRecv (3 + n + 2 - 1) YMODEM_WAIT_PACKET_TIMEOUT_MS body].
Proof.
  intros Hb E. unfold buffer_size in Hb.
  destruct (buffer (m_ctx m)) as [|b0 bt] eqn:Ebuf; [cbn in Hb; lia |].
  assert (Hcases :
    load (buffer (m_ctx m)) 0 = YMODEM_CODE_SOH \/
    load (buffer (m_ctx m)) 0 = YMODEM_CODE_STX \/
    (load (buffer (m_ctx m)) 0 =? YMODEM_CODE_SOH) = false /\
    (load (buffer (m_ctx m)) 0 =? YMODEM_CODE_STX) = false).
  { destruct (load (buffer (m_ctx m)) 0 =? YMODEM_CODE_SOH) eqn:E1;
      [left; now apply Z.eqb_eq |].
    destruct (load (buffer (m_ctx m)) 0 =? YMODEM_CODE_STX) eqn:E2;
      [right; left; now apply Z.eqb_eq | auto]. }
  assert (Hgen : forall ps ds,
    load (buffer (m_ctx m)) 0 = YMODEM_CODE_SOH /\ ps = 133 /\ ds = 128 \/
    load (buffer (m_ctx m)) 0 = YMODEM_CODE_STX /\ ps = 1029 /\ ds = 1024 ->
    let buf := buffer (m_ctx m') in
    n = ds /\ load buf 0 = load (buffer (m_ctx m)) 0 /\
    0 <= seq < 256 /\ load buf 1 = seq /\ load buf 2 = Z.lxor seq 0xFF /\
    0 <= load buf (3 + n) < 256 /\ 0 <= load buf (3 + n + 1) < 256 /\
    ymodem_calc_crc16 (slice buf 3 n)
      = 256 * load buf (3 + n) + load buf (3 + n + 1) /\
    3 + n + 2 <= len buf /\
    exists (w : World) (body : list Z),
      len body = 3 + n + 2 - 1 /\
      m' = emit (with_ctx m (set_buffer buf (m_ctx m))) w
                [EvRecv (3 + n + 2 - 1) YMODEM_WAIT_PACKET_TIMEOUT_MS body]).
  { intros ps ds H.
    assert (Hps : ps = 3 + ds + 2 /\ 128 <= ds)
      by (destruct H as [(_ & -> & ->) | (_ & -> & ->)]; lia).
    destruct (cb_comm_receive (callbacks (m_ctx m)) (ps - 1)
                YMODEM_WAIT_PACKET_TIMEOUT_MS (m_world m)) as [d w] eqn:R.
    rewrite (receive_packet_run m ps ds d w H R) in E. cbv zeta in E.
    rewrite Ebuf, memcpy_body in E.
    set (data := map u8 d) in *.
    set (rest := skipn (length data) bt) in *.
    pose proof (bytes_map_u8 d) as Hbytes. fold data in Hbytes.
    destruct (len data =? ps - 1) eqn:El; cbn [negb] in E; [| discriminate E].
    apply Z.eqb_eq in El.
    destruct (load (b0 :: data ++ rest) 2 =? _) eqn:E2; cbn [negb] in E;
      [| discriminate E].
    destruct (u16 _ =? _) eqn:E3; cbn [negb] in E; [| discriminate E].
    apply Z.eqb_eq in E2, E3.
    injection E as Eseq En Em.
    assert (B : buffer (m_ctx m') = b0 :: data ++ rest)
      by (rewrite <- Em; reflexivity).
    cbv zeta. rewrite B.
    assert (H1 : 0 <= load (b0 :: data ++ rest) 1 < 256)
      by (rewrite load_body by lia; apply load_byte; [assumption | lia]).
    assert (H3 : 0 <= load (b0 :: data ++ rest) (ps - 2) < 256)
      by (rewrite load_body by lia; apply load_byte; [assumption | lia]).
    assert (H4 : 0 <= load (b0 :: data ++ rest) (ps - 1) < 256)
      by (rewrite load_body by lia; apply load_byte; [assumption | lia]).
    rewrite lor_bytes in E3 by assumption.
    rewrite u8_lnot in E2 by assumption.
    subst n. rewrite <- Eseq.
    replace (3 + ds) with (ps - 2) by lia.
    replace (ps - 2 + 1) with (ps - 1) by lia.
    replace (ps - 2 + 2 - 1) with (ps - 1) by lia.
    split; [reflexivity |]. split; [rewrite Ebuf; reflexivity |].
    split; [exact H1 |]. split; [reflexivity |]. split; [exact E2 |].
    split; [exact H3 |]. split; [exact H4 |].
    split; [symmetry; exact E3 |].
    split.
    { unfold len in *. cbn [length]. rewrite length_app. lia. }
    exists w, data. split; [exact El |]. symmetry. exact Em. }
  cbv zeta in Hgen. cbv zeta.
  destruct Hcases as [H | [H | [H1 H2]]].
  - destruct (Hgen 133 128) as (En & H0 & Hrest); [left; auto |].
    split; [left; split; [now rewrite H0 | exact En] |].
    split; [rewrite <- Ebuf; exact H0 | exact Hrest].
  - destruct (Hgen 1029 1024) as (En & H0 & Hrest); [right; auto |].
    split; [right; split; [now rewrite H0 | exact En] |].
    split; [rewrite <- Ebuf; exact H0 | exact Hrest].
  - exfalso. unfold _ymodem_receive_packet in E.
    unfold bind at 1 in E. unfold get_ctx at 1 in E. cbv zeta in E.
    rewrite H1, H2 in E. discriminate E.
Qed.

(** ** Receiver: packets out of sequence, and files of unknown size *)

(** The data-transfer round up to the check of the sequence number,
    for a packet that [_ymodem_receive_packet] accepted. *)
Lemma recv_trans_round_accepted m (es tr h seq n : Z) m1 m2 :
  ymodem_receive_byte YMODEM_WAIT_PACKET_TIMEOUT_MS m = (h, m1) ->
  h = YMODEM_CODE_SOH \/ h = YMODEM_CODE_STX ->
  _ymodem_receive_packet
      (with_ctx m1 (set_buffer (store (buffer (m_ctx m1)) 0 (u8 h)) (m_ctx m1)))
    = ((YMODEM_ERR_NONE, seq, n), m2) ->
  (error_count (m_ctx m2) = error_count (m_ctx m) /\
   file_handle (m_ctx m2) = file_handle (m_ctx m) /\
   file_size (m_ctx m2) = file_size (m_ctx m) /\
   written_bytes (m_trace m2) = written_bytes (m_trace m)) /\
  recv_trans_round es tr m
  = (if negb (seq =? es) then recv_trans_error YMODEM_ERR_SEQ es tr
     else
       modify_ctx (set_error_count 0) ;;
       ctx <- get_ctx ;;
       let ack (total_received : Z) : M World loop_step :=
         ok <- ymodem_send_byte YMODEM_CODE_ACK ;;
         if negb ok then ret (Return YMODEM_ERR_CODE)
         else ret (Continue (Z.land (es + 1) 0xFF) total_received) in
       if negb (file_handle ctx =? NULL) then
         let k := bytes_to_write (file_size ctx) tr n in
         written <- callback
                      (fun cb w =>
                         let (j, w') := cb_file_write cb (file_handle ctx)
                                          (slice (buffer ctx) 3 k) w in
                         (usize j, w'))
                      (EvWrite (file_handle ctx) (slice (buffer ctx) 3 k)) ;;
         if negb (written =? k) then ret (Return YMODEM_ERR_FILE)
         else ack (usize (tr + written))
       else ack tr) m2.
Proof.
  intros E1 Hh E2.
  set (m1' := with_ctx m1 _) in E2.
  split.
  - pose proof (keeps_run _ _ _ _ _ (receive_byte_same_but_buffer _) E1) as F1.
    pose proof (keeps_run _ _ _ _ _ receive_packet_same_but_buffer E2) as F2.
    assert (F : same_but_buffer m m2).
    { apply (same_but_buffer_trans _ m1); [exact F1 |].
      apply (same_but_buffer_trans _ m1'); [| exact F2].
      apply same_but_buffer_set_buffer. }
    pose proof (same_but_buffer_file _ _ F) as (A & B & C).
    pose proof (same_but_buffer_error_count _ _ F) as D.
    auto.
  - unfold recv_trans_round. unfold bind at 1. rewrite E1.
    assert (Hneg : (h <? 0) = false)
      by (destruct Hh as [-> | ->]; reflexivity).
    rewrite Hneg. cbv zeta.
    unfold bind at 1. unfold get_ctx at 1.
    unfold bind at 1. unfold modify_ctx at 1.
    fold (with_ctx m1 (set_buffer (store (buffer (m_ctx m1)) 0 (u8 h)) (m_ctx m1))).
    fold m1'.
    assert (Hhdr : (h =? YMODEM_CODE_EOT) = false
                   /\ negb (h =? YMODEM_CODE_SOH) && negb (h =? YMODEM_CODE_STX) = false)
      by (destruct Hh as [-> | ->]; split; reflexivity).
    destruct Hhdr as [-> ->].
    unfold bind at 1. rewrite E2.
    change (negb (YMODEM_ERR_NONE =? YMODEM_ERR_NONE)) with false. cbv iota.
    destruct (negb (seq =? es)); reflexivity.
Qed.

(** X9: in the receiver's data loop a packet that
    [_ymodem_receive_packet] accepted but whose sequence number is not
    the expected one, a repeated packet included, is treated as an
    error: nothing is written to the file, the error count grows by
    one, and a NAK is sent, the expected number and the byte count
    staying as they were; when the count exceeds YMODEM_MAX_ERRORS the
    loop returns YMODEM_ERR_SEQ instead. *)
Theorem recv_trans_round_out_of_sequence m (es tr h seq n : Z) m1 m2 :
  0 <= error_count (m_ctx m) <= YMODEM_MAX_ERRORS ->
  ymodem_receive_byte YMODEM_WAIT_PACKET_TIMEOUT_MS m = (h, m1) ->
  h = YMODEM_CODE_SOH \/ h = YMODEM_CODE_STX ->
  _ymodem_receive_packet
      (with_ctx m1 (set_buffer (store (buffer (m_ctx m1)) 0 (u8 h)) (m_ctx m1)))
    = ((YMODEM_ERR_NONE, seq, n), m2) ->
  seq <> es ->
  let k := error_count (m_ctx m) + 1 in
  let mk := with_ctx m2 (set_error_count k (m_ctx m2)) in
  written_bytes (m_trace mk) = written_bytes (m_trace m) /\
  (k > YMODEM_MAX_ERRORS ->
   recv_trans_round es tr m = (Return YMODEM_ERR_SEQ, mk)) /\
  (k <= YMODEM_MAX_ERRORS ->
   exists sent w,
     recv_trans_round es tr m
       = (if sent =? 1 then Continue es tr else Return YMODEM_ERR_CODE,
          emit mk w [EvSend [YMODEM_CODE_NAK] sent])).
Proof.
  intros Hc E1 Hh E2 Hseq k mk.
  destruct (recv_trans_round_accepted m es tr h seq n m1 m2 E1 Hh E2)
    as ((C & _ & _ & W) & R).
  split; [exact W |].
  apply Z.eqb_neq in Hseq. rewrite Hseq in R. cbn [negb] in R.
  rewrite R. subst k mk. rewrite <- C.
  apply recv_trans_error_run. rewrite C. exact Hc.
Qed.

(** X10: when packet 0 gave no file size (the size is 0), the
    receiver's data loop writes the whole payload of every packet it
    accepts in sequence, padding included: [file_write] is asked for
    all [n] bytes at offset 3 of the buffer, and the byte count grows
    by [n]. *)
Theorem recv_trans_round_unknown_size m (es tr h n : Z) m1 m2 :
  file_size (m_ctx m) = 0 ->
  file_handle (m_ctx m) <> NULL ->
  ymodem_receive_byte YMODEM_WAIT_PACKET_TIMEOUT_MS m = (h, m1) ->
  h = YMODEM_CODE_SOH \/ h = YMODEM_CODE_STX ->
  _ymodem_receive_packet
      (with_ctx m1 (set_buffer (store (buffer (m_ctx m1)) 0 (u8 h)) (m_ctx m1)))
    = ((YMODEM_ERR_NONE, es, n), m2) ->
  let data := slice (buffer (m_ctx m2)) 3 n in
  len data = n /\
  exists (s : loop_step) m' (written : Z) (evs : list event),
    recv_trans_round es tr m = (s, m') /\
    m_trace m'
      = m_trace m2 ++ EvWrite (file_handle (m_ctx m)) data written :: evs /\
    written_bytes evs = 0 /\
    (written <> n -> s = Return YMODEM_ERR_FILE) /\
    (forall es' tr', s = Continue es' tr' ->
       es' = (es + 1) mod 256 /\ tr' = usize (tr + n)).
Proof.
  intros Hfs Hfh E1 Hh E2 data.
  destruct (recv_trans_round_accepted m es tr h es n m1 m2 E1 Hh E2)
    as ((_ & H & F & _) & R).
  pose proof (receive_packet_result _ _ _ _ _ E2) as P.
  destruct P as [(_ & Hn & Hlen) | P];
    [| destruct P as [P | [P | [P | P]]]; discriminate P].
  specialize (Hlen (store_len_pos _ _ _)).
  assert (Hn' : 0 <= n <= 1024)
    by (destruct Hn as [-> | ->];
        unfold YMODEM_SOH_DATA_SIZE, YMODEM_STX_DATA_SIZE; lia).
  assert (Hdata : len data = n) by (apply slice_len; lia).
  split; [exact Hdata |].
  rewrite R, Z.eqb_refl. cbn [negb]. clear R.
  unfold bind at 1. unfold modify_ctx at 1.
  unfold bind at 1. unfold get_ctx at 1.
  cbn [m_ctx m_info m_world m_trace file_handle file_size buffer set_error_count].
  apply Z.eqb_neq in Hfh. rewrite H, Hfh, F, Hfs. cbn [negb].
  change (bytes_to_write 0 tr n) with n. cbv zeta. fold data.
  unfold bind at 1. unfold callback at 1.
  cbn [m_ctx m_info m_world m_trace callbacks set_error_count].
  destruct (cb_file_write (callbacks (m_ctx m2)) (file_handle (m_ctx m)) data
              (m_world m2)) as [j w].
  destruct (usize j =? n) eqn:Ew; cbn [negb].
  - apply Z.eqb_eq in Ew.
    unfold bind at 1.
    match goal with |- context [ymodem_send_byte ?b ?x] =>
      destruct (send_byte_run x b) as (sent & w' & E); rewrite E end.
    destruct (sent =? 1); cbn [negb];
      do 2 eexists; exists (usize j); eexists;
      (split; [reflexivity |]);
      (split; [cbn; rewrite <- app_assoc; reflexivity |]);
      (split; [reflexivity |]);
      (split; [intros; congruence |]).
    + intros es' tr' [= <- <-]. rewrite Ew, land_255. split; reflexivity.
    + intros es' tr' [=].
  - apply Z.eqb_neq in Ew.
    do 2 eexists. exists (usize j), [].
    split; [reflexivity |]. split; [reflexivity |]. split; [reflexivity |].
    split; [reflexivity |]. intros es' tr' [=].
Qed.

(** ** The start of a transfer: waiting for the peer *)

(** The sender's wait for the first 'C', with [n] rounds left. *)
Lemma send_wait_c_run (n : nat) (i t : Z) m :
  i + Z.of_nat n = t ->
  exists (replies : list (list Z)) (w : World) (r : Z),
    send_wait_c n i t m
      = (r, emit m w (map (EvRecv 1 YMODEM_HANDSHAKE_INTERVAL_MS) replies)) /\
    ((r = t /\ length replies = n /\ Forall not_c replies) \/
     (exists pre d,
        replies = pre ++ [d] /\ (length pre < n)%nat /\ Forall not_c pre /\
        reply_of d = YMODEM_CODE_C /\ r = i + Z.of_nat (length pre))).
Proof.
  revert i m. induction n as [|n IH]; intros i m Hi; cbn [send_wait_c].
  - exists [], (m_world m), i. cbn [map]. rewrite emit_nil.
    split; [reflexivity |]. left. split; [lia |]. split; [reflexivity | constructor].
  - assert (Hlt : (i <? t) = true) by (apply Z.ltb_lt; lia). rewrite Hlt.
    unfold bind at 1.
    destruct (receive_byte_run m YMODEM_HANDSHAKE_INTERVAL_MS) as (d & w & E).
    rewrite E.
    destruct (reply_of d =? YMODEM_CODE_C) eqn:Ec.
    + apply Z.eqb_eq in Ec. exists [d], w, i. split; [reflexivity |].
      right. exists [], d. cbn [app length].
      split; [reflexivity |]. split; [lia |]. split; [constructor |].
      split; [exact Ec | lia].
    + apply Z.eqb_neq in Ec.
      destruct (IH (i + 1) (emit m w [EvRecv 1 YMODEM_HANDSHAKE_INTERVAL_MS d])
                   ltac:(lia)) as (rs & w' & r & R & H).
      exists (d :: rs), w', r. split.
      { rewrite R, emit_emit. reflexivity. }
      destruct H as [(-> & L & F) | (pre & d' & -> & L & F & C & ->)].
      * left. split; [reflexivity |]. split; [cbn [length]; lia |].
        now constructor.
      * right. exists (d :: pre), d'. cbn [app length].
        split; [reflexivity |]. split; [lia |]. split; [now constructor |].
        split; [exact C |]. cbn [length]. lia.
Qed.

Lemma prepare_file_info_packet_result m (fname : list Z) :
  fst (_ymodem_prepare_file_info_packet fname m) = YMODEM_ERR_NONE \/
  fst (_ymodem_prepare_file_info_packet fname m) = YMODEM_ERR_DSZ.
Proof.
  unfold _ymodem_prepare_file_info_packet, bind, get_ctx, modify_ctx, ret.
  cbv zeta.
  destruct (strlen fname >=? YMODEM_SOH_DATA_SIZE); [right; reflexivity |].
  destruct (_ >=? YMODEM_SOH_DATA_SIZE); [right | left]; reflexivity.
Qed.

Lemma send_packet_result m (code seq : Z) (data : list Z) :
  fst (_ymodem_send_packet code seq data m) = YMODEM_ERR_NONE \/
  fst (_ymodem_send_packet code seq data m) = YMODEM_ERR_DSZ \/
  fst (_ymodem_send_packet code seq data m) = YMODEM_ERR_CODE.
Proof.
  unfold _ymodem_send_packet, bind, get_ctx, modify_ctx, ret. cbv zeta.
  destruct (_ && _); [right; left; reflexivity |].
  destruct (_ && _); [right; left; reflexivity |].
  destruct (_ <? _); [right; left; reflexivity |].
  destruct (ymodem_send_bytes _ _) as [sent m'].
  destruct (sent =? 0); [right; right | left]; reflexivity.
Qed.

Lemma send_handshake_reply_result m :
  fst (send_handshake_reply m) = YMODEM_ERR_NONE \/
  fst (send_handshake_reply m) = YMODEM_ERR_ACK.
Proof.
  unfold send_handshake_reply, bind.
  destruct (send_wait_ack_c 5 false false m) as [[ga gc] m'].
  destruct (negb ga || negb gc); [right | left]; reflexivity.
Qed.

(** X11: the sender's handshake waits for the first 'C' at most
    [timeout_s] times, 1000 ms each, and sends nothing while it waits.
    It returns YMODEM_ERR_TMO exactly when none of these [timeout_s]
    replies is a 'C', and then it has made nothing but these receive
    calls. *)
Theorem send_handshake_timeout m (timeout_s : Z) :
  0 <= timeout_s ->
  let m0 := with_ctx m (set_stage YMODEM_STAGE_ESTABLISHING (m_ctx m)) in
  exists (replies : list (list Z)) (w : World),
    let m1 := emit m0 w (map (EvRecv 1 YMODEM_HANDSHAKE_INTERVAL_MS) replies) in
    (Z.of_nat (length replies) = timeout_s /\ Forall not_c replies /\
     _ymodem_do_send_handshake timeout_s m = (YMODEM_ERR_TMO, m1)) \/
    (exists pre d,
       replies = pre ++ [d] /\ Z.of_nat (length pre) < timeout_s /\ Forall not_c pre /\
       reply_of d = YMODEM_CODE_C /\
       send_wait_c (Z.to_nat timeout_s) 0 timeout_s m0 = (Z.of_nat (length pre), m1) /\
       fst (_ymodem_do_send_handshake timeout_s m) <> YMODEM_ERR_TMO).
Proof.
  intros Ht m0.
  destruct (send_wait_c_run (Z.to_nat timeout_s) 0 timeout_s m0 ltac:(lia))
    as (replies & w & r & R & H).
  exists replies, w. cbv zeta.
  assert (U : _ymodem_do_send_handshake timeout_s m
              = (if r =? timeout_s then ret YMODEM_ERR_TMO
                 else
                   ctx <- get_ctx ;;
                   r <- _ymodem_prepare_file_info_packet (filename ctx) ;;
                   if negb (r =? YMODEM_ERR_NONE) then ret r
                   else
                     ctx <- get_ctx ;;
                     r <- _ymodem_send_packet YMODEM_CODE_SOH 0
                            (slice (buffer ctx) 3 YMODEM_SOH_DATA_SIZE) ;;
                     if negb (r =? YMODEM_ERR_NONE) then ret r
                     else send_handshake_reply)
                (emit m0 w (map (EvRecv 1 YMODEM_HANDSHAKE_INTERVAL_MS) replies))).
  { unfold _ymodem_do_send_handshake. unfold bind at 1. unfold modify_ctx at 1.
    fold (with_ctx m (set_stage YMODEM_STAGE_ESTABLISHING (m_ctx m))). fold m0.
    unfold bind at 1. rewrite R. reflexivity. }
  destruct H as [(-> & L & F) | (pre & d & -> & L & F & C & ->)].
  - left. split; [lia |]. split; [exact F |].
    rewrite U, Z.eqb_refl. reflexivity.
  - right. exists pre, d. split; [reflexivity |].
    split; [lia |]. split; [exact F |]. split; [exact C |].
    split; [exact R |].
    rewrite U.
    assert (E : (0 + Z.of_nat (length pre) =? timeout_s) = false)
      by (apply Z.eqb_neq; lia).
    rewrite E. clear U R E.
    set (m1 := emit m0 w _).
    unfold bind at 1. unfold get_ctx at 1. unfold bind at 1.
    pose proof (prepare_file_info_packet_result m1 (filename (m_ctx m1))) as P.
    destruct (_ymodem_prepare_file_info_packet (filename (m_ctx m1)) m1)
      as [r1 m2]. cbn [fst] in P.
    destruct P as [-> | ->]; [| intros [=]].
    change (negb (YMODEM_ERR_NONE =? YMODEM_ERR_NONE)) with false. cbv iota.
    unfold bind at 1. unfold get_ctx at 1. unfold bind at 1.
    match goal with |- context [_ymodem_send_packet ?c ?s ?dd m2] =>
      pose proof (send_packet_result m2 c s dd) as Q;
      destruct (_ymodem_send_packet c s dd m2) as [r2 m3] end.
    cbn [fst] in Q.
    destruct Q as [-> | [-> | ->]]; [| intros [=] | intros [=]].
    change (negb (YMODEM_ERR_NONE =? YMODEM_ERR_NONE)) with false. cbv iota.
    destruct (send_handshake_reply_result m3) as [-> | ->]; intros [=].
Qed.

Lemma c_rounds_cons (d : list Z) (rs : list (list Z)) :
  c_rounds (d :: rs)
  = [EvSend [YMODEM_CODE_C] 1; EvRecv 1 YMODEM_HANDSHAKE_INTERVAL_MS d]
      ++ c_rounds rs.
Proof. reflexivity. Qed.

Lemma header_test (d : list Z) :
  (reply_of d >=? 0)
    && ((reply_of d =? YMODEM_CODE_SOH) || (reply_of d =? YMODEM_CODE_STX))
  = false ->
  not_header d.
Proof.
  intros H. split; intros E; rewrite E in H; discriminate H.
Qed.

(** The receiver's wait for the header of packet 0, with [n] rounds
    left: every round sends a 'C' and waits 1000 ms for a byte. *)
Lemma recv_wait_header_run (n : nat) (i t : Z) m :
  i + Z.of_nat n = t ->
  exists (replies : list (list Z)) (w : World),
    (length replies = n /\ Forall not_header replies /\
     recv_wait_header n i t m = (inl t, emit m w (c_rounds replies))) \/
    (exists sent,
       sent <> 1 /\ (length replies < n)%nat /\ Forall not_header replies /\
       recv_wait_header n i t m
         = (inr YMODEM_ERR_CODE,
            emit m w (c_rounds replies ++ [EvSend [YMODEM_CODE_C] sent]))) \/
    (exists pre d,
       replies = pre ++ [d] /\ (length pre < n)%nat /\ Forall not_header pre /\
       (reply_of d = YMODEM_CODE_SOH \/ reply_of d = YMODEM_CODE_STX) /\
       recv_wait_header n i t m
         = (inl (i + Z.of_nat (length pre)),
            emit (with_ctx m (set_buffer (store (buffer (m_ctx m)) 0 (reply_of d))
                                         (m_ctx m)))
                 w (c_rounds replies))).
Proof.
  revert i m. induction n as [|n IH]; intros i m Hi.
  - exists [], (m_world m). left. cbn [c_rounds flat_map recv_wait_header].
    rewrite emit_nil.
    split; [reflexivity |]. split; [constructor |]. unfold ret. f_equal.
    f_equal. lia.
  - remember (recv_wait_header (S n) i t m) as X eqn:EX.
    cbn [recv_wait_header] in EX.
    assert (Hlt : (i <? t) = true) by (apply Z.ltb_lt; lia).
    rewrite Hlt in EX. unfold bind at 1 in EX.
    destruct (send_byte_run m YMODEM_CODE_C) as (sent & w0 & E0).
    rewrite E0 in EX. change (u8 YMODEM_CODE_C) with YMODEM_CODE_C in EX.
    destruct (sent =? 1) eqn:Es; cbn [negb] in EX.
    2:{ apply Z.eqb_neq in Es. exists [], w0. right. left. exists sent.
        split; [exact Es |]. split; [cbn [length]; lia |].
        split; [apply Forall_nil | exact EX]. }
    apply Z.eqb_eq in Es. subst sent.
    unfold bind at 1 in EX.
    match type of EX with context [ymodem_receive_byte ?tt ?x] =>
      destruct (receive_byte_run x tt) as (d & w1 & E1); rewrite E1 in EX end.
    rewrite emit_emit in EX. cbn [app] in EX.
    destruct ((reply_of d >=? 0) && _) eqn:Eh.
    + exists [d], w1. right. right. exists [], d.
      assert (Hd : reply_of d = YMODEM_CODE_SOH \/ reply_of d = YMODEM_CODE_STX).
      { apply andb_true_iff in Eh. destruct Eh as [_ Eh].
        apply orb_true_iff in Eh. destruct Eh as [Eh | Eh];
          apply Z.eqb_eq in Eh; auto. }
      split; [reflexivity |]. split; [cbn [length]; lia |].
      split; [apply Forall_nil |]. split; [exact Hd |].
      rewrite EX.
      unfold bind at 1. unfold get_ctx at 1.
      unfold bind at 1. unfold modify_ctx at 1. unfold ret.
      cbn [length]. rewrite Z.add_0_r.
      assert (Eu : u8 (reply_of d) = reply_of d)
        by (destruct Hd as [-> | ->]; reflexivity).
      rewrite Eu. reflexivity.
    + apply header_test in Eh.
      destruct (IH (i + 1)
                   (emit m w1 [EvSend [YMODEM_CODE_C] 1;
                               EvRecv 1 YMODEM_HANDSHAKE_INTERVAL_MS d])
                   ltac:(lia)) as (rs & w' & H).
      exists (d :: rs), w'. rewrite c_rounds_cons.
      destruct H as [(L & F & R) | [(sent & Hs & L & F & R)
                                   | (pre & d' & -> & L & F & Hd & R)]].
      * left. split; [cbn [length]; lia |]. split; [now constructor |].
        rewrite EX, R, emit_emit. reflexivity.
      * right. left. exists sent. split; [exact Hs |].
        split; [cbn [length]; lia |]. split; [now constructor |].
        rewrite EX, R, emit_emit, <- app_assoc. reflexivity.
      * right. right. exists (d :: pre), d'.
        split; [reflexivity |]. split; [cbn [length]; lia |].
        split; [now constructor |]. split; [exact Hd |].
        rewrite EX, R. f_equal; [f_equal; cbn [length]; lia |].
        unfold emit, with_ctx. cbn [m_ctx m_info m_world m_trace].
        rewrite <- app_assoc. reflexivity.
Qed.

(** X12: the receiver's handshake sends a 'C' and waits 1000 ms for a
    byte, at most [timeout_s] times, until the byte is SOH or STX.  When
    none of the [timeout_s] replies is a header it returns
    YMODEM_ERR_TMO, having sent [timeout_s] times 'C'; when the
    transport does not take a 'C' it returns YMODEM_ERR_CODE at once;
    at the first header the wait ends with that byte at the start of
    the packet buffer. *)
Theorem recv_handshake_wait m (timeout_s : Z) :
  0 <= timeout_s ->
  let m0 := with_ctx m (set_stage YMODEM_STAGE_ESTABLISHING (m_ctx m)) in
  exists (replies : list (list Z)) (w : World),
    (Z.of_nat (length replies) = timeout_s /\ Forall not_header replies /\
     _ymodem_do_handshake timeout_s m
       = (YMODEM_ERR_TMO, emit m0 w (c_rounds replies))) \/
    (exists sent,
       sent <> 1 /\ Z.of_nat (length replies) < timeout_s /\
       Forall not_header replies /\
       _ymodem_do_handshake timeout_s m
         = (YMODEM_ERR_CODE,
            emit m0 w (c_rounds replies ++ [EvSend [YMODEM_CODE_C] sent]))) \/
    (exists pre d,
       replies = pre ++ [d] /\ Z.of_nat (length pre) < timeout_s /\
       Forall not_header pre /\
       (reply_of d = YMODEM_CODE_SOH \/ reply_of d = YMODEM_CODE_STX) /\
       recv_wait_header (Z.to_nat timeout_s) 0 timeout_s m0
         = (inl (Z.of_nat (length pre)),
            emit (with_ctx m0 (set_buffer (store (buffer (m_ctx m0)) 0 (reply_of d))
                                          (m_ctx m0)))
                 w (c_rounds replies))).
Proof.
  intros Ht m0.
  destruct (recv_wait_header_run (Z.to_nat timeout_s) 0 timeout_s m0 ltac:(lia))
    as (replies & w & H).
  exists replies, w.
  assert (U : forall l m1,
    recv_wait_header (Z.to_nat timeout_s) 0 timeout_s m0 = (l, m1) ->
    match l with
    | inr e => _ymodem_do_handshake timeout_s m = (e, m1)
    | inl i => i = timeout_s ->
               _ymodem_do_handshake timeout_s m = (YMODEM_ERR_TMO, m1)
    end).
  { intros l m1 R. destruct l as [i | e]; [intros -> |];
      unfold _ymodem_do_handshake;
      unfold bind at 1; unfold modify_ctx at 1;
      fold (with_ctx m (set_stage YMODEM_STAGE_ESTABLISHING (m_ctx m)));
      fold m0; unfold bind at 1; rewrite R;
      [rewrite Z.eqb_refl |]; reflexivity. }
  destruct H as [(L & F & R) | [(sent & Hs & L & F & R)
                               | (pre & d & -> & L & F & Hd & R)]].
  - left. split; [lia |]. split; [exact F |].
    exact (U _ _ R eq_refl).
  - right. left. exists sent. split; [exact Hs |]. split; [lia |].
    split; [exact F |]. exact (U _ _ R).
  - right. right. exists pre, d. split; [reflexivity |]. split; [lia |].
    split; [exact F |]. split; [exact Hd |]. exact R.
Qed.

(** ** Opening and closing the file *)

(** X14: [ymodem_send_cleanup] and [ymodem_receive_cleanup] close the
    file when one is open, with one call of [file_close] on its handle,
    and call nothing otherwise; they leave the handle NULL and the
    stage NONE, and a second cleanup changes nothing. *)
Theorem cleanup_spec m :
  let m' := snd (ymodem_cleanup m) in
  file_handle (m_ctx m') = NULL /\
  stage (m_ctx m') = YMODEM_STAGE_NONE /\
  (file_handle (m_ctx m) = NULL ->
   m_trace m' = m_trace m /\ m_world m' = m_world m) /\
  (file_handle (m_ctx m) <> NULL ->
   m_trace m' = m_trace m ++ [EvClose (file_handle (m_ctx m))] /\
   m_world m'
   = cb_file_close (callbacks (m_ctx m)) (file_handle (m_ctx m)) (m_world m)) /\
  ymodem_cleanup m' = (tt, m').
Proof.
  unfold ymodem_cleanup, close_file, bind, get_ctx, modify_ctx, callback, ret.
  destruct (file_handle (m_ctx m) =? NULL) eqn:E; cbn [negb snd m_ctx m_trace
    m_world m_info file_handle stage set_stage set_file_handle].
  - apply Z.eqb_eq in E.
    split; [exact E |]. split; [reflexivity |].
    split; [intros _; split; reflexivity |].
    split; [intros H; now destruct H |].
    rewrite E. reflexivity.
  - apply Z.eqb_neq in E.
    split; [reflexivity |]. split; [reflexivity |].
    split; [intros H; now destruct E |].
    split; [intros _; split; reflexivity |].
    reflexivity.
Qed.

(** X18: [ymodem_send_file] and the file it cannot use.  When
    [file_open] returns NULL the result is YMODEM_ERR_FILE and nothing
    else is called; when [file_size] reports a negative size the file
    is closed again and the result is YMODEM_ERR_FILE; in both cases
    nothing goes to the transport and the handle is NULL. *)
Theorem send_file_unusable_file m (fuel : nat) (fname : list Z)
    (timeout_s h s : Z) (w1 w2 : World) :
  cb_file_open (callbacks (m_ctx m)) fname false (m_world m) = (h, w1) ->
  cb_file_size (callbacks (m_ctx m)) h w1 = (s, w2) ->
  (h = NULL ->
   ymodem_send_file fuel (Some fname) timeout_s m
   = (Some YMODEM_ERR_FILE,
      emit (with_ctx m (set_file_handle NULL (m_ctx m))) w1
           [EvOpen fname false NULL])) /\
  (h <> NULL -> sint s < 0 ->
   ymodem_send_file fuel (Some fname) timeout_s m
   = (Some YMODEM_ERR_FILE,
      emit (with_ctx m (set_file_handle NULL
                          (set_file_size (sint s) (m_ctx m))))
           (cb_file_close (callbacks (m_ctx m)) h w2)
           [EvOpen fname false h; EvSize h (sint s); EvClose h])).
Proof.
  intros Eo Es. split.
  - intros ->. unfold ymodem_send_file.
    unfold bind at 1. unfold callback at 1. rewrite Eo.
    unfold bind at 1. unfold modify_ctx at 1.
    change (NULL =? NULL) with true. cbv iota. reflexivity.
  - intros Hh Hs. unfold ymodem_send_file.
    unfold bind at 1. unfold callback at 1. rewrite Eo.
    unfold bind at 1. unfold modify_ctx at 1.
    apply Z.eqb_neq in Hh. rewrite Hh.
    unfold bind at 1. unfold callback at 1.
    cbn [m_ctx m_info m_world m_trace callbacks set_file_handle].
    rewrite Es.
    unfold bind at 1. unfold modify_ctx at 1.
    apply Z.ltb_lt in Hs. rewrite Hs.
    unfold close_file, bind, get_ctx, modify_ctx, callback, ret, emit, with_ctx.
    cbn [m_ctx m_info m_world m_trace callbacks file_handle set_file_handle
         set_file_size].
    rewrite <- !app_assoc. reflexivity.
Qed.

(** ** Sender: how often a block is read and a packet is sent *)

Lemma sends_app (a b : list event) : sends (a ++ b) = (sends a + sends b)%nat.
Proof.
  induction a as [|e a IH]; [reflexivity |].
  destruct e; cbn [app sends]; rewrite IH; reflexivity.
Qed.

Lemma reads_app (a b : list event) : reads (a ++ b) = (reads a + reads b)%nat.
Proof.
  induction a as [|e a IH]; [reflexivity |].
  destruct e; cbn [app reads]; rewrite IH; reflexivity.
Qed.

Lemma grows_with_refl m : grows_with 0 0 m m.
Proof. exists []. rewrite app_nil_r. cbn. auto. Qed.

Lemma grows_with_trans (s1 r1 s2 r2 : nat) m1 m2 m3 :
  grows_with s1 r1 m1 m2 -> grows_with s2 r2 m2 m3 ->
  grows_with (s1 + s2) (r1 + r2) m1 m3.
Proof.
  intros (e1 & T1 & S1 & R1) (e2 & T2 & S2 & R2). exists (e1 ++ e2).
  rewrite T2, T1, app_assoc, sends_app, reads_app. repeat split; lia.
Qed.

Lemma grows_with_le (s r s' r' : nat) m m' :
  grows_with s r m m' -> (s <= s')%nat -> (r <= r')%nat ->
  grows_with s' r' m m'.
Proof.
  intros (e & T & S & R) Hs Hr. exists e. repeat split; [exact T | lia | lia].
Qed.

Lemma grows_with_ctx (s r : nat) m m' ctx :
  grows_with s r m m' -> grows_with s r m (with_ctx m' ctx).
Proof. intros H. exact H. Qed.

Lemma send_packet_grows m (code seq : Z) (data : list Z) :
  grows_with 1 0 m (snd (_ymodem_send_packet code seq data m)).
Proof.
  unfold _ymodem_send_packet, bind, get_ctx, modify_ctx, ret. cbv zeta.
  destruct (_ && _);
    [apply (grows_with_le 0 0); [apply grows_with_refl | lia | lia] |].
  destruct (_ && _);
    [apply (grows_with_le 0 0); [apply grows_with_refl | lia | lia] |].
  destruct (_ <? _);
    [apply (grows_with_le 0 0); [apply grows_with_refl | lia | lia] |].
  unfold ymodem_send_bytes, callback.
  cbn [m_ctx m_info m_world m_trace callbacks set_send_buffer].
  destruct (cb_comm_send _ _ _) as [sent w].
  destruct (usize sent =? 0); eexists; cbn [snd m_trace];
    (split; [reflexivity | cbn; lia]).
Qed.

Lemma receive_byte_grows m (t : Z) :
  grows_with 0 0 m (snd (ymodem_receive_byte t m)).
Proof.
  destruct (receive_byte_run m t) as (d & w & E). rewrite E.
  eexists. cbn [snd emit m_trace]. split; [reflexivity | cbn; lia].
Qed.

Lemma send_read_block_grows (n : nat) (a rs : Z) m :
  grows_with 0 n m (snd (send_read_block n a rs m)).
Proof.
  revert a m. induction n as [|n IH]; intros a m; cbn [send_read_block].
  - apply grows_with_refl.
  - unfold bind at 1. unfold get_ctx at 1.
    unfold bind at 1. unfold callback at 1.
    destruct (cb_file_read _ _ _ _) as [d w].
    unfold bind at 1. unfold modify_ctx at 1.
    cbn [m_ctx m_info m_world m_trace].
    set (m1 := mk_machine _ _ _ _).
    assert (G : grows_with 0 1 m m1).
    { eexists. unfold m1. cbn [m_trace]. split; [reflexivity | cbn; lia]. }
    destruct (_ =? rs).
    + apply (grows_with_le 0 1); [exact G | lia | lia].
    + apply (grows_with_le (0 + 0) (1 + n)); [| lia | lia].
      apply (grows_with_trans _ _ _ _ _ m1); [exact G | apply IH].
Qed.

Lemma send_trans_prepare_grows m :
  grows_with 0 10 m (snd (send_trans_prepare m)).
Proof.
  unfold send_trans_prepare. cbv zeta. unfold bind at 1.
  pose proof (send_read_block_grows 10 0 YMODEM_STX_DATA_SIZE m) as G.
  destruct (send_read_block 10 0 YMODEM_STX_DATA_SIZE m) as [a m1].
  cbn [snd] in G.
  destruct (a =? 0); [exact G |].
  unfold bind at 1.
  destruct (a <? YMODEM_STX_DATA_SIZE).
  - unfold bind at 1. unfold get_ctx at 1.
    unfold bind at 1. unfold modify_ctx at 1. unfold modify_ctx at 1.
    destruct (a <=? 128); exact G.
  - destruct (a <=? 128); exact G.
Qed.

Lemma send_data_packet_grows (n : nat) (retries pt rs : Z) m :
  grows_with n 0 m (snd (send_data_packet n retries pt rs m)).
Proof.
  revert retries m. induction n as [|n IH]; intros retries m;
    cbn [send_data_packet].
  - apply grows_with_refl.
  - destruct (retries <? YMODEM_MAX_ERRORS);
      [| apply (grows_with_le 0 0); [apply grows_with_refl | lia | lia]].
    unfold bind at 1. unfold get_ctx at 1. unfold bind at 1.
    match goal with |- context [_ymodem_send_packet ?c ?s ?d m] =>
      pose proof (send_packet_grows m c s d) as G1;
      destruct (_ymodem_send_packet c s d m) as [r m1] end.
    cbn [snd] in G1.
    assert (Hrec : forall x, grows_with (S n) 0 m
                   (snd (send_data_packet n x pt rs m1))).
    { intros x. apply (grows_with_trans 1 0 n 0 _ m1); [exact G1 | apply IH]. }
    destruct (negb (r =? YMODEM_ERR_NONE)); [apply Hrec |].
    unfold bind at 1.
    pose proof (receive_byte_grows m1 YMODEM_WAIT_PACKET_TIMEOUT_MS) as G2.
    destruct (ymodem_receive_byte YMODEM_WAIT_PACKET_TIMEOUT_MS m1) as [b m2].
    cbn [snd] in G2.
    assert (G : grows_with 1 0 m m2)
      by (apply (grows_with_trans 1 0 0 0 _ m1); assumption).
    assert (Hrec' : forall x, grows_with (S n) 0 m
                    (snd (send_data_packet n x pt rs m2))).
    { intros x. apply (grows_with_trans 1 0 n 0 _ m2); [exact G | apply IH]. }
    assert (Hret : grows_with (S n) 0 m m2)
      by (apply (grows_with_le 1 0); [exact G | lia | lia]).
    destruct (b =? YMODEM_CODE_ACK); [exact Hret |].
    destruct (b =? YMODEM_CODE_NAK); [apply Hrec' |].
    destruct (b =? YMODEM_CODE_C); [exact Hret |].
    destruct (b =? YMODEM_CODE_CAN); [exact Hret | apply Hrec'].
Qed.

(** X15: one round of the sender's data loop, which reads one block
    and sends it as one packet, makes at most 10 calls of [file_read]
    and hands at most YMODEM_MAX_ERRORS = 5 frames to the transport,
    however the peer answers. *)
Theorem send_trans_round_bounded m :
  grows_with 5 10 m (snd (send_trans_round m)).
Proof.
  unfold send_trans_round. unfold bind at 1.
  pose proof (send_trans_prepare_grows m) as G1.
  destruct (send_trans_prepare m) as [[[a pt] rs] m1]. cbn [snd] in G1.
  destruct (a =? 0);
    [apply (grows_with_le 0 10); [exact G1 | lia | lia] |].
  unfold bind at 1.
  pose proof (send_data_packet_grows (Z.to_nat YMODEM_MAX_ERRORS) 0 pt rs m1)
    as G2.
  destruct (send_data_packet (Z.to_nat YMODEM_MAX_ERRORS) 0 pt rs m1)
    as [r m2]. cbn [snd] in G2.
  change (Z.to_nat YMODEM_MAX_ERRORS) with 5%nat in G2.
  assert (G : grows_with 5 10 m m2)
    by (apply (grows_with_trans 0 10 5 0 _ m1); assumption).
  destruct r as [retries | e]; [| exact G].
  destruct (retries >=? YMODEM_MAX_ERRORS); [exact G |].
  unfold bind at 1. unfold get_ctx at 1.
  unfold bind at 1. unfold modify_ctx at 1.
  destruct (stage_eqb _ _); exact G.
Qed.

(** ** What a successful transfer leaves behind *)

Lemma close_file_after {A : Type} (a : A) m (r : A) m' :
  (close_file ;; ret a) m = (r, m') ->
  r = a /\ file_handle (m_ctx m') = NULL /\
  stage (m_ctx m') = stage (m_ctx m) /\
  m_trace m' = m_trace m ++ [EvClose (file_handle (m_ctx m))].
Proof.
  unfold close_file, bind, get_ctx, callback, modify_ctx, ret.
  cbn [m_ctx m_info m_world m_trace].
  intros [= <- <-]. repeat split; reflexivity.
Qed.

Lemma send_fin_first_eot_error (n : nat) (retries e : Z) m m' :
  send_fin_first_eot n retries m = (inr e, m') -> e = YMODEM_ERR_CODE.
Proof.
  revert retries m. induction n as [|n IH]; intros retries m;
    cbn [send_fin_first_eot]; [discriminate |].
  destruct (retries <? YMODEM_MAX_ERRORS); [| discriminate].
  unfold bind at 1. destruct (ymodem_send_byte _ m) as [ok m1].
  destruct (negb ok); [now intros [= <- _] |].
  unfold bind at 1. destruct (ymodem_receive_byte _ m1) as [r m2].
  destruct (r =? YMODEM_CODE_NAK); [discriminate | apply IH].
Qed.

Lemma send_fin_second_eot_error (n : nat) (retries e : Z) m m' :
  send_fin_second_eot n retries m = (inr e, m') -> e = YMODEM_ERR_CODE.
Proof.
  revert retries m. induction n as [|n IH]; intros retries m;
    cbn [send_fin_second_eot]; [discriminate |].
  destruct (retries <? YMODEM_MAX_ERRORS); [| discriminate].
  unfold bind at 1. destruct (ymodem_send_byte _ m) as [ok m1].
  destruct (negb ok); [now intros [= <- _] |].
  unfold bind at 1. destruct (ymodem_receive_byte _ m1) as [r m2].
  destruct (r =? YMODEM_CODE_ACK); [discriminate |].
  destruct (r =? YMODEM_CODE_NAK); [discriminate | apply IH].
Qed.

Lemma send_fin_null_packet_finished m m' :
  send_fin_null_packet m = (YMODEM_ERR_NONE, m') ->
  stage (m_ctx m') = YMODEM_STAGE_FINISHED.
Proof.
  unfold send_fin_null_packet.
  unfold bind at 1. unfold get_ctx at 1.
  unfold bind at 1. unfold modify_ctx at 1.
  unfold bind at 1. unfold get_ctx at 1.
  unfold bind at 1.
  destruct (_ymodem_send_packet _ _ _ _) as [r m1].
  destruct (negb (r =? YMODEM_ERR_NONE)) eqn:E.
  - intros [= -> _]. discriminate E.
  - unfold bind at 1. destruct (ymodem_receive_byte _ m1) as [b m2].
    unfold bind at 1. unfold modify_ctx at 1. now intros [= <-].
Qed.

Lemma do_send_fin_finished (fuel : nat) m m' :
  _ymodem_do_send_fin fuel m = (Some YMODEM_ERR_NONE, m') ->
  stage (m_ctx m') = YMODEM_STAGE_FINISHED.
Proof.
  unfold _ymodem_do_send_fin.
  unfold bind at 1. unfold modify_ctx at 1.
  unfold bind at 1.
  destruct (send_fin_first_eot _ _ _) as [[retries | e] m1] eqn:E1.
  2:{ apply send_fin_first_eot_error in E1. subst e. discriminate. }
  destruct (retries >=? YMODEM_MAX_ERRORS); [discriminate |].
  unfold bind at 1.
  destruct (send_fin_second_eot _ _ _) as [[retries2 | e] m2] eqn:E2.
  2:{ apply send_fin_second_eot_error in E2. subst e. discriminate. }
  destruct (retries2 >=? YMODEM_MAX_ERRORS); [discriminate |].
  unfold bind at 1.
  destruct (send_fin_wait_c fuel 0 m2) as [[g |] m3]; [| discriminate].
  unfold bind at 1.
  destruct (send_fin_null_packet m3) as [r m4] eqn:E4.
  intros [= -> <-]. now apply send_fin_null_packet_finished in E4.
Qed.

Lemma recv_fin_loop_finished (fuel : nat) (retries : Z) m m' :
  recv_fin_loop fuel retries m = (Some (inr YMODEM_ERR_NONE), m') ->
  stage (m_ctx m') = YMODEM_STAGE_FINISHED.
Proof.
  revert retries m. induction fuel as [|fuel IH]; intros retries m;
    cbn [recv_fin_loop]; [discriminate |].
  destruct (retries <? YMODEM_MAX_ERRORS); [| discriminate].
  unfold bind at 1. destruct (ymodem_receive_byte _ m) as [r m1].
  destruct (r <? 0); [apply IH |].
  unfold bind at 1. unfold get_ctx at 1.
  unfold bind at 1. unfold modify_ctx at 1.
  destruct ((u8 r =? YMODEM_CODE_SOH) || (u8 r =? YMODEM_CODE_STX)).
  - unfold bind at 1.
    destruct (_ymodem_receive_packet _) as [[[r2 seq] n] m2].
    destruct (negb (r2 =? YMODEM_ERR_NONE)); [apply IH |].
    destruct (negb (seq =? 0)); [apply IH |].
    unfold bind at 1. unfold get_ctx at 1.
    destruct (load (buffer (m_ctx m2)) 3 =? 0); [| apply IH].
    unfold bind at 1. unfold modify_ctx at 1.
    unfold bind at 1.
    match goal with |- context [ymodem_send_byte ?b ?x] =>
      destruct (send_byte_run x b) as (sent & w & E); rewrite E end.
    destruct (sent =? 1); cbn [negb]; [| discriminate].
    now intros [= <-].
  - destruct (u8 r =? YMODEM_CODE_EOT); [| apply IH].
    unfold bind at 1. destruct (ymodem_send_byte _ _) as [ok m2].
    destruct (negb ok); [discriminate | apply IH].
Qed.

Lemma do_fin_finished (fuel : nat) m m' :
  _ymodem_do_fin fuel m = (Some YMODEM_ERR_NONE, m') ->
  stage (m_ctx m') = YMODEM_STAGE_FINISHED.
Proof.
  unfold _ymodem_do_fin.
  unfold bind at 1. unfold modify_ctx at 1.
  unfold bind at 1. destruct (ymodem_send_byte _ _) as [ok m1].
  destruct (negb ok); [discriminate |].
  cbv zeta.
  assert (Hrest : forall m2,
    (ok <- ymodem_send_byte YMODEM_CODE_ACK ;;
     if negb ok then ret (Some YMODEM_ERR_CODE)
     else
       ok <- ymodem_send_byte YMODEM_CODE_C ;;
       if negb ok then ret (Some YMODEM_ERR_CODE)
       else
         l <- recv_fin_loop fuel 0 ;;
         match l with
         | None => ret None
         | Some (inr e) => ret (Some e)
         | Some (inl _) =>
             ctx <- get_ctx ;;
             if negb (file_handle ctx =? NULL) then
               modify_ctx (set_stage YMODEM_STAGE_FINISHED) ;;
               ret (Some YMODEM_ERR_NONE)
             else ret (Some YMODEM_ERR_CODE)
         end) m2 = (Some YMODEM_ERR_NONE, m') ->
    stage (m_ctx m') = YMODEM_STAGE_FINISHED).
  { intros m2. unfold bind at 1. destruct (ymodem_send_byte _ m2) as [ok2 m3].
    destruct (negb ok2); [discriminate |].
    unfold bind at 1. destruct (ymodem_send_byte _ m3) as [ok3 m4].
    destruct (negb ok3); [discriminate |].
    unfold bind at 1.
    destruct (recv_fin_loop fuel 0 m4) as [[[u | e] |] m5] eqn:E5;
      [| | discriminate].
    - unfold bind at 1. unfold get_ctx at 1.
      destruct (negb (file_handle (m_ctx m5) =? NULL)); [| discriminate].
      unfold bind at 1. unfold modify_ctx at 1. now intros [= <-].
    - intros [= -> <-]. now apply recv_fin_loop_finished in E5. }
  unfold bind at 1. destruct (ymodem_receive_byte _ m1) as [r m2].
  destruct (negb (r =? YMODEM_CODE_EOT)); [| apply Hrest].
  unfold bind at 1. destruct (ymodem_send_byte _ m2) as [ok2 m3].
  destruct (negb ok2); [discriminate |].
  unfold bind at 1. destruct (ymodem_receive_byte _ m3) as [r2 m4].
  destruct (negb (r2 =? YMODEM_CODE_EOT)); [discriminate | apply Hrest].
Qed.

(** X16: a transfer that returns YMODEM_ERR_NONE went through all its
    phases.  When [ymodem_send_file] or [ymodem_receive_file] returns
    YMODEM_ERR_NONE, the stage is FINISHED, the file handle is NULL,
    and the last call through a callback was the [file_close] of the
    file. *)
Theorem transfer_success_finished (fuel : nat) (fname : option (list Z))
    (timeout_s : Z) m m' :
  ymodem_send_file fuel fname timeout_s m = (Some YMODEM_ERR_NONE, m') \/
  ymodem_receive_file fuel timeout_s m = (Some YMODEM_ERR_NONE, m') ->
  stage (m_ctx m') = YMODEM_STAGE_FINISHED /\
  file_handle (m_ctx m') = NULL /\
  exists h pre, m_trace m' = pre ++ [EvClose h].
Proof.
  assert (Hclose : forall (r : Z) m1,
    (close_file ;; ret (Some r)) m1 = (Some YMODEM_ERR_NONE, m') ->
    stage (m_ctx m1) = YMODEM_STAGE_FINISHED ->
    stage (m_ctx m') = YMODEM_STAGE_FINISHED /\
    file_handle (m_ctx m') = NULL /\
    exists h pre, m_trace m' = pre ++ [EvClose h]).
  { intros r m1 E Hs. apply close_file_after in E.
    destruct E as (_ & H1 & H2 & H3).
    split; [congruence |]. split; [exact H1 |]. eauto. }
  assert (Hfail : forall (r : Z) m1,
    negb (r =? YMODEM_ERR_NONE) = true ->
    (close_file ;; ret (Some r)) m1 = (Some YMODEM_ERR_NONE, m') -> False).
  { intros r m1 Hr E. apply close_file_after in E.
    destruct E as (E & _). injection E as <-. discriminate Hr. }
  intros [E | E]; revert E.
  - unfold ymodem_send_file. destruct fname as [fname |]; [| discriminate].
    unfold bind at 1.
    destruct (callback _ _ m) as [h m1].
    unfold bind at 1. unfold modify_ctx at 1.
    destruct (h =? NULL); [discriminate |].
    unfold bind at 1.
    destruct (callback _ _ _) as [sz m2].
    unfold bind at 1. unfold modify_ctx at 1.
    destruct (sz <? 0).
    { intros E. exfalso. now apply (Hfail YMODEM_ERR_FILE) in E. }
    cbv zeta. unfold bind at 1. unfold get_ctx at 1.
    unfold bind at 1. unfold modify_ctx at 1.
    unfold bind at 1.
    destruct (_ymodem_do_send_handshake timeout_s _) as [r1 m3].
    destruct (negb (r1 =? YMODEM_ERR_NONE)) eqn:E1.
    { intros E. exfalso. now apply (Hfail r1) in E. }
    unfold bind at 1.
    destruct (_ymodem_do_send_trans fuel m3) as [[r2 |] m4]; [| discriminate].
    destruct (negb (r2 =? YMODEM_ERR_NONE)) eqn:E2.
    { intros E. exfalso. now apply (Hfail r2) in E. }
    unfold bind at 1.
    destruct (_ymodem_do_send_fin fuel m4) as [[r3 |] m5] eqn:E3;
      [| discriminate].
    intros E. pose proof E as E'. apply close_file_after in E'.
    destruct E' as (E' & _). injection E' as <-.
    apply (Hclose _ _ E). now apply do_send_fin_finished in E3.
  - unfold ymodem_receive_file. unfold bind at 1.
    destruct (_ymodem_do_handshake timeout_s m) as [r1 m1].
    destruct (negb (r1 =? YMODEM_ERR_NONE)) eqn:E1.
    { intros [= -> _]. discriminate E1. }
    unfold bind at 1.
    destruct (_ymodem_parse_file_info m1) as [r2 m2].
    destruct (negb (r2 =? YMODEM_ERR_NONE)) eqn:E2.
    { intros [= -> _]. discriminate E2. }
    unfold bind at 1.
    destruct (callback _ _ m2) as [h m3].
    unfold bind at 1. unfold modify_ctx at 1.
    destruct (h =? NULL); [discriminate |].
    unfold bind at 1.
    destruct (_ymodem_do_trans fuel _) as [[r3 |] m4]; [| discriminate].
    destruct (negb (r3 =? YMODEM_ERR_NONE)) eqn:E3.
    { intros E. exfalso. now apply (Hfail r3) in E. }
    unfold bind at 1.
    destruct (_ymodem_do_fin fuel m4) as [[r4 |] m5] eqn:E4; [| discriminate].
    intros E. pose proof E as E'. apply close_file_after in E'.
    destruct E' as (E' & _). injection E' as <-.
    apply (Hclose _ _ E). now apply do_fin_finished in E4.
Qed.

(** ** Invariants of the context *)

Section Invariant.

Variable G : ymodem_context_t World -> Prop.

Lemma safe_ret {A : Type} (a : A) : preserves (on_ctx G) (ret a).
Proof. intros m H. exact H. Qed.

Lemma safe_bind {A B : Type} (c : M World A) (k : A -> M World B) :
  preserves (on_ctx G) c -> (forall a, preserves (on_ctx G) (k a)) ->
  preserves (on_ctx G) (bind c k).
Proof.
  intros Hc Hk m H. unfold bind. specialize (Hc m H).
  destruct (c m) as [a m1]. apply Hk. exact Hc.
Qed.

Lemma safe_bind_yields {A B : Type} (c : M World A) (k : A -> M World B)
    (Q : A -> Prop) :
  yields (on_ctx G) c Q -> (forall a, Q a -> preserves (on_ctx G) (k a)) ->
  preserves (on_ctx G) (bind c k).
Proof.
  intros Hc Hk m H. unfold bind. destruct (Hc m H) as [H1 H2].
  destruct (c m) as [a m1]. apply Hk; assumption.
Qed.

Lemma safe_bind_get {B : Type} (k : ymodem_context_t World -> M World B) :
  (forall ctx, G ctx -> preserves (on_ctx G) (k ctx)) ->
  preserves (on_ctx G) (bind get_ctx k).
Proof. intros Hk m H. unfold bind, get_ctx. apply Hk; exact H. Qed.

Lemma safe_modify (f : ymodem_context_t World -> ymodem_context_t World) :
  (forall c, G c -> G (f c)) -> preserves (on_ctx G) (modify_ctx f).
Proof. intros Hf m H. apply Hf. exact H. Qed.

Lemma safe_callback {A : Type}
    (f : ymodem_callbacks_t World -> World -> A * World) (ev : A -> event) :
  preserves (on_ctx G) (callback f ev).
Proof.
  intros m H. unfold callback.
  destruct (f (callbacks (m_ctx m)) (m_world m)) as [a w]. exact H.
Qed.

Lemma safe_receive_byte (t : Z) : preserves (on_ctx G) (ymodem_receive_byte t).
Proof.
  intros m H. destruct (receive_byte_run m t) as (d & w & E). rewrite E.
  exact H.
Qed.

Lemma safe_send_byte (b : Z) : preserves (on_ctx G) (ymodem_send_byte b).
Proof.
  intros m H. destruct (send_byte_run m b) as (s & w & E). rewrite E.
  exact H.
Qed.

Lemma safe_close_file :
  (forall c, G c -> G (set_file_handle NULL c)) ->
  preserves (on_ctx G) close_file.
Proof.
  intros Hg. unfold close_file.
  apply safe_bind_get. intros ctx _.
  apply safe_bind; [apply safe_callback | intros _].
  apply safe_modify. exact Hg.
Qed.

End Invariant.

Ltac sizes :=
  unfold YMODEM_MAX_PACKET_SIZE, YMODEM_STX_PACKET_SIZE,
    YMODEM_SOH_PACKET_SIZE, YMODEM_STX_DATA_SIZE, YMODEM_SOH_DATA_SIZE,
    YMODEM_MAX_FILENAME_LENGTH, YMODEM_MAX_ERRORS in *;
  lia.

(** ** The receiver never writes outside its packet buffer *)

Section ReceiveBuffer.

Variable L : Z.
Hypothesis HL : YMODEM_MAX_PACKET_SIZE <= L.

Lemma recv_bind_receive_bytes {B : Type} (n t : Z) (k : list Z -> M World B) :
  0 <= n ->
  (forall data, len data <= n -> preserves (on_ctx (recv_safe (World := World) L)) (k data)) ->
  preserves (on_ctx (recv_safe (World := World) L)) (bind (ymodem_receive_bytes n t) k).
Proof.
  intros Hn Hk m H. unfold bind, ymodem_receive_bytes, callback.
  pose proof (proj1 H n t (m_world m) Hn) as Hd.
  destruct (cb_comm_receive (callbacks (m_ctx m)) n t (m_world m)) as [d w].
  cbn [fst] in Hd. apply Hk; [| exact H].
  unfold len in *. now rewrite length_map.
Qed.

(** A store into a buffer of [L] bytes that stays inside it. *)
Lemma recv_set_buffer (ctx : ymodem_context_t World) (off : Z) (src : list Z) :
  recv_safe L ctx -> 0 <= off -> off + len src <= L ->
  forall c : ymodem_context_t World,
    recv_safe L c ->
    recv_safe L (set_buffer (memcpy (buffer ctx) off src) c).
Proof.
  intros [_ Hb] Ho Hs c [Hc _]. split; [exact Hc |].
  unfold buffer_size in *. cbn [buffer set_buffer].
  rewrite memcpy_len; lia.
Qed.

Ltac recv_tac :=
  repeat lazymatch goal with
    | |- preserves _ (ret _) => apply safe_ret
    | |- preserves _ (bind get_ctx _) =>
        apply safe_bind_get; intros ? ?
    | |- preserves _ (bind (ymodem_receive_bytes _ _) _) =>
        apply recv_bind_receive_bytes; [sizes | intros ? ?]
    | |- preserves _ (bind _ _) => apply safe_bind; [| intro]
    | |- preserves _ (ymodem_receive_byte _) => apply safe_receive_byte
    | |- preserves _ (ymodem_send_byte _) => apply safe_send_byte
    | |- preserves _ (callback _ _) => apply safe_callback
    | |- preserves _ close_file =>
        apply safe_close_file;
        let c := fresh "c" in let Hc := fresh "Hc" in intros c Hc; exact Hc
    | |- preserves _ (modify_ctx (set_buffer (store _ _ _))) =>
        apply safe_modify; unfold store; apply recv_set_buffer;
        [assumption | lia | change (len [_]) with 1; sizes]
    | |- preserves _ (modify_ctx (set_buffer (memcpy _ _ _))) =>
        apply safe_modify; apply recv_set_buffer;
        [assumption | lia | sizes]
    | |- preserves _ (modify_ctx _) =>
        apply safe_modify;
        let c := fresh "c" in let Hc := fresh "Hc" in intros c Hc; exact Hc
    | |- preserves _ (if ?b then _ else _) => destruct b
    | |- preserves _ (match ?x with _ => _ end) => destruct x
    | |- preserves _ (let _ := _ in _) => cbv zeta
    end.

Lemma recv_receive_packet :
  preserves (on_ctx (recv_safe (World := World) L)) _ymodem_receive_packet.
Proof. unfold _ymodem_receive_packet. recv_tac. Qed.

Lemma recv_recv_wait_header (n : nat) (i t : Z) :
  preserves (on_ctx (recv_safe (World := World) L)) (recv_wait_header n i t).
Proof.
  revert i. induction n as [|n IH]; intros i; cbn [recv_wait_header];
    recv_tac. apply IH.
Qed.

Lemma recv_do_handshake (t : Z) :
  preserves (on_ctx (recv_safe (World := World) L)) (_ymodem_do_handshake t).
Proof.
  unfold _ymodem_do_handshake. recv_tac;
    try apply recv_recv_wait_header; try apply recv_receive_packet.
Qed.

Lemma recv_parse_file_info :
  preserves (on_ctx (recv_safe (World := World) L)) _ymodem_parse_file_info.
Proof.
  intros m H. unfold _ymodem_parse_file_info, bind, get_ctx, modify_ctx, ret.
  cbv zeta.
  destruct (_ =? 0); [exact H |].
  destruct (_ =? 0); exact H.
Qed.

Lemma recv_recv_trans_error (err es tr : Z) :
  preserves (on_ctx (recv_safe (World := World) L)) (recv_trans_error err es tr).
Proof. unfold recv_trans_error. recv_tac. Qed.

Lemma recv_recv_trans_round (es tr : Z) :
  preserves (on_ctx (recv_safe (World := World) L)) (recv_trans_round es tr).
Proof.
  unfold recv_trans_round. recv_tac;
    try apply recv_recv_trans_error; try apply recv_receive_packet.
Qed.

Lemma recv_recv_trans_loop (fuel : nat) (es tr : Z) :
  preserves (on_ctx (recv_safe (World := World) L)) (recv_trans_loop fuel es tr).
Proof.
  revert es tr. induction fuel as [|fuel IH]; intros es tr;
    cbn [recv_trans_loop]; recv_tac;
    try apply recv_recv_trans_round; try apply IH.
Qed.

Lemma recv_do_trans (fuel : nat) :
  preserves (on_ctx (recv_safe (World := World) L)) (_ymodem_do_trans fuel).
Proof.
  unfold _ymodem_do_trans. recv_tac. apply recv_recv_trans_loop.
Qed.

Lemma recv_recv_fin_loop (fuel : nat) (retries : Z) :
  preserves (on_ctx (recv_safe (World := World) L)) (recv_fin_loop fuel retries).
Proof.
  revert retries. induction fuel as [|fuel IH]; intros retries;
    cbn [recv_fin_loop]; recv_tac;
    try apply IH; try apply recv_receive_packet.
Qed.

Lemma recv_do_fin (fuel : nat) :
  preserves (on_ctx (recv_safe (World := World) L)) (_ymodem_do_fin fuel).
Proof.
  unfold _ymodem_do_fin. recv_tac; try apply recv_recv_fin_loop.
Qed.

Lemma recv_receive_file (fuel : nat) (t : Z) :
  preserves (on_ctx (recv_safe (World := World) L)) (ymodem_receive_file fuel t).
Proof.
  unfold ymodem_receive_file.
  apply safe_bind; [apply recv_do_handshake | intros r1].
  destruct (negb _); [apply safe_ret |].
  apply safe_bind; [apply recv_parse_file_info | intros r2].
  destruct (negb _); [apply safe_ret |].
  intros m H. cbv beta zeta.
  generalize (cstring (fi_filename (m_info m))). intros fname. revert m H.
  match goal with |- forall m, _ -> _ (snd (?c m)) =>
    change (preserves (on_ctx (recv_safe (World := World) L)) c) end.
  recv_tac; try apply recv_do_trans; try apply recv_do_fin.
Qed.

End ReceiveBuffer.

(** X17: the receiver never writes outside its packet buffer.  With a
    buffer of at least YMODEM_MAX_PACKET_SIZE bytes, as
    [ymodem_receive_init] demands, and a [comm_receive] that stores at
    most the number of bytes it is asked for, the buffer has the same
    size after [ymodem_receive_file] as before, however the transfer
    goes; a write past its end would have made it longer. *)
Theorem receive_file_buffer_safe (fuel : nat) (timeout_s : Z) m :
  transport_ok (callbacks (m_ctx m)) ->
  YMODEM_MAX_PACKET_SIZE <= buffer_size (m_ctx m) ->
  let m' := snd (ymodem_receive_file fuel timeout_s m) in
  buffer_size (m_ctx m') = buffer_size (m_ctx m) /\
  transport_ok (callbacks (m_ctx m')).
Proof.
  intros Ht Hb m'.
  destruct (recv_receive_file (buffer_size (m_ctx m)) Hb fuel timeout_s m)
    as [H1 H2].
  - split; [exact Ht | reflexivity].
  - split; [exact H2 | exact H1].
Qed.

(** ** The sender never writes outside its buffers *)

Section SendBuffers.

Variables Lb Ls Lf : Z.
Hypothesis HL : YMODEM_MAX_PACKET_SIZE <= Lb.
Hypothesis HF : YMODEM_MAX_FILENAME_LENGTH <= Lf.

Lemma send_bind_file_read {B : Type} (h n : Z) (k : list Z -> M World B) :
  0 <= n ->
  (forall data, len data <= n ->
     preserves (on_ctx (send_safe (World := World) Lb Ls Lf)) (k data)) ->
  preserves (on_ctx (send_safe (World := World) Lb Ls Lf))
    (bind (callback (fun cb w => let (d, w') := cb_file_read cb h n w in
                                 (map u8 d, w'))
                    (EvRead h n)) k).
Proof.
  intros Hn Hk m H. unfold bind, callback.
  pose proof (proj1 H h n (m_world m) Hn) as Hd.
  destruct (cb_file_read (callbacks (m_ctx m)) h n (m_world m)) as [d w].
  cbn [fst] in Hd. apply Hk; [| exact H].
  unfold len in *. now rewrite length_map.
Qed.

(** A store into the packet buffer that stays inside it. *)
Lemma send_set_buffer (v : list Z) :
  len v = Lb ->
  forall c : ymodem_context_t World,
    send_safe Lb Ls Lf c -> send_safe Lb Ls Lf (set_buffer v c).
Proof.
  intros Hv c (H1 & H2 & H3 & H4). repeat split; assumption.
Qed.

Lemma send_set_send_buffer (v : list Z) :
  len v = Ls ->
  forall c : ymodem_context_t World,
    send_safe Lb Ls Lf c -> send_safe Lb Ls Lf (set_send_buffer v c).
Proof.
  intros Hv c (H1 & H2 & H3 & H4). repeat split; assumption.
Qed.

Lemma send_set_filename (v : list Z) :
  len v = Lf ->
  forall c : ymodem_context_t World,
    send_safe Lb Ls Lf c -> send_safe Lb Ls Lf (set_filename v c).
Proof.
  intros Hv c (H1 & H2 & H3 & H4). repeat split; assumption.
Qed.

Ltac send_tac :=
  repeat lazymatch goal with
    | |- preserves _ (ret _) => apply safe_ret
    | |- preserves _ (bind get_ctx _) =>
        apply safe_bind_get; intros ? ?
    | |- preserves _ (bind _ _) => apply safe_bind; [| intro]
    | |- preserves _ (ymodem_receive_byte _) => apply safe_receive_byte
    | |- preserves _ (ymodem_send_byte _) => apply safe_send_byte
    | |- preserves _ (ymodem_send_bytes _) => apply safe_callback
    | |- preserves _ (callback _ _) => apply safe_callback
    | |- preserves _ close_file =>
        apply safe_close_file;
        let c := fresh "c" in let Hc := fresh "Hc" in intros c Hc; exact Hc
    | |- preserves _ (modify_ctx (set_stage _)) =>
        apply safe_modify;
        let c := fresh "c" in let Hc := fresh "Hc" in intros c Hc; exact Hc
    | |- preserves _ (modify_ctx (set_packet_seq _)) =>
        apply safe_modify;
        let c := fresh "c" in let Hc := fresh "Hc" in intros c Hc; exact Hc
    | |- preserves _ (modify_ctx (set_error_count _)) =>
        apply safe_modify;
        let c := fresh "c" in let Hc := fresh "Hc" in intros c Hc; exact Hc
    | |- preserves _ (modify_ctx (set_file_handle _)) =>
        apply safe_modify;
        let c := fresh "c" in let Hc := fresh "Hc" in intros c Hc; exact Hc
    | |- preserves _ (modify_ctx (set_file_size _)) =>
        apply safe_modify;
        let c := fresh "c" in let Hc := fresh "Hc" in intros c Hc; exact Hc
    | |- preserves _ (if ?b then _ else _) => destruct b eqn:?
    | |- preserves _ (match ?x with _ => _ end) => destruct x
    | |- preserves _ (let _ := _ in _) => cbv zeta
    end.

Lemma send_send_packet (code seq : Z) (data : list Z) :
  preserves (on_ctx (send_safe (World := World) Lb Ls Lf))
    (_ymodem_send_packet code seq data).
Proof.
  unfold _ymodem_send_packet. send_tac.
  apply safe_modify. apply send_set_send_buffer.
  match goal with H : send_safe _ _ _ ?ctx |- _ =>
    destruct H as (_ & _ & H & _);
    destruct (send_buffer_frame (send_buffer ctx) code seq data)
      as (rest & _ & Hlen) end.
  - match goal with H : (_ <? _) = false |- _ => apply Z.ltb_ge in H end.
    unfold send_buffer_size in *. lia.
  - cbv zeta in Hlen. unfold send_buffer_size in *. congruence.
Qed.

Lemma send_prepare_file_info_packet (fname : list Z) :
  preserves (on_ctx (send_safe (World := World) Lb Ls Lf))
    (_ymodem_prepare_file_info_packet fname).
Proof.
  intros m H. pose proof H as (H1 & H2 & H3 & H4).
  destruct (prepare_file_info_packet_run m fname) as (buf & Hlen & E & _);
    [sizes |].
  rewrite E. cbn [snd]. unfold on_ctx, with_ctx. cbn [m_ctx].
  apply send_set_buffer; [congruence | exact H].
Qed.

Lemma send_send_wait_c (n : nat) (i t : Z) :
  preserves (on_ctx (send_safe (World := World) Lb Ls Lf)) (send_wait_c n i t).
Proof.
  revert i. induction n as [|n IH]; intros i; cbn [send_wait_c]; send_tac.
  apply IH.
Qed.

Lemma send_send_wait_ack_c (n : nat) (ga gc : bool) :
  preserves (on_ctx (send_safe (World := World) Lb Ls Lf)) (send_wait_ack_c n ga gc).
Proof.
  revert ga gc. induction n as [|n IH]; intros ga gc; cbn [send_wait_ack_c];
    send_tac; apply IH.
Qed.

Lemma send_do_send_handshake (t : Z) :
  preserves (on_ctx (send_safe (World := World) Lb Ls Lf))
    (_ymodem_do_send_handshake t).
Proof.
  unfold _ymodem_do_send_handshake, send_handshake_reply. send_tac;
    try apply send_send_wait_c; try apply send_send_wait_ack_c;
    try apply send_prepare_file_info_packet; try apply send_send_packet.
Qed.

(** The loop that reads a block keeps [actual_read] within the
    block. *)
Lemma send_send_read_block (n : nat) (a rs : Z) :
  0 <= a <= rs -> rs <= YMODEM_STX_DATA_SIZE ->
  yields (on_ctx (send_safe (World := World) Lb Ls Lf))
    (send_read_block n a rs) (fun a' => 0 <= a' <= rs).
Proof.
  revert a. induction n as [|n IH]; intros a Ha Hrs m H.
  - split; [exact H | exact Ha].
  - remember (send_read_block (S n) a rs m) as X eqn:EX.
    cbn [send_read_block] in EX.
    unfold bind at 1 in EX. unfold get_ctx at 1 in EX.
    unfold bind at 1 in EX. unfold callback at 1 in EX.
    assert (Eu : usize (rs - a) = rs - a)
      by (unfold usize; apply Z.mod_small; sizes).
    pose proof (proj1 H (file_handle (m_ctx m)) (usize (rs - a)) (m_world m)
                  ltac:(lia)) as Hd.
    destruct (cb_file_read _ _ _ _) as [d w]. cbn [fst] in Hd.
    assert (Hd' : len (map u8 d) <= rs - a)
      by (unfold len in *; rewrite length_map; lia).
    pose proof (len_nonneg (map u8 d)) as Hd0.
    unfold bind at 1 in EX. unfold modify_ctx at 1 in EX.
    cbn [m_ctx m_info m_world m_trace] in EX.
    set (m1 := mk_machine _ _ _ _) in EX.
    assert (H1 : on_ctx (send_safe Lb Ls Lf) m1).
    { unfold on_ctx, m1. cbn [m_ctx]. apply send_set_buffer; [| exact H].
      destruct H as (_ & Hb & _). unfold buffer_size in Hb.
      rewrite memcpy_len; [exact Hb | lia | sizes]. }
    assert (Eu' : usize (a + len (map u8 d)) = a + len (map u8 d))
      by (unfold usize; apply Z.mod_small; sizes).
    rewrite Eu' in EX.
    destruct (a + len (map u8 d) =? rs).
    + subst X. split; [exact H1 | unfold ret; cbn [fst]; lia].
    + subst X. apply IH; [lia | exact Hrs | exact H1].
Qed.

Lemma send_send_trans_prepare :
  preserves (on_ctx (send_safe (World := World) Lb Ls Lf)) send_trans_prepare.
Proof.
  unfold send_trans_prepare. cbv zeta.
  apply (safe_bind_yields _ _ _ (fun a => 0 <= a <= YMODEM_STX_DATA_SIZE)).
  { apply send_send_read_block; sizes. }
  intros a Ha. send_tac.
  apply safe_modify. apply send_set_buffer.
  match goal with H : send_safe _ _ _ _ |- _ => destruct H as (_ & Hb & _) end.
  unfold buffer_size, memset in *.
  rewrite memcpy_len; [exact Hb | lia |].
  rewrite len_repeat by lia. sizes.
Qed.

Lemma send_send_data_packet (n : nat) (retries pt rs : Z) :
  preserves (on_ctx (send_safe (World := World) Lb Ls Lf))
    (send_data_packet n retries pt rs).
Proof.
  revert retries. induction n as [|n IH]; intros retries;
    cbn [send_data_packet]; send_tac;
    try apply send_send_packet; try apply IH.
Qed.

Lemma send_send_trans_round :
  preserves (on_ctx (send_safe (World := World) Lb Ls Lf)) send_trans_round.
Proof.
  unfold send_trans_round.
  apply safe_bind; [apply send_send_trans_prepare | intros [[a pt] rs]].
  send_tac; try apply send_send_data_packet.
Qed.

Lemma send_do_send_trans (fuel : nat) :
  preserves (on_ctx (send_safe (World := World) Lb Ls Lf))
    (_ymodem_do_send_trans fuel).
Proof.
  unfold _ymodem_do_send_trans. send_tac.
  induction fuel as [|fuel IH]; cbn [send_trans_loop]; send_tac;
    try apply send_send_trans_round; try apply IH.
Qed.

Lemma send_send_fin_first_eot (n : nat) (retries : Z) :
  preserves (on_ctx (send_safe (World := World) Lb Ls Lf))
    (send_fin_first_eot n retries).
Proof.
  revert retries. induction n as [|n IH]; intros retries;
    cbn [send_fin_first_eot]; send_tac; apply IH.
Qed.

Lemma send_send_fin_second_eot (n : nat) (retries : Z) :
  preserves (on_ctx (send_safe (World := World) Lb Ls Lf))
    (send_fin_second_eot n retries).
Proof.
  revert retries. induction n as [|n IH]; intros retries;
    cbn [send_fin_second_eot]; send_tac; apply IH.
Qed.

Lemma send_send_fin_wait_c (fuel : nat) (retries : Z) :
  preserves (on_ctx (send_safe (World := World) Lb Ls Lf))
    (send_fin_wait_c fuel retries).
Proof.
  revert retries. induction fuel as [|fuel IH]; intros retries;
    cbn [send_fin_wait_c]; send_tac; apply IH.
Qed.

Lemma send_send_fin_null_packet :
  preserves (on_ctx (send_safe (World := World) Lb Ls Lf)) send_fin_null_packet.
Proof.
  unfold send_fin_null_packet.
  apply safe_bind_get. intros ctx Hc.
  apply safe_bind.
  { apply safe_modify. apply send_set_buffer.
    destruct Hc as (_ & Hb & _). unfold buffer_size, memset in *.
    rewrite memcpy_len; [exact Hb | lia |].
    rewrite len_repeat by sizes. sizes. }
  intros _. send_tac. apply send_send_packet.
Qed.

Lemma send_do_send_fin (fuel : nat) :
  preserves (on_ctx (send_safe (World := World) Lb Ls Lf))
    (_ymodem_do_send_fin fuel).
Proof.
  unfold _ymodem_do_send_fin. send_tac;
    try apply send_send_fin_first_eot; try apply send_send_fin_second_eot;
    try apply send_send_fin_wait_c; try apply send_send_fin_null_packet.
Qed.

(** The name field after [strncpy] and the NUL stored at its end. *)
Lemma strncpy_len (dst src : list Z) :
  YMODEM_MAX_FILENAME_LENGTH <= len dst ->
  len (store (strncpy dst src (YMODEM_MAX_FILENAME_LENGTH - 1))
             (YMODEM_MAX_FILENAME_LENGTH - 1) 0) = len dst.
Proof.
  intros H. unfold store, strncpy.
  set (n := Z.to_nat (YMODEM_MAX_FILENAME_LENGTH - 1)).
  assert (Hs : len (firstn n src ++ repeat 0 (n - length (firstn n src)))
               = YMODEM_MAX_FILENAME_LENGTH - 1).
  { unfold len. rewrite length_app, repeat_length.
    pose proof (firstn_le_length n src). unfold n in *.
    unfold YMODEM_MAX_FILENAME_LENGTH in *. lia. }
  assert (E1 : len (memcpy dst 0
                      (firstn n src ++ repeat 0 (n - length (firstn n src))))
               = len dst)
    by (apply memcpy_len; [lia | rewrite Hs; sizes]).
  rewrite memcpy_len;
    [exact E1 | sizes | rewrite E1; change (len [0]) with 1; sizes].
Qed.

Lemma send_send_file (fuel : nat) (fname : option (list Z)) (t : Z) :
  preserves (on_ctx (send_safe (World := World) Lb Ls Lf))
    (ymodem_send_file fuel fname t).
Proof.
  unfold ymodem_send_file. destruct fname as [fname |]; [| apply safe_ret].
  send_tac; try apply send_do_send_handshake; try apply send_do_send_trans;
    try apply send_do_send_fin.
  apply safe_modify. apply send_set_filename.
  match goal with H : send_safe _ _ _ _ |- _ => destruct H as (_ & _ & _ & Hf) end.
  rewrite strncpy_len; [exact Hf | lia].
Qed.

End SendBuffers.

(** X19: the sender never writes outside its buffers.  With a packet
    buffer of at least YMODEM_MAX_PACKET_SIZE bytes, as
    [ymodem_send_init] demands, a name field of 256 bytes, and a
    [file_read] that stores at most the number of bytes it is asked
    for, the packet buffer, the send buffer and the name field have
    the same sizes after [ymodem_send_file] as before, however the
    transfer goes. *)
Theorem send_file_buffers_safe (fuel : nat) (fname : option (list Z))
    (timeout_s : Z) m :
  file_ok (callbacks (m_ctx m)) ->
  YMODEM_MAX_PACKET_SIZE <= buffer_size (m_ctx m) ->
  YMODEM_MAX_FILENAME_LENGTH <= len (filename (m_ctx m)) ->
  let m' := snd (ymodem_send_file fuel fname timeout_s m) in
  buffer_size (m_ctx m') = buffer_size (m_ctx m) /\
  send_buffer_size (m_ctx m') = send_buffer_size (m_ctx m) /\
  len (filename (m_ctx m')) = len (filename (m_ctx m)).
Proof.
  intros Hf Hb Hn m'.
  destruct (send_send_file (buffer_size (m_ctx m)) (send_buffer_size (m_ctx m))
              (len (filename (m_ctx m))) Hb Hn fuel fname timeout_s m)
    as (_ & H2 & H3 & H4).
  - repeat split. exact Hf.
  - auto.
Qed.

(** ** Sender: the block read from the file is the block sent *)

Lemma read_data_app (a b : list event) :
  read_data (a ++ b) = read_data a ++ read_data b.
Proof.
  induction a as [|e a IH]; [reflexivity |].
  destruct e; cbn [app read_data]; rewrite IH, ?app_assoc; reflexivity.
Qed.

(** The bytes of a block read so far, and those that one more
    [file_read] stores after them. *)
Lemma slice_memcpy_extend (buf d : list Z) (a : Z) :
  0 <= a -> 3 + a + len d <= len buf ->
  slice (memcpy buf (3 + a) d) 3 (a + len d) = slice buf 3 a ++ d.
Proof.
  intros Ha Hb. unfold len in *.
  destruct (split_buffer buf 3 (Z.to_nat a) ltac:(lia))
    as (hdr & x & r & -> & Hh & Hx).
  rewrite !length_app in Hb.
  destruct (split_list r (length d) ltac:(lia)) as (old & rest & -> & Ho).
  rewrite (slice_mid hdr x (old ++ rest)) by (unfold len; lia).
  replace (hdr ++ x ++ old ++ rest) with ((hdr ++ x) ++ old ++ rest)
    by (now rewrite <- app_assoc).
  rewrite memcpy_at; [| unfold len; rewrite length_app; lia | exact Ho].
  rewrite <- app_assoc, (app_assoc x d rest).
  apply slice_mid; unfold len; rewrite ?length_app; lia.
Qed.

Lemma reads_only_app (a b : list event) :
  reads_only a -> reads_only b -> reads_only (a ++ b).
Proof. intros Ha Hb. apply Forall_app. now split. Qed.

(** The loop that reads a block: the bytes that [file_read] delivered
    are in the buffer, one call after the other, from offset 3 on. *)
Lemma send_read_block_data (n : nat) (a rs : Z) m :
  file_ok (callbacks (m_ctx m)) ->
  0 <= a <= rs -> rs <= YMODEM_STX_DATA_SIZE ->
  3 + rs <= buffer_size (m_ctx m) ->
  exists (buf : list Z) (w : World) (evs : list event),
    send_read_block n a rs m
      = (a + len (read_data evs),
         emit (with_ctx m (set_buffer buf (m_ctx m))) w evs) /\
    reads_only evs /\
    a + len (read_data evs) <= rs /\
    len buf = buffer_size (m_ctx m) /\
    slice buf 3 (a + len (read_data evs))
      = slice (buffer (m_ctx m)) 3 a ++ read_data evs.
Proof.
  revert a m. induction n as [|n IH]; intros a m Hf Ha Hrs Hb.
  - exists (buffer (m_ctx m)), (m_world m), [].
    split.
    { cbn [send_read_block read_data]. change (len []) with 0.
      rewrite Z.add_0_r, set_buffer_id, with_ctx_id, emit_nil. reflexivity. }
    split; [constructor |].
    split; [cbn [read_data]; change (len []) with 0; lia |].
    split; [reflexivity |].
    cbn [read_data]. change (len []) with 0.
    now rewrite Z.add_0_r, app_nil_r.
  - remember (send_read_block (S n) a rs m) as X eqn:EX.
    cbn [send_read_block] in EX.
    unfold bind at 1 in EX. unfold get_ctx at 1 in EX.
    unfold bind at 1 in EX. unfold callback at 1 in EX.
    assert (Eu : usize (rs - a) = rs - a)
      by (unfold usize; apply Z.mod_small; sizes).
    pose proof (Hf (file_handle (m_ctx m)) (usize (rs - a)) (m_world m)
                  ltac:(lia)) as Hd.
    destruct (cb_file_read _ _ _ _) as [d0 w]. cbn [fst] in Hd.
    set (d := map u8 d0) in *.
    assert (Hd' : len d <= rs - a)
      by (unfold d, len in *; rewrite length_map; lia).
    pose proof (len_nonneg d) as Hd0.
    unfold bind at 1 in EX. unfold modify_ctx at 1 in EX.
    cbn [m_ctx m_info m_world m_trace] in EX.
    set (buf1 := memcpy (buffer (m_ctx m)) (3 + a) d) in *.
    set (m1 := mk_machine _ _ _ _) in EX.
    assert (Em1 : m1 = emit (with_ctx m (set_buffer buf1 (m_ctx m))) w
                         [EvRead (file_handle (m_ctx m)) (usize (rs - a)) d])
      by reflexivity.
    assert (L1 : len buf1 = buffer_size (m_ctx m)).
    { unfold buf1, buffer_size in *. apply memcpy_len; lia. }
    assert (S1 : slice buf1 3 (a + len d) = slice (buffer (m_ctx m)) 3 a ++ d).
    { unfold buf1, buffer_size in *. apply slice_memcpy_extend; lia. }
    assert (Eu' : usize (a + len d) = a + len d)
      by (unfold usize; apply Z.mod_small; sizes).
    rewrite Eu' in EX.
    destruct (a + len d =? rs).
    + exists buf1, w, [EvRead (file_handle (m_ctx m)) (usize (rs - a)) d].
      cbn [read_data]. rewrite app_nil_r.
      subst X. split; [reflexivity |]. split; [repeat constructor |].
      split; [lia |]. split; [exact L1 | exact S1].
    + destruct (IH (a + len d) m1 Hf ltac:(lia) Hrs)
        as (buf & w' & evs & R & Ro & Hle & Lbuf & Sl).
      { rewrite Em1. unfold buffer_size in *. cbn [m_ctx emit with_ctx buffer
          set_buffer]. lia. }
      exists buf, w', (EvRead (file_handle (m_ctx m)) (usize (rs - a)) d :: evs).
      cbn [read_data].
      rewrite len_app, Z.add_assoc.
      subst X. split.
      { rewrite R, Em1. unfold emit, with_ctx.
        cbn [m_ctx m_info m_world m_trace]. rewrite <- app_assoc. reflexivity. }
      split; [constructor; [exact I | exact Ro] |].
      split; [exact Hle |].
      split.
      { rewrite Lbuf, Em1. unfold buffer_size at 1.
        cbn [m_ctx emit with_ctx buffer set_buffer]. exact L1. }
      rewrite Sl, Em1. cbn [m_ctx emit with_ctx buffer set_buffer].
      rewrite S1, <- app_assoc. reflexivity.
Qed.

(** The payload of a block of [a] bytes once the rest of the buffer
    is padded. *)
Lemma padded_block (buf data : list Z) (a : Z) :
  a = len data -> 0 < a -> a <= 1024 -> 3 + 1024 <= len buf ->
  slice buf 3 a = data ->
  let buf' := if a <? 1024 then memset buf (3 + a) 0x1A (1024 - a) else buf in
  len buf' = len buf /\
  slice buf' 3 (block_size a)
    = data ++ repeat 0x1A (Z.to_nat (block_size a - a)).
Proof.
  intros Ea Ha Hle Hb Hs. unfold len in Hb.
  destruct (split_buffer buf 3 (Z.to_nat a) ltac:(lia))
    as (hdr & x & r & -> & Hh & Hx).
  rewrite (slice_mid hdr x r) in Hs by (unfold len; lia). subst x.
  rewrite !length_app in Hb.
  destruct (split_list r (Z.to_nat (1024 - a)) ltac:(unfold len in *; lia))
    as (old & rest & -> & Ho).
  cbv zeta. destruct (a <? 1024) eqn:E.
  - apply Z.ltb_lt in E. unfold memset.
    replace (hdr ++ data ++ old ++ rest) with ((hdr ++ data) ++ old ++ rest)
      by (now rewrite <- app_assoc).
    rewrite memcpy_at;
      [| unfold len in *; rewrite length_app; lia
       | rewrite repeat_length; exact Ho].
    split.
    { unfold len. rewrite !length_app, repeat_length. lia. }
    rewrite <- app_assoc. unfold block_size.
    destruct (a <=? 128) eqn:E128.
    + apply Z.leb_le in E128. unfold YMODEM_SOH_DATA_SIZE.
      replace (Z.to_nat (1024 - a))
        with (Z.to_nat (128 - a) + Z.to_nat 896)%nat by lia.
      rewrite repeat_app, <- app_assoc, (app_assoc data).
      apply slice_mid; unfold len in *;
        rewrite ?length_app, ?repeat_length; lia.
    + apply Z.leb_gt in E128. unfold YMODEM_STX_DATA_SIZE.
      rewrite (app_assoc data).
      apply slice_mid; unfold len in *;
        rewrite ?length_app, ?repeat_length; lia.
  - apply Z.ltb_ge in E. assert (H : a = 1024) by lia.
    split; [reflexivity |].
    unfold block_size.
    replace (a <=? 128) with false by (symmetry; apply Z.leb_gt; lia).
    unfold YMODEM_STX_DATA_SIZE.
    replace (Z.to_nat (1024 - a)) with 0%nat in * by lia.
    cbn [repeat]. rewrite app_nil_r.
    assert (old = []) by (destruct old; [reflexivity | cbn [length] in Ho; lia]).
    subst old. cbn [app].
    apply slice_mid; unfold len in *; lia.
Qed.

Lemma slice_zero (buf : list Z) (off : Z) : slice buf off 0 = [].
Proof. reflexivity. Qed.

(** The start of a round of the data loop: the block is read, padded
    with SUB up to the size of its packet, and the header chosen. *)
Lemma send_trans_prepare_data m :
  file_ok (callbacks (m_ctx m)) ->
  YMODEM_MAX_PACKET_SIZE <= buffer_size (m_ctx m) ->
  exists (buf : list Z) (w : World) (evs : list event),
    let data := read_data evs in
    let a := len data in
    reads_only evs /\ a <= 1024 /\
    (a = 0 ->
     send_trans_prepare m
       = ((0, YMODEM_CODE_STX, YMODEM_STX_DATA_SIZE),
          emit (with_ctx m (set_buffer buf (m_ctx m))) w evs)) /\
    (a <> 0 ->
     len buf = buffer_size (m_ctx m) /\
     slice buf 3 (block_size a)
       = data ++ repeat 0x1A (Z.to_nat (block_size a - a)) /\
     send_trans_prepare m
       = ((a, block_header a, block_size a),
          emit (with_ctx m (if a <? 1024
                            then set_stage YMODEM_STAGE_FINISHING
                                   (set_buffer buf (m_ctx m))
                            else set_buffer buf (m_ctx m))) w evs)).
Proof.
  intros Hf Hb.
  destruct (send_read_block_data 10 0 YMODEM_STX_DATA_SIZE m Hf)
    as (buf0 & w & evs & R & Ro & Hle & L0 & S0); try sizes.
  rewrite slice_zero in S0. cbn [app] in S0. rewrite Z.add_0_l in *.
  set (data := read_data evs) in *. set (a := len data) in *.
  pose proof (len_nonneg data) as Ha0. fold a in Ha0.
  unfold YMODEM_STX_DATA_SIZE in Hle.
  assert (U : send_trans_prepare m
    = (if a =? 0 then ret (a, YMODEM_CODE_STX, YMODEM_STX_DATA_SIZE)
       else
         (if a <? YMODEM_STX_DATA_SIZE
          then
            ctx <- get_ctx ;;
            modify_ctx (set_buffer (memset (buffer ctx) (3 + a) 0x1A
                                           (YMODEM_STX_DATA_SIZE - a))) ;;
            modify_ctx (set_stage YMODEM_STAGE_FINISHING)
          else ret tt) ;;
         if a <=? 128
         then ret (a, YMODEM_CODE_SOH, YMODEM_SOH_DATA_SIZE)
         else ret (a, YMODEM_CODE_STX, YMODEM_STX_DATA_SIZE))
      (emit (with_ctx m (set_buffer buf0 (m_ctx m))) w evs)).
  { unfold send_trans_prepare. cbv zeta. unfold bind at 1. rewrite R.
    reflexivity. }
  destruct (Z.eq_dec a 0) as [E0 | E0].
  - exists buf0, w, evs. fold data. fold a. cbv zeta.
    split; [exact Ro |]. split; [exact Hle |]. split; [| intros H; now destruct H].
    intros _. rewrite U, E0. reflexivity.
  - destruct (padded_block buf0 data a eq_refl ltac:(lia) Hle) as (L1 & S1).
    { rewrite L0. sizes. }
    { exact S0. }
    cbv zeta in L1, S1.
    exists (if a <? 1024 then memset buf0 (3 + a) 0x1A (1024 - a) else buf0),
           w, evs.
    fold data. fold a. cbv zeta.
    split; [exact Ro |]. split; [exact Hle |]. split; [intros H; now destruct E0 |].
    intros _. split; [congruence |]. split; [exact S1 |].
    rewrite U. apply Z.eqb_neq in E0. rewrite E0.
    unfold YMODEM_STX_DATA_SIZE, block_header, block_size.
    unfold bind at 1. clear U L1 S1. subst a.
    destruct (len data <? 1024).
    + unfold bind at 1. unfold get_ctx at 1.
      unfold bind at 1. unfold modify_ctx at 1. unfold modify_ctx at 1.
      destruct (len data <=? 128); reflexivity.
    + destruct (len data <=? 128); reflexivity.
Qed.

Lemma sends_only_app (frame : list Z) (a b : list event) :
  sends_only frame a -> sends_only frame b -> sends_only frame (a ++ b).
Proof. intros Ha Hb. apply Forall_app. now split. Qed.

(** The loop that sends a data packet hands the same frame to the
    transport at every attempt. *)
Lemma send_data_packet_frame (n : nat) (retries pt rs : Z) m :
  pt = YMODEM_CODE_SOH /\ rs = YMODEM_SOH_DATA_SIZE \/
  pt = YMODEM_CODE_STX /\ rs = YMODEM_STX_DATA_SIZE ->
  YMODEM_MAX_PACKET_SIZE <= buffer_size (m_ctx m) ->
  YMODEM_MAX_PACKET_SIZE <= send_buffer_size (m_ctx m) ->
  exists evs,
    m_trace (snd (send_data_packet n retries pt rs m)) = m_trace m ++ evs /\
    sends_only (packet_of pt (packet_seq (m_ctx m))
                          (slice (buffer (m_ctx m)) 3 rs)) evs.
Proof.
  intros Hp. revert retries m.
  induction n as [|n IH]; intros retries m Hb Hs; cbn [send_data_packet].
  - exists []. rewrite app_nil_r. split; [reflexivity | constructor].
  - destruct (retries <? YMODEM_MAX_ERRORS).
    2:{ exists []. rewrite app_nil_r. split; [reflexivity | constructor]. }
    unfold bind at 1. unfold get_ctx at 1. unfold bind at 1.
    set (data := slice (buffer (m_ctx m)) 3 rs).
    assert (Ld : len data = rs).
    { unfold data, buffer_size in *. apply slice_len;
        destruct Hp as [[_ ->] | [_ ->]]; sizes. }
    destruct (send_packet_run m pt (packet_seq (m_ctx m)) data)
      as (rest & Lr & R).
    { rewrite Ld. destruct Hp as [[-> ->] | [-> ->]]; reflexivity. }
    { rewrite Ld. destruct Hp as [[-> ->] | [-> ->]]; reflexivity. }
    { rewrite Ld. destruct Hp as [[_ ->] | [_ ->]]; sizes. }
    rewrite R. cbv zeta.
    set (frame := packet_of pt (packet_seq (m_ctx m)) data) in *.
    destruct (cb_comm_send _ _ _) as [sent w].
    set (m1 := mk_machine _ _ _ _).
    assert (T1 : m_trace m1 = m_trace m ++ [EvSend frame (usize sent)])
      by reflexivity.
    assert (IH1 : forall x,
      exists evs,
        m_trace (snd (send_data_packet n x pt rs m1)) = m_trace m1 ++ evs /\
        sends_only frame evs).
    { intros x. apply (IH x m1).
      - exact Hb.
      - unfold m1, send_buffer_size. cbn [m_ctx send_buffer set_send_buffer].
        rewrite Lr. exact Hs. }
    assert (Hrec : forall x,
      exists evs,
        m_trace (snd (send_data_packet n x pt rs m1)) = m_trace m ++ evs /\
        sends_only frame evs).
    { intros x. destruct (IH1 x) as (evs & T & F).
      exists (EvSend frame (usize sent) :: evs). rewrite T, T1, <- app_assoc.
      split; [reflexivity | now constructor]. }
    destruct (negb _); [apply Hrec |].
    unfold bind at 1.
    destruct (receive_byte_run m1 YMODEM_WAIT_PACKET_TIMEOUT_MS)
      as (d & w' & E).
    rewrite E.
    set (m2 := emit m1 w' _).
    assert (T2 : m_trace m2
                 = m_trace m ++ [EvSend frame (usize sent);
                                 EvRecv 1 YMODEM_WAIT_PACKET_TIMEOUT_MS d]).
    { unfold m2, emit. cbn [m_trace]. rewrite T1, <- app_assoc. reflexivity. }
    assert (Hret : exists evs,
      m_trace m2 = m_trace m ++ evs /\ sends_only frame evs).
    { eexists. split; [exact T2 |]. repeat constructor. }
    assert (Hrec' : forall x,
      exists evs,
        m_trace (snd (send_data_packet n x pt rs m2)) = m_trace m ++ evs /\
        sends_only frame evs).
    { intros x. destruct (IH x m2) as (evs & T & F).
      - exact Hb.
      - unfold m2, m1, emit, send_buffer_size.
        cbn [m_ctx send_buffer set_send_buffer]. rewrite Lr. exact Hs.
      - eexists. rewrite T, T2, <- app_assoc. split; [reflexivity |].
        apply sends_only_app; [repeat constructor | exact F]. }
    destruct (reply_of d =? YMODEM_CODE_ACK); [exact Hret |].
    destruct (reply_of d =? YMODEM_CODE_NAK); [apply Hrec' |].
    destruct (reply_of d =? YMODEM_CODE_C); [exact Hret |].
    destruct (reply_of d =? YMODEM_CODE_CAN); [exact Hret | apply Hrec'].
Qed.

(** X20: in a round of the sender's data loop, what goes to the
    transport is what came from the file.  With a [file_read] that
    keeps its contract, the round first reads a block, of at most 1024
    bytes; when the block is empty nothing is sent and the loop ends
    with YMODEM_ERR_NONE; otherwise every frame given to the transport
    in the round is the packet with the current sequence number whose
    payload is the block, padded with 0x1A to 128 bytes for a block of
    at most 128 bytes (header SOH) and to 1024 bytes for a longer one
    (header STX). *)
Theorem send_trans_round_carries_block m :
  file_ok (callbacks (m_ctx m)) ->
  YMODEM_MAX_PACKET_SIZE <= buffer_size (m_ctx m) ->
  YMODEM_MAX_PACKET_SIZE <= send_buffer_size (m_ctx m) ->
  exists (rd sd : list event),
    m_trace (snd (send_trans_round m)) = m_trace m ++ rd ++ sd /\
    reads_only rd /\
    let data := read_data rd in
    let a := len data in
    a <= 1024 /\
    (a = 0 -> sd = [] /\ fst (send_trans_round m) = Some YMODEM_ERR_NONE) /\
    (a <> 0 ->
     sends_only (packet_of (block_header a) (packet_seq (m_ctx m))
                           (data ++ repeat 0x1A (Z.to_nat (block_size a - a))))
                sd).
Proof.
  intros Hf Hb Hs.
  destruct (send_trans_prepare_data m Hf Hb)
    as (buf & w & rd & Ro & Hle & P0 & P1).
  cbv zeta in Hle, P0, P1.
  set (data := read_data rd) in *. set (a := len data) in *.
  destruct (Z.eq_dec a 0) as [E0 | E0].
  - exists rd, []. fold data. fold a. cbv zeta.
    specialize (P0 E0).
    assert (R : send_trans_round m
                = (Some YMODEM_ERR_NONE,
                   emit (with_ctx m (set_buffer buf (m_ctx m))) w rd)).
    { unfold send_trans_round. unfold bind at 1. rewrite P0. reflexivity. }
    rewrite R. cbn [snd fst emit m_trace]. rewrite app_nil_r.
    split; [reflexivity |]. split; [exact Ro |]. split; [exact Hle |].
    split; [auto | intros H; now destruct H].
  - destruct (P1 E0) as (Lb & Sl & P). clear P0 P1.
    set (m1 := emit _ w rd) in P.
    assert (B1 : buffer (m_ctx m1)
                 = buf) by (unfold m1; destruct (a <? 1024); reflexivity).
    assert (Q1 : packet_seq (m_ctx m1) = packet_seq (m_ctx m))
      by (unfold m1; destruct (a <? 1024); reflexivity).
    assert (S1 : send_buffer_size (m_ctx m1) = send_buffer_size (m_ctx m))
      by (unfold m1; destruct (a <? 1024); reflexivity).
    assert (T1 : m_trace m1 = m_trace m ++ rd) by reflexivity.
    assert (Hp : block_header a = YMODEM_CODE_SOH
                   /\ block_size a = YMODEM_SOH_DATA_SIZE \/
                 block_header a = YMODEM_CODE_STX
                   /\ block_size a = YMODEM_STX_DATA_SIZE)
      by (unfold block_header, block_size; destruct (a <=? 128); auto).
    destruct (send_data_packet_frame (Z.to_nat YMODEM_MAX_ERRORS) 0
                (block_header a) (block_size a) m1 Hp)
      as (sd & T & F).
    { unfold buffer_size. rewrite B1, Lb. exact Hb. }
    { rewrite S1. exact Hs. }
    rewrite B1, Q1, Sl in F.
    exists rd, sd. fold data. fold a. cbv zeta.
    split.
    { unfold send_trans_round. unfold bind at 1. rewrite P.
      apply Z.eqb_neq in E0. rewrite E0.
      unfold bind at 1.
      destruct (send_data_packet _ 0 _ _ m1) as [r m2]. cbn [snd] in T.
      rewrite app_assoc, <- T1, <- T.
      destruct r as [retries | e]; [| reflexivity].
      destruct (retries >=? YMODEM_MAX_ERRORS); [reflexivity |].
      unfold bind at 1. unfold get_ctx at 1.
      unfold bind at 1. unfold modify_ctx at 1.
      destruct (stage_eqb _ _); reflexivity. }
    split; [exact Ro |]. split; [exact Hle |].
    split; [intros H; now destruct E0 | intros _; exact F].
Qed.

(** ** Receiver: the end of the data, and a silent line *)

(** X13: in the receiver's data loop a timeout while waiting for the
    header of a packet ends the transfer at once with YMODEM_ERR_TMO,
    whatever the error count: it is not counted as an error and no NAK
    is sent.  An EOT in place of a header ends the loop with
    YMODEM_ERR_NONE, and the loop sends nothing in reply. *)
Theorem recv_trans_round_timeout_eot m (es tr : Z) :
  exists (d : list Z) (w : World),
    let m1 := emit m w [EvRecv 1 YMODEM_WAIT_PACKET_TIMEOUT_MS d] in
    ymodem_receive_byte YMODEM_WAIT_PACKET_TIMEOUT_MS m = (reply_of d, m1) /\
    (reply_of d < 0 ->
     recv_trans_round es tr m = (Return YMODEM_ERR_TMO, m1) /\
     forall fuel, recv_trans_loop (S fuel) es tr m
                  = (Some YMODEM_ERR_TMO, m1)) /\
    (reply_of d = YMODEM_CODE_EOT ->
     let m2 := with_ctx m1 (set_buffer (store (buffer (m_ctx m)) 0
                                              YMODEM_CODE_EOT) (m_ctx m)) in
     recv_trans_round es tr m = (Return YMODEM_ERR_NONE, m2) /\
     forall fuel, recv_trans_loop (S fuel) es tr m
                  = (Some YMODEM_ERR_NONE, m2)).
Proof.
  destruct (receive_byte_run m YMODEM_WAIT_PACKET_TIMEOUT_MS) as (d & w & E).
  exists d, w. cbv zeta. split; [exact E |]. split.
  - intros H. apply Z.ltb_lt in H.
    assert (R : recv_trans_round es tr m
                = (Return YMODEM_ERR_TMO,
                   emit m w [EvRecv 1 YMODEM_WAIT_PACKET_TIMEOUT_MS d])).
    { unfold recv_trans_round. unfold bind at 1. rewrite E, H. reflexivity. }
    split; [exact R |].
    intros fuel. cbn [recv_trans_loop]. unfold bind at 1. rewrite R.
    reflexivity.
  - intros H.
    assert (R : recv_trans_round es tr m
                = (Return YMODEM_ERR_NONE,
                   with_ctx (emit m w [EvRecv 1 YMODEM_WAIT_PACKET_TIMEOUT_MS d])
                     (set_buffer (store (buffer (m_ctx m)) 0 YMODEM_CODE_EOT)
                                 (m_ctx m)))).
    { unfold recv_trans_round. unfold bind at 1. rewrite E, H.
      change (YMODEM_CODE_EOT <? 0) with false. cbv iota zeta.
      unfold bind at 1. unfold get_ctx at 1.
      unfold bind at 1. unfold modify_ctx at 1.
      change (YMODEM_CODE_EOT =? YMODEM_CODE_EOT) with true. cbv iota.
      reflexivity. }
    split; [exact R |].
    intros fuel. cbn [recv_trans_loop]. unfold bind at 1. rewrite R.
    reflexivity.
Qed.

End Transfer.

(** ** The further properties on sample inputs *)

Lemma bytes_check (l : list Z) :
  forallb (fun b => (0 <=? b) && (b <? 256)) l = true ->
  Forall (fun b => 0 <= b < 256) l.
Proof.
  intros H. apply Forall_forall. intros b Hb.
  rewrite forallb_forall in H. specialize (H b Hb).
  apply andb_true_iff in H. destruct H as [H1 H2].
  apply Z.leb_le in H1. apply Z.ltb_lt in H2. lia.
Qed.

Lemma strict_transport_ok : transport_ok strict_callbacks.
Proof.
  intros n t w Hn. cbn [strict_callbacks cb_comm_receive].
  destruct (cb_comm_receive sim_callbacks n t w) as [d w']. cbn [fst].
  unfold len. rewrite length_firstn. lia.
Qed.

Lemma strict_file_ok : file_ok strict_callbacks.
Proof.
  intros h n w Hn. cbn [strict_callbacks cb_file_read].
  destruct (cb_file_read sim_callbacks h n w) as [d w']. cbn [fst].
  unfold len. rewrite length_firstn. lia.
Qed.

Lemma crc16_detects_one_byte_witness :
  Forall (fun x => 0 <= x < 256) [4; 5] /\
  ymodem_calc_crc16 ([1; 2] ++ 3 :: [4; 5])
    <> ymodem_calc_crc16 ([1; 2] ++ 7 :: [4; 5]).
Proof.
  assert (H : Forall (fun x => 0 <= x < 256) [4; 5])
    by (repeat constructor; lia).
  split; [exact H |].
  apply (crc16_detects_one_byte [1; 2] [4; 5] 3 7 H); lia.
Defined.

Lemma prepare_file_info_packet_spec_witness :
  YMODEM_MAX_PACKET_SIZE <= buffer_size (m_ctx sender_machine) /\
  exists buf,
    fst (_ymodem_prepare_file_info_packet [97; 46; 98] sender_machine)
      = YMODEM_ERR_NONE /\
    snd (_ymodem_prepare_file_info_packet [97; 46; 98] sender_machine)
      = with_ctx sender_machine (set_buffer buf (m_ctx sender_machine)) /\
    slice buf 3 128 = [97; 46; 98; 0; 51] ++ repeat 0 123.
Proof.
  assert (H : YMODEM_MAX_PACKET_SIZE <= buffer_size (m_ctx sender_machine))
    by (apply Z.leb_le; reflexivity).
  split; [exact H |].
  destruct (prepare_file_info_packet_spec sender_machine [97; 46; 98] H)
    as (buf & _ & E & P & _).
  exists buf. rewrite E. split; [reflexivity |]. split; [reflexivity |].
  apply P. reflexivity.
Defined.

Lemma file_info_round_trip_witness :
  _ymodem_prepare_file_info_packet [97; 46; 98] sender_machine
    = (YMODEM_ERR_NONE, sender_prepared) /\
  exists mr',
    _ymodem_parse_file_info receiver_prepared = (YMODEM_ERR_NONE, mr') /\
    cstring (filename (m_ctx mr')) = [97; 46; 98] /\
    cstring (fi_filename (m_info mr')) = [97; 46; 98] /\
    file_size (m_ctx mr') = 3 /\
    fi_filesize (m_info mr') = 3.
Proof.
  assert (E : _ymodem_prepare_file_info_packet [97; 46; 98] sender_machine
              = (YMODEM_ERR_NONE, sender_prepared))
    by (vm_compute; reflexivity).
  split; [exact E |].
  apply (file_info_round_trip sender_machine sender_prepared receiver_prepared
           [97; 46; 98]).
  - apply Z.leb_le. reflexivity.
  - split; [apply Z.leb_le | apply Z.ltb_lt]; reflexivity.
  - apply Z.leb_le. reflexivity.
  - exact E.
  - apply Z.leb_le. vm_compute. reflexivity.
  - vm_compute. reflexivity.
  - vm_compute. reflexivity.
  - reflexivity.
Defined.

Lemma packet_round_trip_witness :
  let ms := sim_machine sim_ctx (sim_peer []) in
  let mr := receiver_of sample_frame in
  _ymodem_send_packet YMODEM_CODE_SOH 1 sample_payload ms
    = (YMODEM_ERR_NONE, snd (_ymodem_send_packet YMODEM_CODE_SOH 1
                               sample_payload ms)) /\
  m_trace (snd (_ymodem_send_packet YMODEM_CODE_SOH 1 sample_payload ms))
    = m_trace ms ++ [EvSend sample_frame 133] /\
  exists mr',
    _ymodem_receive_packet mr = ((YMODEM_ERR_NONE, 1, 128), mr') /\
    slice (buffer (m_ctx mr')) 3 128 = sample_payload.
Proof.
  intros ms mr.
  assert (E : _ymodem_send_packet YMODEM_CODE_SOH 1 sample_payload ms
              = (YMODEM_ERR_NONE,
                 snd (_ymodem_send_packet YMODEM_CODE_SOH 1 sample_payload ms)))
    by (vm_compute; reflexivity).
  assert (T : m_trace (snd (_ymodem_send_packet YMODEM_CODE_SOH 1
                              sample_payload ms))
              = m_trace ms ++ [EvSend sample_frame 133])
    by (vm_compute; reflexivity).
  split; [exact E |]. split; [exact T |].
  destruct (packet_round_trip ms
              (snd (_ymodem_send_packet YMODEM_CODE_SOH 1 sample_payload ms))
              mr YMODEM_CODE_SOH 1 sample_payload
              sample_frame 133 (sim_peer []))
    as (mr' & R & Sl & _).
  - left. split; reflexivity.
  - lia.
  - apply bytes_check. vm_compute. reflexivity.
  - apply Z.leb_le. vm_compute. reflexivity.
  - exact E.
  - exact T.
  - apply Z.leb_le. vm_compute. reflexivity.
  - vm_compute. reflexivity.
  - vm_compute. reflexivity.
  - exists mr'. split; [exact R | exact Sl].
Defined.

Lemma receive_packet_sound_witness :
  let m := receiver_of sample_frame in
  let m' := snd (_ymodem_receive_packet m) in
  1 <= buffer_size (m_ctx m) /\
  _ymodem_receive_packet m = ((YMODEM_ERR_NONE, 1, 128), m') /\
  load (buffer (m_ctx m')) 0 = YMODEM_CODE_SOH /\
  load (buffer (m_ctx m')) 1 = 1 /\
  load (buffer (m_ctx m')) 2 = Z.lxor 1 0xFF /\
  ymodem_calc_crc16 (slice (buffer (m_ctx m')) 3 128)
    = 256 * load (buffer (m_ctx m')) (3 + 128)
      + load (buffer (m_ctx m')) (3 + 128 + 1).
Proof.
  intros m m'.
  assert (Hb : 1 <= buffer_size (m_ctx m))
    by (apply Z.leb_le; vm_compute; reflexivity).
  assert (E : _ymodem_receive_packet m = ((YMODEM_ERR_NONE, 1, 128), m'))
    by (vm_compute; reflexivity).
  split; [exact Hb |]. split; [exact E |].
  destruct (receive_packet_sound m 1 128 m' Hb E)
    as (H0 & _ & _ & H1 & H2 & _ & _ & H3 & _).
  destruct H0 as [[H0 _] | [_ H0]]; [| discriminate H0].
  split; [exact H0 |]. split; [exact H1 |]. split; [exact H2 | exact H3].
Defined.

Lemma receive_packet_detects_corruption_witness :
  let ms := sim_machine sim_ctx (sim_peer []) in
  let mr := receiver_of bad_frame in
  m_trace (snd (_ymodem_send_packet YMODEM_CODE_SOH 1 sample_payload ms))
    = m_trace ms ++ [EvSend sample_frame 133] /\
  bad_frame <> sample_frame /\
  exists mr',
    _ymodem_receive_packet mr = ((YMODEM_ERR_CRC, 1, 128), mr').
Proof.
  intros ms mr.
  assert (E : _ymodem_send_packet YMODEM_CODE_SOH 1 ([] ++ 1 :: tl sample_payload) ms
              = (YMODEM_ERR_NONE,
                 snd (_ymodem_send_packet YMODEM_CODE_SOH 1 sample_payload ms)))
    by (vm_compute; reflexivity).
  assert (T : m_trace (snd (_ymodem_send_packet YMODEM_CODE_SOH 1
                              sample_payload ms))
              = m_trace ms ++ [EvSend sample_frame 133])
    by (vm_compute; reflexivity).
  split; [exact T |]. split; [vm_compute; discriminate |].
  apply (receive_packet_detects_corruption ms
           (snd (_ymodem_send_packet YMODEM_CODE_SOH 1 sample_payload ms))
           mr YMODEM_CODE_SOH 1
           [] (tl sample_payload) sample_frame 1 9 133 (sim_peer [])).
  - left. split; reflexivity.
  - lia.
  - apply bytes_check. vm_compute. reflexivity.
  - lia.
  - discriminate.
  - apply Z.leb_le. vm_compute. reflexivity.
  - exact E.
  - exact T.
  - apply Z.leb_le. vm_compute. reflexivity.
  - vm_compute. reflexivity.
  - vm_compute. reflexivity.
Defined.

Lemma recv_trans_round_out_of_sequence_witness :
  let m := data_machine in
  let m1 := snd (ymodem_receive_byte YMODEM_WAIT_PACKET_TIMEOUT_MS m) in
  let m1' := with_ctx m1 (set_buffer (store (buffer (m_ctx m1)) 0
                                            (u8 YMODEM_CODE_SOH)) (m_ctx m1)) in
  let m2 := snd (_ymodem_receive_packet m1') in
  _ymodem_receive_packet m1' = ((YMODEM_ERR_NONE, 1, 128), m2) /\
  written_bytes (m_trace m2) = 0 /\
  exists (sent : Z) (m' : machine sim),
    recv_trans_round 2 0 m
      = (if sent =? 1 then Continue 2 0 else Return YMODEM_ERR_CODE, m') /\
    error_count (m_ctx m') = 1.
Proof.
  intros m m1 m1' m2.
  assert (H0 : 0 <= error_count (m_ctx m) <= YMODEM_MAX_ERRORS)
    by (vm_compute; split; discriminate).
  assert (E1 : ymodem_receive_byte YMODEM_WAIT_PACKET_TIMEOUT_MS m
               = (YMODEM_CODE_SOH, m1)) by (vm_compute; reflexivity).
  assert (E2 : _ymodem_receive_packet m1' = ((YMODEM_ERR_NONE, 1, 128), m2))
    by (vm_compute; reflexivity).
  assert (Hs : 1 <> 2) by discriminate.
  destruct (recv_trans_round_out_of_sequence m 2 0 YMODEM_CODE_SOH 1 128 m1 m2
              H0 E1 (or_introl eq_refl) E2 Hs) as (W & _ & R).
  split; [exact E2 |]. split; [exact W |].
  destruct (R ltac:(discriminate)) as (sent & w & E).
  exists sent. eexists. split; [exact E | reflexivity].
Defined.

Lemma recv_trans_round_unknown_size_witness :
  let m := unsized_machine in
  let m1 := snd (ymodem_receive_byte YMODEM_WAIT_PACKET_TIMEOUT_MS m) in
  let m1' := with_ctx m1 (set_buffer (store (buffer (m_ctx m1)) 0
                                            (u8 YMODEM_CODE_SOH)) (m_ctx m1)) in
  let m2 := snd (_ymodem_receive_packet m1') in
  file_size (m_ctx m) = 0 /\
  file_handle (m_ctx m) <> NULL /\
  _ymodem_receive_packet m1' = ((YMODEM_ERR_NONE, 1, 128), m2) /\
  exists (s : loop_step) (m' : machine sim) (written : Z),
    recv_trans_round 1 0 m = (s, m') /\
    In (EvWrite 1 ([65; 66; 67] ++ repeat 0x1A 125) written) (m_trace m').
Proof.
  intros m m1 m1' m2.
  assert (Hfs : file_size (m_ctx m) = 0) by reflexivity.
  assert (Hfh : file_handle (m_ctx m) <> NULL) by discriminate.
  assert (E1 : ymodem_receive_byte YMODEM_WAIT_PACKET_TIMEOUT_MS m
               = (YMODEM_CODE_SOH, m1)) by (vm_compute; reflexivity).
  assert (E2 : _ymodem_receive_packet m1' = ((YMODEM_ERR_NONE, 1, 128), m2))
    by (vm_compute; reflexivity).
  split; [exact Hfs |]. split; [exact Hfh |]. split; [exact E2 |].
  destruct (recv_trans_round_unknown_size m 1 0 YMODEM_CODE_SOH 128 m1 m2
              Hfs Hfh E1 (or_introl eq_refl) E2)
    as (_ & s & m' & written & evs & E & T & _).
  exists s, m', written. split; [exact E |].
  rewrite T. apply in_or_app. right. left.
  assert (Ed : slice (buffer (m_ctx m2)) 3 128 = [65; 66; 67] ++ repeat 0x1A 125)
    by (vm_compute; reflexivity).
  rewrite Ed. reflexivity.
Defined.

Lemma send_handshake_timeout_witness :
  0 <= 3 /\
  exists (replies : list (list Z)) (w : sim),
    Z.of_nat (length replies) = 3 /\ Forall not_c replies /\
    _ymodem_do_send_handshake 3 sample_machine
      = (YMODEM_ERR_TMO,
         emit (with_ctx sample_machine
                 (set_stage YMODEM_STAGE_ESTABLISHING (m_ctx sample_machine)))
              w (map (EvRecv 1 YMODEM_HANDSHAKE_INTERVAL_MS) replies)).
Proof.
  assert (H : 0 <= 3) by lia. split; [exact H |].
  destruct (send_handshake_timeout sample_machine 3 H) as (replies & w & C).
  exists replies, w.
  destruct C as [C | (pre & d & _ & _ & _ & _ & _ & N)]; [exact C |].
  exfalso. apply N. vm_compute. reflexivity.
Defined.

Lemma recv_handshake_wait_witness :
  0 <= 3 /\
  exists (replies : list (list Z)) (w : sim),
    Z.of_nat (length replies) = 3 /\ Forall not_header replies /\
    _ymodem_do_handshake 3 sample_machine
      = (YMODEM_ERR_TMO,
         emit (with_ctx sample_machine
                 (set_stage YMODEM_STAGE_ESTABLISHING (m_ctx sample_machine)))
              w (c_rounds replies)).
Proof.
  assert (H : 0 <= 3) by lia. split; [exact H |].
  destruct (recv_handshake_wait sample_machine 3 H) as (replies & w & C).
  exists replies, w.
  destruct C as [C | [(sent & _ & _ & _ & E)
                     | (pre & d & _ & L & _ & _ & E)]]; [exact C | |].
  - exfalso. apply (f_equal fst) in E. vm_compute in E. discriminate E.
  - exfalso. apply (f_equal fst) in E.
    assert (E' : fst (recv_wait_header (Z.to_nat 3) 0 3
                        (with_ctx sample_machine
                           (set_stage YMODEM_STAGE_ESTABLISHING
                              (m_ctx sample_machine)))) = inl 3)
      by (vm_compute; reflexivity).
    rewrite E' in E. cbn [fst] in E. injection E as E. lia.
Defined.

Lemma send_file_unusable_file_witness :
  fst (ymodem_send_file 20 (Some [97]) 10 no_file_machine)
    = Some YMODEM_ERR_FILE /\
  m_trace (snd (ymodem_send_file 20 (Some [97]) 10 no_file_machine))
    = [EvOpen [97] false NULL] /\
  fst (ymodem_send_file 20 (Some [97]) 10 bad_size_machine)
    = Some YMODEM_ERR_FILE /\
  m_trace (snd (ymodem_send_file 20 (Some [97]) 10 bad_size_machine))
    = [EvOpen [97] false 1; EvSize 1 (-1); EvClose 1].
Proof.
  pose (w0 := m_world no_file_machine). pose (w1 := m_world bad_size_machine).
  destruct (send_file_unusable_file no_file_machine 20 [97] 10 NULL 0 w0 w0
              eq_refl eq_refl) as [A _].
  destruct (send_file_unusable_file bad_size_machine 20 [97] 10 1 (-1) w1 w1
              eq_refl eq_refl) as [_ B].
  rewrite (A eq_refl).
  rewrite (B ltac:(discriminate) ltac:(reflexivity)).
  repeat split.
Defined.

Lemma transfer_success_finished_witness :
  let m := sim_machine sim_ctx receiving_peer in
  let m' := snd (ymodem_send_file 20 (Some [47; 97; 46; 98]) 10 m) in
  ymodem_send_file 20 (Some [47; 97; 46; 98]) 10 m
    = (Some YMODEM_ERR_NONE, m') /\
  stage (m_ctx m') = YMODEM_STAGE_FINISHED /\
  file_handle (m_ctx m') = NULL /\
  exists h pre, m_trace m' = pre ++ [EvClose h].
Proof.
  intros m m'.
  assert (E : ymodem_send_file 20 (Some [47; 97; 46; 98]) 10 m
              = (Some YMODEM_ERR_NONE, m')) by (vm_compute; reflexivity).
  split; [exact E |].
  exact (transfer_success_finished 20 (Some [47; 97; 46; 98]) 10 m m'
           (or_introl E)).
Defined.

Lemma receive_file_buffer_safe_witness :
  let m := sim_machine strict_ctx sending_peer in
  transport_ok (callbacks (m_ctx m)) /\
  YMODEM_MAX_PACKET_SIZE <= buffer_size (m_ctx m) /\
  fst (ymodem_receive_file 20 60 m) = Some YMODEM_ERR_NONE /\
  buffer_size (m_ctx (snd (ymodem_receive_file 20 60 m))) = buffer_size (m_ctx m).
Proof.
  intros m.
  assert (Hb : YMODEM_MAX_PACKET_SIZE <= buffer_size (m_ctx m))
    by (apply Z.leb_le; vm_compute; reflexivity).
  split; [exact strict_transport_ok |]. split; [exact Hb |].
  split; [vm_compute; reflexivity |].
  exact (proj1 (receive_file_buffer_safe 20 60 m strict_transport_ok Hb)).
Defined.

Lemma send_file_buffers_safe_witness :
  let m := sim_machine strict_ctx receiving_peer in
  let m' := snd (ymodem_send_file 20 (Some [47; 97; 46; 98]) 10 m) in
  file_ok (callbacks (m_ctx m)) /\
  YMODEM_MAX_PACKET_SIZE <= buffer_size (m_ctx m) /\
  YMODEM_MAX_FILENAME_LENGTH <= len (filename (m_ctx m)) /\
  fst (ymodem_send_file 20 (Some [47; 97; 46; 98]) 10 m)
    = Some YMODEM_ERR_NONE /\
  buffer_size (m_ctx m') = buffer_size (m_ctx m) /\
  send_buffer_size (m_ctx m') = send_buffer_size (m_ctx m) /\
  len (filename (m_ctx m')) = len (filename (m_ctx m)).
Proof.
  intros m m'.
  assert (Hb : YMODEM_MAX_PACKET_SIZE <= buffer_size (m_ctx m))
    by (apply Z.leb_le; vm_compute; reflexivity).
  assert (Hn : YMODEM_MAX_FILENAME_LENGTH <= len (filename (m_ctx m)))
    by (apply Z.leb_le; vm_compute; reflexivity).
  split; [exact strict_file_ok |]. split; [exact Hb |]. split; [exact Hn |].
  split; [vm_compute; reflexivity |].
  exact (send_file_buffers_safe 20 (Some [47; 97; 46; 98]) 10 m
           strict_file_ok Hb Hn).
Defined.

Lemma send_trans_round_carries_block_witness :
  file_ok (callbacks (m_ctx block_machine)) /\
  YMODEM_MAX_PACKET_SIZE <= buffer_size (m_ctx block_machine) /\
  YMODEM_MAX_PACKET_SIZE <= send_buffer_size (m_ctx block_machine) /\
  m_trace (snd (send_trans_round block_machine))
    = [EvRead 1 1024 [65; 66; 67]; EvRead 1 1021 [];
       EvRead 1 1021 []; EvRead 1 1021 []; EvRead 1 1021 [];
       EvRead 1 1021 []; EvRead 1 1021 []; EvRead 1 1021 [];
       EvRead 1 1021 []; EvRead 1 1021 [];
       EvSend (packet_of YMODEM_CODE_SOH 1
                 ([65; 66; 67] ++ repeat 0x1A 125)) 133;
       EvRecv 1 YMODEM_WAIT_PACKET_TIMEOUT_MS [YMODEM_CODE_ACK]] /\
  exists (rd sd : list event),
    m_trace (snd (send_trans_round block_machine))
      = m_trace block_machine ++ rd ++ sd /\
    reads_only rd /\
    (len (read_data rd) <> 0 ->
     sends_only
       (packet_of (block_header (len (read_data rd)))
                  (packet_seq (m_ctx block_machine))
                  (read_data rd
                   ++ repeat 0x1A (Z.to_nat (block_size (len (read_data rd))
                                             - len (read_data rd)))))
       sd).
Proof.
  assert (Hb : YMODEM_MAX_PACKET_SIZE <= buffer_size (m_ctx block_machine))
    by (apply Z.leb_le; vm_compute; reflexivity).
  assert (Hs : YMODEM_MAX_PACKET_SIZE <= send_buffer_size (m_ctx block_machine))
    by (apply Z.leb_le; vm_compute; reflexivity).
  split; [exact strict_file_ok |]. split; [exact Hb |]. split; [exact Hs |].
  split; [vm_compute; reflexivity |].
  destruct (send_trans_round_carries_block block_machine strict_file_ok Hb Hs)
    as (rd & sd & T & Ro & _ & _ & H1).
  exists rd, sd. split; [exact T |]. split; [exact Ro | exact H1].
Defined.
